(** * Galileo E6 HAS message receiver

    A shallow embedding of [galileo_e6_has_msg_receiver.cc]: the page
    accumulator, the Reed-Solomon reconstruction driver and the reader of the
    MT1 header and body, with the properties of the specification that concern
    them. *)

From Stdlib Require Import ZArith List Ascii String Bool Lia.
From stdpp Require Import base list.
Import ListNotations.

Local Open Scope char_scope.
Local Open Scope Z_scope.

(** * Machine integers *)

(** Conversion of an [int] to the unsigned type of width [w] and to
    [int16_t].  The arithmetic of the source is done on [int] after integer
    promotion, and the result is converted back at every assignment. *)
Definition to_uint (w : Z) (z : Z) : Z := z mod 2 ^ w.
Definition to_int16 (z : Z) : Z := (z + 32768) mod 65536 - 32768.

(** * Text of bits *)

(** [std::string] as a list of characters.  [substr0 n s] is
    [s.substr(0, n)]: it never throws and returns fewer characters when the
    text is shorter than [n]. *)
Definition text := list ascii.

Definition is_one (c : ascii) : bool := Ascii.eqb c "1".
Definition is_bit (c : ascii) : bool := Ascii.eqb c "0" || Ascii.eqb c "1".

Definition substr0 (n : nat) (s : text) : text := take n s.

(** [s == "1"]. *)
Definition text_is_one (s : text) : bool :=
  match s with
  | [c] => is_one c
  | _ => false
  end.

(** [std::count(msg.begin(), msg.end(), '1')]. *)
Definition count_ones (s : text) : Z := Z.of_nat (length (filter (fun c => is_one c = true) s)).

(** ** Body readers *)

(** The loop shared by the unsigned body readers: shift left, insert the
    bit, on a variable of [w] bits. *)
Definition read_unsigned (w : Z) (bits : text) : Z :=
  fold_left
    (fun value c =>
       let value := to_uint w (Z.shiftl value 1) in
       if is_one c then to_uint w (value + 1) else value)
    bits 0.

Definition read_has_message_body_uint8 : text -> Z := read_unsigned 8.
Definition read_has_message_body_uint16 : text -> Z := read_unsigned 16.
Definition read_has_message_body_uint64 : text -> Z := read_unsigned 64.

(** One turn of the loop of [read_has_message_body_int16]: the product,
    the mask and the sum are computed on [int] and stored in the variable of
    16 bits. *)
Definition int16_step (value : Z) (c : ascii) : Z :=
  let value := to_int16 (value * 2) in
  let value := to_int16 (Z.land value 65534) in
  if is_one c then to_int16 (value + 1) else value.

(** [bits[0]] of a [std::string]: the terminating null character when the
    text is empty. *)
Definition front (bits : text) : ascii := hd "000" bits.

Definition read_has_message_body_int16 (bits : text) : Z :=
  let value := 0 in
  let value :=
    if is_one (front bits) then to_int16 (Z.lxor value 65535)
    else to_int16 (Z.land value 0) in
  fold_left int16_step bits value.

(** ** What the readers are meant to compute *)

(** The unsigned number written MSB first by a text of bits, and its
    reading as a two's-complement number on as many bits as the text has. *)
Definition unsigned_value (bits : text) : Z :=
  fold_left (fun v c => 2 * v + (if is_one c then 1 else 0)) bits 0.

Definition twos_complement_value (bits : text) : Z :=
  let n := Z.of_nat (length bits) in
  let u := unsigned_value bits in
  if 2 ^ (n - 1) <=? u then u - 2 ^ n else u.

(** * Outcomes of a call *)

(** The exceptions that the code can raise: those of the standard library,
    and the one of the message library. *)
Inductive exn : Set :=
| out_of_range      (* std::string::substr with pos > size() *)
| invalid_argument  (* std::bitset built from a text with another character *)
| length_error      (* std::string built from an iterator range past the end *)
| wrong_type.       (* pmt::any_ref on a message that holds no boost::any *)

(** A call on a state [St] returns normally, leaves by an exception, with the
    state as it is at that moment, or has no defined result ([Undef]): an
    index out of the range of a vector or of a text, or a loop that never
    exits. *)
Inductive outcome (St A : Type) : Type :=
| Ok (a : A) (s : St)
| Throw (e : exn) (s : St)
| Undef.
Arguments Ok {St A} a s.
Arguments Throw {St A} e s.
Arguments Undef {St A}.

Definition M (St A : Type) : Type := St -> outcome St A.

Definition ret {St A} (a : A) : M St A := fun s => Ok a s.

Definition bind {St A B} (m : M St A) (k : A -> M St B) : M St B :=
  fun s =>
    match m s with
    | Ok a s' => k a s'
    | Throw e s' => Throw e s'
    | Undef => Undef
    end.

Notation "x <- m ;; k" := (bind m (fun x => k))
  (at level 100, m at next level, right associativity).
Notation "m ;; k" := (bind m (fun _ => k))
  (at level 100, right associativity).

Definition get {St A} (f : St -> A) : M St A := fun s => Ok (f s) s.
Definition modify {St} (f : St -> St) : M St unit := fun s => Ok tt (f s).
Definition throw {St A} (e : exn) : M St A := fun s => Throw e s.
Definition undefined {St A} : M St A := fun _ => Undef.

(** A value that exists only when an index is in range. *)
Definition defined {St A} (o : option A) : M St A :=
  match o with
  | Some a => ret a
  | None => undefined
  end.

(** An update that is defined only when an index is in range. *)
Definition store {St} (upd : St -> option St) : M St unit :=
  fun s =>
    match upd s with
    | Some s' => Ok tt s'
    | None => Undef
    end.

Definition when {St} (b : bool) (m : M St unit) : M St unit :=
  if b then m else ret tt.

(** [for (i = i0; i < i0 + n; i++) body(i)]. *)
Fixpoint for_loop {St} (n : nat) (i0 : nat) (body : nat -> M St unit) : M St unit :=
  match n with
  | O => ret tt
  | S n' => body i0 ;; for_loop n' (S i0) body
  end.

(** * Vectors *)

(** [v[i] = x], [v[i][j] = x] and [v[i][j][k] = x] on the member read by
    [getf] and written by [setf] of a structure. *)
Definition assign {R A} (getf : R -> list A) (setf : (list A -> list A) -> R -> R)
    (i : nat) (x : A) (r : R) : option R :=
  if decide (i < length (getf r))%nat
  then Some (setf (fun v => <[i:=x]> v) r)
  else None.

Definition assign2 {R A} (getf : R -> list (list A))
    (setf : (list (list A) -> list (list A)) -> R -> R)
    (i j : nat) (x : A) (r : R) : option R :=
  match getf r !! i with
  | Some row =>
      if decide (j < length row)%nat
      then Some (setf (fun v => <[i:=<[j:=x]> row]> v) r)
      else None
  | None => None
  end.

Definition assign3 {R A} (getf : R -> list (list (list A)))
    (setf : (list (list (list A)) -> list (list (list A))) -> R -> R)
    (i j k : nat) (x : A) (r : R) : option R :=
  match getf r !! i with
  | Some plane =>
      match plane !! j with
      | Some row =>
          if decide (k < length row)%nat
          then Some (setf (fun v => <[i:=<[j:=<[k:=x]> row]> plane]> v) r)
          else None
      | None => None
      end
  | None => None
  end.

(** The first [n] elements of a vector, as [std::copy(v.begin(),
    v.begin() + n, ...)] reads them. *)
Definition copy_prefix {A} (v : list A) (n : nat) : option (list A) :=
  if decide (n <= length v)%nat then Some (take n v) else None.

(** [s[pos]] on a [std::string]: the null character at [pos = size()]. *)
Definition char_at (s : text) (pos : nat) : option ascii :=
  match s !! pos with
  | Some c => Some c
  | None => if decide (pos = length s) then Some "000" else None
  end.

(** Number of bits set, as the loops [while (n) { c += n & 1; n >>= 1; }]
    count them. *)
Fixpoint popcount_pos (p : positive) : Z :=
  match p with
  | xH => 1
  | xO q => popcount_pos q
  | xI q => 1 + popcount_pos q
  end.

Definition popcount (n : Z) : Z :=
  match n with
  | Zpos p => popcount_pos p
  | _ => 0
  end.

(** * Setters of the members of a structure *)

(** [setter eta proj], for [eta] the function that rebuilds a record from
    its projections, is the function that changes the member [proj]. *)
Ltac setter eta proj :=
  let e := eval cbv delta [eta] in eta in
  match eval pattern proj in e with
  | ?ctx proj =>
      let s := eval cbv beta in (fun f => ctx (fun r => f (proj r))) in
      exact s
  end.

(** * Constants *)

(** The constants come from headers of the repository that are not at hand,
    [Galileo_CNAV.h] and [galileo_has_data.h]; their values are those that
    the specification gives. *)

(** Modelled from the spec: the 32 information symbols of a codeword (sections
    3 and 4.2; "32 x 255 x 53" in the constructor). *)
Definition GALILEO_CNAV_INFORMATION_VECTOR_LENGTH : nat := 32.

(** Modelled from the spec: the 255 symbols of a codeword (section 4.2). *)
Definition GALILEO_CNAV_MAX_NUMBER_SYMBOLS_ENCODED_BLOCK : nat := 255.

(** Modelled from the spec: the 53 octets of a page (section 3). *)
Definition GALILEO_CNAV_OCTETS_IN_SUBPAGE : nat := 53.

(** Modelled from the spec: the message identifiers 0..31 (section 3). *)
Definition HAS_MSG_NUMBER_MESSAGE_IDS : nat := 32.

(** Modelled from the spec: the mask identifiers 0..31 (section 3). *)
Definition HAS_MSG_NUMBER_MASK_IDS : nat := 32.

(** Modelled from the spec: the system slots of a mask, at most 16 (section
    3). *)
Definition HAS_MSG_NUMBER_GNSS_IDS : nat := 16.

(** Modelled from the spec: the 40 bits of a satellite mask (section 3). *)
Definition HAS_MSG_NUMBER_SATELLITE_IDS : nat := 40.

(** Modelled from the spec: the 16 bits of a signal mask (section 3). *)
Definition HAS_MSG_NUMBER_SIGNAL_MASKS : nat := 16.

(** Modelled from the spec: the greatest time of hour (sections 4.4 and 6). *)
Definition HAS_MSG_NUMBER_MAX_TOH : Z := 3599.

(** Modelled from the spec: the GNSS identifier of GPS (section 3). *)
Definition HAS_MSG_GPS_SYSTEM : Z := 0.

(** Modelled from the spec: the GNSS identifier of Galileo (section 3). *)
Definition HAS_MSG_GALILEO_SYSTEM : Z := 2.

(** Modelled from the spec: the width of Nsys (section 4.4). *)
Definition HAS_MSG_NSYS_LENGTH : nat := 4.

(** Modelled from the spec: the width of a GNSS identifier of the mask
    (section 4.4). *)
Definition HAS_MSG_ID_MASK_LENGTH : nat := 4.

(** Modelled from the spec: the width of a satellite mask (section 4.4). *)
Definition HAS_MSG_SATELLITE_MASK_LENGTH : nat := 40.

(** Modelled from the spec: the width of a signal mask (section 4.4). *)
Definition HAS_MSG_SIGNAL_MASK_LENGTH : nat := 16.

(** Modelled from the spec: the width of the nav message field (section 4.4).
    *)
Definition HAS_MSG_NAV_MESSAGE_LENGTH : nat := 3.

(** Modelled from the spec: the width of a validity interval index (section
    4.4). *)
Definition HAS_MSG_VALIDITY_INDEX_LENGTH : nat := 4.

(** Modelled from the spec: the width of the IOD of GPS (section 6). *)
Definition HAS_MSG_IOD_GPS_LENGTH : nat := 8.

(** Modelled from the spec: the width of the IOD of Galileo (section 6). *)
Definition HAS_MSG_IOD_GAL_LENGTH : nat := 10.

(** Modelled from the spec: the width of delta radial (section 6). *)
Definition HAS_MSG_DELTA_RADIAL_LENGTH : nat := 13.

(** Modelled from the spec: the width of delta along-track (section 6). *)
Definition HAS_MSG_DELTA_ALONG_TRACK_LENGTH : nat := 12.

(** Modelled from the spec: the width of delta cross-track (section 6). *)
Definition HAS_MSG_DELTA_CROSS_TRACK_LENGTH : nat := 12.

(** Modelled from the spec: the width of a c0 multiplier of the clock full-set
    (section 4.4). *)
Definition HAS_MSG_DELTA_CLOCK_C0_MULTIPLIER_LENGTH : nat := 2.

(** Modelled from the spec: the width of delta c0 (section 6). *)
Definition HAS_MSG_DELTA_CLOCK_C0_LENGTH : nat := 13.

(** Modelled from the spec: the width of Nsysprime (section 4.4). *)
Definition HAS_MSG_NSYSPRIME_LENGTH : nat := 4.

(** Modelled from the spec: the width of a GNSS identifier of the clock subset
    (section 4.4). *)
Definition HAS_MSG_ID_CLOCK_SUBSET_LENGTH : nat := 4.

(** Modelled from the spec: the width of a c0 multiplier of the clock subset
    (section 4.4). *)
Definition HAS_MSG_DELTA_CLOCK_MULTIPLIER_SUBSET_LENGTH : nat := 2.

(** Modelled from the spec: the width of a delta c0 of the clock subset
    (section 4.4). *)
Definition HAS_MSG_DELTA_CLOCK_C0_SUBSET_LENGTH : nat := 13.

(** Modelled from the spec: the width of a code bias (section 6). *)
Definition HAS_MSG_CODE_BIAS_LENGTH : nat := 11.

(** Modelled from the spec: the width of a phase bias (section 6). *)
Definition HAS_MSG_PHASE_BIAS_LENGTH : nat := 11.

(** Modelled from the spec: the width of a phase discontinuity indicator
    (section 6). *)
Definition HAS_MSG_PHASE_DISCONTINUITY_INDICATOR_LENGTH : nat := 2.

(** The constants of the same headers whose values the specification leaves
    to the ICD: the length of the MT1 header, the (offset from the MSB
    counted from 1, width) pair of each of its fields, and the width of the
    reserved field that ends the mask block.  They are parameters of the
    model. *)
Record icd_constants : Set := {
  GALILEO_CNAV_MT1_HEADER_BITS : Z;
  GALILEO_MT1_HEADER_TOH : Z * Z;
  GALILEO_MT1_HEADER_MASK_ID : Z * Z;
  GALILEO_MT1_HEADER_IOD_ID : Z * Z;
  GALILEO_MT1_HEADER_MASK_FLAG : Z * Z;
  GALILEO_MT1_HEADER_ORBIT_CORRECTION_FLAG : Z * Z;
  GALILEO_MT1_HEADER_CLOCK_FULLSET_FLAG : Z * Z;
  GALILEO_MT1_HEADER_CLOCK_SUBSET_FLAG : Z * Z;
  GALILEO_MT1_HEADER_CODE_BIAS_FLAG : Z * Z;
  GALILEO_MT1_HEADER_PHASE_BIAS_FLAG : Z * Z;
  GALILEO_MT1_HEADER_URA_FLAG : Z * Z;
  HAS_MSG_MASK_RESERVED_LENGTH : nat
}.

(** * Data *)

(** [Galileo_HAS_page], the input: a text and five numbers of 8 bits. *)
Record Galileo_HAS_page : Set := {
  has_message_string : text;
  has_status : Z;
  message_type : Z;
  message_id : Z;
  message_size : Z;
  message_page_id : Z
}.

(** The header of [Galileo_HAS_data]. *)
Record mt1_header : Set := {
  toh : Z;
  mask_id : Z;
  iod_id : Z;
  mask_flag : bool;
  orbit_correction_flag : bool;
  clock_fullset_flag : bool;
  clock_subset_flag : bool;
  code_bias_flag : bool;
  phase_bias_flag : bool;
  ura_flag : bool
}.

(** [Galileo_HAS_data], the record sent to the PVT block. *)
Record Galileo_HAS_data : Set := {
  header : mt1_header;
  Nsys : Z;
  gnss_id_mask : list Z;
  satellite_mask : list Z;
  signal_mask : list Z;
  cell_mask_availability_flag : list bool;
  cell_mask : list (list (list bool));
  nav_message : list Z;
  validity_interval_index_orbit_corrections : Z;
  gnss_iod : list Z;
  delta_radial : list Z;
  delta_along_track : list Z;
  delta_cross_track : list Z;
  validity_interval_index_clock_fullset_corrections : Z;
  delta_clock_c0_multiplier : list Z;
  iod_change_flag : list bool;
  delta_clock_c0 : list Z;
  validity_interval_index_clock_subset_corrections : Z;
  Nsysprime : Z;
  gnss_id_clock_subset : list Z;
  delta_clock_c0_multiplier_clock_subset : list Z;
  satellite_submask : list (list Z);
  iod_change_flag_clock_subset : list bool;
  delta_clock_c0_clock_subset : list Z;
  validity_interval_index_code_bias_corrections : Z;
  code_bias : list (list Z);
  validity_interval_index_phase_bias_corrections : Z;
  phase_bias : list (list Z);
  phase_discontinuity_indicator : list (list Z)
}.

Definition eta_HAS_data (d : Galileo_HAS_data) : Galileo_HAS_data :=
  Build_Galileo_HAS_data (header d) (Nsys d) (gnss_id_mask d) (satellite_mask d)
    (signal_mask d) (cell_mask_availability_flag d) (cell_mask d) (nav_message d)
    (validity_interval_index_orbit_corrections d) (gnss_iod d) (delta_radial d)
    (delta_along_track d) (delta_cross_track d)
    (validity_interval_index_clock_fullset_corrections d)
    (delta_clock_c0_multiplier d) (iod_change_flag d) (delta_clock_c0 d)
    (validity_interval_index_clock_subset_corrections d) (Nsysprime d)
    (gnss_id_clock_subset d) (delta_clock_c0_multiplier_clock_subset d)
    (satellite_submask d) (iod_change_flag_clock_subset d)
    (delta_clock_c0_clock_subset d)
    (validity_interval_index_code_bias_corrections d) (code_bias d)
    (validity_interval_index_phase_bias_corrections d) (phase_bias d)
    (phase_discontinuity_indicator d).

Definition set_header := ltac:(setter eta_HAS_data header).
Definition set_Nsys := ltac:(setter eta_HAS_data Nsys).
Definition set_gnss_id_mask := ltac:(setter eta_HAS_data gnss_id_mask).
Definition set_satellite_mask := ltac:(setter eta_HAS_data satellite_mask).
Definition set_signal_mask := ltac:(setter eta_HAS_data signal_mask).
Definition set_cell_mask_availability_flag :=
  ltac:(setter eta_HAS_data cell_mask_availability_flag).
Definition set_cell_mask := ltac:(setter eta_HAS_data cell_mask).
Definition set_nav_message := ltac:(setter eta_HAS_data nav_message).
Definition set_validity_interval_index_orbit_corrections :=
  ltac:(setter eta_HAS_data validity_interval_index_orbit_corrections).
Definition set_gnss_iod := ltac:(setter eta_HAS_data gnss_iod).
Definition set_delta_radial := ltac:(setter eta_HAS_data delta_radial).
Definition set_delta_along_track := ltac:(setter eta_HAS_data delta_along_track).
Definition set_delta_cross_track := ltac:(setter eta_HAS_data delta_cross_track).
Definition set_validity_interval_index_clock_fullset_corrections :=
  ltac:(setter eta_HAS_data validity_interval_index_clock_fullset_corrections).
Definition set_delta_clock_c0_multiplier :=
  ltac:(setter eta_HAS_data delta_clock_c0_multiplier).
Definition set_iod_change_flag := ltac:(setter eta_HAS_data iod_change_flag).
Definition set_delta_clock_c0 := ltac:(setter eta_HAS_data delta_clock_c0).
Definition set_validity_interval_index_clock_subset_corrections :=
  ltac:(setter eta_HAS_data validity_interval_index_clock_subset_corrections).
Definition set_Nsysprime := ltac:(setter eta_HAS_data Nsysprime).
Definition set_gnss_id_clock_subset := ltac:(setter eta_HAS_data gnss_id_clock_subset).
Definition set_delta_clock_c0_multiplier_clock_subset :=
  ltac:(setter eta_HAS_data delta_clock_c0_multiplier_clock_subset).
Definition set_satellite_submask := ltac:(setter eta_HAS_data satellite_submask).
Definition set_iod_change_flag_clock_subset :=
  ltac:(setter eta_HAS_data iod_change_flag_clock_subset).
Definition set_delta_clock_c0_clock_subset :=
  ltac:(setter eta_HAS_data delta_clock_c0_clock_subset).
Definition set_validity_interval_index_code_bias_corrections :=
  ltac:(setter eta_HAS_data validity_interval_index_code_bias_corrections).
Definition set_code_bias := ltac:(setter eta_HAS_data code_bias).
Definition set_validity_interval_index_phase_bias_corrections :=
  ltac:(setter eta_HAS_data validity_interval_index_phase_bias_corrections).
Definition set_phase_bias := ltac:(setter eta_HAS_data phase_bias).
Definition set_phase_discontinuity_indicator :=
  ltac:(setter eta_HAS_data phase_discontinuity_indicator).

(** [Galileo_HAS_data()]: every number zero, every vector empty. *)
Definition empty_header : mt1_header :=
  Build_mt1_header 0 0 0 false false false false false false false.

Definition empty_HAS_data : Galileo_HAS_data :=
  Build_Galileo_HAS_data empty_header 0 [] [] [] [] [] [] 0 [] [] [] [] 0 [] [] []
    0 0 [] [] [] [] [] 0 [] 0 [] [].

(** The members of the receiver that store the masks, one entry per mask
    identifier. *)
Record mask_tables : Set := {
  d_nsat_in_mask_id : list Z;
  d_gnss_id_in_mask : list (list Z);
  d_satellite_mask : list (list Z);
  d_signal_mask : list (list Z);
  d_cell_mask_availability_flag : list (list bool);
  d_cell_mask : list (list (list (list bool)));
  d_nsys_in_mask : list Z;
  d_nav_message_mask : list (list Z)
}.

Definition eta_mask_tables (m : mask_tables) : mask_tables :=
  Build_mask_tables (d_nsat_in_mask_id m) (d_gnss_id_in_mask m) (d_satellite_mask m)
    (d_signal_mask m) (d_cell_mask_availability_flag m) (d_cell_mask m)
    (d_nsys_in_mask m) (d_nav_message_mask m).

Definition set_d_nsat_in_mask_id := ltac:(setter eta_mask_tables d_nsat_in_mask_id).
Definition set_d_gnss_id_in_mask := ltac:(setter eta_mask_tables d_gnss_id_in_mask).
Definition set_d_satellite_mask := ltac:(setter eta_mask_tables d_satellite_mask).
Definition set_d_signal_mask := ltac:(setter eta_mask_tables d_signal_mask).
Definition set_d_cell_mask_availability_flag :=
  ltac:(setter eta_mask_tables d_cell_mask_availability_flag).
Definition set_d_cell_mask := ltac:(setter eta_mask_tables d_cell_mask).
Definition set_d_nsys_in_mask := ltac:(setter eta_mask_tables d_nsys_in_mask).
Definition set_d_nav_message_mask := ltac:(setter eta_mask_tables d_nav_message_mask).

(** [Nav_Message_Packet], sent to the navigation-data monitor. *)
Record Nav_Message_Packet : Set := {
  system : string;
  signal : string;
  prn : Z;
  tow_at_current_symbol_ms : Z;
  packet_nav_message : text
}.

(** The receiver.  The members that hold the masks are grouped in
    [d_masks]: with [d_HAS_data] they are all that [read_MT1_body] reads or
    writes. *)
Record receiver : Set := {
  d_received_pids : list (list Z);
  d_C_matrix : list (list (list Z));
  d_M_matrix : list (list Z);
  d_masks : mask_tables;
  d_HAS_data : Galileo_HAS_data;
  d_new_message : bool;
  d_enable_navdata_monitor : bool;
  d_nav_msg_packet : Nav_Message_Packet
}.

Definition eta_receiver (r : receiver) : receiver :=
  Build_receiver (d_received_pids r) (d_C_matrix r) (d_M_matrix r) (d_masks r)
    (d_HAS_data r) (d_new_message r) (d_enable_navdata_monitor r)
    (d_nav_msg_packet r).

Definition set_d_received_pids := ltac:(setter eta_receiver d_received_pids).
Definition set_d_C_matrix := ltac:(setter eta_receiver d_C_matrix).
Definition set_d_M_matrix := ltac:(setter eta_receiver d_M_matrix).
Definition set_d_masks := ltac:(setter eta_receiver d_masks).
Definition set_d_HAS_data := ltac:(setter eta_receiver d_HAS_data).
Definition set_d_new_message := ltac:(setter eta_receiver d_new_message).
Definition set_d_enable_navdata_monitor :=
  ltac:(setter eta_receiver d_enable_navdata_monitor).
Definition set_d_nav_msg_packet := ltac:(setter eta_receiver d_nav_msg_packet).

(** What the receiver publishes on its two output ports. *)
Inductive event : Set :=
| E6_HAS_to_PVT (d : Galileo_HAS_data)
| Nav_msg_from_TLM (p : Nav_Message_Packet).

(** The receiver together with what it has published so far. *)
Record world : Set := {
  this : receiver;
  published : list event
}.

Definition set_this (f : receiver -> receiver) (w : world) : world :=
  Build_world (f (this w)) (published w).

Definition message_port_pub (e : event) : M world unit :=
  modify (fun w => Build_world (this w) (published w ++ [e])).

(** The state of a call of [read_MT1_body]: the members of the receiver it
    works on and its local variables. *)
Record body_reader : Set := {
  masks : mask_tables;
  data : Galileo_HAS_data;
  message : text;
  Nsat : Z;
  have_mask : bool
}.

Definition eta_body_reader (s : body_reader) : body_reader :=
  Build_body_reader (masks s) (data s) (message s) (Nsat s) (have_mask s).

Definition set_masks := ltac:(setter eta_body_reader masks).
Definition set_data := ltac:(setter eta_body_reader data).
Definition set_message := ltac:(setter eta_body_reader message).
Definition set_Nsat := ltac:(setter eta_body_reader Nsat).
Definition set_have_mask := ltac:(setter eta_body_reader have_mask).

(** * The reader of the MT1 body *)

Section Body.

Variable K : icd_constants.

(** [message.substr(0, n)]. *)
Definition substr (n : nat) : M body_reader text :=
  get (fun s => substr0 n (message s)).

(** [message = std::string(message.begin() + n, message.end())].  When
    fewer than [n] characters are left the construction of the text leaves
    by [std::length_error]: this is the underrun that the handlers around
    [read_MT1_body] are written for. *)
Definition advance (n : nat) : M body_reader unit :=
  fun s =>
    if decide (n <= length (message s))%nat
    then Ok tt (set_message (drop n) s)
    else Throw length_error s.

(** [message[pos]]. *)
Definition message_at (pos : nat) : M body_reader ascii :=
  fun s => defined (char_at (message s) pos) s.

Definition put (upd : Galileo_HAS_data -> Galileo_HAS_data) : M body_reader unit :=
  modify (set_data upd).

Definition store_data (upd : Galileo_HAS_data -> option Galileo_HAS_data)
    : M body_reader unit :=
  store (fun s =>
           match upd (data s) with
           | Some d => Some (set_data (fun _ => d) s)
           | None => None
           end).

Definition store_masks (upd : mask_tables -> option mask_tables)
    : M body_reader unit :=
  store (fun s =>
           match upd (masks s) with
           | Some m => Some (set_masks (fun _ => m) s)
           | None => None
           end).

(** [d_HAS_data.f[i]] and [d_f[d_HAS_data.header.mask_id]], read. *)
Definition data_at {A} (f : Galileo_HAS_data -> list A) (i : nat) : M body_reader A :=
  fun s => defined (f (data s) !! i) s.

Definition masks_at {A} (f : mask_tables -> list A) (i : nat) : M body_reader A :=
  fun s => defined (f (masks s) !! i) s.

Definition the_mask_id : M body_reader nat :=
  get (fun s => Z.to_nat (mask_id (header (data s)))).

Definition block_enabled (flag : mt1_header -> bool) : M body_reader bool :=
  get (fun s => flag (header (data s)) && have_mask s).

(** ** Mask block *)

(** One turn of the loop on the systems of the mask. *)
Definition read_mask_system (i : nat) : M body_reader unit :=
  mid <- the_mask_id ;;
  bits <- substr HAS_MSG_ID_MASK_LENGTH ;;
  let g := read_has_message_body_uint8 bits in
  store_data (assign gnss_id_mask set_gnss_id_mask i g) ;;
  store_masks (assign2 d_gnss_id_in_mask set_d_gnss_id_in_mask mid i g) ;;
  advance HAS_MSG_ID_MASK_LENGTH ;;
  msg <- substr HAS_MSG_SATELLITE_MASK_LENGTH ;;
  let sm := read_has_message_body_uint64 msg in
  store_data (assign satellite_mask set_satellite_mask i sm) ;;
  store_masks (assign2 d_satellite_mask set_d_satellite_mask mid i sm) ;;
  let ones_in_satellite_mask := count_ones msg in
  modify (set_Nsat (fun n => n + ones_in_satellite_mask)) ;;
  advance HAS_MSG_SATELLITE_MASK_LENGTH ;;
  msg <- substr HAS_MSG_SIGNAL_MASK_LENGTH ;;
  let sg := read_has_message_body_uint16 msg in
  store_data (assign signal_mask set_signal_mask i sg) ;;
  store_masks (assign2 d_signal_mask set_d_signal_mask mid i sg) ;;
  let ones_in_signal_mask := count_ones msg in
  advance HAS_MSG_SIGNAL_MASK_LENGTH ;;
  store_data (assign cell_mask set_cell_mask i
                (replicate (Z.to_nat ones_in_satellite_mask)
                   (replicate (Z.to_nat ones_in_signal_mask) false))) ;;
  c <- substr 1 ;;
  let flag := text_is_one c in
  store_data (assign cell_mask_availability_flag set_cell_mask_availability_flag i flag) ;;
  store_masks (assign2 d_cell_mask_availability_flag
                 set_d_cell_mask_availability_flag mid i flag) ;;
  advance 1 ;;
  let size_cell := ones_in_satellite_mask * ones_in_signal_mask in
  for_loop (Z.to_nat ones_in_satellite_mask) 0 (fun s =>
    for_loop (Z.to_nat ones_in_signal_mask) 0 (fun sig =>
      (* pos counts the turns of the two loops *)
      let pos := (s * Z.to_nat ones_in_signal_mask + sig)%nat in
      c <- message_at pos ;;
      store_data (assign3 cell_mask set_cell_mask i s sig (is_one c)))) ;;
  advance (Z.to_nat size_cell) ;;
  bits <- substr HAS_MSG_NAV_MESSAGE_LENGTH ;;
  let nm := read_has_message_body_uint8 bits in
  store_data (assign nav_message set_nav_message i nm) ;;
  store_masks (assign2 d_nav_message_mask set_d_nav_message_mask mid i nm) ;;
  advance HAS_MSG_NAV_MESSAGE_LENGTH.

(** The branch [if (d_HAS_data.header.mask_flag)]. *)
Definition read_mask : M body_reader unit :=
  mid <- the_mask_id ;;
  bits <- substr HAS_MSG_NSYS_LENGTH ;;
  let nsys := read_has_message_body_uint8 bits in
  put (set_Nsys (fun _ => nsys)) ;;
  store_masks (assign d_nsys_in_mask set_d_nsys_in_mask mid nsys) ;;
  when (negb (nsys =? 0))
    (advance HAS_MSG_NSYS_LENGTH ;;
     let n := Z.to_nat nsys in
     put (set_gnss_id_mask (fun _ => replicate n 0)) ;;
     put (set_cell_mask (fun _ =>
            replicate n (replicate 40 (replicate 16 false)))) ;;
     put (set_cell_mask_availability_flag (fun _ => replicate n false)) ;;
     put (set_nav_message (fun _ => replicate n 0)) ;;
     put (set_satellite_mask (fun _ => replicate n 0)) ;;
     put (set_signal_mask (fun _ => replicate n 0)) ;;
     for_loop n 0 read_mask_system ;;
     nsat <- get Nsat ;;
     store_masks (assign d_nsat_in_mask_id set_d_nsat_in_mask_id mid nsat) ;;
     cm <- get (fun s => cell_mask (data s)) ;;
     store_masks (assign d_cell_mask set_d_cell_mask mid cm) ;;
     advance (HAS_MSG_MASK_RESERVED_LENGTH K)) ;;
  nsat <- get Nsat ;;
  when (negb (nsat =? 0)) (modify (set_have_mask (fun _ => true))).

(** [std::copy(row.begin(), row.begin() + Nsys, std::back_inserter(v))]
    from the row of a mask table. *)
Definition copy_from_masks {A} (f : mask_tables -> list (list A))
    (setf : (list A -> list A) -> Galileo_HAS_data -> Galileo_HAS_data)
    (mid : nat) : M body_reader unit :=
  row <- masks_at f mid ;;
  nsys <- get (fun s => Z.to_nat (Nsys (data s))) ;;
  prefix <- defined (copy_prefix row nsys) ;;
  put (setf (fun v => v ++ prefix)).

(** The branch taken when the mask flag is not set: the mask received
    before with the same mask identifier. *)
Definition use_stored_mask : M body_reader unit :=
  mid <- the_mask_id ;;
  nsat <- masks_at d_nsat_in_mask_id mid ;;
  modify (set_Nsat (fun _ => nsat)) ;;
  when (negb (nsat =? 0))
    (nsys <- masks_at d_nsys_in_mask mid ;;
     put (set_Nsys (fun _ => nsys)) ;;
     copy_from_masks d_gnss_id_in_mask set_gnss_id_mask mid ;;
     copy_from_masks d_satellite_mask set_satellite_mask mid ;;
     copy_from_masks d_signal_mask set_signal_mask mid ;;
     copy_from_masks d_cell_mask_availability_flag
       set_cell_mask_availability_flag mid ;;
     cm <- masks_at d_cell_mask mid ;;
     put (set_cell_mask (fun _ => cm)) ;;
     copy_from_masks d_nav_message_mask set_nav_message mid ;;
     modify (set_have_mask (fun _ => true))).

(** "discard data if crazy Values". *)
Definition discard_crazy_toh : M body_reader unit :=
  t <- get (fun s => toh (header (data s))) ;;
  when (HAS_MSG_NUMBER_MAX_TOH <? t)
    (modify (set_have_mask (fun _ => false)) ;;
     mid <- the_mask_id ;;
     store_masks (assign d_nsat_in_mask_id set_d_nsat_in_mask_id mid 0)).

(** ** Orbit corrections *)

(** One turn of the loop on the satellites. *)
Definition read_orbit_satellite (i : nat) : M body_reader unit :=
  g <- data_at gnss_id_mask i ;;
  when (g =? HAS_MSG_GPS_SYSTEM)
    (bits <- substr HAS_MSG_IOD_GPS_LENGTH ;;
     store_data (assign gnss_iod set_gnss_iod i (read_has_message_body_uint16 bits)) ;;
     advance HAS_MSG_IOD_GPS_LENGTH) ;;
  g <- data_at gnss_id_mask i ;;
  when (g =? HAS_MSG_GALILEO_SYSTEM)
    (bits <- substr HAS_MSG_IOD_GAL_LENGTH ;;
     store_data (assign gnss_iod set_gnss_iod i (read_has_message_body_uint16 bits)) ;;
     advance HAS_MSG_IOD_GAL_LENGTH) ;;
  bits <- substr HAS_MSG_DELTA_RADIAL_LENGTH ;;
  store_data (assign delta_radial set_delta_radial i
                (read_has_message_body_int16 bits)) ;;
  advance HAS_MSG_DELTA_RADIAL_LENGTH ;;
  bits <- substr HAS_MSG_DELTA_ALONG_TRACK_LENGTH ;;
  store_data (assign delta_along_track set_delta_along_track i
                (read_has_message_body_int16 bits)) ;;
  advance HAS_MSG_DELTA_ALONG_TRACK_LENGTH ;;
  bits <- substr HAS_MSG_DELTA_CROSS_TRACK_LENGTH ;;
  store_data (assign delta_cross_track set_delta_cross_track i
                (read_has_message_body_int16 bits)) ;;
  advance HAS_MSG_DELTA_CROSS_TRACK_LENGTH.

Definition read_orbit_corrections : M body_reader unit :=
  enabled <- block_enabled orbit_correction_flag ;;
  when enabled
    (bits <- substr HAS_MSG_VALIDITY_INDEX_LENGTH ;;
     put (set_validity_interval_index_orbit_corrections
            (fun _ => read_has_message_body_uint8 bits)) ;;
     advance HAS_MSG_VALIDITY_INDEX_LENGTH ;;
     n <- get (fun s => Z.to_nat (Nsat s)) ;;
     put (set_gnss_iod (fun _ => replicate n 0)) ;;
     put (set_delta_radial (fun _ => replicate n 0)) ;;
     put (set_delta_along_track (fun _ => replicate n 0)) ;;
     put (set_delta_cross_track (fun _ => replicate n 0)) ;;
     for_loop n 0 read_orbit_satellite).

(** ** Clock full-set corrections *)

Definition read_clock_fullset_corrections : M body_reader unit :=
  enabled <- block_enabled clock_fullset_flag ;;
  when enabled
    (bits <- substr HAS_MSG_VALIDITY_INDEX_LENGTH ;;
     put (set_validity_interval_index_clock_fullset_corrections
            (fun _ => read_has_message_body_uint8 bits)) ;;
     advance HAS_MSG_VALIDITY_INDEX_LENGTH ;;
     nsys <- get (fun s => Z.to_nat (Nsys (data s))) ;;
     put (set_delta_clock_c0_multiplier (fun _ => replicate nsys 0)) ;;
     for_loop nsys 0 (fun i =>
       bits <- substr HAS_MSG_DELTA_CLOCK_C0_MULTIPLIER_LENGTH ;;
       store_data (assign delta_clock_c0_multiplier set_delta_clock_c0_multiplier i
                     (read_has_message_body_uint8 bits)) ;;
       advance HAS_MSG_DELTA_CLOCK_C0_MULTIPLIER_LENGTH) ;;
     n <- get (fun s => Z.to_nat (Nsat s)) ;;
     put (set_iod_change_flag (fun _ => replicate n false)) ;;
     put (set_delta_clock_c0 (fun _ => replicate n 0)) ;;
     for_loop n 0 (fun i =>
       c <- message_at 0 ;;
       store_data (assign iod_change_flag set_iod_change_flag i (is_one c)) ;;
       advance 1 ;;
       bits <- substr HAS_MSG_DELTA_CLOCK_C0_LENGTH ;;
       store_data (assign delta_clock_c0 set_delta_clock_c0 i
                     (read_has_message_body_int16 bits)) ;;
       advance HAS_MSG_DELTA_CLOCK_C0_LENGTH)).

(** ** Clock subset corrections *)

(** [std::bitset<40>(satellite_mask).to_string()] and the count of its
    characters '1'. *)
Definition ones_of_bitset40 (satellite_mask : Z) : Z :=
  popcount (satellite_mask mod 2 ^ 40).

(** [std::count(v.begin(), v.end(), 1UL)]. *)
Definition count_equal_to_one (v : list Z) : nat :=
  length (filter (fun x => x = 1) v).

(** One turn of the loop on the systems of the subset. *)
Definition read_clock_subset_system (i : nat) : M body_reader unit :=
  bits <- substr HAS_MSG_ID_CLOCK_SUBSET_LENGTH ;;
  store_data (assign gnss_id_clock_subset set_gnss_id_clock_subset i
                (read_has_message_body_uint8 bits)) ;;
  advance HAS_MSG_ID_CLOCK_SUBSET_LENGTH ;;
  bits <- substr HAS_MSG_DELTA_CLOCK_MULTIPLIER_SUBSET_LENGTH ;;
  let clock_multiplier := read_has_message_body_uint8 bits in
  store_data (assign delta_clock_c0_multiplier_clock_subset
                set_delta_clock_c0_multiplier_clock_subset i
                (to_uint 8 (clock_multiplier + 1))) ;;
  advance HAS_MSG_DELTA_CLOCK_MULTIPLIER_SUBSET_LENGTH ;;
  satellite_mask <- data_at satellite_mask i ;;
  let number_sats_this_gnss_id := Z.to_nat (ones_of_bitset40 satellite_mask) in
  store_data (assign satellite_submask set_satellite_submask i
                (replicate number_sats_this_gnss_id 0)) ;;
  for_loop number_sats_this_gnss_id 0 (fun j =>
    bits <- substr 1 ;;
    store_data (assign2 satellite_submask set_satellite_submask i j
                  (read_has_message_body_uint64 bits)) ;;
    advance 1) ;;
  submask <- data_at satellite_submask i ;;
  let Nsatprime := count_equal_to_one submask in
  for_loop Nsatprime 0 (fun j =>
    bits <- substr HAS_MSG_DELTA_CLOCK_C0_SUBSET_LENGTH ;;
    store_data (assign delta_clock_c0_clock_subset set_delta_clock_c0_clock_subset i
                  (read_has_message_body_int16 bits)) ;;
    advance HAS_MSG_DELTA_CLOCK_C0_SUBSET_LENGTH).

Definition read_clock_subset_corrections : M body_reader unit :=
  enabled <- block_enabled clock_subset_flag ;;
  when enabled
    (bits <- substr HAS_MSG_VALIDITY_INDEX_LENGTH ;;
     put (set_validity_interval_index_clock_subset_corrections
            (fun _ => read_has_message_body_uint8 bits)) ;;
     advance HAS_MSG_VALIDITY_INDEX_LENGTH ;;
     bits <- substr HAS_MSG_NSYSPRIME_LENGTH ;;
     let nsysprime := read_has_message_body_uint8 bits in
     put (set_Nsysprime (fun _ => nsysprime)) ;;
     advance HAS_MSG_NSYSPRIME_LENGTH ;;
     when (nsysprime =? 0)
       ((* Wrong formatted data, aborting *)
        modify (set_have_mask (fun _ => false)) ;;
        mid <- the_mask_id ;;
        store_masks (assign d_nsat_in_mask_id set_d_nsat_in_mask_id mid 0)) ;;
     let n := Z.to_nat nsysprime in
     put (set_gnss_id_clock_subset (fun _ => replicate n 0)) ;;
     put (set_delta_clock_c0_multiplier_clock_subset (fun _ => replicate n 0)) ;;
     put (set_satellite_submask (fun _ =>
            replicate n (replicate HAS_MSG_NUMBER_SATELLITE_IDS 0))) ;;
     put (set_iod_change_flag_clock_subset (fun _ => replicate n false)) ;;
     put (set_delta_clock_c0_clock_subset (fun _ => replicate n 0)) ;;
     for_loop n 0 read_clock_subset_system).

(** ** Code and phase biases *)

(** The numbers of satellites and of signals of one system. *)
Definition count_cells_of_system (sys : nat) : M body_reader (Z * Z) :=
  available <- data_at cell_mask_availability_flag sys ;;
  if (available : bool) then
    cm <- data_at cell_mask sys ;;
    first <- defined (cm !! 0%nat) ;;
    ret (Z.of_nat (length cm), Z.of_nat (length first))
  else
    n <- data_at satellite_mask sys ;;
    m <- data_at signal_mask sys ;;
    ret (popcount n, popcount m).

(** The first loop on the systems: the two local vectors, as a list of
    pairs, and [max_signals]. *)
Fixpoint count_cells (n sys : nat) (max_signals : Z)
    : M body_reader (list (Z * Z) * Z) :=
  match n with
  | O => ret ([], max_signals)
  | S n' =>
      c <- count_cells_of_system sys ;;
      let max_signals := if max_signals <? snd c then snd c else max_signals in
      r <- count_cells n' (S sys) max_signals ;;
      ret (c :: fst r, snd r)
  end.

(** Whether the cell of satellite [s] and signal [c] of a system carries a
    correction. *)
Definition cell_present (sys s c : nat) : M body_reader bool :=
  available <- data_at cell_mask_availability_flag sys ;;
  if (available : bool) then
    plane <- data_at cell_mask sys ;;
    row <- defined (plane !! s) ;;
    defined (row !! c)
  else ret true.

(** The second loop on the systems; [sat] counts the satellites of the
    systems already read. *)
Fixpoint read_cells (cell : nat -> nat -> M body_reader unit)
    (counts : list (Z * Z)) (sys sat : nat) : M body_reader unit :=
  match counts with
  | [] => ret tt
  | (number_sats, number_codes) :: rest =>
      for_loop (Z.to_nat number_sats) 0 (fun s =>
        for_loop (Z.to_nat number_codes) 0 (fun c =>
          present <- cell_present sys s c ;;
          when present (cell (sat + s)%nat c))) ;;
      read_cells cell rest (S sys) (sat + Z.to_nat number_sats)%nat
  end.

Definition read_code_bias : M body_reader unit :=
  enabled <- block_enabled code_bias_flag ;;
  when enabled
    (bits <- substr HAS_MSG_VALIDITY_INDEX_LENGTH ;;
     put (set_validity_interval_index_code_bias_corrections
            (fun _ => read_has_message_body_uint8 bits)) ;;
     advance HAS_MSG_VALIDITY_INDEX_LENGTH ;;
     nsys <- get (fun s => Z.to_nat (Nsys (data s))) ;;
     counts <- count_cells nsys 0 0 ;;
     n <- get (fun s => Z.to_nat (Nsat s)) ;;
     put (set_code_bias (fun _ => replicate n (replicate (Z.to_nat (snd counts)) 0))) ;;
     read_cells
       (fun sat c =>
          bits <- substr HAS_MSG_CODE_BIAS_LENGTH ;;
          store_data (assign2 code_bias set_code_bias sat c
                        (read_has_message_body_int16 bits)) ;;
          advance HAS_MSG_CODE_BIAS_LENGTH)
       (fst counts) 0 0).

Definition read_phase_bias : M body_reader unit :=
  enabled <- block_enabled phase_bias_flag ;;
  when enabled
    (bits <- substr HAS_MSG_VALIDITY_INDEX_LENGTH ;;
     put (set_validity_interval_index_phase_bias_corrections
            (fun _ => read_has_message_body_uint8 bits)) ;;
     advance HAS_MSG_VALIDITY_INDEX_LENGTH ;;
     nsys <- get (fun s => Z.to_nat (Nsys (data s))) ;;
     counts <- count_cells nsys 0 0 ;;
     n <- get (fun s => Z.to_nat (Nsat s)) ;;
     put (set_phase_bias (fun _ => replicate n (replicate (Z.to_nat (snd counts)) 0))) ;;
     put (set_phase_discontinuity_indicator
            (fun _ => replicate n (replicate (Z.to_nat (snd counts)) 0))) ;;
     read_cells
       (fun sat p =>
          bits <- substr HAS_MSG_PHASE_BIAS_LENGTH ;;
          store_data (assign2 phase_bias set_phase_bias sat p
                        (read_has_message_body_int16 bits)) ;;
          advance HAS_MSG_PHASE_BIAS_LENGTH ;;
          bits <- substr HAS_MSG_PHASE_DISCONTINUITY_INDICATOR_LENGTH ;;
          store_data (assign2 phase_discontinuity_indicator
                        set_phase_discontinuity_indicator sat p
                        (read_has_message_body_uint8 bits)) ;;
          advance HAS_MSG_PHASE_DISCONTINUITY_INDICATOR_LENGTH)
       (fst counts) 0 0).

(** ** The body *)

(** The part of the body from the clock subset corrections on. *)
Definition read_from_clock_subset : M body_reader unit :=
  read_clock_subset_corrections ;;
  read_code_bias ;;
  read_phase_bias.

(** The blocks of corrections, which follow the mask. *)
Definition read_corrections : M body_reader unit :=
  read_orbit_corrections ;;
  read_clock_fullset_corrections ;;
  read_from_clock_subset.

(** The mask, read or taken from the tables, and the check of the time of
    hour. *)
Definition resolve_mask : M body_reader unit :=
  flag <- get (fun s => mask_flag (header (data s))) ;;
  (if (flag : bool) then read_mask else use_stored_mask) ;;
  discard_crazy_toh.

Definition read_MT1_body_steps : M body_reader unit :=
  resolve_mask ;;
  read_corrections.

(** The local variables of [read_MT1_body] at its entry. *)
Definition enter_body (r : receiver) (message_body : text) : body_reader :=
  Build_body_reader (d_masks r) (d_HAS_data r) message_body 0 false.

(** The members of the receiver when the call ends or is left. *)
Definition leave_body (r : receiver) (s : body_reader) : receiver :=
  set_d_HAS_data (fun _ => data s) (set_d_masks (fun _ => masks s) r).

Definition read_MT1_body (message_body : text) : M receiver unit :=
  fun r =>
    match read_MT1_body_steps (enter_body r message_body) with
    | Ok _ s => Ok tt (leave_body r s)
    | Throw e s => Throw e (leave_body r s)
    | Undef => Undef
    end.

End Body.

(** * The header of MT1 *)

Section Header.

Variable K : icd_constants.

(** [std::bitset<GALILEO_CNAV_MT1_HEADER_BITS>] built from a text: bit 0
    is the last of the characters used.  [bitset_test] is [bits[pos]]. *)
Definition bitset_test (s : text) (pos : Z) : option bool :=
  let n := GALILEO_CNAV_MT1_HEADER_BITS K in
  let s := take (Z.to_nat n) s in
  let m := Z.of_nat (length s) in
  if (0 <=? pos) && (pos <? n) then
    if pos <? m
    then Some (is_one (nth (Z.to_nat (m - 1 - pos)) s "0"))
    else Some false
  else None.

(** The loop of the header readers on a variable of [w] bits. *)
Fixpoint read_header_loop (w : Z) (s : text) (first : Z) (n : nat) (j : Z)
    (value : Z) : option Z :=
  match n with
  | O => Some value
  | S n' =>
      let value := to_uint w (Z.shiftl value 1) in
      match bitset_test s (GALILEO_CNAV_MT1_HEADER_BITS K - first - j) with
      | Some b =>
          read_header_loop w s first n' (j + 1)
            (if (b : bool) then to_uint w (value + 1) else value)
      | None => None
      end
  end.

Definition read_has_message_header_parameter_uint16 (s : text) (parameter : Z * Z)
    : option Z :=
  read_header_loop 16 s (fst parameter) (Z.to_nat (snd parameter)) 0 0.

Definition read_has_message_header_parameter_uint8 (s : text) (parameter : Z * Z)
    : option Z :=
  read_header_loop 8 s (fst parameter) (Z.to_nat (snd parameter)) 0 0.

Definition read_has_message_header_parameter_bool (s : text) (parameter : Z * Z)
    : option bool :=
  bitset_test s (GALILEO_CNAV_MT1_HEADER_BITS K - fst parameter).

(** The ten fields, in the order in which [read_MT1_header] reads them. *)
Definition header_fields (s : text) : option mt1_header :=
  t ← read_has_message_header_parameter_uint16 s (GALILEO_MT1_HEADER_TOH K);
  m ← read_has_message_header_parameter_uint8 s (GALILEO_MT1_HEADER_MASK_ID K);
  i ← read_has_message_header_parameter_uint8 s (GALILEO_MT1_HEADER_IOD_ID K);
  f1 ← read_has_message_header_parameter_bool s (GALILEO_MT1_HEADER_MASK_FLAG K);
  f2 ← read_has_message_header_parameter_bool s
         (GALILEO_MT1_HEADER_ORBIT_CORRECTION_FLAG K);
  f3 ← read_has_message_header_parameter_bool s
         (GALILEO_MT1_HEADER_CLOCK_FULLSET_FLAG K);
  f4 ← read_has_message_header_parameter_bool s
         (GALILEO_MT1_HEADER_CLOCK_SUBSET_FLAG K);
  f5 ← read_has_message_header_parameter_bool s (GALILEO_MT1_HEADER_CODE_BIAS_FLAG K);
  f6 ← read_has_message_header_parameter_bool s (GALILEO_MT1_HEADER_PHASE_BIAS_FLAG K);
  f7 ← read_has_message_header_parameter_bool s (GALILEO_MT1_HEADER_URA_FLAG K);
  Some (Build_mt1_header t m i f1 f2 f3 f4 f5 f6 f7).

(** The constructor of the bitset leaves by [std::invalid_argument] on a
    character that is neither '0' nor '1'. *)
Definition read_MT1_header (message_header : text) : M receiver unit :=
  if forallb is_bit message_header then
    h <- defined (header_fields message_header) ;;
    modify (set_d_HAS_data (set_header (fun _ => h)))
  else throw invalid_argument.

End Header.

(** * The receiver *)

(** A message of the framework.  A message made by [pmt::make_any] holds an
    object in a [boost::any]: a page, or an object of another type.  Any
    other message (a number, a symbol, a pair, ...) holds no [boost::any],
    and [pmt::any_ref] raises [pmt::wrong_type] on it. *)
Inductive pmt_t : Set :=
| HAS_page_object (p : Galileo_HAS_page)
| other_object
| no_object.

(** Modelled from the spec: the initial values of [d_new_message] and of
    [d_enable_navdata_monitor], which the constructor leaves to their
    declaration in the absent [galileo_e6_has_msg_receiver.h].  A receiver
    just built has no record to send, and the monitor is an option that
    [set_enable_navdata_monitor] turns on (sections 4.5 and 6). *)
Definition initial_flags : bool * bool := (false, false).

(** The state made by the constructor. *)
Definition galileo_e6_has_msg_receiver : receiver :=
  {| d_received_pids := replicate HAS_MSG_NUMBER_MESSAGE_IDS [];
     d_C_matrix :=
       replicate GALILEO_CNAV_INFORMATION_VECTOR_LENGTH
         (replicate GALILEO_CNAV_MAX_NUMBER_SYMBOLS_ENCODED_BLOCK
            (replicate GALILEO_CNAV_OCTETS_IN_SUBPAGE 0));
     d_M_matrix :=
       replicate GALILEO_CNAV_INFORMATION_VECTOR_LENGTH
         (replicate GALILEO_CNAV_OCTETS_IN_SUBPAGE 0);
     d_masks :=
       {| d_nsat_in_mask_id := replicate HAS_MSG_NUMBER_MASK_IDS 0;
          d_gnss_id_in_mask :=
            replicate HAS_MSG_NUMBER_MASK_IDS (replicate HAS_MSG_NUMBER_GNSS_IDS 0);
          d_satellite_mask :=
            replicate HAS_MSG_NUMBER_MASK_IDS (replicate HAS_MSG_NUMBER_GNSS_IDS 0);
          d_signal_mask :=
            replicate HAS_MSG_NUMBER_MASK_IDS (replicate HAS_MSG_NUMBER_GNSS_IDS 0);
          d_cell_mask_availability_flag :=
            replicate HAS_MSG_NUMBER_MASK_IDS
              (replicate HAS_MSG_NUMBER_GNSS_IDS false);
          d_cell_mask :=
            replicate HAS_MSG_NUMBER_MASK_IDS
              (replicate HAS_MSG_NUMBER_GNSS_IDS
                 (replicate HAS_MSG_NUMBER_SATELLITE_IDS
                    (replicate HAS_MSG_NUMBER_SIGNAL_MASKS false)));
          d_nsys_in_mask := replicate HAS_MSG_NUMBER_MASK_IDS 0;
          d_nav_message_mask :=
            replicate HAS_MSG_NUMBER_MASK_IDS (replicate HAS_MSG_NUMBER_GNSS_IDS 0) |};
     d_HAS_data := empty_HAS_data;
     d_new_message := fst initial_flags;
     d_enable_navdata_monitor := snd initial_flags;
     d_nav_msg_packet :=
       {| system := "E"; signal := "E6"; prn := 0;
          tow_at_current_symbol_ms := 0; packet_nav_message := [] |} |}.

Definition set_enable_navdata_monitor (enable : bool) : M world unit :=
  modify (set_this (set_d_enable_navdata_monitor (fun _ => enable))).

(** A call on the receiver alone, which publishes nothing. *)
Definition on_this {A} (m : M receiver A) : M world A :=
  fun w =>
    match m (this w) with
    | Ok a r => Ok a (Build_world r (published w))
    | Throw e r => Throw e (Build_world r (published w))
    | Undef => Undef
    end.

(** [std::find(pids.begin(), pids.end(), i) == pids.end()]. *)
Definition not_found (pids : list Z) (i : Z) : bool :=
  negb (existsb (Z.eqb i) pids).

(** The turns [from], ..., [from + count - 1] of a loop that pushes [i - 1]
    for every page identifier [i] not received. *)
Definition push_erasures (pids : list Z) (from : Z) (count : nat) : list Z :=
  flat_map
    (fun k => let i := from + Z.of_nat k in
              if not_found pids i then [i - 1] else [])
    (seq 0 count).

(** The two loops that compute the erasure positions; the first one runs
    from 1 to [message_size]. *)
Definition erasure_positions (pids : list Z) (message_size : Z) : list Z :=
  push_erasures pids 1 (Z.to_nat message_size) ++ push_erasures pids 33 223.

(** A matrix of zeros, as the code allocates them. *)
Definition zero_matrix (rows cols : nat) : list (list Z) :=
  replicate rows (replicate cols 0).

(** [std::bitset<8>(bits8).to_ulong()] and [std::bitset<8>(b).to_string()]. *)
Definition bitset8_to_ulong (bits8 : text) : Z := unsigned_value bits8.

Definition bitset8_to_string (b : Z) : text :=
  map (fun k => if Z.testbit b (7 - Z.of_nat k) then "1" else "0") (seq 0 8).

Section Receiver.

Variable K : icd_constants.

(** The decoder of the Reed-Solomon code, [d_rs->decode(C_column,
    erasure_positions)]: [None] for a negative result, else the column as
    the decoder leaves it. *)
Variable rs_decode : list Z -> list Z -> option (list Z).

(** The column [col] of the pages received, zero elsewhere. *)
Definition fill_column (C : list (list Z)) (pids : list Z) (col : nat)
    : option (list Z) :=
  fold_left
    (fun acc pid =>
       column ← acc;
       row ← C !! Z.to_nat (pid - 1);
       x ← row !! col;
       if (1 <=? pid) && bool_decide (Z.to_nat (pid - 1) < length column)%nat
       then Some (<[Z.to_nat (pid - 1) := x]> column)
       else None)
    pids
    (Some (replicate GALILEO_CNAV_MAX_NUMBER_SYMBOLS_ENCODED_BLOCK 0)).

(** The loop of the vertical decoding, from column [col] for [n] columns;
    the result tells whether every column was decoded. *)
Fixpoint decode_columns (n col : nat) (message_id : nat) (erasures : list Z)
    : M receiver bool :=
  match n with
  | O => ret true
  | S n' =>
      C <- (fun r => defined (d_C_matrix r !! message_id) r) ;;
      pids <- (fun r => defined (d_received_pids r !! message_id) r) ;;
      C_column <- defined (fill_column C pids col) ;;
      match rs_decode C_column erasures with
      | None => ret false
      | Some C_column =>
          M_column <- defined (copy_prefix C_column
                                 GALILEO_CNAV_INFORMATION_VECTOR_LENGTH) ;;
          for_loop GALILEO_CNAV_INFORMATION_VECTOR_LENGTH 0 (fun i =>
            x <- defined (M_column !! i) ;;
            store (assign2 d_M_matrix set_d_M_matrix i col x)) ;;
          decode_columns n' (S col) message_id erasures
      end
  end.

(** The text read from the rows of [d_M_matrix]. *)
Definition rows_to_text (Mx : list (list Z)) (message_size : nat) : option text :=
  fold_left
    (fun acc row =>
       t ← acc;
       r ← Mx !! row;
       if decide (GALILEO_CNAV_OCTETS_IN_SUBPAGE <= length r)%nat
       then Some (t ++ flat_map bitset8_to_string (take GALILEO_CNAV_OCTETS_IN_SUBPAGE r))
       else None)
    (seq 0 message_size)
    (Some []).

(** The two statements "reset data for next decoding", also run when there
    are too many erasures. *)
Definition reset_slot (message_id : nat) (r : receiver) : option receiver :=
  if decide (message_id < length (d_C_matrix r))%nat then
    if decide (message_id < length (d_received_pids r))%nat then
      Some (set_d_received_pids (fun v => <[message_id := []]> v)
              (set_d_C_matrix
                 (fun v => <[message_id :=
                               zero_matrix GALILEO_CNAV_MAX_NUMBER_SYMBOLS_ENCODED_BLOCK
                                 GALILEO_CNAV_OCTETS_IN_SUBPAGE]> v) r))
    else None
  else None.

(** The [try] block around the reading of the body: whatever is raised is
    caught, and the call returns -1. *)
Definition try_read_body (decoded_message_type_1 : text) : M receiver Z :=
  fun r =>
    let n := Z.to_nat (GALILEO_CNAV_MT1_HEADER_BITS K) in
    if decide (n <= length decoded_message_type_1)%nat then
      match read_MT1_body K (drop n decoded_message_type_1) r with
      | Ok _ r' => Ok 0 r'
      | Throw _ r' => Ok (-1) r'
      | Undef => Undef
      end
    else Ok (-1) r.

(** The block [if (d_enable_navdata_monitor)]: the decoded text is put in
    the packet of the receiver, and a copy of the packet is published. *)
Definition publish_to_monitor (decoded_message_type_1 : text) : M world unit :=
  on_this (modify (set_d_nav_msg_packet (fun p =>
     {| system := system p; signal := signal p; prn := prn p;
        tow_at_current_symbol_ms := tow_at_current_symbol_ms p;
        packet_nav_message := decoded_message_type_1 |}))) ;;
  tmp_obj <- get (fun w => d_nav_msg_packet (this w)) ;;
  message_port_pub (Nav_msg_from_TLM tmp_obj).

(** The statements of [decode_message_type1] that follow the vertical
    decoding: the packet for the monitor, the reset of the slot, the header
    and the body. *)
Definition publish_and_read (mid : nat) (decoded_message_type_1 : text) : M world Z :=
  enabled <- get (fun w => d_enable_navdata_monitor (this w)) ;;
  when enabled (publish_to_monitor decoded_message_type_1) ;;
  on_this (store (reset_slot mid)) ;;
  on_this (modify (set_d_HAS_data (fun _ => empty_HAS_data))) ;;
  on_this (read_MT1_header K
             (substr0 (Z.to_nat (GALILEO_CNAV_MT1_HEADER_BITS K))
                decoded_message_type_1)) ;;
  on_this (try_read_body decoded_message_type_1).

Definition decode_message_type1 (message_id message_size : Z) : M world Z :=
  let mid := Z.to_nat message_id in
  if 255 <=? message_size then
    (* the counter of the first loop, on 8 bits, never reaches the bound *)
    undefined
  else
    pids <- (fun w => defined (d_received_pids (this w) !! mid) w) ;;
    let erasures := erasure_positions pids message_size in
    if decide (223 < length erasures)%nat then
      on_this (store (reset_slot mid)) ;;
      ret (-1)
    else
      on_this (modify (set_d_M_matrix (fun _ =>
                 zero_matrix GALILEO_CNAV_INFORMATION_VECTOR_LENGTH
                   GALILEO_CNAV_OCTETS_IN_SUBPAGE))) ;;
      decoded <- on_this (decode_columns GALILEO_CNAV_OCTETS_IN_SUBPAGE 0 mid erasures) ;;
      if (decoded : bool) then
        decoded_message_type_1 <-
          (fun w => defined (rows_to_text (d_M_matrix (this w))
                               (Z.to_nat message_size)) w) ;;
        publish_and_read mid decoded_message_type_1
      else ret (-1).

(** The loop that stores the 53 octets of a new page. *)
Definition store_page (mid pid : nat) (page_string : text) : M receiver unit :=
  for_loop GALILEO_CNAV_OCTETS_IN_SUBPAGE 0 (fun k =>
    if decide (k * 8 <= length page_string)%nat then
      let bits8 := take 8 (drop (k * 8) page_string) in
      if forallb is_bit bits8 then
        store (assign3 d_C_matrix set_d_C_matrix mid pid k (bitset8_to_ulong bits8))
      else throw invalid_argument
    else throw out_of_range).

(** The nested conditions that screen a page and record it. *)
Definition accumulate_page (has_page : Galileo_HAS_page) : M receiver unit :=
  when ((has_status has_page =? 0) || (has_status has_page =? 1))
    (let page_string := has_message_string has_page in
     when (negb (message_page_id has_page =? 0))
       (when (message_type has_page =? 1)
          (when (message_id has_page <? 32)
             (let mid := Z.to_nat (message_id has_page) in
              pids <- (fun r => defined (d_received_pids r !! mid) r) ;;
              when (not_found pids (message_page_id has_page))
                (modify (set_d_received_pids (fun v =>
                           <[mid := pids ++ [message_page_id has_page]]> v)) ;;
                 store_page mid (Z.to_nat (message_page_id has_page - 1))
                   page_string))))).

Definition process_HAS_page (has_page : Galileo_HAS_page) : M world unit :=
  on_this (accumulate_page has_page) ;;
  on_this (modify (set_d_new_message (fun _ => false))) ;;
  pids <- (fun w => defined (d_received_pids (this w)
                               !! Z.to_nat (message_id has_page)) w) ;;
  when (Z.of_nat (length pids) =? message_size has_page)
    (res <- decode_message_type1 (message_id has_page) (message_size has_page) ;;
     when (res =? 0)
       (nsat <- (fun w =>
                   defined (d_nsat_in_mask_id (d_masks (this w))
                              !! Z.to_nat (mask_id (header (d_HAS_data (this w))))) w) ;;
        when (negb (nsat =? 0))
          (on_this (modify (set_d_new_message (fun _ => true)))))).

(** The [try] block of the handler catches [boost::bad_any_cast] only,
    which the cast of an object of the type just tested never raises: what
    [pmt::any_ref] and [process_HAS_page] raise leaves the handler. *)
Definition msg_handler_galileo_e6_has (msg : pmt_t) : M world unit :=
  match msg with
  | HAS_page_object HAS_data_page => process_HAS_page HAS_data_page
  | other_object => ret tt
  | no_object => throw wrong_type
  end ;;
  new_message <- get (fun w => d_new_message (this w)) ;;
  when new_message
    (has_data <- get (fun w => d_HAS_data (this w)) ;;
     message_port_pub (E6_HAS_to_PVT has_data) ;;
     on_this (modify (set_d_new_message (fun _ => false)))).

(** What the framework can do with the receiver. *)
Inductive stimulus : Set :=
| deliver (msg : pmt_t)
| enable_monitor (enable : bool).

Definition react (x : stimulus) : M world unit :=
  match x with
  | deliver msg => msg_handler_galileo_e6_has msg
  | enable_monitor enable => set_enable_navdata_monitor enable
  end.

Fixpoint run (xs : list stimulus) : M world unit :=
  match xs with
  | [] => ret tt
  | x :: xs' => react x ;; run xs'
  end.

End Receiver.

(** A receiver just built, which has published nothing. *)
Definition power_on : world := Build_world galileo_e6_has_msg_receiver [].

(** * Notions used by the statements *)

(** The records published on the port of the PVT block, oldest first. *)
Definition pvt_records (w : world) : list Galileo_HAS_data :=
  flat_map (fun e => match e with
                     | E6_HAS_to_PVT d => [d]
                     | Nav_msg_from_TLM _ => []
                     end) (published w).

(** The packets published on the port of the monitor, oldest first. *)
Definition monitor_packets (w : world) : list Nav_Message_Packet :=
  flat_map (fun e => match e with
                     | E6_HAS_to_PVT _ => []
                     | Nav_msg_from_TLM p => [p]
                     end) (published w).

(** The width of the IOD of a system: 8 bits for GPS, 10 for Galileo, and
    no field for another system. *)
Definition iod_width (gnss_id : Z) : nat :=
  if gnss_id =? HAS_MSG_GPS_SYSTEM then HAS_MSG_IOD_GPS_LENGTH
  else if gnss_id =? HAS_MSG_GALILEO_SYSTEM then HAS_MSG_IOD_GAL_LENGTH
  else 0.

(** The system slot of the satellite of rank [i] in mask order: the slots
    are run through from [k], each one holding as many satellites as its
    satellite mask has bits set. *)
Fixpoint slot_of_satellite (satellite_masks : list Z) (i k : nat) : option nat :=
  match satellite_masks with
  | [] => None
  | m :: rest =>
      let n := Z.to_nat (popcount m) in
      if (i <? n)%nat then Some k
      else slot_of_satellite rest (i - n) (S k)
  end.

(** A payload as the data model has it: 424 characters '0' or '1'. *)
Definition payload_ok (payload : text) : Prop :=
  length payload = 424%nat /\ forallb is_bit payload = true.

(** A triple for the calls: from a state that satisfies [P], a call that
    returns satisfies [Q] and a call left by an exception satisfies [E];
    nothing is said of a call without a defined result. *)
Definition triple {St A} (P : St -> Prop) (m : M St A)
    (Q : A -> St -> Prop) (E : exn -> St -> Prop) : Prop :=
  forall s, P s ->
    match m s with
    | Ok a s' => Q a s'
    | Throw e s' => E e s'
    | Undef => True
    end.

(** A call keeps a property of the state, however it ends. *)
Definition keeps {St A} (P : St -> Prop) (m : M St A) : Prop :=
  triple P m (fun _ => P) (fun _ => P).

(** A call is never left by an exception. *)
Definition never_throws {St A} (m : M St A) : Prop :=
  triple (fun _ => True) m (fun _ _ => True) (fun _ _ => False).

(** The world after the statements of [decode_message_type1] for the
    monitor: when the monitor is enabled the decoded text is put in the
    packet of the receiver and the packet is published. *)
Definition monitored (decoded : text) (w : world) : world :=
  if d_enable_navdata_monitor (this w) then
    let p := {| system := system (d_nav_msg_packet (this w));
                signal := signal (d_nav_msg_packet (this w));
                prn := prn (d_nav_msg_packet (this w));
                tow_at_current_symbol_ms :=
                  tow_at_current_symbol_ms (d_nav_msg_packet (this w));
                packet_nav_message := decoded |} in
    Build_world (set_d_nav_msg_packet (fun _ => p) (this w))
      (published w ++ [Nav_msg_from_TLM p])
  else w.

(** The reader of the body at its entry, for a header [h] just read. *)
Definition body_entry (m : mask_tables) (h : mt1_header) (body : text) : body_reader :=
  Build_body_reader m (set_header (fun _ => h) empty_HAS_data) body 0 false.

(** The flag of a new message and the packet of the monitor have given
    values. *)
Definition flag_and_packet_are (b : bool) (p : Nav_Message_Packet) (r : receiver)
    : Prop :=
  d_new_message r = b /\ d_nav_msg_packet r = p.

(** A packet with the values that the constructor gives to its PRN and
    to its time of week. *)
Definition packet_ok (p : Nav_Message_Packet) : Prop :=
  prn p = 0 /\ tow_at_current_symbol_ms p = 0.

(** The packet of the receiver and the packets published are so. *)
Definition monitor_invariant (w : world) : Prop :=
  packet_ok (d_nav_msg_packet (this w)) /\ Forall packet_ok (monitor_packets w).

(** A page completes a message that is decoded with success while the
    number of satellites stored for the mask identifier of the record is not
    zero; [d] is the record decoded.  The page is first screened and
    recorded, the flag of a new message is cleared, and the message is
    decoded when the page identifiers received are as many as the size of
    the message. *)
Definition decoded_with_mask (K : icd_constants)
    (rs_decode : list Z -> list Z -> option (list Z))
    (p : Galileo_HAS_page) (w : world) (d : Galileo_HAS_data) : Prop :=
  exists wa pids wd n,
    on_this (accumulate_page p) w = Ok tt wa /\
    d_received_pids (this wa) !! Z.to_nat (message_id p) = Some pids /\
    Z.of_nat (length pids) = message_size p /\
    decode_message_type1 K rs_decode (message_id p) (message_size p)
      (set_this (set_d_new_message (fun _ => false)) wa) = Ok 0 wd /\
    d_nsat_in_mask_id (d_masks (this wd))
      !! Z.to_nat (mask_id (header (d_HAS_data (this wd)))) = Some n /\
    n <> 0 /\
    d = d_HAS_data (this wd).

(** * Sample inputs *)

(** [n] bits of [v], MSB first, and a text padded with '0' to [n]
    characters: the tools that write the pages of the examples. *)
Definition bits_of (n : nat) (v : Z) : text :=
  map (fun k => if Z.testbit v (Z.of_nat (n - 1 - k)) then "1" else "0") (seq 0 n).

Definition pad_to (n : nat) (t : text) : text :=
  t ++ replicate (n - length t) "0".

(** Values of the constants for the examples: a header of 32 bits with
    the time of hour, the seven flags, three reserved bits, the mask
    identifier and the IOD identifier, and a reserved field of 6 bits at the
    end of the mask.  No statement below depends on this choice. *)
Definition sample_constants : icd_constants :=
  {| GALILEO_CNAV_MT1_HEADER_BITS := 32;
     GALILEO_MT1_HEADER_TOH := (1, 12);
     GALILEO_MT1_HEADER_MASK_FLAG := (13, 1);
     GALILEO_MT1_HEADER_ORBIT_CORRECTION_FLAG := (14, 1);
     GALILEO_MT1_HEADER_CLOCK_FULLSET_FLAG := (15, 1);
     GALILEO_MT1_HEADER_CLOCK_SUBSET_FLAG := (16, 1);
     GALILEO_MT1_HEADER_CODE_BIAS_FLAG := (17, 1);
     GALILEO_MT1_HEADER_PHASE_BIAS_FLAG := (18, 1);
     GALILEO_MT1_HEADER_URA_FLAG := (19, 1);
     GALILEO_MT1_HEADER_MASK_ID := (23, 5);
     GALILEO_MT1_HEADER_IOD_ID := (28, 5);
     HAS_MSG_MASK_RESERVED_LENGTH := 6 |}.

(** The text of a header for [sample_constants]. *)
Definition sample_header (h : mt1_header) : text :=
  let flag (b : bool) := if b then "1" else "0" in
  bits_of 12 (toh h) ++
  [flag (mask_flag h); flag (orbit_correction_flag h); flag (clock_fullset_flag h);
   flag (clock_subset_flag h); flag (code_bias_flag h); flag (phase_bias_flag h);
   flag (ura_flag h)] ++
  bits_of 3 0 ++ bits_of 5 (mask_id h) ++ bits_of 5 (iod_id h).

(** A decoder for the examples.  When no information symbol is among the
    erasures the information symbols are those received, and the column is
    returned as it is; the sample decoder gives up in the other cases. *)
Definition sample_rs_decode (column erasures : list Z) : option (list Z) :=
  if forallb (fun e => 32 <=? e) erasures then Some column else None.

(** A page of message type 1 with status 0. *)
Definition sample_page (mid msize pid : Z) (payload : text) : Galileo_HAS_page :=
  {| has_message_string := payload; has_status := 0; message_type := 1;
     message_id := mid; message_size := msize; message_page_id := pid |}.

(** Whether a call returned, what it raised, and the state in which it
    ended. *)
Definition returned {St A} (o : outcome St A) : bool :=
  match o with
  | Ok _ _ => true
  | _ => false
  end.

Definition raised {St A} (o : outcome St A) : option exn :=
  match o with
  | Throw e _ => Some e
  | _ => None
  end.

Definition result_of {St} (o : outcome St Z) : option Z :=
  match o with
  | Ok a _ => Some a
  | _ => None
  end.

Definition state_of {St A} (default : St) (o : outcome St A) : St :=
  match o with
  | Ok _ s | Throw _ s => s
  | Undef => default
  end.

(** A run of a receiver just built, with the sample constants and the
    sample decoder, and the world in which it ends. *)
Definition sample_run (xs : list stimulus) : outcome world unit :=
  run sample_constants sample_rs_decode xs power_on.

Definition world_after (xs : list stimulus) : world :=
  state_of power_on (sample_run xs).

(** ** A mask with a system that is neither GPS nor Galileo

    One message of one page: a mask with one system of GNSS identifier 1,
    one satellite and one signal, and the orbit corrections of the satellite,
    -1, 5 and 7, with no IOD before them. *)
Definition header_unknown_system : mt1_header :=
  Build_mt1_header 100 3 0 true true false false false false false.

Definition body_unknown_system : text :=
  bits_of 4 1 ++                       (* Nsys *)
  bits_of 4 1 ++                       (* GNSS identifier *)
  bits_of 40 (2 ^ 39) ++               (* satellite mask *)
  bits_of 16 (2 ^ 15) ++               (* signal mask *)
  bits_of 1 0 ++                       (* cell mask availability flag *)
  bits_of 1 0 ++                       (* cell mask *)
  bits_of 3 0 ++                       (* nav message *)
  bits_of 6 0 ++                       (* reserved *)
  bits_of 4 0 ++                       (* validity interval index *)
  bits_of 13 8191 ++ bits_of 12 5 ++ bits_of 12 7.

Definition page_unknown_system : Galileo_HAS_page :=
  sample_page 5 1 1 (pad_to 424 (sample_header header_unknown_system
                                   ++ body_unknown_system)).

Definition record_unknown_system : Galileo_HAS_data :=
  set_delta_cross_track (fun _ => [7])
    (set_delta_along_track (fun _ => [5])
       (set_delta_radial (fun _ => [-1])
          (set_gnss_iod (fun _ => [0])
             (set_nav_message (fun _ => [0])
                (set_cell_mask (fun _ => [[[false]]])
                   (set_cell_mask_availability_flag (fun _ => [false])
                      (set_signal_mask (fun _ => [2 ^ 15])
                         (set_satellite_mask (fun _ => [2 ^ 39])
                            (set_gnss_id_mask (fun _ => [1])
                               (set_Nsys (fun _ => 1)
                                  (set_header (fun _ => header_unknown_system)
                                     empty_HAS_data))))))))))).

(** ** A mask followed by corrections that run out

    A first message of one page with a mask of one Galileo system and 40
    satellites, under the mask identifier 3; then a message of one page
    without mask, with the same mask identifier and the flag of the clock
    full-set corrections: the 40 satellites need more bits than a page
    has. *)
Definition header_mask_40 : mt1_header :=
  Build_mt1_header 100 3 0 true false false false false false false.

Definition body_mask_40 : text :=
  bits_of 4 1 ++ bits_of 4 2 ++ bits_of 40 (2 ^ 40 - 1) ++ bits_of 16 (2 ^ 15) ++
  bits_of 1 0 ++ bits_of 40 0 ++ bits_of 3 0 ++ bits_of 6 0.

Definition page_mask_40 : Galileo_HAS_page :=
  sample_page 5 1 1 (pad_to 424 (sample_header header_mask_40 ++ body_mask_40)).

Definition header_underrun : mt1_header :=
  Build_mt1_header 100 3 0 false false true false false false false.

Definition page_underrun : Galileo_HAS_page :=
  sample_page 6 1 1 (pad_to 424 (sample_header header_underrun)).

(** The reader of the body of the second message, and the state in which
    it is left. *)
Definition underrun_entry (w : world) : body_reader :=
  body_entry (d_masks (this w)) header_underrun
    (drop 32 (has_message_string page_underrun)).

Definition underrun_state (w : world) : body_reader :=
  state_of (underrun_entry w) (read_MT1_body_steps sample_constants (underrun_entry w)).

(** ** A clock subset with two satellites

    One message of one page: a mask with one Galileo system, two satellites
    and one signal, and the clock subset corrections of one system, with
    both satellites in the submask and the deltas 1 and 2. *)
Definition header_clock_subset : mt1_header :=
  Build_mt1_header 100 4 0 true false false true false false false.

Definition body_clock_subset : text :=
  bits_of 4 1 ++ bits_of 4 2 ++ bits_of 40 (2 ^ 39 + 2 ^ 38) ++ bits_of 16 (2 ^ 15) ++
  bits_of 1 0 ++ bits_of 2 0 ++ bits_of 3 0 ++ bits_of 6 0 ++
  bits_of 4 0 ++                       (* validity interval index *)
  bits_of 4 1 ++                       (* Nsysprime *)
  bits_of 4 2 ++                       (* GNSS identifier *)
  bits_of 2 0 ++                       (* multiplier *)
  bits_of 2 3 ++                       (* submask: both satellites *)
  bits_of 13 1 ++ bits_of 13 2.        (* one delta for each satellite *)

Definition page_clock_subset : Galileo_HAS_page :=
  sample_page 7 1 1 (pad_to 424 (sample_header header_clock_subset
                                   ++ body_clock_subset)).

(** A clock subset without any system, after a mask with one satellite. *)
Definition nsysprime_zero_state : body_reader :=
  {| masks := d_masks galileo_e6_has_msg_receiver;
     data := set_header (fun _ => header_clock_subset) empty_HAS_data;
     message := bits_of 4 0 ++ bits_of 4 0 ++ bits_of 8 0;
     Nsat := 1;
     have_mask := true |}.

(** ** Pages that the screening refuses *)

(** A page with an empty payload, and a page whose payload begins with a
    character that is neither '0' nor '1'. *)
Definition page_without_payload : Galileo_HAS_page := sample_page 5 1 1 [].

Definition page_with_letter : Galileo_HAS_page :=
  sample_page 5 1 1 (pad_to 424 ["x"]).

(** A page of a message of two pages, whose page identifier 5 is not one of
    a message of that size; and a page with the reserved page identifier 0,
    for the same message identifier, that announces a message of one
    page. *)
Definition page_five_of_two : Galileo_HAS_page :=
  sample_page 3 2 5 (pad_to 424 []).

Definition page_zero : Galileo_HAS_page :=
  sample_page 3 1 0 (pad_to 424 []).

(** ** A time of hour above the maximum *)
Definition header_toh_3700 : mt1_header :=
  Build_mt1_header 3700 3 0 true true false false false false false.

Definition toh_3700_entry : body_reader :=
  body_entry (d_masks galileo_e6_has_msg_receiver) header_toh_3700
    body_unknown_system.

Definition toh_3700_state : body_reader :=
  state_of toh_3700_entry (read_MT1_body_steps sample_constants toh_3700_entry).

(** ** The first satellite of a GPS system, in the loop of the orbit
    corrections *)
Definition orbit_gps_state : body_reader :=
  {| masks := d_masks galileo_e6_has_msg_receiver;
     data :=
       set_delta_cross_track (fun _ => [0])
         (set_delta_along_track (fun _ => [0])
            (set_delta_radial (fun _ => [0])
               (set_gnss_iod (fun _ => [0])
                  (set_satellite_mask (fun _ => [2 ^ 39])
                     (set_gnss_id_mask (fun _ => [0])
                        (set_Nsys (fun _ => 1) empty_HAS_data))))));
     message := bits_of 8 77 ++ bits_of 13 8191 ++ bits_of 12 5 ++ bits_of 12 7;
     Nsat := 1;
     have_mask := true |}.

(** ** A slot with too many erasures *)
Definition world_with_page_five : world :=
  Build_world
    (set_d_received_pids (fun v => <[3%nat := [5]]> v) galileo_e6_has_msg_receiver) [].

(** * Notions used by the further statements *)

(** One turn of the loop of the unsigned readers of the body, on a
    variable of [w] bits: [read_unsigned w] is this turn folded on the
    text. *)
Definition unsigned_step (w : Z) (value : Z) (c : ascii) : Z :=
  let value := to_uint w (Z.shiftl value 1) in
  if is_one c then to_uint w (value + 1) else value.

(** The conditions under which [process_HAS_page] looks at the page
    identifier of a page: the four conditions that screen it. *)
Definition page_accepted (p : Galileo_HAS_page) : Prop :=
  (has_status p = 0 \/ has_status p = 1) /\
  message_page_id p <> 0 /\
  message_type p = 1 /\
  message_id p < 32.

(** The members of a page are numbers of 8 bits. *)
Definition page_in_range (p : Galileo_HAS_page) : Prop :=
  0 <= has_status p < 256 /\ 0 <= message_type p < 256 /\
  0 <= message_id p < 256 /\ 0 <= message_size p < 256 /\
  0 <= message_page_id p < 256.

(** The octet [k] of a payload, and its 53 octets: what the loop of
    [process_HAS_page] writes in a row of the matrix of the message. *)
Definition octet_of (payload : text) (k : nat) : Z :=
  bitset8_to_ulong (take 8 (drop (k * 8) payload)).

Definition octets_of (payload : text) : list Z :=
  map (octet_of payload) (seq 0 GALILEO_CNAV_OCTETS_IN_SUBPAGE).

(** The pages of one message identifier are well formed: the page
    identifiers received are distinct numbers between 1 and 255, the matrix
    has 255 rows of 53 octets, and the row of a page that was not received
    holds zeros. *)
Definition slot_ok (pids : list Z) (plane : list (list Z)) : Prop :=
  NoDup pids /\
  Forall (fun pid => 1 <= pid <= 255) pids /\
  length plane = GALILEO_CNAV_MAX_NUMBER_SYMBOLS_ENCODED_BLOCK /\
  Forall (fun row => length row = GALILEO_CNAV_OCTETS_IN_SUBPAGE) plane /\
  (forall i row,
     plane !! i = Some row -> Z.of_nat i + 1 ∉ pids ->
     row = replicate GALILEO_CNAV_OCTETS_IN_SUBPAGE 0).

(** The two members of the receiver that hold the pages are well formed:
    32 lists of page identifiers and 32 matrices, each pair well formed. *)
Definition slots_hold (received : list (list Z)) (C : list (list (list Z))) : Prop :=
  length received = HAS_MSG_NUMBER_MESSAGE_IDS /\
  length C = GALILEO_CNAV_INFORMATION_VECTOR_LENGTH /\
  (forall mid pids plane,
     received !! mid = Some pids -> C !! mid = Some plane -> slot_ok pids plane).

Definition slots_ok (r : receiver) : Prop :=
  slots_hold (d_received_pids r) (d_C_matrix r).

(** What the framework delivers holds numbers of 8 bits. *)
Definition stimulus_in_range (x : stimulus) : Prop :=
  match x with
  | deliver (HAS_page_object p) => page_in_range p
  | _ => True
  end.

(** The members of the receiver that hold the pages, the switch of the
    monitor and its packet have given values. *)
Definition pages_and_monitor_are (pids : list (list Z)) (C : list (list (list Z)))
    (enabled : bool) (packet : Nav_Message_Packet) (r : receiver) : Prop :=
  d_received_pids r = pids /\ d_C_matrix r = C /\
  d_enable_navdata_monitor r = enabled /\ d_nav_msg_packet r = packet.

(** What the tables of the masks hold for one mask identifier. *)
Definition mask_entry (m : mask_tables) (mid : nat) :=
  (d_nsat_in_mask_id m !! mid, d_nsys_in_mask m !! mid,
   d_gnss_id_in_mask m !! mid, d_satellite_mask m !! mid, d_signal_mask m !! mid,
   d_cell_mask_availability_flag m !! mid, d_cell_mask m !! mid,
   d_nav_message_mask m !! mid).

(** * Further sample inputs *)

(** The reader of the body before the clock full-set corrections of one
    system and two satellites: the validity index 5, the multiplier 3, and
    for the satellites the flags 1 and 0 and the deltas -1 and 7. *)
Definition clock_fullset_state : body_reader :=
  {| masks := d_masks galileo_e6_has_msg_receiver;
     data := set_Nsys (fun _ => 1)
               (set_header (fun _ => header_underrun) empty_HAS_data);
     message := bits_of 4 5 ++ bits_of 2 3 ++
                bits_of 1 1 ++ bits_of 13 8191 ++ bits_of 1 0 ++ bits_of 13 7;
     Nsat := 2;
     have_mask := true |}.

(** A table of the masks agrees, at the mask identifier [mid], with a
    vector of [nsys] entries of the record on its first [i] entries. *)
Definition table_agrees {A} (mid nsys : nat) (T : mask_tables -> list (list A))
    (V : Galileo_HAS_data -> list A) (i : nat) (s : body_reader) : Prop :=
  length (V (data s)) = nsys /\
  ((0 < i)%nat -> is_Some (T (masks s) !! mid)) /\
  (forall row, T (masks s) !! mid = Some row -> take i row = take i (V (data s))).

(** The mask of a record: the number of systems and the vectors that
    [read_MT1_body] fills from the text, or takes from the tables. *)
Definition mask_of (d : Galileo_HAS_data) :=
  (Nsys d, gnss_id_mask d, satellite_mask d, signal_mask d,
   cell_mask_availability_flag d, cell_mask d, nav_message d).

(** The reader of the body before the mask of the first of its systems:
    a Galileo system with two satellites and one signal, without cell mask
    (the flag is 0, and the two bits of the cells follow). *)
Definition mask_system_state : body_reader :=
  {| masks := d_masks galileo_e6_has_msg_receiver;
     data := set_signal_mask (fun _ => [0])
               (set_satellite_mask (fun _ => [0])
                  (set_nav_message (fun _ => [0])
                     (set_cell_mask_availability_flag (fun _ => [false])
                        (set_cell_mask (fun _ => [replicate 40 (replicate 16 false)])
                           (set_gnss_id_mask (fun _ => [0])
                              (set_Nsys (fun _ => 1)
                                 (set_header (fun _ => header_clock_subset)
                                    empty_HAS_data)))))));
     message := bits_of 4 2 ++ bits_of 40 (2 ^ 39 + 2 ^ 38) ++ bits_of 16 (2 ^ 15) ++
                bits_of 1 0 ++ bits_of 2 3 ++ bits_of 3 5;
     Nsat := 0;
     have_mask := false |}.

(** * The cells of the code and phase biases *)

(** A call that takes [n] characters of the text: with [n] characters or
    more it returns, keeps [I] and leaves the text that follows them; with
    fewer it is left by [std::length_error]. *)
Definition takes (I : body_reader -> Prop) (n : nat) (m : M body_reader unit) : Prop :=
  forall s, I s ->
    ((n <= length (message s))%nat ->
     exists s', m s = Ok tt s' /\ I s' /\ message s' = drop n (message s)) /\
    ((length (message s) < n)%nat -> exists s', m s = Throw length_error s').

(** The numbers of satellites and of signals that the blocks of the biases
    count for a system: the sizes of its cell mask when the record has one,
    the numbers of bits set in its two masks otherwise. *)
Definition system_counts (d : Galileo_HAS_data) (sys : nat) : nat * nat :=
  match cell_mask_availability_flag d !! sys with
  | Some true =>
      let cm := default [] (cell_mask d !! sys) in
      (length cm, length (default [] (cm !! 0%nat)))
  | _ =>
      (Z.to_nat (popcount (default 0 (satellite_mask d !! sys))),
       Z.to_nat (popcount (default 0 (signal_mask d !! sys))))
  end.

(** Whether the cell of a satellite and of a signal carries a bias. *)
Definition cell_is_present (d : Galileo_HAS_data) (sys s c : nat) : bool :=
  match cell_mask_availability_flag d !! sys with
  | Some true =>
      match cell_mask d !! sys with
      | Some cm =>
          match cm !! s with
          | Some row => default false (row !! c)
          | None => false
          end
      | None => false
      end
  | _ => true
  end.

(** The number of cells of the first [nsys] systems that carry a bias. *)
Definition cells_of_system (d : Galileo_HAS_data) (sys : nat) : nat :=
  sum_list_with
    (fun s => sum_list_with
                (fun c => if cell_is_present d sys s c then 1 else 0)%nat
                (seq 0 (snd (system_counts d sys))))
    (seq 0 (fst (system_counts d sys))).

Definition cells_present (d : Galileo_HAS_data) (nsys : nat) : nat :=
  sum_list_with (cells_of_system d) (seq 0 nsys).

(** The masks of the first [nsys] systems are those of a record whose mask
    was read: a system with a cell mask has a first row, and all its rows
    have as many cells; a system without one has its two masks. *)
Definition cells_well_formed (d : Galileo_HAS_data) (nsys : nat) : Prop :=
  forall sys, (sys < nsys)%nat ->
    match cell_mask_availability_flag d !! sys with
    | Some true =>
        exists cm first,
          cell_mask d !! sys = Some cm /\ cm !! 0%nat = Some first /\
          Forall (fun row => length row = length first) cm
    | Some false =>
        is_Some (satellite_mask d !! sys) /\ is_Some (signal_mask d !! sys)
    | None => False
    end.

(** The number of satellites of the first [nsys] systems. *)
Definition satellites_counted (d : Galileo_HAS_data) (nsys : nat) : nat :=
  sum_list_with (fun sys => fst (system_counts d sys)) (seq 0 nsys).

(** The numbers that the first loop on the systems of the blocks of the
    biases counts, from the system [sys] on. *)
Definition counted (d : Galileo_HAS_data) (sys n : nat) : list (Z * Z) :=
  map (fun k => (Z.of_nat (fst (system_counts d k)),
                 Z.of_nat (snd (system_counts d k)))) (seq sys n).

(** What the block of the code biases, and the block of the phase biases,
    leave as it is: all of the reader but the text and the members of the
    record that the block fills. *)
Definition but_code_bias (s : body_reader) : body_reader :=
  set_message (fun _ => [])
    (set_data (fun d => set_code_bias (fun _ => [])
                 (set_validity_interval_index_code_bias_corrections (fun _ => 0) d)) s).

Definition but_phase_bias (s : body_reader) : body_reader :=
  set_message (fun _ => [])
    (set_data (fun d => set_phase_discontinuity_indicator (fun _ => [])
                 (set_phase_bias (fun _ => [])
                    (set_validity_interval_index_phase_bias_corrections
                       (fun _ => 0) d))) s).

(** The reader of the body before the code biases, and before the phase
    biases, of two systems.  The first has two satellites and two signals
    and a cell mask that leaves out the second signal of the first
    satellite; the second has one satellite and one signal, and no cell
    mask. *)
Definition header_biases : mt1_header :=
  Build_mt1_header 100 3 0 false false false false true true false.

Definition data_biases : Galileo_HAS_data :=
  set_signal_mask (fun _ => [3; 4])
    (set_satellite_mask (fun _ => [5; 1])
       (set_cell_mask_availability_flag (fun _ => [true; false])
          (set_cell_mask (fun _ => [[[true; false]; [true; true]]; [[false]]])
             (set_Nsys (fun _ => 2)
                (set_header (fun _ => header_biases) empty_HAS_data))))).

Definition code_bias_state : body_reader :=
  {| masks := d_masks galileo_e6_has_msg_receiver;
     data := data_biases;
     message := bits_of 4 6 ++ bits_of 11 2047 ++ bits_of 11 1 ++ bits_of 11 2 ++
                bits_of 11 1024;
     Nsat := 3;
     have_mask := true |}.

Definition phase_bias_state : body_reader :=
  {| masks := d_masks galileo_e6_has_msg_receiver;
     data := data_biases;
     message := bits_of 4 6 ++ bits_of 11 2047 ++ bits_of 2 1 ++
                bits_of 11 1 ++ bits_of 2 2 ++ bits_of 11 2 ++ bits_of 2 3 ++
                bits_of 11 1024 ++ bits_of 2 0;
     Nsat := 3;
     have_mask := true |}.

(** The reader of the body before the mask of a record of one system, a
    Galileo system with two satellites and one signal, and with a cell mask
    that keeps the first satellite only. *)
Definition header_mask_cells : mt1_header :=
  Build_mt1_header 100 3 0 true false false false true false false.

Definition mask_cells_state : body_reader :=
  body_entry (d_masks galileo_e6_has_msg_receiver) header_mask_cells
    (bits_of 4 1 ++ bits_of 4 2 ++ bits_of 40 (2 ^ 39 + 2 ^ 38) ++
     bits_of 16 (2 ^ 15) ++ bits_of 1 1 ++ bits_of 2 2 ++ bits_of 3 0 ++
     bits_of 6 0).

(** * The vertical decoding *)

(** The statements of [decode_message_type1] up to the text of the
    message: with the page identifiers received for the message, a list of
    at most 223 erasure positions is made, the vertical decoding of the 53
    columns succeeds and leaves the receiver [r1], and [decoded] is the text
    read from the first rows of [d_M_matrix]. *)
Definition vertical_decoding (rs_decode : list Z -> list Z -> option (list Z))
    (message_id message_size : Z) (w : world) (r1 : receiver) (decoded : text)
    : Prop :=
  exists pids,
    message_size < 255 /\
    d_received_pids (this w) !! Z.to_nat message_id = Some pids /\
    (length (erasure_positions pids message_size) <= 223)%nat /\
    decode_columns rs_decode GALILEO_CNAV_OCTETS_IN_SUBPAGE 0 (Z.to_nat message_id)
      (erasure_positions pids message_size)
      (set_d_M_matrix (fun _ => zero_matrix GALILEO_CNAV_INFORMATION_VECTOR_LENGTH
                                  GALILEO_CNAV_OCTETS_IN_SUBPAGE) (this w))
    = Ok true r1 /\
    rows_to_text (d_M_matrix r1) (Z.to_nat message_size) = Some decoded.

(** ** A mask that runs out while it is read

    Three messages of one page under the mask identifier 3.  The first has
    a mask with one Galileo system, one satellite and one signal, and the
    orbit corrections of the satellite: the IOD 1 on 10 bits and the deltas
    4, 5 and 6.  The second has a mask that announces six GPS systems of one
    satellite and one signal each; they need 394 bits and the body has 392:
    the text runs out at the last field of the sixth system.  The third has
    no mask, and the same orbit corrections as the first. *)
Definition header_first_mask : mt1_header :=
  Build_mt1_header 100 3 0 true true false false false false false.

Definition orbit_of_one_satellite : text :=
  bits_of 4 0 ++                       (* validity interval index *)
  bits_of 10 1 ++                      (* IOD of a Galileo satellite *)
  bits_of 13 4 ++ bits_of 12 5 ++ bits_of 12 6.

Definition page_first_mask : Galileo_HAS_page :=
  sample_page 5 1 1
    (pad_to 424 (sample_header header_first_mask ++
                 bits_of 4 1 ++ bits_of 4 2 ++ bits_of 40 (2 ^ 39) ++
                 bits_of 16 (2 ^ 15) ++ bits_of 1 0 ++ bits_of 1 0 ++ bits_of 3 0 ++
                 bits_of 6 0 ++ orbit_of_one_satellite)).

Definition header_short_mask : mt1_header :=
  Build_mt1_header 100 3 0 true false false false false false false.

Definition gps_system_of_one_satellite : text :=
  bits_of 4 0 ++ bits_of 40 (2 ^ 39) ++ bits_of 16 (2 ^ 15) ++ bits_of 1 0 ++
  bits_of 1 0 ++ bits_of 3 0.

Definition page_short_mask : Galileo_HAS_page :=
  sample_page 6 1 1
    (take 424 (sample_header header_short_mask ++ bits_of 4 6 ++
               concat (replicate 6 gps_system_of_one_satellite))).

Definition header_stored_mask : mt1_header :=
  Build_mt1_header 100 3 0 false true false false false false false.

Definition page_stored_mask : Galileo_HAS_page :=
  sample_page 7 1 1
    (pad_to 424 (sample_header header_stored_mask ++ orbit_of_one_satellite)).

(** ** Two satellites of one system, with their orbit corrections

    One message of one page: a mask with one Galileo system, two satellites
    and one signal, and the orbit corrections of the two satellites.  The
    loop of the orbit corrections looks at [gnss_id_mask[1]] for the second
    satellite, in a vector of one entry. *)
Definition page_two_satellites : Galileo_HAS_page :=
  sample_page 5 1 1
    (pad_to 424 (sample_header header_first_mask ++
                 bits_of 4 1 ++ bits_of 4 2 ++ bits_of 40 (2 ^ 39 + 2 ^ 38) ++
                 bits_of 16 (2 ^ 15) ++ bits_of 1 0 ++ bits_of 2 0 ++ bits_of 3 0 ++
                 bits_of 6 0 ++
                 bits_of 4 0 ++
                 bits_of 10 1 ++ bits_of 13 4 ++ bits_of 12 5 ++ bits_of 12 6 ++
                 bits_of 10 1 ++ bits_of 13 4 ++ bits_of 12 5 ++ bits_of 12 6)).

(** * Lemmas on the readers *)

Lemma unsigned_value_from (bits : text) (v0 : Z) :
  fold_left (fun v c => 2 * v + (if is_one c then 1 else 0)) bits v0
  = v0 * 2 ^ Z.of_nat (length bits) + unsigned_value bits.
Proof.
  unfold unsigned_value. revert v0.
  induction bits as [|c bits IH]; intros v0.
  - simpl. lia.
  - cbn [fold_left length]. rewrite IH.
    rewrite (IH (2 * 0 + _)).
    rewrite Nat2Z.inj_succ, Z.pow_succ_r by lia. lia.
Qed.

Lemma unsigned_value_bounds (bits : text) :
  0 <= unsigned_value bits < 2 ^ Z.of_nat (length bits).
Proof.
  induction bits as [|c bits IH] using rev_ind.
  - unfold unsigned_value. simpl. lia.
  - unfold unsigned_value in *. rewrite fold_left_app. cbn [fold_left].
    rewrite length_app. cbn [length].
    rewrite Nat2Z.inj_add, Z.pow_add_r by lia.
    change (2 ^ Z.of_nat 1) with 2.
    destruct (is_one c); lia.
Qed.

Lemma unsigned_value_cons (c : ascii) (bits : text) :
  unsigned_value (c :: bits)
  = (if is_one c then 1 else 0) * 2 ^ Z.of_nat (length bits) + unsigned_value bits.
Proof.
  unfold unsigned_value at 1. cbn [fold_left].
  rewrite unsigned_value_from. lia.
Qed.

Lemma to_int16_mod (z : Z) : to_int16 z mod 65536 = z mod 65536.
Proof.
  unfold to_int16.
  rewrite Zminus_mod, Zmod_mod, <- Zminus_mod.
  f_equal. lia.
Qed.

Lemma to_int16_range (z : Z) : -32768 <= to_int16 z <= 32767.
Proof. unfold to_int16. pose proof (Z.mod_pos_bound (z + 32768) 65536). lia. Qed.

Lemma to_int16_small (z : Z) : -32768 <= z <= 32767 -> to_int16 z = z.
Proof. intros H. unfold to_int16. rewrite Z.mod_small; lia. Qed.

Lemma to_int16_congr (a b : Z) : a mod 65536 = b mod 65536 -> to_int16 a = to_int16 b.
Proof.
  intros H. unfold to_int16.
  rewrite (Zplus_mod a), (Zplus_mod b), H. reflexivity.
Qed.

(** Clearing bit 0 of an even number, seen as 16 bits. *)
Lemma land_65534_even (y : Z) : Z.land (2 * y) 65534 = (2 * y) mod 65536.
Proof.
  change 65536 with (2 ^ 16). rewrite <- Z.land_ones by lia.
  apply Z.bits_inj'. intros n Hn.
  rewrite !Z.land_spec.
  destruct (Z.eq_dec n 0) as [->|Hn0].
  - rewrite Z.testbit_even_0. reflexivity.
  - f_equal.
    change 65534 with (2 * Z.ones 15).
    replace n with (Z.succ (n - 1)) by lia.
    rewrite Z.testbit_even_succ by lia.
    rewrite !Z.testbit_ones by lia.
    destruct (Z.leb_spec 0 (n - 1)), (Z.ltb_spec (n - 1) 15),
      (Z.leb_spec 0 (Z.succ (n - 1))), (Z.ltb_spec (Z.succ (n - 1)) 16);
      simpl; try reflexivity; lia.
Qed.

Lemma to_int16_even (z : Z) : exists y, to_int16 (z * 2) = 2 * y.
Proof.
  unfold to_int16.
  exists ((z * 2 + 32768) mod 65536 / 2 - 16384).
  assert (H : ((z * 2 + 32768) mod 65536) mod 2 = 0).
  { change 65536 with (2 * 32768) at 1.
    rewrite Z.rem_mul_r by lia.
    replace (z * 2 + 32768) with ((z + 16384) * 2) by lia.
    rewrite Z.mod_mul by lia. rewrite Z.mul_comm, Z.add_0_l, Z.mod_mul; lia. }
  pose proof (Z.div_mod ((z * 2 + 32768) mod 65536) 2 ltac:(lia)). lia.
Qed.

(** One turn of the signed reader is a shift with insertion modulo 2^16. *)
Lemma int16_step_mod (value : Z) (c : ascii) :
  int16_step value c mod 65536
  = (2 * value + (if is_one c then 1 else 0)) mod 65536.
Proof.
  unfold int16_step.
  destruct (to_int16_even value) as [y Hy]. rewrite Hy.
  rewrite land_65534_even, <- Hy.
  assert (E : to_int16 (to_int16 (value * 2) mod 65536) mod 65536 = (2 * value) mod 65536).
  { rewrite to_int16_mod, Zmod_mod, to_int16_mod. f_equal. lia. }
  destruct (is_one c).
  - rewrite to_int16_mod, Zplus_mod, E, <- Zplus_mod. reflexivity.
  - rewrite E. f_equal. lia.
Qed.

Lemma int16_step_range (value : Z) (c : ascii) :
  -32768 <= int16_step value c <= 32767.
Proof. unfold int16_step. destruct (is_one c); apply to_int16_range. Qed.

Lemma int16_loop_mod (bits : text) (v0 : Z) :
  fold_left int16_step bits v0 mod 65536
  = (v0 * 2 ^ Z.of_nat (length bits) + unsigned_value bits) mod 65536.
Proof.
  revert v0. induction bits as [|c bits IH]; intros v0.
  - unfold unsigned_value. simpl. f_equal. lia.
  - cbn [fold_left length]. rewrite IH, unsigned_value_cons.
    rewrite Nat2Z.inj_succ, Z.pow_succ_r by lia.
    rewrite Zplus_mod, Zmult_mod, int16_step_mod, <- Zmult_mod, <- Zplus_mod.
    f_equal. destruct (is_one c); lia.
Qed.

Lemma int16_loop_range (bits : text) (v0 : Z) :
  -32768 <= v0 <= 32767 -> -32768 <= fold_left int16_step bits v0 <= 32767.
Proof.
  revert v0. induction bits as [|c bits IH]; intros v0 H; [exact H|].
  cbn [fold_left]. apply IH, int16_step_range.
Qed.

Lemma int16_determined (a b : Z) :
  -32768 <= a <= 32767 -> -32768 <= b <= 32767 ->
  a mod 65536 = b mod 65536 -> a = b.
Proof.
  intros Ha Hb H.
  rewrite <- (to_int16_small a Ha), <- (to_int16_small b Hb).
  apply to_int16_congr, H.
Qed.

(** The signed reader on a text of 1 to 16 bits. *)
Lemma read_int16_twos_complement (bits : text) :
  (1 <= length bits <= 16)%nat ->
  read_has_message_body_int16 bits = twos_complement_value bits.
Proof.
  intros Hlen.
  destruct bits as [|c bits]; [simpl in Hlen; lia|].
  set (n := Z.of_nat (length (c :: bits))).
  assert (Hn : 1 <= n <= 16) by (subst n; lia).
  pose proof (unsigned_value_bounds (c :: bits)) as Hu. fold n in Hu.
  pose proof (unsigned_value_bounds bits) as Hu'.
  pose proof (unsigned_value_cons c bits) as Hc.
  assert (Hn' : Z.of_nat (length bits) = n - 1).
  { subst n. cbn [length]. lia. }
  rewrite Hn' in Hu', Hc.
  assert (Hp : 2 ^ n = 2 * 2 ^ (n - 1)).
  { replace n with (Z.succ (n - 1)) at 1 by lia. rewrite Z.pow_succ_r; lia. }
  assert (Hp16 : 2 ^ n <= 65536).
  { change 65536 with (2 ^ 16). apply Z.pow_le_mono_r; lia. }
  unfold read_has_message_body_int16, twos_complement_value. fold n.
  unfold front. cbn [hd].
  destruct (is_one c) eqn:Ec.
  - assert (Hge : 2 ^ (n - 1) <= unsigned_value (c :: bits)) by lia.
    apply Z.leb_le in Hge. rewrite Hge. apply Z.leb_le in Hge.
    apply int16_determined.
    + apply int16_loop_range. apply to_int16_range.
    + lia.
    + rewrite int16_loop_mod. fold n.
      change (to_int16 (Z.lxor 0 65535)) with (-1).
      replace (-1 * 2 ^ n + unsigned_value (c :: bits))
        with (unsigned_value (c :: bits) - 2 ^ n) by lia.
      reflexivity.
  - assert (Hlt : unsigned_value (c :: bits) < 2 ^ (n - 1)) by lia.
    apply Z.leb_gt in Hlt. rewrite Hlt. apply Z.leb_gt in Hlt.
    apply int16_determined.
    + apply int16_loop_range. apply to_int16_range.
    + lia.
    + rewrite int16_loop_mod. fold n.
      change (to_int16 (Z.land 0 0)) with 0.
      f_equal.
Qed.
(** * Running a call step by step *)

Lemma bind_Ok {St A B} (m : M St A) (k : A -> M St B) s a s' :
  m s = Ok a s' -> bind m k s = k a s'.
Proof. intros H. unfold bind. rewrite H. reflexivity. Qed.

Lemma bind_get {St A B} (f : St -> A) (k : A -> M St B) s :
  bind (get f) k s = k (f s) s.
Proof. reflexivity. Qed.

Lemma bind_modify {St B} (f : St -> St) (k : unit -> M St B) s :
  bind (modify f) k s = k tt (f s).
Proof. reflexivity. Qed.

(** What makes a sequence of two calls return. *)
Lemma bind_Ok_inv {St A B} (m : M St A) (k : A -> M St B) s b s2 :
  bind m k s = Ok b s2 -> exists a s1, m s = Ok a s1 /\ k a s1 = Ok b s2.
Proof.
  unfold bind. destruct (m s) as [a s1|e s1|]; try discriminate.
  intros H. exists a, s1. split; [reflexivity|exact H].
Qed.

(** * Rules for the triples *)

Section Rules.

Context {St : Type}.

Lemma triple_consequence {A} (P P' : St -> Prop) (m : M St A)
    (Q Q' : A -> St -> Prop) (E E' : exn -> St -> Prop) :
  triple P' m Q' E' ->
  (forall s, P s -> P' s) ->
  (forall a s, Q' a s -> Q a s) ->
  (forall e s, E' e s -> E e s) ->
  triple P m Q E.
Proof.
  intros H HP HQ HE s Hs. specialize (H s (HP s Hs)).
  destruct (m s); auto.
Qed.

Lemma triple_ret {A} (P : St -> Prop) (a : A) (E : exn -> St -> Prop) :
  triple P (ret a) (fun _ => P) E.
Proof. intros s Hs. exact Hs. Qed.

Lemma triple_bind {A B} (P : St -> Prop) (m : M St A) (k : A -> M St B)
    (Q : A -> St -> Prop) (R : B -> St -> Prop) (E : exn -> St -> Prop) :
  triple P m Q E -> (forall a, triple (Q a) (k a) R E) -> triple P (bind m k) R E.
Proof.
  intros Hm Hk s Hs. specialize (Hm s Hs). unfold bind.
  destruct (m s) as [a s'|e s'|]; auto.
  apply (Hk a s' Hm).
Qed.

Lemma triple_get {A} (P : St -> Prop) (f : St -> A) (E : exn -> St -> Prop) :
  triple P (get f) (fun _ => P) E.
Proof. intros s Hs. exact Hs. Qed.

Lemma triple_modify (P Q : St -> Prop) (f : St -> St) (E : exn -> St -> Prop) :
  (forall s, P s -> Q (f s)) -> triple P (modify f) (fun _ => Q) E.
Proof. intros H s Hs. apply H, Hs. Qed.

Lemma triple_store (P Q : St -> Prop) (upd : St -> option St)
    (E : exn -> St -> Prop) :
  (forall s s', P s -> upd s = Some s' -> Q s') -> triple P (store upd) (fun _ => Q) E.
Proof.
  intros H s Hs. unfold store. destruct (upd s) eqn:Hu; [|exact I].
  apply (H s _ Hs Hu).
Qed.

Lemma triple_defined {A} (P : St -> Prop) (o : option A) (E : exn -> St -> Prop) :
  triple P (defined o) (fun _ => P) E.
Proof. intros s Hs. destruct o; [exact Hs|exact I]. Qed.

Lemma triple_undefined {A} (P : St -> Prop) (Q : A -> St -> Prop)
    (E : exn -> St -> Prop) :
  triple P (undefined : M St A) Q E.
Proof. intros s Hs. exact I. Qed.

Lemma triple_when (P : St -> Prop) (b : bool) (m : M St unit)
    (E : exn -> St -> Prop) :
  triple P m (fun _ => P) E -> triple P (when b m) (fun _ => P) E.
Proof. intros H. destruct b; [exact H|apply triple_ret]. Qed.

Lemma triple_for_loop_bounded (P : St -> Prop) (n i0 : nat) (body : nat -> M St unit)
    (E : exn -> St -> Prop) :
  (forall i, (i0 <= i < i0 + n)%nat -> triple P (body i) (fun _ => P) E) ->
  triple P (for_loop n i0 body) (fun _ => P) E.
Proof.
  revert i0. induction n as [|n IH]; intros i0 H.
  - apply triple_ret.
  - cbn [for_loop]. eapply triple_bind; [apply H; lia|]. intros a. apply IH.
    intros i Hi. apply H. lia.
Qed.

Lemma triple_for_loop (P : St -> Prop) (n i0 : nat) (body : nat -> M St unit)
    (E : exn -> St -> Prop) :
  (forall i, triple P (body i) (fun _ => P) E) ->
  triple P (for_loop n i0 body) (fun _ => P) E.
Proof. intros H. apply triple_for_loop_bounded. intros i _. apply H. Qed.

(** The same rules for a property that is kept. *)
Lemma keeps_ret {A} (P : St -> Prop) (a : A) : keeps P (ret a).
Proof. apply triple_ret. Qed.

Lemma keeps_bind {A B} (P : St -> Prop) (m : M St A) (k : A -> M St B) :
  keeps P m -> (forall a, keeps P (k a)) -> keeps P (bind m k).
Proof. intros Hm Hk. eapply triple_bind; [exact Hm|exact Hk]. Qed.

Lemma keeps_get {A} (P : St -> Prop) (f : St -> A) : keeps P (get f).
Proof. apply triple_get. Qed.

Lemma keeps_defined {A} (P : St -> Prop) (o : option A) : keeps P (defined o).
Proof. apply triple_defined. Qed.

Lemma keeps_undefined {A} (P : St -> Prop) : keeps P (undefined : M St A).
Proof. apply triple_undefined. Qed.

Lemma keeps_throw {A} (P : St -> Prop) (e : exn) : keeps P (throw e : M St A).
Proof. intros s Hs. exact Hs. Qed.

Lemma keeps_modify (P : St -> Prop) (f : St -> St) :
  (forall s, P s -> P (f s)) -> keeps P (modify f).
Proof. apply triple_modify. Qed.

Lemma keeps_store (P : St -> Prop) (upd : St -> option St) :
  (forall s s', P s -> upd s = Some s' -> P s') -> keeps P (store upd).
Proof. apply triple_store. Qed.

Lemma keeps_when (P : St -> Prop) (b : bool) (m : M St unit) :
  keeps P m -> keeps P (when b m).
Proof. apply triple_when. Qed.

Lemma keeps_for_loop (P : St -> Prop) (n i0 : nat) (body : nat -> M St unit) :
  (forall i, keeps P (body i)) -> keeps P (for_loop n i0 body).
Proof. apply triple_for_loop. Qed.

Lemma keeps_at {A} (P : St -> Prop) (f : St -> option A) :
  keeps P (fun s => defined (f s) s).
Proof. intros s Hs. destruct (f s); [exact Hs|exact I]. Qed.

(** The same rules for a call that is never left by an exception. *)
Lemma never_throws_ret {A} (a : A) : never_throws (ret a : M St A).
Proof. intros s _. exact I. Qed.

Lemma never_throws_bind {A B} (m : M St A) (k : A -> M St B) :
  never_throws m -> (forall a, never_throws (k a)) -> never_throws (bind m k).
Proof.
  intros Hm Hk. eapply triple_bind; [exact Hm|].
  intros a. eapply triple_consequence; [apply (Hk a)| | |]; auto.
Qed.

Lemma never_throws_get {A} (f : St -> A) : never_throws (get f).
Proof. intros s _. exact I. Qed.

Lemma never_throws_modify (f : St -> St) : never_throws (modify f).
Proof. intros s _. exact I. Qed.

Lemma never_throws_store (upd : St -> option St) : never_throws (store upd).
Proof. intros s _. unfold store. destruct (upd s); exact I. Qed.

Lemma never_throws_at {A} (f : St -> option A) :
  never_throws (fun s => defined (f s) s).
Proof. intros s _. destruct (f s); exact I. Qed.

Lemma never_throws_defined {A} (o : option A) : never_throws (defined o : M St A).
Proof. intros s _. destruct o; exact I. Qed.

Lemma never_throws_undefined {A} : never_throws (undefined : M St A).
Proof. intros s _. exact I. Qed.

Lemma never_throws_when (b : bool) (m : M St unit) :
  never_throws m -> never_throws (when b m).
Proof. intros H. destruct b; [exact H|apply never_throws_ret]. Qed.

Lemma never_throws_for_loop_bounded (n i0 : nat) (body : nat -> M St unit) :
  (forall i, (i0 <= i < i0 + n)%nat -> never_throws (body i)) ->
  never_throws (for_loop n i0 body).
Proof.
  intros H.
  apply (triple_for_loop_bounded (fun _ => True) n i0 body (fun _ _ => False)).
  exact H.
Qed.

Lemma never_throws_for_loop (n i0 : nat) (body : nat -> M St unit) :
  (forall i, never_throws (body i)) -> never_throws (for_loop n i0 body).
Proof.
  intros H.
  apply (triple_for_loop (fun _ => True) n i0 body (fun _ _ => False)).
  exact H.
Qed.

End Rules.

(** A call on the receiver, seen from the world. *)
Lemma on_this_Ok {A} (m : M receiver A) (w : world) a r :
  m (this w) = Ok a r -> on_this m w = Ok a (Build_world r (published w)).
Proof. intros H. unfold on_this. rewrite H. reflexivity. Qed.

Lemma never_throws_on_this {A} (m : M receiver A) :
  never_throws m -> never_throws (on_this m).
Proof.
  intros H w _. unfold on_this. specialize (H (this w) I).
  destruct (m (this w)); auto.
Qed.

(** * The signed reader *)

Lemma twos_complement_value_range (bits : text) :
  (1 <= length bits)%nat ->
  - 2 ^ (Z.of_nat (length bits) - 1) <= twos_complement_value bits
  <= 2 ^ (Z.of_nat (length bits) - 1) - 1.
Proof.
  intros Hlen. unfold twos_complement_value.
  pose proof (unsigned_value_bounds bits) as Hu.
  set (n := Z.of_nat (length bits)) in *.
  assert (Hp : 2 ^ n = 2 * 2 ^ (n - 1)).
  { replace n with (Z.succ (n - 1)) at 1 by lia. rewrite Z.pow_succ_r; lia. }
  destruct (Z.leb_spec (2 ^ (n - 1)) (unsigned_value bits)); lia.
Qed.

(** C9. For each of the widths 11, 12 and 13 of the body parser and every
    text of that many characters (a character other than '1' counts as a
    '0'), [read_has_message_body_int16] returns the two's-complement reading
    of the bits, MSB first, a value between -2^(n-1) and 2^(n-1)-1. *)
Theorem signed_reader_twos_complement (n : nat) (bits : text) :
  (n = 11 \/ n = 12 \/ n = 13)%nat ->
  length bits = n ->
  read_has_message_body_int16 bits = twos_complement_value bits /\
  - 2 ^ (Z.of_nat n - 1) <= read_has_message_body_int16 bits
    <= 2 ^ (Z.of_nat n - 1) - 1.
Proof.
  intros Hn Hlen.
  assert (Hr : (1 <= length bits <= 16)%nat) by lia.
  rewrite read_int16_twos_complement by exact Hr.
  split; [reflexivity|].
  rewrite <- Hlen. apply twos_complement_value_range. lia.
Qed.

Lemma signed_reader_twos_complement_witness :
  read_has_message_body_int16 (bits_of 13 8191) = twos_complement_value (bits_of 13 8191) /\
  - 2 ^ (Z.of_nat 13 - 1) <= read_has_message_body_int16 (bits_of 13 8191)
    <= 2 ^ (Z.of_nat 13 - 1) - 1.
Proof.
  apply (signed_reader_twos_complement 13 (bits_of 13 8191)).
  - right. right. reflexivity.
  - reflexivity.
Defined.

(** * The erasure positions *)

Lemma not_found_spec (pids : list Z) (i : Z) :
  not_found pids i = true <-> i ∉ pids.
Proof.
  unfold not_found. rewrite negb_true_iff, <- not_true_iff_false, existsb_exists.
  split.
  - intros H Hin. apply H. exists i. split; [|apply Z.eqb_refl].
    apply list_elem_of_In, Hin.
  - intros H [x [Hx Heq]]. apply Z.eqb_eq in Heq. subst x.
    apply H, list_elem_of_In, Hx.
Qed.

Lemma push_erasures_as_filter (pids : list Z) (from : Z) (count : nat) :
  push_erasures pids from count
  = (fun k => from + Z.of_nat k - 1)
      <$> filter (fun k => not_found pids (from + Z.of_nat k) = true) (seq 0 count).
Proof.
  unfold push_erasures.
  induction (seq 0 count) as [|k ks IH]; [reflexivity|].
  cbn [flat_map]. rewrite IH, filter_cons.
  destruct (not_found pids (from + Z.of_nat k)) eqn:E.
  - rewrite decide_True by reflexivity. reflexivity.
  - rewrite decide_False by discriminate. reflexivity.
Qed.

Lemma elem_of_push_erasures (pids : list Z) (from : Z) (count : nat) (e : Z) :
  e ∈ push_erasures pids from count <->
  exists pid, e = pid - 1 /\ from <= pid < from + Z.of_nat count /\ pid ∉ pids.
Proof.
  rewrite push_erasures_as_filter, list_elem_of_fmap.
  split.
  - intros [k [-> Hk]]. apply list_elem_of_filter in Hk as [Hnf Hk].
    apply elem_of_seq in Hk. apply not_found_spec in Hnf.
    exists (from + Z.of_nat k). split; [reflexivity|]. split; [lia|exact Hnf].
  - intros [pid [-> [Hr Hnf]]].
    exists (Z.to_nat (pid - from)).
    replace (from + Z.of_nat (Z.to_nat (pid - from))) with pid by lia.
    split; [reflexivity|].
    apply list_elem_of_filter. split.
    + replace (from + Z.of_nat (Z.to_nat (pid - from))) with pid by lia.
      apply not_found_spec, Hnf.
    + apply elem_of_seq. lia.
Qed.

Lemma NoDup_push_erasures (pids : list Z) (from : Z) (count : nat) :
  NoDup (push_erasures pids from count).
Proof.
  rewrite push_erasures_as_filter.
  apply NoDup_fmap_2.
  - intros a b H. lia.
  - apply NoDup_filter, NoDup_seq.
Qed.

Lemma erasure_positions_NoDup (pids : list Z) (message_size : Z) :
  message_size <= 32 -> NoDup (erasure_positions pids message_size).
Proof.
  intros Hs. unfold erasure_positions. apply NoDup_app.
  split; [apply NoDup_push_erasures|].
  split; [|apply NoDup_push_erasures].
  intros e H1 H2.
  apply elem_of_push_erasures in H1 as [p1 [-> [Hr1 _]]].
  apply elem_of_push_erasures in H2 as [p2 [Hp [Hr2 _]]].
  lia.
Qed.

Lemma elem_of_erasure_positions (pids : list Z) (message_size e : Z) :
  0 <= message_size ->
  e ∈ erasure_positions pids message_size <->
  exists pid, e = pid - 1 /\ (1 <= pid <= message_size \/ 33 <= pid <= 255) /\ pid ∉ pids.
Proof.
  intros Hs. unfold erasure_positions.
  rewrite elem_of_app, !elem_of_push_erasures.
  split.
  - intros [[pid [-> [Hr Hn]]]|[pid [-> [Hr Hn]]]]; exists pid;
      (split; [reflexivity|]); (split; [lia|exact Hn]).
  - intros [pid [-> [[Hr|Hr] Hn]]]; [left|right]; exists pid;
      (split; [reflexivity|]); (split; [lia|exact Hn]).
Qed.

(** * Too many erasures *)

(** The slot of a message identifier after its reset. *)
Lemma reset_slot_Some (mid : nat) (r : receiver) :
  (mid < length (d_C_matrix r))%nat ->
  (mid < length (d_received_pids r))%nat ->
  reset_slot mid r
  = Some (set_d_received_pids (fun v => <[mid := []]> v)
            (set_d_C_matrix
               (fun v => <[mid := zero_matrix GALILEO_CNAV_MAX_NUMBER_SYMBOLS_ENCODED_BLOCK
                                    GALILEO_CNAV_OCTETS_IN_SUBPAGE]> v) r)).
Proof.
  intros HC Hp. unfold reset_slot.
  rewrite decide_True by exact HC. rewrite decide_True by exact Hp. reflexivity.
Qed.

Lemma reset_slot_inv (mid : nat) (r r' : receiver) :
  reset_slot mid r = Some r' ->
  d_received_pids r' !! mid = Some [] /\
  d_C_matrix r' !! mid
  = Some (zero_matrix GALILEO_CNAV_MAX_NUMBER_SYMBOLS_ENCODED_BLOCK
            GALILEO_CNAV_OCTETS_IN_SUBPAGE) /\
  d_masks r' = d_masks r /\ d_HAS_data r' = d_HAS_data r /\
  d_new_message r' = d_new_message r /\
  d_enable_navdata_monitor r' = d_enable_navdata_monitor r /\
  d_nav_msg_packet r' = d_nav_msg_packet r /\
  d_M_matrix r' = d_M_matrix r.
Proof.
  unfold reset_slot. intros H.
  destruct (decide (mid < length (d_C_matrix r))%nat) as [HC|]; [|discriminate].
  destruct (decide (mid < length (d_received_pids r))%nat) as [Hp|]; [|discriminate].
  injection H as <-. cbn.
  rewrite !list_lookup_insert_eq by assumption. repeat split.
Qed.

(** Two sequences that begin with the same call and go on alike. *)
Lemma bind_same {St A B} (m : M St A) (k k' : A -> M St B) (s : St) :
  (forall a s', k a s' = k' a s') -> bind m k s = bind m k' s.
Proof. intros H. unfold bind. destruct (m s); [apply H|reflexivity|reflexivity]. Qed.

(** The vertical decoding asks the decoder with the list of erasures
    that it is given, and with no other. *)
Lemma decode_columns_same_decoder
    (rs_decode rs_decode' : list Z -> list Z -> option (list Z)) (erasures : list Z) :
  (forall column, rs_decode' column erasures = rs_decode column erasures) ->
  forall (n col message_id : nat) (r : receiver),
    decode_columns rs_decode' n col message_id erasures r
    = decode_columns rs_decode n col message_id erasures r.
Proof.
  intros Hsame. induction n as [|n IH]; intros col message_id r; [reflexivity|].
  cbn [decode_columns].
  apply bind_same. intros C r1.
  apply bind_same. intros pids r2.
  apply bind_same. intros C_column r3.
  rewrite Hsame.
  destruct (rs_decode C_column erasures) as [decoded|]; [|reflexivity].
  apply bind_same. intros M_column r4.
  apply bind_same. intros [] r5. apply IH.
Qed.

(** [decode_message_type1] after the list of erasures is made. *)
Lemma decode_message_type1_with_erasures (K : icd_constants)
    (rs_decode : list Z -> list Z -> option (list Z))
    (w : world) (message_id message_size : Z) (pids : list Z) :
  message_size < 255 ->
  d_received_pids (this w) !! Z.to_nat message_id = Some pids ->
  decode_message_type1 K rs_decode message_id message_size w
  = (let mid := Z.to_nat message_id in
     let erasures := erasure_positions pids message_size in
     if decide (223 < length erasures)%nat then
       on_this (store (reset_slot mid)) ;;
       ret (-1)
     else
       on_this (modify (set_d_M_matrix (fun _ =>
                  zero_matrix GALILEO_CNAV_INFORMATION_VECTOR_LENGTH
                    GALILEO_CNAV_OCTETS_IN_SUBPAGE))) ;;
       decoded <- on_this (decode_columns rs_decode GALILEO_CNAV_OCTETS_IN_SUBPAGE 0
                             mid erasures) ;;
       if (decoded : bool) then
         decoded_message_type_1 <-
           (fun w => defined (rows_to_text (d_M_matrix (this w))
                                (Z.to_nat message_size)) w) ;;
         publish_and_read K mid decoded_message_type_1
       else ret (-1)) w.
Proof.
  intros Hs Hpids. unfold decode_message_type1.
  destruct (Z.leb_spec 255 message_size) as [|_]; [lia|].
  cbv zeta. unfold bind at 1. rewrite Hpids. reflexivity.
Qed.

(** C2. For a message identifier of the tables and a message size below
    255 (at 255 the counter of the first loop, on 8 bits, wraps around), the
    erasure positions that [decode_message_type1] computes, and passes to the
    decoder, are the positions pid - 1 of the page identifiers pid of
    [1..message_size] or [33..255] that were not received, each of them once
    when the message size is at most 32, as in the data model.  When the
    list has more than 223 entries the call returns -1 without calling the
    decoder, with the received page identifiers of the slot cleared and its
    matrix zeroed, and publishes nothing.  The decoder is asked with this
    list and with no other: the call is the same with any decoder that
    answers alike on this list; and when the list has at most 223 entries
    and the decoder refuses, with this list, the first column of the pages of
    the message, the call returns -1 with [d_M_matrix] zeroed and nothing
    else changed. *)
Theorem erasure_positions_and_guard (K : icd_constants)
    (rs_decode : list Z -> list Z -> option (list Z))
    (w : world) (message_id message_size : Z) (pids : list Z) :
  0 <= message_size < 255 ->
  d_received_pids (this w) !! Z.to_nat message_id = Some pids ->
  (Z.to_nat message_id < length (d_C_matrix (this w)))%nat ->
  let erasures := erasure_positions pids message_size in
  (forall e, e ∈ erasures <->
     exists pid, e = pid - 1 /\
       (1 <= pid <= message_size \/ 33 <= pid <= 255) /\ pid ∉ pids) /\
  (message_size <= 32 -> NoDup erasures) /\
  ((223 < length erasures)%nat ->
   exists w',
     decode_message_type1 K rs_decode message_id message_size w = Ok (-1) w' /\
     w' = Build_world
            (set_d_received_pids (fun v => <[Z.to_nat message_id := []]> v)
               (set_d_C_matrix
                  (fun v => <[Z.to_nat message_id := zero_matrix 255 53]> v) (this w)))
            (published w) /\
     d_received_pids (this w') !! Z.to_nat message_id = Some [] /\
     d_C_matrix (this w') !! Z.to_nat message_id = Some (zero_matrix 255 53) /\
     published w' = published w) /\
  (forall rs_decode' : list Z -> list Z -> option (list Z),
     (forall column, rs_decode' column erasures = rs_decode column erasures) ->
     decode_message_type1 K rs_decode' message_id message_size w
     = decode_message_type1 K rs_decode message_id message_size w) /\
  ((length erasures <= 223)%nat ->
   forall plane column,
     d_C_matrix (this w) !! Z.to_nat message_id = Some plane ->
     fill_column plane pids 0 = Some column ->
     rs_decode column erasures = None ->
     decode_message_type1 K rs_decode message_id message_size w
     = Ok (-1) (set_this (set_d_M_matrix (fun _ => zero_matrix 32 53)) w)).
Proof.
  intros Hs Hpids HC erasures.
  split; [intros e; apply elem_of_erasure_positions; lia|].
  split; [apply erasure_positions_NoDup|].
  split; [|split].
  - intros Hmany.
    pose proof (lookup_lt_Some _ _ _ Hpids) as Hp.
    pose proof (reset_slot_Some _ _ HC Hp) as Hreset.
    eexists. split; [|split; [reflexivity|]].
    + unfold decode_message_type1.
      destruct (Z.leb_spec 255 message_size) as [|_]; [lia|].
      unfold bind at 1. cbv beta. rewrite Hpids. cbn [defined ret].
      fold erasures. rewrite decide_True by exact Hmany.
      unfold bind, on_this, store. rewrite Hreset. reflexivity.
    + cbn [this published].
      destruct (reset_slot_inv _ _ _ Hreset) as (H1 & H2 & _).
      split; [exact H1|]. split; [exact H2|reflexivity].
  - intros rs_decode' Hsame.
    rewrite !(decode_message_type1_with_erasures K _ w message_id message_size pids)
      by (lia || exact Hpids).
    cbv zeta. fold erasures.
    destruct (decide (223 < length erasures)%nat); [reflexivity|].
    apply bind_same. intros [] w0.
    unfold bind, on_this.
    rewrite (decode_columns_same_decoder rs_decode rs_decode' erasures Hsame).
    reflexivity.
  - intros Hfew plane column Hplane Hcolumn Hnone.
    rewrite (decode_message_type1_with_erasures K _ w message_id message_size pids)
      by (lia || exact Hpids).
    cbv zeta. fold erasures. rewrite decide_False by lia.
    erewrite bind_Ok; [|apply on_this_Ok; reflexivity].
    assert (Hdec : on_this
                     (decode_columns rs_decode GALILEO_CNAV_OCTETS_IN_SUBPAGE 0
                        (Z.to_nat message_id) erasures)
                     (set_this (set_d_M_matrix (fun _ => zero_matrix 32 53)) w)
                   = Ok false (set_this (set_d_M_matrix (fun _ => zero_matrix 32 53)) w)).
    { apply (on_this_Ok _ (set_this (set_d_M_matrix (fun _ => zero_matrix 32 53)) w)).
      change GALILEO_CNAV_OCTETS_IN_SUBPAGE with 53%nat. cbn [decode_columns].
      rewrite (bind_Ok _ _ _ plane (this (set_this (set_d_M_matrix
                                           (fun _ => zero_matrix 32 53)) w)))
        by (cbn; rewrite Hplane; reflexivity).
      rewrite (bind_Ok _ _ _ pids (this (set_this (set_d_M_matrix
                                          (fun _ => zero_matrix 32 53)) w)))
        by (cbn; rewrite Hpids; reflexivity).
      unfold bind at 1. rewrite Hcolumn. cbn [defined ret].
      rewrite Hnone. reflexivity. }
    exact (eq_trans (bind_Ok _ _ _ _ _ Hdec) eq_refl).
Qed.
(** * What the reading of the mask leaves unchanged *)

(** A step of the proof that a call built from the operations of the
    reader of the body keeps a property of the state that these operations
    do not touch. *)
Ltac frame_operation :=
  let s := fresh "s" in
  let Hs := fresh "Hs" in
  intros s Hs;
  cbv [substr advance message_at put store_data store_masks data_at masks_at
       the_mask_id block_enabled get modify store defined ret undefined throw
       assign assign2 assign3 copy_prefix];
  repeat case_match; simplify_eq; cbn; auto.

Ltac frame :=
  repeat
    (cbv zeta;
     lazymatch goal with
     | |- keeps _ (bind _ _) => apply keeps_bind; [|intro]
     | |- keeps _ (when _ _) => apply keeps_when
     | |- keeps _ (for_loop _ _ _) => apply keeps_for_loop; intro
     | |- keeps _ (ret _) => apply keeps_ret
     | |- keeps _ (if ?b then _ else _) => destruct b
     | |- keeps _ _ => frame_operation
     end).

Section Frame.

Variable K : icd_constants.
Variable h : mt1_header.

Let header_is (s : body_reader) : Prop := header (data s) = h.

Lemma read_mask_system_keeps_header (i : nat) : keeps header_is (read_mask_system i).
Proof. unfold read_mask_system, header_is. frame. Qed.

Lemma read_mask_keeps_header : keeps header_is (read_mask K).
Proof.
  unfold read_mask. 
  repeat (cbv zeta; first [apply keeps_bind; [|intro] | apply keeps_when]);
    try apply keeps_for_loop; try apply read_mask_system_keeps_header;
    unfold header_is; frame.
Qed.

Lemma use_stored_mask_keeps_header : keeps header_is use_stored_mask.
Proof. unfold use_stored_mask, copy_from_masks, header_is. frame. Qed.

Lemma discard_crazy_toh_keeps_header : keeps header_is discard_crazy_toh.
Proof. unfold discard_crazy_toh, header_is. frame. Qed.

Lemma resolve_mask_keeps_header : keeps header_is (resolve_mask K).
Proof.
  unfold resolve_mask.
  apply keeps_bind; [unfold header_is; frame|]. intros flag.
  apply keeps_bind; [|intros _; apply discard_crazy_toh_keeps_header].
  destruct flag; [apply read_mask_keeps_header|apply use_stored_mask_keeps_header].
Qed.

End Frame.

(** * The check of the time of hour *)

Section Toh.

Variable K : icd_constants.

(** A block of corrections is passed over when no mask is at hand. *)
Lemma block_skipped (flag : mt1_header -> bool) (m : M body_reader unit)
    (s : body_reader) :
  have_mask s = false ->
  (enabled <- block_enabled flag ;; when enabled m) s = Ok tt s.
Proof.
  intros H. unfold bind, block_enabled, get. rewrite H, andb_false_r. reflexivity.
Qed.

Lemma read_code_and_phase_bias_skipped (s : body_reader) :
  have_mask s = false -> (read_code_bias ;; read_phase_bias) s = Ok tt s.
Proof.
  intros H.
  rewrite (bind_Ok _ _ s tt s) by (apply block_skipped, H).
  apply block_skipped, H.
Qed.

Lemma read_corrections_skipped (s : body_reader) :
  have_mask s = false -> read_corrections s = Ok tt s.
Proof.
  intros H. unfold read_corrections, read_from_clock_subset.
  rewrite (bind_Ok _ _ s tt s) by (apply block_skipped, H).
  rewrite (bind_Ok _ _ s tt s) by (apply block_skipped, H).
  rewrite (bind_Ok _ _ s tt s) by (apply block_skipped, H).
  apply read_code_and_phase_bias_skipped, H.
Qed.

(** The check, on a time of hour above the maximum. *)
Lemma discard_crazy_toh_inv (s s1 : body_reader) :
  HAS_MSG_NUMBER_MAX_TOH < toh (header (data s)) ->
  discard_crazy_toh s = Ok tt s1 ->
  have_mask s1 = false /\
  d_nsat_in_mask_id (masks s1) !! Z.to_nat (mask_id (header (data s))) = Some 0 /\
  data s1 = data s /\ message s1 = message s.
Proof.
  intros Ht. unfold discard_crazy_toh, bind, get, when.
  apply Z.ltb_lt in Ht. rewrite Ht.
  cbv [modify the_mask_id get store_masks store assign]. cbn.
  destruct (decide _) as [Hlt|]; [|discriminate].
  intros [= <-]. cbn. rewrite list_lookup_insert_eq by exact Hlt. auto.
Qed.

(** A record without mask, when the table holds no satellite for its mask
    identifier: nothing is read. *)
Lemma no_stored_mask (m : mask_tables) (d : Galileo_HAS_data) (body : text) :
  mask_flag (header d) = false ->
  d_nsat_in_mask_id m !! Z.to_nat (mask_id (header d)) = Some 0 ->
  exists s,
    read_MT1_body_steps K (Build_body_reader m d body 0 false) = Ok tt s /\
    have_mask s = false /\ message s = body /\ data s = d.
Proof.
  intros Hflag Hnsat.
  pose proof (lookup_lt_Some _ _ _ Hnsat) as Hlt.
  unfold read_MT1_body_steps.
  destruct (Z.ltb_spec HAS_MSG_NUMBER_MAX_TOH (toh (header d))) as [Ht|Ht].
  - exists (Build_body_reader
              (set_d_nsat_in_mask_id
                 (fun v => <[Z.to_nat (mask_id (header d)) := 0]> v) m) d body 0 false).
    split; [|cbn; auto].
    rewrite (bind_Ok _ _ _ tt
               (Build_body_reader
                  (set_d_nsat_in_mask_id
                     (fun v => <[Z.to_nat (mask_id (header d)) := 0]> v) m)
                  d body 0 false)).
    + apply read_corrections_skipped. reflexivity.
    + unfold resolve_mask, bind, get. cbn. rewrite Hflag.
      cbv [use_stored_mask bind the_mask_id get masks_at]. cbn.
      rewrite Hnsat. cbn.
      cbv [discard_crazy_toh bind get]. cbn.
      apply Z.ltb_lt in Ht. rewrite Ht.
      cbv [when modify the_mask_id get store_masks store assign]. cbn.
      rewrite decide_True by exact Hlt. reflexivity.
  - exists (Build_body_reader m d body 0 false).
    split; [|cbn; auto].
    rewrite (bind_Ok _ _ _ tt (Build_body_reader m d body 0 false)).
    + apply read_corrections_skipped. reflexivity.
    + unfold resolve_mask, bind, get. cbn. rewrite Hflag.
      cbv [use_stored_mask bind the_mask_id get masks_at]. cbn.
      rewrite Hnsat. cbn.
      cbv [discard_crazy_toh bind get]. cbn.
      apply Z.ltb_ge in Ht. rewrite Ht. reflexivity.
Qed.

(** C8. When [read_MT1_body] returns on a record whose time of hour is
    above 3599, [have_mask] is false at the end and the blocks of
    corrections were passed over (the call ends in the state in which the
    check left it), the number of satellites stored for the mask identifier
    of the record is zero, and a later record without mask and with that
    mask identifier finds no mask: it is read without [have_mask] and
    without any block of corrections. *)
Theorem crazy_toh_discards_mask (s0 s' : body_reader) :
  HAS_MSG_NUMBER_MAX_TOH < toh (header (data s0)) ->
  read_MT1_body_steps K s0 = Ok tt s' ->
  have_mask s' = false /\
  resolve_mask K s0 = Ok tt s' /\
  header (data s') = header (data s0) /\
  d_nsat_in_mask_id (masks s') !! Z.to_nat (mask_id (header (data s0))) = Some 0 /\
  forall (d2 : Galileo_HAS_data) (body2 : text),
    mask_flag (header d2) = false ->
    mask_id (header d2) = mask_id (header (data s0)) ->
    exists s2,
      read_MT1_body_steps K (Build_body_reader (masks s') d2 body2 0 false) = Ok tt s2 /\
      have_mask s2 = false /\ message s2 = body2 /\ data s2 = d2.
Proof.
  intros Ht Hrun.
  unfold read_MT1_body_steps in Hrun.
  apply bind_Ok_inv in Hrun as ([] & s1 & Hmask & Hcorr).
  assert (Hinv : have_mask s1 = false /\
                 d_nsat_in_mask_id (masks s1) !! Z.to_nat (mask_id (header (data s0)))
                 = Some 0 /\ header (data s1) = header (data s0)).
  { pose proof Hmask as Hres.
    unfold resolve_mask in Hres.
    apply bind_Ok_inv in Hres as (flag & sa & Hget & Hres).
    unfold get in Hget. injection Hget as <- <-.
    apply bind_Ok_inv in Hres as ([] & sb & Hbranch & Hcheck).
    assert (Hhdr : header (data sb) = header (data s0)).
    { destruct (mask_flag (header (data s0))).
      - pose proof (read_mask_keeps_header K (header (data s0)) s0 eq_refl) as Hk.
        rewrite Hbranch in Hk. exact Hk.
      - pose proof (use_stored_mask_keeps_header (header (data s0)) s0 eq_refl) as Hk.
        rewrite Hbranch in Hk. exact Hk. }
    rewrite <- Hhdr in Ht.
    destruct (discard_crazy_toh_inv sb s1 Ht Hcheck) as (H1 & H2 & H3 & _).
    rewrite Hhdr in H2. rewrite H3. auto. }
  destruct Hinv as (Hhave & Hnsat & Hhdr).
  rewrite (read_corrections_skipped s1 Hhave) in Hcorr.
  injection Hcorr as <-.
  repeat split; try assumption.
  intros d2 body2 Hflag Hmid.
  apply no_stored_mask; [exact Hflag|]. rewrite Hmid. exact Hnsat.
Qed.

End Toh.

(** * The operations of the reader, one at a time *)

Lemma advance_Ok (n : nat) (s : body_reader) :
  (n <= length (message s))%nat -> advance n s = Ok tt (set_message (drop n) s).
Proof. intros H. unfold advance. rewrite decide_True by exact H. reflexivity. Qed.

Lemma data_at_Ok {A} (f : Galileo_HAS_data -> list A) (i : nat) (s : body_reader) a :
  f (data s) !! i = Some a -> data_at f i s = Ok a s.
Proof. intros H. unfold data_at. rewrite H. reflexivity. Qed.

Lemma store_data_assign_Ok {A} (getf : Galileo_HAS_data -> list A)
    (setf : (list A -> list A) -> Galileo_HAS_data -> Galileo_HAS_data)
    (i : nat) (x : A) (s : body_reader) :
  (i < length (getf (data s)))%nat ->
  store_data (assign getf setf i x) s
  = Ok tt (set_data (fun _ => setf (fun v => <[i:=x]> v) (data s)) s).
Proof.
  intros H. unfold store_data, store, assign.
  rewrite decide_True by exact H. reflexivity.
Qed.

Lemma store_masks_assign_Ok {A} (getf : mask_tables -> list A)
    (setf : (list A -> list A) -> mask_tables -> mask_tables)
    (i : nat) (x : A) (s : body_reader) :
  (i < length (getf (masks s)))%nat ->
  store_masks (assign getf setf i x) s
  = Ok tt (set_masks (fun _ => setf (fun v => <[i:=x]> v) (masks s)) s).
Proof.
  intros H. unfold store_masks, store, assign.
  rewrite decide_True by exact H. reflexivity.
Qed.

Lemma bind_substr {B} (n : nat) (k : text -> M body_reader B) (s : body_reader) :
  bind (substr n) k s = k (substr0 n (message s)) s.
Proof. reflexivity. Qed.

Lemma bind_put {B} (upd : Galileo_HAS_data -> Galileo_HAS_data)
    (k : unit -> M body_reader B) (s : body_reader) :
  bind (put upd) k s = k tt (set_data upd s).
Proof. reflexivity. Qed.

(** One step of a sequence whose first call returns. *)
Ltac run_with tac := erewrite bind_Ok; [|solve [tac]].
Ltac run_substr := rewrite bind_substr.
Ltac run_put := rewrite bind_put.
Ltac run_advance := run_with ltac:(apply advance_Ok; cbn; rewrite ?length_drop; lia).
Ltac run_store := run_with ltac:(apply store_data_assign_Ok; cbn; rewrite ?length_insert; lia).

(** * The orbit corrections *)

(** The three deltas of a satellite. *)
Lemma read_orbit_deltas (i : nat) (s : body_reader) :
  (i < length (delta_radial (data s)))%nat ->
  (i < length (delta_along_track (data s)))%nat ->
  (i < length (delta_cross_track (data s)))%nat ->
  (37 <= length (message s))%nat ->
  exists s',
    (bits <- substr HAS_MSG_DELTA_RADIAL_LENGTH ;;
     store_data (assign delta_radial set_delta_radial i
                   (read_has_message_body_int16 bits)) ;;
     advance HAS_MSG_DELTA_RADIAL_LENGTH ;;
     bits <- substr HAS_MSG_DELTA_ALONG_TRACK_LENGTH ;;
     store_data (assign delta_along_track set_delta_along_track i
                   (read_has_message_body_int16 bits)) ;;
     advance HAS_MSG_DELTA_ALONG_TRACK_LENGTH ;;
     bits <- substr HAS_MSG_DELTA_CROSS_TRACK_LENGTH ;;
     store_data (assign delta_cross_track set_delta_cross_track i
                   (read_has_message_body_int16 bits)) ;;
     advance HAS_MSG_DELTA_CROSS_TRACK_LENGTH) s = Ok tt s' /\
    message s' = drop 37 (message s) /\
    gnss_iod (data s') = gnss_iod (data s) /\
    delta_radial (data s') !! i
    = Some (read_has_message_body_int16 (take 13 (message s))) /\
    delta_along_track (data s') !! i
    = Some (read_has_message_body_int16 (take 12 (drop 13 (message s)))) /\
    delta_cross_track (data s') !! i
    = Some (read_has_message_body_int16 (take 12 (drop 25 (message s)))).
Proof.
  intros Hr Ha Hc Hlen.
  unfold HAS_MSG_DELTA_RADIAL_LENGTH, HAS_MSG_DELTA_ALONG_TRACK_LENGTH,
    HAS_MSG_DELTA_CROSS_TRACK_LENGTH.
  eexists. split.
  - run_substr. run_store. run_advance.
    run_substr. run_store. run_advance.
    run_substr. run_store. apply advance_Ok.
    cbn. rewrite !length_drop. lia.
  - cbn. rewrite !drop_drop, !list_lookup_insert_eq by assumption.
    unfold substr0. repeat split.
Qed.

(** C6, as amended.  In the loop of the orbit corrections, for a satellite
    whose rank in mask order is the index of its system slot, the width of
    the IOD is chosen by the GNSS identifier of that slot: 8 bits for GPS,
    10 bits for Galileo.  For any other identifier nothing is raised: no IOD
    is read and the reader goes on with the three deltas of the satellite. *)
Theorem orbit_iod_width (i : nat) (s : body_reader) (g : Z) :
  slot_of_satellite (satellite_mask (data s)) i 0 = Some i ->
  gnss_id_mask (data s) !! i = Some g ->
  (i < length (gnss_iod (data s)))%nat ->
  (i < length (delta_radial (data s)))%nat ->
  (i < length (delta_along_track (data s)))%nat ->
  (i < length (delta_cross_track (data s)))%nat ->
  (iod_width g + 37 <= length (message s))%nat ->
  exists s',
    read_orbit_satellite i s = Ok tt s' /\
    message s' = drop (iod_width g + 37) (message s) /\
    gnss_iod (data s') !! i
    = (if (g =? HAS_MSG_GPS_SYSTEM) || (g =? HAS_MSG_GALILEO_SYSTEM)
       then Some (read_has_message_body_uint16 (take (iod_width g) (message s)))
       else gnss_iod (data s) !! i) /\
    delta_radial (data s') !! i
    = Some (read_has_message_body_int16 (take 13 (drop (iod_width g) (message s)))).
Proof.
  intros _ Hg Hiod Hr Ha Hc Hlen.
  unfold read_orbit_satellite.
  rewrite (bind_Ok _ _ _ _ _ (data_at_Ok gnss_id_mask i s g Hg)).
  unfold iod_width in *.
  destruct (g =? HAS_MSG_GPS_SYSTEM) eqn:Egps.
  - (* GPS *)
    assert (Egal : (g =? HAS_MSG_GALILEO_SYSTEM) = false).
    { apply Z.eqb_eq in Egps. subst g. reflexivity. }
    set (s1 := set_message (drop HAS_MSG_IOD_GPS_LENGTH)
                 (set_data (fun _ => set_gnss_iod
                    (fun v => <[i := read_has_message_body_uint16
                                       (take HAS_MSG_IOD_GPS_LENGTH (message s))]> v)
                    (data s)) s)).
    rewrite (bind_Ok _ _ _ tt s1).
    2:{ cbn [when]. run_substr. run_store. apply advance_Ok. cbn.
        unfold HAS_MSG_IOD_GPS_LENGTH in *. lia. }
    rewrite (bind_Ok _ _ _ g s1) by (apply data_at_Ok; exact Hg).
    rewrite Egal. cbn [when]. rewrite (bind_Ok _ _ _ tt s1) by reflexivity.
    assert (H37 : (37 <= length (message s1))%nat).
    { subst s1. cbn. rewrite length_drop. unfold HAS_MSG_IOD_GPS_LENGTH in *. lia. }
    destruct (read_orbit_deltas i s1 Hr Ha Hc H37) as (s' & Hrun & Hm & Hi & Hd & _).
    exists s'. split; [exact Hrun|]. rewrite Hm, Hi, Hd. subst s1. cbn.
    rewrite drop_drop, list_lookup_insert_eq by exact Hiod.
    unfold HAS_MSG_IOD_GPS_LENGTH. repeat split.
  - rewrite (bind_Ok _ _ _ tt s) by reflexivity.
    rewrite (bind_Ok _ _ _ _ _ (data_at_Ok gnss_id_mask i s g Hg)).
    destruct (g =? HAS_MSG_GALILEO_SYSTEM) eqn:Egal.
    + (* Galileo *)
      set (s1 := set_message (drop HAS_MSG_IOD_GAL_LENGTH)
                   (set_data (fun _ => set_gnss_iod
                      (fun v => <[i := read_has_message_body_uint16
                                         (take HAS_MSG_IOD_GAL_LENGTH (message s))]> v)
                      (data s)) s)).
      rewrite (bind_Ok _ _ _ tt s1).
      2:{ cbn [when]. run_substr. run_store. apply advance_Ok. cbn.
          unfold HAS_MSG_IOD_GAL_LENGTH in *. lia. }
      assert (H37 : (37 <= length (message s1))%nat).
      { subst s1. cbn. rewrite length_drop. unfold HAS_MSG_IOD_GAL_LENGTH in *. lia. }
      destruct (read_orbit_deltas i s1 Hr Ha Hc H37) as (s' & Hrun & Hm & Hi & Hd & _).
      exists s'. split; [exact Hrun|]. rewrite Hm, Hi, Hd. subst s1. cbn.
      rewrite drop_drop, list_lookup_insert_eq by exact Hiod.
      unfold HAS_MSG_IOD_GAL_LENGTH. repeat split.
    + (* another system *)
      rewrite (bind_Ok _ _ _ tt s) by reflexivity.
      assert (H37 : (37 <= length (message s))%nat) by (cbn in Hlen; lia).
      destruct (read_orbit_deltas i s Hr Ha Hc H37) as (s' & Hrun & Hm & Hi & Hd & _).
      exists s'. split; [exact Hrun|]. rewrite Hm, Hi, Hd. cbn.
      repeat split.
Qed.

(** * The clock subset corrections without any system *)

(** When the number of systems of the subset is read as zero, nothing is
    raised: [have_mask] is cleared, the number of satellites stored for the
    mask identifier is set to zero, and the blocks that follow are passed
    over. *)
Lemma nsysprime_zero_aborts (s : body_reader) :
  clock_subset_flag (header (data s)) = true ->
  have_mask s = true ->
  (8 <= length (message s))%nat ->
  read_has_message_body_uint8 (take 4 (drop 4 (message s))) = 0 ->
  (Z.to_nat (mask_id (header (data s))) < length (d_nsat_in_mask_id (masks s)))%nat ->
  exists s',
    read_from_clock_subset s = Ok tt s' /\
    have_mask s' = false /\
    d_nsat_in_mask_id (masks s') !! Z.to_nat (mask_id (header (data s))) = Some 0 /\
    header (data s') = header (data s) /\
    Nsysprime (data s') = 0 /\
    message s' = drop 8 (message s).
Proof.
  intros Hflag Hhave Hlen Hzero Hmid.
  unfold read_from_clock_subset.
  eexists. split.
  - erewrite bind_Ok; cycle 1.
    { unfold read_clock_subset_corrections.
      rewrite (bind_Ok (block_enabled _) _ s true s).
      2:{ unfold block_enabled, get. cbv beta. rewrite Hflag, Hhave. reflexivity. }
      cbn [when].
      unfold HAS_MSG_VALIDITY_INDEX_LENGTH, HAS_MSG_NSYSPRIME_LENGTH.
      run_substr. run_put. run_advance. run_substr. run_put. run_advance.
      cbn [message set_message set_data]. unfold substr0. rewrite Hzero.
      change (0 =? 0) with true. cbn [when].
      erewrite bind_Ok.
      2:{ rewrite bind_modify. unfold the_mask_id. rewrite bind_get.
          apply store_masks_assign_Ok. cbn. exact Hmid. }
      change (Z.to_nat 0) with 0%nat.
      repeat run_put. cbn [for_loop]. reflexivity. }
    apply read_code_and_phase_bias_skipped. reflexivity.
  - cbn. rewrite list_lookup_insert_eq by exact Hmid. rewrite drop_drop. auto.
Qed.

(** * What the calls on the receiver leave unchanged *)

(** A step of the proof that a call built from the operations on the
    members of the receiver keeps a property that they do not touch. *)
Ltac frame_member :=
  let s := fresh "s" in
  let Hs := fresh "Hs" in
  intros s Hs;
  cbv [get modify store defined ret undefined throw assign assign2 assign3
       copy_prefix reset_slot read_MT1_header bind];
  repeat case_match; simplify_eq; cbn; try exact Hs; auto.

Ltac frame_receiver :=
  repeat
    (cbv zeta;
     lazymatch goal with
     | |- keeps _ (bind _ _) => apply keeps_bind; [|intro]
     | |- keeps _ (when _ _) => apply keeps_when
     | |- keeps _ (for_loop _ _ _) => apply keeps_for_loop; intro
     | |- keeps _ (ret _) => apply keeps_ret
     | |- keeps _ (if ?b then _ else _) => destruct b
     | |- keeps _ _ => frame_member
     end).

Section ReceiverFrames.

Variable K : icd_constants.
Variable rs_decode : list Z -> list Z -> option (list Z).
Variable b : bool.
Variable p : Nav_Message_Packet.

Let untouched : receiver -> Prop := flag_and_packet_are b p.

Lemma store_page_keeps (mid pid : nat) (page_string : text) :
  keeps untouched (store_page mid pid page_string).
Proof. unfold store_page, untouched, flag_and_packet_are. frame_receiver. Qed.

Lemma accumulate_page_keeps (has_page : Galileo_HAS_page) :
  keeps untouched (accumulate_page has_page).
Proof.
  unfold accumulate_page. cbv zeta.
  repeat apply keeps_when.
  apply keeps_bind; [apply keeps_at|]. intros pids.
  apply keeps_when.
  apply keeps_bind; [|intros _; apply store_page_keeps].
  apply keeps_modify. intros r Hr. exact Hr.
Qed.

Lemma decode_columns_keeps (n col message_id : nat) (erasures : list Z) :
  keeps untouched (decode_columns rs_decode n col message_id erasures).
Proof.
  revert col. induction n as [|n IH]; intros col; cbn [decode_columns].
  - apply keeps_ret.
  - apply keeps_bind; [unfold untouched, flag_and_packet_are; frame_receiver|]. intros C.
    apply keeps_bind; [unfold untouched, flag_and_packet_are; frame_receiver|]. intros pids.
    apply keeps_bind; [apply keeps_defined|]. intros C_column.
    destruct (rs_decode C_column erasures) as [C_column'|]; [|apply keeps_ret].
    apply keeps_bind; [apply keeps_defined|]. intros M_column.
    apply keeps_bind; [|intros _; apply IH].
    unfold untouched, flag_and_packet_are. frame_receiver.
Qed.

Lemma read_MT1_header_keeps (message_header : text) :
  keeps untouched (read_MT1_header K message_header).
Proof. unfold untouched, flag_and_packet_are. frame_member. Qed.

Lemma try_read_body_keeps (decoded : text) :
  keeps untouched (try_read_body K decoded).
Proof.
  intros r Hr. unfold try_read_body, read_MT1_body.
  destruct (decide _); [|exact Hr].
  destruct (read_MT1_body_steps K _); exact Hr || exact I.
Qed.

Lemma reset_slot_keeps (mid : nat) :
  keeps untouched (store (reset_slot mid)).
Proof. unfold untouched, flag_and_packet_are. frame_member. Qed.

End ReceiverFrames.

(** * The decoding, seen from the world *)

Lemma pvt_records_monitored (decoded : text) (w : world) :
  pvt_records (monitored decoded w) = pvt_records w.
Proof.
  unfold monitored. destruct (d_enable_navdata_monitor (this w)); [|reflexivity].
  unfold pvt_records. cbn [published]. rewrite flat_map_app. cbn.
  apply app_nil_r.
Qed.

Section WorldFrames.

Variable K : icd_constants.
Variable rs_decode : list Z -> list Z -> option (list Z).

(** A property of the world that the calls on the receiver keep when they
    touch neither the flag of a new message nor the packet of the monitor,
    and that the block of the monitor keeps. *)
Variable W : world -> Prop.
Hypothesis W_on_this : forall A (m : M receiver A),
  (forall b p, keeps (flag_and_packet_are b p) m) -> keeps W (on_this m).
Hypothesis W_monitor : forall decoded, keeps W (publish_to_monitor decoded).

Lemma W_at {A} (f : world -> option A) : keeps W (fun w => defined (f w) w).
Proof. apply keeps_at. Qed.

Lemma publish_and_read_keeps (mid : nat) (decoded : text) :
  keeps W (publish_and_read K mid decoded).
Proof.
  unfold publish_and_read.
  apply keeps_bind; [apply keeps_get|]. intros enabled.
  apply keeps_bind; [apply keeps_when, W_monitor|]. intros _.
  apply keeps_bind; [apply W_on_this; intros; apply reset_slot_keeps|]. intros _.
  apply keeps_bind.
  { apply W_on_this. intros b p. unfold flag_and_packet_are. frame_member. }
  intros _.
  apply keeps_bind; [apply W_on_this; intros; apply read_MT1_header_keeps|].
  intros _. apply W_on_this. intros. apply try_read_body_keeps.
Qed.

Lemma decode_message_type1_keeps (message_id message_size : Z) :
  keeps W (decode_message_type1 K rs_decode message_id message_size).
Proof.
  unfold decode_message_type1. cbv zeta.
  destruct (255 <=? message_size); [apply keeps_undefined|].
  apply keeps_bind; [apply W_at|]. intros pids.
  destruct (decide _).
  - apply keeps_bind; [|intros _; apply keeps_ret].
    apply W_on_this. intros. apply reset_slot_keeps.
  - apply keeps_bind.
    { apply W_on_this. intros b p. unfold flag_and_packet_are. frame_member. }
    intros _.
    apply keeps_bind; [apply W_on_this; intros; apply decode_columns_keeps|].
    intros [|]; [|apply keeps_ret].
    apply keeps_bind; [apply W_at|]. intros decoded.
    apply publish_and_read_keeps.
Qed.

End WorldFrames.

(** The records published to the PVT block are kept by the decoding. *)
Lemma decode_keeps_pvt_records (K : icd_constants)
    (rs_decode : list Z -> list Z -> option (list Z))
    (l : list Galileo_HAS_data) (message_id message_size : Z) :
  keeps (fun w => pvt_records w = l)
    (decode_message_type1 K rs_decode message_id message_size).
Proof.
  apply decode_message_type1_keeps.
  - intros A m _ w Hw. unfold on_this.
    destruct (m (this w)); [exact Hw|exact Hw|exact I].
  - intros decoded w Hw. cbn. unfold pvt_records in *. cbn [published].
    rewrite flat_map_app. cbn. rewrite app_nil_r. exact Hw.
Qed.

(** The flag of a new message is kept by the decoding. *)
Lemma decode_keeps_new_message (K : icd_constants)
    (rs_decode : list Z -> list Z -> option (list Z))
    (b : bool) (message_id message_size : Z) :
  keeps (fun w => d_new_message (this w) = b)
    (decode_message_type1 K rs_decode message_id message_size).
Proof.
  apply decode_message_type1_keeps.
  - intros A m Hm w Hw. unfold on_this.
    specialize (Hm b (d_nav_msg_packet (this w)) (this w) (conj Hw eq_refl)).
    destruct (m (this w)); [apply Hm|apply Hm|exact I].
  - intros decoded w Hw. exact Hw.
Qed.

(** The decoding keeps the PRN and the time of week of the packets. *)
Lemma decode_keeps_monitor_invariant (K : icd_constants)
    (rs_decode : list Z -> list Z -> option (list Z))
    (message_id message_size : Z) :
  keeps monitor_invariant (decode_message_type1 K rs_decode message_id message_size).
Proof.
  apply decode_message_type1_keeps.
  - intros A m Hm w [Hp Hall]. unfold on_this.
    specialize (Hm (d_new_message (this w)) (d_nav_msg_packet (this w)) (this w)
                  (conj eq_refl eq_refl)).
    destruct (m (this w)) as [a r|e r|]; [| |exact I];
      destruct Hm as [_ Hm]; (split; [cbn; rewrite Hm; exact Hp|exact Hall]).
  - intros decoded w [Hp Hall]. cbn. split; [exact Hp|].
    unfold monitor_packets. cbn [published]. rewrite flat_map_app.
    apply Forall_app. split; [exact Hall|]. cbn. apply Forall_singleton. exact Hp.
Qed.

(** * Texts of bits *)

Lemma forallb_Forall {A} (f : A -> bool) (l : list A) :
  forallb f l = true <-> Forall (fun x => f x = true) l.
Proof.
  induction l as [|x l IH]; cbn.
  - split; [intros _; apply Forall_nil_2|reflexivity].
  - rewrite andb_true_iff, IH, Forall_cons. reflexivity.
Qed.

Lemma forallb_take {A} (f : A -> bool) (n : nat) (l : list A) :
  forallb f l = true -> forallb f (take n l) = true.
Proof. rewrite !forallb_Forall. apply Forall_take. Qed.

Lemma forallb_drop {A} (f : A -> bool) (n : nat) (l : list A) :
  forallb f l = true -> forallb f (drop n l) = true.
Proof. rewrite !forallb_Forall. apply Forall_drop. Qed.

Lemma bitset8_to_string_bits (b : Z) : forallb is_bit (bitset8_to_string b) = true.
Proof.
  unfold bitset8_to_string. apply forallb_Forall, Forall_fmap, Forall_forall.
  intros k _. cbn. destruct (Z.testbit b _); reflexivity.
Qed.

Lemma flat_map_bitset8_bits (row : list Z) :
  forallb is_bit (flat_map bitset8_to_string row) = true.
Proof.
  induction row as [|b row IH]; [reflexivity|].
  cbn [flat_map]. rewrite forallb_app, bitset8_to_string_bits, IH. reflexivity.
Qed.

(** The text read from [d_M_matrix] is made of '0' and '1'. *)
Lemma rows_to_text_bits (Mx : list (list Z)) (message_size : nat) (t : text) :
  rows_to_text Mx message_size = Some t -> forallb is_bit t = true.
Proof.
  unfold rows_to_text.
  assert (H : forall rows acc t',
             (forall t0, acc = Some t0 -> forallb is_bit t0 = true) ->
             fold_left
               (fun acc row =>
                  t ← acc;
                  r ← Mx !! row;
                  if decide (GALILEO_CNAV_OCTETS_IN_SUBPAGE <= length r)%nat
                  then Some (t ++ flat_map bitset8_to_string
                                    (take GALILEO_CNAV_OCTETS_IN_SUBPAGE r))
                  else None) rows acc = Some t' ->
             forallb is_bit t' = true).
  { induction rows as [|row rows IH]; intros acc t' Hacc; cbn [fold_left].
    - apply Hacc.
    - apply IH. intros t0.
      destruct acc as [t1|]; cbn; [|discriminate].
      destruct (Mx !! row) as [r|]; cbn; [|discriminate].
      destruct (decide _); [|discriminate].
      intros [= <-]. rewrite forallb_app, (Hacc t1 eq_refl), flat_map_bitset8_bits.
      reflexivity. }
  apply H. intros t0 [= <-]. reflexivity.
Qed.

(** * The vertical decoding *)

Section Vertical.

Variable K : icd_constants.
Variable rs_decode : list Z -> list Z -> option (list Z).

(** The vertical decoding changes [d_M_matrix] and nothing else. *)
Lemma decode_columns_but_M (n col message_id : nat) (erasures : list Z)
    (r0 : receiver) :
  keeps (fun r => set_d_M_matrix (fun _ => []) r = r0)
    (decode_columns rs_decode n col message_id erasures).
Proof.
  revert col. induction n as [|n IH]; intros col; cbn [decode_columns].
  - apply keeps_ret.
  - apply keeps_bind; [apply keeps_at|]. intros plane.
    apply keeps_bind; [apply keeps_at|]. intros received.
    apply keeps_bind; [apply keeps_defined|]. intros C_column.
    destruct (rs_decode C_column erasures) as [C_column'|]; [|apply keeps_ret].
    apply keeps_bind; [apply keeps_defined|]. intros M_column.
    apply keeps_bind; [|intros _; apply IH].
    apply keeps_for_loop. intros i.
    apply keeps_bind; [apply keeps_defined|]. intros x.
    apply keeps_store. intros r r' Hr Hassign.
    unfold assign2 in Hassign. repeat case_match; simplify_eq. reflexivity.
Qed.

(** After the vertical decoding, the call goes on with the text. *)
Lemma decode_after_vertical_decoding (message_id message_size : Z) (w : world)
    (r1 : receiver) (decoded : text) :
  vertical_decoding rs_decode message_id message_size w r1 decoded ->
  decode_message_type1 K rs_decode message_id message_size w
  = publish_and_read K (Z.to_nat message_id) decoded (Build_world r1 (published w)).
Proof.
  intros (pids & Hs & Hpids & Hfew & Hdec & Hrows).
  rewrite (decode_message_type1_with_erasures K _ w message_id message_size pids Hs Hpids).
  cbv zeta. rewrite decide_False by lia.
  erewrite bind_Ok; [|apply on_this_Ok; reflexivity].
  erewrite bind_Ok; [|apply on_this_Ok; exact Hdec].
  cbn [published].
  unfold bind at 1. cbn [this]. rewrite Hrows. reflexivity.
Qed.

(** The receiver after the vertical decoding is the one before it, but
    for [d_M_matrix]. *)
Lemma vertical_decoding_frame (message_id message_size : Z) (w : world)
    (r1 : receiver) (decoded : text) :
  vertical_decoding rs_decode message_id message_size w r1 decoded ->
  set_d_M_matrix (fun _ => []) r1 = set_d_M_matrix (fun _ => []) (this w).
Proof.
  intros (pids & _ & _ & _ & Hdec & _).
  match type of Hdec with
  | decode_columns _ ?n ?col ?mid ?er ?r0 = _ =>
      pose proof (decode_columns_but_M n col mid er
                    (set_d_M_matrix (fun _ => []) r0) r0 eq_refl) as Hk
  end.
  rewrite Hdec in Hk. exact Hk.
Qed.

End Vertical.

(** * The statements that follow the vertical decoding *)

Section AfterDecoding.

Variable K : icd_constants.

(** What [publish_and_read] does, when the slot is in range and the header
    can be read: the packet for the monitor, the reset of the slot, and the
    result of the reader of the body turned into 0 or -1. *)
Lemma publish_and_read_run (mid : nat) (decoded : text) (w : world) (h : mt1_header) :
  let n := Z.to_nat (GALILEO_CNAV_MT1_HEADER_BITS K) in
  (mid < length (d_C_matrix (this w)))%nat ->
  (mid < length (d_received_pids (this w)))%nat ->
  forallb is_bit (take n decoded) = true ->
  header_fields K (take n decoded) = Some h ->
  (n <= length decoded)%nat ->
  exists r1,
    reset_slot mid (this (monitored decoded w)) = Some r1 /\
    publish_and_read K mid decoded w
    = match read_MT1_body_steps K (body_entry (d_masks (this w)) h (drop n decoded)) with
      | Ok _ s => Ok 0 (Build_world (leave_body r1 s) (published (monitored decoded w)))
      | Throw _ s =>
          Ok (-1) (Build_world (leave_body r1 s) (published (monitored decoded w)))
      | Undef => Undef
      end.
Proof.
  intros n HC Hp Hbits Hh Hlen.
  assert (Hreset : exists r1, reset_slot mid (this (monitored decoded w)) = Some r1).
  { eexists. apply reset_slot_Some; unfold monitored;
      destruct (d_enable_navdata_monitor (this w)); cbn; assumption. }
  destruct Hreset as [r1 Hreset]. exists r1. split; [exact Hreset|].
  unfold publish_and_read. rewrite bind_get.
  rewrite (bind_Ok _ _ w tt (monitored decoded w)).
  2:{ unfold monitored. destruct (d_enable_navdata_monitor (this w)); reflexivity. }
  rewrite (bind_Ok _ _ _ tt (Build_world r1 (published (monitored decoded w)))).
  2:{ apply on_this_Ok. unfold store. rewrite Hreset. reflexivity. }
  assert (Hmasks : d_masks r1 = d_masks (this w)).
  { destruct (reset_slot_inv _ _ _ Hreset) as (_ & _ & Hm & _). rewrite Hm.
    unfold monitored. destruct (d_enable_navdata_monitor (this w)); reflexivity. }
  unfold bind, on_this, modify, read_MT1_header, substr0. cbn [this published].
  fold n. rewrite Hbits. unfold bind, defined, ret. rewrite Hh.
  unfold modify, try_read_body. fold n. rewrite decide_True by exact Hlen.
  unfold read_MT1_body, enter_body. cbn [d_masks d_HAS_data set_d_HAS_data set_header].
  match goal with
  | |- context [read_MT1_body_steps K ?s] =>
      replace s with (body_entry (d_masks (this w)) h (drop n decoded))
        by (unfold body_entry; cbn; rewrite Hmasks; reflexivity)
  end.
  destruct (read_MT1_body_steps K _) as [[] s|e s|]; reflexivity.
Qed.

End AfterDecoding.

(** * The packets of the monitor *)

Section Monitor.

Variable K : icd_constants.
Variable rs_decode : list Z -> list Z -> option (list Z).

Lemma on_this_keeps_monitor_invariant {A} (m : M receiver A) :
  (forall p, keeps (fun r => d_nav_msg_packet r = p) m) ->
  keeps monitor_invariant (on_this m).
Proof.
  intros Hm w [Hp Hall]. unfold on_this.
  specialize (Hm (d_nav_msg_packet (this w)) (this w) eq_refl).
  destruct (m (this w)) as [a r|e r|]; [| |exact I];
    (split; [cbn; rewrite Hm; exact Hp|exact Hall]).
Qed.

Lemma packet_frame {A} (m : M receiver A) :
  (forall b p, keeps (flag_and_packet_are b p) m) ->
  forall p, keeps (fun r => d_nav_msg_packet r = p) m.
Proof.
  intros H p r Hr. specialize (H (d_new_message r) p r (conj eq_refl Hr)).
  destruct (m r); [apply H|apply H|exact I].
Qed.

Lemma set_new_message_keeps_monitor_invariant (b : bool) :
  keeps monitor_invariant (on_this (modify (set_d_new_message (fun _ => b)))).
Proof. apply on_this_keeps_monitor_invariant. intros p r Hr. exact Hr. Qed.

Lemma process_HAS_page_keeps_monitor_invariant (has_page : Galileo_HAS_page) :
  keeps monitor_invariant (process_HAS_page K rs_decode has_page).
Proof.
  unfold process_HAS_page.
  apply keeps_bind.
  { apply on_this_keeps_monitor_invariant, packet_frame.
    intros. apply accumulate_page_keeps. }
  intros _.
  apply keeps_bind; [apply set_new_message_keeps_monitor_invariant|]. intros _.
  apply keeps_bind; [apply keeps_at|]. intros pids.
  apply keeps_when.
  apply keeps_bind; [apply decode_keeps_monitor_invariant|]. intros res.
  apply keeps_when.
  apply keeps_bind; [apply keeps_at|]. intros nsat.
  apply keeps_when, set_new_message_keeps_monitor_invariant.
Qed.

Lemma publish_to_PVT_keeps_monitor_invariant (d : Galileo_HAS_data) :
  keeps monitor_invariant (message_port_pub (E6_HAS_to_PVT d)).
Proof.
  intros w [Hp Hall]. cbn. split; [exact Hp|].
  unfold monitor_packets. cbn [published]. rewrite flat_map_app. cbn.
  rewrite app_nil_r. exact Hall.
Qed.

Lemma msg_handler_keeps_monitor_invariant (msg : pmt_t) :
  keeps monitor_invariant (msg_handler_galileo_e6_has K rs_decode msg).
Proof.
  unfold msg_handler_galileo_e6_has.
  apply keeps_bind.
  { destruct msg;
      [apply process_HAS_page_keeps_monitor_invariant|apply keeps_ret|apply keeps_throw]. }
  intros _.
  apply keeps_bind; [apply keeps_get|]. intros new_message.
  apply keeps_when.
  apply keeps_bind; [apply keeps_get|]. intros has_data.
  apply keeps_bind; [apply publish_to_PVT_keeps_monitor_invariant|]. intros _.
  apply set_new_message_keeps_monitor_invariant.
Qed.

Lemma react_keeps_monitor_invariant (x : stimulus) :
  keeps monitor_invariant (react K rs_decode x).
Proof.
  destruct x as [msg|enable]; [apply msg_handler_keeps_monitor_invariant|].
  intros w Hw. exact Hw.
Qed.

Lemma run_keeps_monitor_invariant (xs : list stimulus) :
  keeps monitor_invariant (run K rs_decode xs).
Proof.
  induction xs as [|x xs IH]; cbn [run].
  - apply keeps_ret.
  - apply keeps_bind; [apply react_keeps_monitor_invariant|]. intros _. exact IH.
Qed.

Lemma power_on_monitor_invariant : monitor_invariant power_on.
Proof. split; [split; reflexivity|apply Forall_nil_2]. Qed.

(** C10. Whatever the framework does with a receiver just built, every
    packet published on the port of the monitor has the PRN 0 and the time of
    week 0 of the constructor.  And when the monitor is enabled, the
    statements that follow the vertical decoding publish the packet with the
    decoded text before the body is read: it is published, once, whenever
    they return, and they do return, with -1, when the reader of the body
    raises.  So does [decode_message_type1], when its vertical decoding
    gives a text: the packet with this text is published, once, whenever the
    call returns, and the call does return, with -1, when the reader of the
    body raises. *)
Theorem monitor_packet_before_body :
  (forall xs : list stimulus,
     match run K rs_decode xs power_on with
     | Ok _ w | Throw _ w => Forall packet_ok (monitor_packets w)
     | Undef => True
     end) /\
  (forall (mid : nat) (decoded : text) (w : world) (h : mt1_header),
     let n := Z.to_nat (GALILEO_CNAV_MT1_HEADER_BITS K) in
     let packet :=
       {| system := system (d_nav_msg_packet (this w));
          signal := signal (d_nav_msg_packet (this w));
          prn := prn (d_nav_msg_packet (this w));
          tow_at_current_symbol_ms :=
            tow_at_current_symbol_ms (d_nav_msg_packet (this w));
          packet_nav_message := decoded |} in
     d_enable_navdata_monitor (this w) = true ->
     (mid < length (d_C_matrix (this w)))%nat ->
     (mid < length (d_received_pids (this w)))%nat ->
     forallb is_bit (take n decoded) = true ->
     header_fields K (take n decoded) = Some h ->
     (n <= length decoded)%nat ->
     (forall res w',
        publish_and_read K mid decoded w = Ok res w' ->
        published w' = published w ++ [Nav_msg_from_TLM packet]) /\
     (forall e s,
        read_MT1_body_steps K (body_entry (d_masks (this w)) h (drop n decoded))
        = Throw e s ->
        exists w',
          publish_and_read K mid decoded w = Ok (-1) w' /\
          published w' = published w ++ [Nav_msg_from_TLM packet])) /\
  (forall (message_id message_size : Z) (w : world) (r1 : receiver) (decoded : text)
          (h : mt1_header),
     let n := Z.to_nat (GALILEO_CNAV_MT1_HEADER_BITS K) in
     let packet :=
       {| system := system (d_nav_msg_packet (this w));
          signal := signal (d_nav_msg_packet (this w));
          prn := prn (d_nav_msg_packet (this w));
          tow_at_current_symbol_ms :=
            tow_at_current_symbol_ms (d_nav_msg_packet (this w));
          packet_nav_message := decoded |} in
     d_enable_navdata_monitor (this w) = true ->
     vertical_decoding rs_decode message_id message_size w r1 decoded ->
     (Z.to_nat message_id < length (d_C_matrix (this w)))%nat ->
     header_fields K (take n decoded) = Some h ->
     (n <= length decoded)%nat ->
     (forall res w',
        decode_message_type1 K rs_decode message_id message_size w = Ok res w' ->
        published w' = published w ++ [Nav_msg_from_TLM packet]) /\
     (forall e s,
        read_MT1_body_steps K (body_entry (d_masks (this w)) h (drop n decoded))
        = Throw e s ->
        exists w',
          decode_message_type1 K rs_decode message_id message_size w = Ok (-1) w' /\
          published w' = published w ++ [Nav_msg_from_TLM packet])).
Proof.
  assert (Hblock :
    forall (mid : nat) (decoded : text) (w : world) (h : mt1_header),
      let n := Z.to_nat (GALILEO_CNAV_MT1_HEADER_BITS K) in
      let packet :=
        {| system := system (d_nav_msg_packet (this w));
           signal := signal (d_nav_msg_packet (this w));
           prn := prn (d_nav_msg_packet (this w));
           tow_at_current_symbol_ms :=
             tow_at_current_symbol_ms (d_nav_msg_packet (this w));
           packet_nav_message := decoded |} in
      d_enable_navdata_monitor (this w) = true ->
      (mid < length (d_C_matrix (this w)))%nat ->
      (mid < length (d_received_pids (this w)))%nat ->
      forallb is_bit (take n decoded) = true ->
      header_fields K (take n decoded) = Some h ->
      (n <= length decoded)%nat ->
      (forall res w',
         publish_and_read K mid decoded w = Ok res w' ->
         published w' = published w ++ [Nav_msg_from_TLM packet]) /\
      (forall e s,
         read_MT1_body_steps K (body_entry (d_masks (this w)) h (drop n decoded))
         = Throw e s ->
         exists w',
           publish_and_read K mid decoded w = Ok (-1) w' /\
           published w' = published w ++ [Nav_msg_from_TLM packet])).
  { intros mid decoded w h n packet Hen HC Hp Hbits Hh Hlen.
    destruct (publish_and_read_run K mid decoded w h HC Hp Hbits Hh Hlen)
      as (r1 & _ & Hrun).
    fold n in Hrun. rewrite Hrun.
    assert (Hpub : published (monitored decoded w)
                   = published w ++ [Nav_msg_from_TLM packet]).
    { unfold monitored. rewrite Hen. reflexivity. }
    split.
    + intros res w'.
      destruct (read_MT1_body_steps K _) as [[] s|e s|]; [| |discriminate];
        intros [= _ <-]; exact Hpub.
    + intros e s Hthrow. rewrite Hthrow. eexists. split; [reflexivity|exact Hpub]. }
  split; [|split; [exact Hblock|]].
  2:{ intros message_id message_size w r1 decoded h n packet Hen Hvert HC Hh Hlen.
      pose proof (vertical_decoding_frame rs_decode _ _ _ _ _ Hvert) as Hframe.
      pose proof (f_equal d_C_matrix Hframe) as EC.
      pose proof (f_equal d_received_pids Hframe) as Ep.
      pose proof (f_equal d_masks Hframe) as Em.
      pose proof (f_equal d_enable_navdata_monitor Hframe) as Ee.
      pose proof (f_equal d_nav_msg_packet Hframe) as Ek.
      cbn in EC, Ep, Em, Ee, Ek.
      rewrite (decode_after_vertical_decoding K rs_decode _ _ _ _ _ Hvert).
      pose proof Hvert as (pids & _ & Hpids & _ & _ & Hrows).
      pose proof (lookup_lt_Some _ _ _ Hpids) as Hp.
      destruct (Hblock (Z.to_nat message_id) decoded (Build_world r1 (published w)) h)
        as [Hpub Hraise].
      - cbn [this]. rewrite Ee. exact Hen.
      - cbn [this]. rewrite EC. exact HC.
      - cbn [this]. rewrite Ep. exact Hp.
      - apply forallb_take, (rows_to_text_bits _ _ _ Hrows).
      - exact Hh.
      - exact Hlen.
      - cbn [this published] in Hpub, Hraise. rewrite Ek, Em in *.
        split; [exact Hpub|exact Hraise]. }
  - intros xs.
    pose proof (run_keeps_monitor_invariant xs power_on power_on_monitor_invariant) as H.
    destruct (run K rs_decode xs power_on); [apply H|apply H|exact I].
Qed.

End Monitor.

(** * The records sent to the PVT block *)

Section Pvt.

Variable K : icd_constants.
Variable rs_decode : list Z -> list Z -> option (list Z).

Lemma on_this_keeps_pvt_records {A} (m : M receiver A) (l : list Galileo_HAS_data) :
  keeps (fun w => pvt_records w = l) (on_this m).
Proof.
  intros w Hw. unfold on_this. destruct (m (this w)); [exact Hw|exact Hw|exact I].
Qed.

Lemma process_HAS_page_keeps_pvt_records (p : Galileo_HAS_page)
    (l : list Galileo_HAS_data) :
  keeps (fun w => pvt_records w = l) (process_HAS_page K rs_decode p).
Proof.
  unfold process_HAS_page.
  apply keeps_bind; [apply on_this_keeps_pvt_records|]. intros _.
  apply keeps_bind; [apply on_this_keeps_pvt_records|]. intros _.
  apply keeps_bind; [apply keeps_at|]. intros pids.
  apply keeps_when.
  apply keeps_bind; [apply decode_keeps_pvt_records|]. intros res.
  apply keeps_when.
  apply keeps_bind; [apply keeps_at|]. intros nsat.
  apply keeps_when, on_this_keeps_pvt_records.
Qed.

(** The handler returns with the flag of a new message cleared. *)
Lemma msg_handler_clears_new_message (msg : pmt_t) (w w' : world) :
  (msg = other_object -> d_new_message (this w) = false) ->
  msg_handler_galileo_e6_has K rs_decode msg w = Ok tt w' ->
  d_new_message (this w') = false.
Proof.
  intros Hother. unfold msg_handler_galileo_e6_has.
  intros H. apply bind_Ok_inv in H as ([] & w1 & _ & H).
  rewrite bind_get in H.
  destruct (d_new_message (this w1)) eqn:Hnew; cbn [when] in H.
  - rewrite bind_get in H. unfold bind, message_port_pub, modify, on_this in H.
    cbn in H. injection H as <-. reflexivity.
  - injection H as <-. exact Hnew.
Qed.

Lemma run_clears_new_message (xs : list stimulus) (w0 w : world) :
  d_new_message (this w0) = false ->
  run K rs_decode xs w0 = Ok tt w ->
  d_new_message (this w) = false.
Proof.
  revert w0. induction xs as [|x xs IH]; intros w0 H0; cbn [run].
  - intros [= <-]. exact H0.
  - intros H. apply bind_Ok_inv in H as ([] & w1 & Hx & Hrun).
    apply (IH w1); [|exact Hrun].
    destruct x as [msg|enable]; cbn [react] in Hx.
    + apply (msg_handler_clears_new_message msg w0 w1); [intros _; exact H0|exact Hx].
    + injection Hx as <-. exact H0.
Qed.

(** When a page leaves the flag of a new message set, it has completed a
    message decoded with success and with a mask. *)
Lemma process_HAS_page_sets_flag (p : Galileo_HAS_page) (w w1 : world) :
  process_HAS_page K rs_decode p w = Ok tt w1 ->
  d_new_message (this w1) = true ->
  decoded_with_mask K rs_decode p w (d_HAS_data (this w1)).
Proof.
  unfold process_HAS_page. intros H Hnew.
  apply bind_Ok_inv in H as ([] & wa & Hacc & H).
  apply bind_Ok_inv in H as ([] & wb & Hclear & H).
  assert (Hwb : wb = set_this (set_d_new_message (fun _ => false)) wa).
  { unfold on_this, modify in Hclear. injection Hclear as <-. reflexivity. }
  apply bind_Ok_inv in H as (pids & wb' & Hpids & H).
  destruct (d_received_pids (this wb) !! Z.to_nat (message_id p)) as [pids'|] eqn:Hl;
    [|discriminate].
  cbn in Hpids. injection Hpids as <- <-.
  destruct (Z.of_nat (length pids') =? message_size p) eqn:Hsize; cbn [when] in H.
  2:{ injection H as <-. subst wb. cbn in Hnew. discriminate. }
  apply bind_Ok_inv in H as (res & wd & Hdec & H).
  assert (Hflag : d_new_message (this wd) = false).
  { pose proof (decode_keeps_new_message K rs_decode false (message_id p)
                  (message_size p) wb) as Hk.
    rewrite Hdec in Hk. apply Hk. subst wb. reflexivity. }
  destruct (res =? 0) eqn:Hres; cbn [when] in H.
  2:{ injection H as <-. congruence. }
  apply Z.eqb_eq in Hres. subst res.
  apply bind_Ok_inv in H as (n & wd' & Hn & H).
  destruct (d_nsat_in_mask_id (d_masks (this wd))
              !! Z.to_nat (mask_id (header (d_HAS_data (this wd))))) as [n'|] eqn:Hnsat;
    [|discriminate].
  cbn in Hn. injection Hn as <- <-.
  destruct (n' =? 0) eqn:Hzero; cbn [when negb] in H.
  { injection H as <-. congruence. }
  unfold on_this, modify in H. injection H as <-.
  exists wa, pids', wd, n'. subst wb. cbn in Hl.
  repeat split; try assumption.
  - apply Z.eqb_eq, Hsize.
  - apply Z.eqb_neq, Hzero.
Qed.

(** C1. Along any run of a receiver just built, the handler publishes on
    the port of the PVT block exactly one record, the record decoded, for a
    page that completes a message decoded with success while the number of
    satellites stored for its mask identifier is not zero; it publishes
    none in any other case in which it returns, and none when it is left by
    an exception. *)
Theorem pvt_record_once_per_decode (xs : list stimulus) (w : world) :
  run K rs_decode xs power_on = Ok tt w ->
  (forall p d,
     decoded_with_mask K rs_decode p w d ->
     exists w',
       msg_handler_galileo_e6_has K rs_decode (HAS_page_object p) w = Ok tt w' /\
       pvt_records w' = pvt_records w ++ [d]) /\
  (forall msg w',
     msg_handler_galileo_e6_has K rs_decode msg w = Ok tt w' ->
     ~ (exists p d, msg = HAS_page_object p /\ decoded_with_mask K rs_decode p w d) ->
     pvt_records w' = pvt_records w) /\
  (forall msg e w',
     msg_handler_galileo_e6_has K rs_decode msg w = Throw e w' ->
     pvt_records w' = pvt_records w).
Proof.
  intros Hrun.
  assert (Hidle : d_new_message (this w) = false).
  { apply (run_clears_new_message xs power_on w); [reflexivity|exact Hrun]. }
  split; [|split].
  - intros p d (wa & pids & wd & n & Hacc & Hpids & Hsize & Hdec & Hnsat & Hn & ->).
    assert (Hpvt : pvt_records wd = pvt_records w).
    { pose proof (decode_keeps_pvt_records K rs_decode (pvt_records w) (message_id p)
                    (message_size p)
                    (set_this (set_d_new_message (fun _ => false)) wa)) as Hk.
      rewrite Hdec in Hk. apply Hk.
      pose proof (on_this_keeps_pvt_records (accumulate_page p) (pvt_records w) w
                    eq_refl) as Ha.
      rewrite Hacc in Ha. exact Ha. }
    eexists. split.
    + unfold msg_handler_galileo_e6_has.
      erewrite bind_Ok; cycle 1.
      { unfold process_HAS_page.
        rewrite (bind_Ok _ _ _ _ _ Hacc).
        rewrite (bind_Ok _ _ wa tt (set_this (set_d_new_message (fun _ => false)) wa))
          by reflexivity.
        rewrite (bind_Ok _ _ _ pids (set_this (set_d_new_message (fun _ => false)) wa))
          by (cbn; rewrite Hpids; reflexivity).
        apply Z.eqb_eq in Hsize. rewrite Hsize. cbn [when].
        rewrite (bind_Ok _ _ _ _ _ Hdec). cbn [Z.eqb when].
        rewrite (bind_Ok _ _ _ n wd) by (rewrite Hnsat; reflexivity).
        apply Z.eqb_neq in Hn. rewrite Hn. cbn [negb when]. reflexivity. }
      rewrite bind_get. cbn [this set_d_new_message d_new_message when].
      rewrite bind_get. reflexivity.
    + cbn. unfold pvt_records in *. cbn [published]. rewrite flat_map_app, Hpvt.
      reflexivity.
  - intros msg w' H Hnone.
    pose proof H as H'. unfold msg_handler_galileo_e6_has in H'.
    apply bind_Ok_inv in H' as ([] & w1 & Hfirst & Hrest).
    assert (Hpvt : pvt_records w1 = pvt_records w).
    { destruct msg as [p| |].
      - pose proof (process_HAS_page_keeps_pvt_records p (pvt_records w) w eq_refl) as Hk.
        rewrite Hfirst in Hk. exact Hk.
      - injection Hfirst as <-. reflexivity.
      - discriminate Hfirst. }
    rewrite bind_get in Hrest.
    destruct (d_new_message (this w1)) eqn:Hnew; cbn [when] in Hrest.
    + exfalso. apply Hnone. destruct msg as [p| |].
      * exists p, (d_HAS_data (this w1)). split; [reflexivity|].
        apply process_HAS_page_sets_flag; assumption.
      * injection Hfirst as <-. congruence.
      * discriminate Hfirst.
    + injection Hrest as <-. exact Hpvt.
  - intros msg e w' H.
    unfold msg_handler_galileo_e6_has, bind in H.
    destruct msg as [p| |].
    + pose proof (process_HAS_page_keeps_pvt_records p (pvt_records w) w eq_refl) as Hk.
      destruct (process_HAS_page K rs_decode p w) as [[] w1|e1 w1|]; [|congruence|discriminate].
      unfold get in H. destruct (d_new_message (this w1)); discriminate.
    + cbn in H. rewrite Hidle in H. discriminate.
    + cbn in H. injection H as _ <-. reflexivity.
Qed.

End Pvt.

(** * No exception leaves the handler on a page of the data model *)

Section NoException.

Variable K : icd_constants.
Variable rs_decode : list Z -> list Z -> option (list Z).

Lemma store_page_never_throws (mid pid : nat) (page_string : text) :
  payload_ok page_string -> never_throws (store_page mid pid page_string).
Proof.
  intros [Hlen Hbits]. unfold store_page.
  apply never_throws_for_loop_bounded. intros k Hk.
  unfold GALILEO_CNAV_OCTETS_IN_SUBPAGE in Hk.
  rewrite decide_True by lia.
  rewrite forallb_take by (apply forallb_drop, Hbits).
  apply never_throws_store.
Qed.

Lemma accumulate_page_never_throws (p : Galileo_HAS_page) :
  payload_ok (has_message_string p) -> never_throws (accumulate_page p).
Proof.
  intros Hp. unfold accumulate_page. cbv zeta.
  repeat apply never_throws_when.
  apply never_throws_bind; [apply never_throws_at|]. intros pids.
  apply never_throws_when.
  apply never_throws_bind; [apply never_throws_modify|]. intros _.
  apply store_page_never_throws, Hp.
Qed.

Lemma decode_columns_never_throws (n col message_id : nat) (erasures : list Z) :
  never_throws (decode_columns rs_decode n col message_id erasures).
Proof.
  revert col. induction n as [|n IH]; intros col; cbn [decode_columns].
  - apply never_throws_ret.
  - apply never_throws_bind; [apply never_throws_at|]. intros C.
    apply never_throws_bind; [apply never_throws_at|]. intros pids.
    apply never_throws_bind; [apply never_throws_defined|]. intros C_column.
    destruct (rs_decode C_column erasures) as [C_column'|]; [|apply never_throws_ret].
    apply never_throws_bind; [apply never_throws_defined|]. intros M_column.
    apply never_throws_bind; [|intros _; apply IH].
    apply never_throws_for_loop. intros i.
    apply never_throws_bind; [apply never_throws_defined|]. intros x.
    apply never_throws_store.
Qed.

Lemma read_MT1_header_never_throws (message_header : text) :
  forallb is_bit message_header = true ->
  never_throws (read_MT1_header K message_header).
Proof.
  intros H. unfold read_MT1_header. rewrite H.
  apply never_throws_bind; [apply never_throws_defined|]. intros h.
  apply never_throws_modify.
Qed.

(** Whatever the reader of the body raises is caught. *)
Lemma try_read_body_never_throws (decoded : text) :
  never_throws (try_read_body K decoded).
Proof.
  intros r _. unfold try_read_body.
  destruct (decide _); [|exact I].
  destruct (read_MT1_body K _ r); exact I.
Qed.

Lemma publish_and_read_never_throws (mid : nat) (decoded : text) :
  forallb is_bit decoded = true -> never_throws (publish_and_read K mid decoded).
Proof.
  intros Hbits. unfold publish_and_read.
  apply never_throws_bind; [apply never_throws_get|]. intros enabled.
  apply never_throws_bind.
  { apply never_throws_when. unfold publish_to_monitor.
    apply never_throws_bind; [apply never_throws_on_this, never_throws_modify|].
    intros _. apply never_throws_bind; [apply never_throws_get|]. intros tmp.
    apply never_throws_modify. }
  intros _.
  apply never_throws_bind; [apply never_throws_on_this, never_throws_store|].
  intros _.
  apply never_throws_bind; [apply never_throws_on_this, never_throws_modify|].
  intros _.
  apply never_throws_bind.
  { apply never_throws_on_this, read_MT1_header_never_throws.
    unfold substr0. apply forallb_take, Hbits. }
  intros _. apply never_throws_on_this, try_read_body_never_throws.
Qed.

Lemma decode_message_type1_never_throws (message_id message_size : Z) :
  never_throws (decode_message_type1 K rs_decode message_id message_size).
Proof.
  unfold decode_message_type1. cbv zeta.
  destruct (255 <=? message_size); [apply never_throws_undefined|].
  apply never_throws_bind; [apply never_throws_at|]. intros pids.
  destruct (decide _).
  - apply never_throws_bind; [apply never_throws_on_this, never_throws_store|].
    intros _. apply never_throws_ret.
  - apply never_throws_bind; [apply never_throws_on_this, never_throws_modify|].
    intros _.
    apply never_throws_bind;
      [apply never_throws_on_this, decode_columns_never_throws|].
    intros [|]; [|apply never_throws_ret].
    intros w _. unfold bind.
    destruct (rows_to_text (d_M_matrix (this w)) (Z.to_nat message_size))
      as [decoded|] eqn:Hrows; cbn; [|exact I].
    apply (publish_and_read_never_throws _ decoded (rows_to_text_bits _ _ _ Hrows) w I).
Qed.

Lemma process_HAS_page_never_throws (p : Galileo_HAS_page) :
  payload_ok (has_message_string p) ->
  never_throws (process_HAS_page K rs_decode p).
Proof.
  intros Hp. unfold process_HAS_page.
  apply never_throws_bind;
    [apply never_throws_on_this, accumulate_page_never_throws, Hp|]. intros _.
  apply never_throws_bind; [apply never_throws_on_this, never_throws_modify|].
  intros _.
  apply never_throws_bind; [apply never_throws_at|]. intros pids.
  apply never_throws_when.
  apply never_throws_bind; [apply decode_message_type1_never_throws|]. intros res.
  apply never_throws_when.
  apply never_throws_bind; [apply never_throws_at|]. intros nsat.
  apply never_throws_when, never_throws_on_this, never_throws_modify.
Qed.

End NoException.

(** * The statements on the sample inputs *)

Lemma returned_Ok {St} (o : outcome St unit) (default : St) :
  returned o = true -> o = Ok tt (state_of default o).
Proof. destruct o as [[] s|e s|]; [reflexivity|discriminate|discriminate]. Qed.

Lemma result_of_Ok {St} (o : outcome St Z) (default : St) (z : Z) :
  result_of o = Some z -> o = Ok z (state_of default o).
Proof. destruct o as [a s|e s|]; [intros [= ->]; reflexivity|discriminate|discriminate]. Qed.

Lemma raised_Throw {St A} (o : outcome St A) (default : St) (e : exn) :
  raised o = Some e -> o = Throw e (state_of default o).
Proof. destruct o as [a s|e' s|]; [discriminate|intros [= ->]; reflexivity|discriminate]. Qed.

(** The page with the unknown system completes a message that is decoded
    with its mask. *)
Lemma page_unknown_system_decoded :
  decoded_with_mask sample_constants sample_rs_decode page_unknown_system power_on
    record_unknown_system.
Proof.
  set (wa := state_of power_on (on_this (accumulate_page page_unknown_system) power_on)).
  set (wd := state_of power_on
               (decode_message_type1 sample_constants sample_rs_decode 5 1
                  (set_this (set_d_new_message (fun _ => false)) wa))).
  exists wa, [1], wd, 1.
  split; [|split; [|split; [|split; [|split; [|split]]]]].
  - apply (returned_Ok _ power_on). vm_compute. reflexivity.
  - vm_compute. reflexivity.
  - reflexivity.
  - apply (result_of_Ok _ power_on). vm_compute. reflexivity.
  - vm_compute. reflexivity.
  - discriminate.
  - vm_compute. reflexivity.
Qed.

Lemma pvt_record_once_per_decode_witness :
  sample_run [] = Ok tt power_on /\
  exists w',
    msg_handler_galileo_e6_has sample_constants sample_rs_decode
      (HAS_page_object page_unknown_system) power_on = Ok tt w' /\
    pvt_records w' = pvt_records power_on ++ [record_unknown_system].
Proof.
  split; [reflexivity|].
  destruct (pvt_record_once_per_decode sample_constants sample_rs_decode [] power_on
              eq_refl) as [Hpublished _].
  apply Hpublished, page_unknown_system_decoded.
Defined.

Lemma erasure_positions_and_guard_witness :
  (0 <= 1 < 255 /\
   d_received_pids (this world_with_page_five) !! Z.to_nat 3 = Some [5] /\
   (223 < length (erasure_positions [5%Z] 1%Z))%nat /\
   NoDup (erasure_positions [5] 1) /\
   exists w',
     decode_message_type1 sample_constants sample_rs_decode 3 1 world_with_page_five
     = Ok (-1) w' /\
     d_received_pids (this w') !! Z.to_nat 3 = Some [] /\
     d_C_matrix (this w') !! Z.to_nat 3 = Some (zero_matrix 255 53) /\
     published w' = published world_with_page_five) /\
  (let w := Build_world
              (set_d_received_pids (fun v => <[3%nat := [1; 33]]> v)
                 galileo_e6_has_msg_receiver) [] in
   (length (erasure_positions [1%Z; 33%Z] 2%Z) <= 223)%nat /\
   sample_rs_decode (replicate 255 0) (erasure_positions [1; 33] 2) = None /\
   decode_message_type1 sample_constants sample_rs_decode 3 2 w
   = Ok (-1) (set_this (set_d_M_matrix (fun _ => zero_matrix 32 53)) w)).
Proof.
  split.
  - assert (H1 : 0 <= 1 < 255) by lia.
    assert (H2 : d_received_pids (this world_with_page_five) !! Z.to_nat 3 = Some [5])
      by reflexivity.
    assert (H3 : (Z.to_nat 3 < length (d_C_matrix (this world_with_page_five)))%nat)
      by (vm_compute; lia).
    assert (H4 : (223 < length (erasure_positions [5%Z] 1%Z))%nat) by (vm_compute; lia).
    destruct (erasure_positions_and_guard sample_constants sample_rs_decode
                world_with_page_five 3 1 [5] H1 H2 H3) as (_ & Hnodup & Hguard & _).
    destruct (Hguard H4) as (w' & Hrun & _ & Hpids & HC & Hpub).
    split; [exact H1|]. split; [exact H2|]. split; [exact H4|].
    split; [apply Hnodup; lia|].
    exists w'. repeat apply conj; assumption.
  - intros w.
    assert (H1 : 0 <= 2 < 255) by lia.
    assert (H2 : d_received_pids (this w) !! Z.to_nat 3 = Some [1; 33]) by reflexivity.
    assert (H3 : (Z.to_nat 3 < length (d_C_matrix (this w)))%nat) by (vm_compute; lia).
    assert (H4 : (length (erasure_positions [1%Z; 33%Z] 2%Z) <= 223)%nat)
      by (vm_compute; lia).
    assert (H5 : sample_rs_decode (replicate 255 0) (erasure_positions [1; 33] 2) = None)
      by (vm_compute; reflexivity).
    destruct (erasure_positions_and_guard sample_constants sample_rs_decode
                w 3 2 [1; 33] H1 H2 H3) as (_ & _ & _ & _ & Hrefused).
    split; [exact H4|]. split; [exact H5|].
    apply (Hrefused H4 (zero_matrix 255 53) (replicate 255 0)).
    + reflexivity.
    + vm_compute. reflexivity.
    + exact H5.
Defined.

(** C3: on the clock subset with two satellites, both in the submask, the
    handler returns and publishes a record in which one delta is stored for
    the system: the second one read, 2; the first one, 1, is lost. *)
Lemma clock_subset_keeps_last_delta :
  returned (sample_run [deliver (HAS_page_object page_clock_subset)]) = true /\
  map satellite_submask
    (pvt_records (world_after [deliver (HAS_page_object page_clock_subset)]))
  = [[[1; 1]]] /\
  map delta_clock_c0_clock_subset
    (pvt_records (world_after [deliver (HAS_page_object page_clock_subset)]))
  = [[2]].
Proof. repeat apply conj; vm_compute; reflexivity. Qed.

(** C4: the handler is left by [std::out_of_range] on a page whose payload
    is empty, and by [std::invalid_argument] on a page whose payload has a
    character that is neither '0' nor '1'; and it has no defined result on
    a page of 424 characters '0' or '1' whose orbit corrections make it look
    at an entry of [gnss_id_mask] that the vector does not have. *)
Lemma short_payload_leaves_handler :
  raised (sample_run [deliver (HAS_page_object page_without_payload)])
  = Some out_of_range /\
  raised (sample_run [deliver (HAS_page_object page_with_letter)])
  = Some invalid_argument /\
  payload_ok (has_message_string page_two_satellites) /\
  sample_run [deliver (HAS_page_object page_two_satellites)] = Undef.
Proof. repeat apply conj; vm_compute; reflexivity. Qed.

(** C5: a page with the page identifier 0 fails the screening, and yet
    clears the slot of its message identifier, which held the page
    identifier 5. *)
Lemma screened_page_resets_slot :
  returned (sample_run [deliver (HAS_page_object page_five_of_two)]) = true /\
  d_received_pids (this (world_after [deliver (HAS_page_object page_five_of_two)]))
    !! 3%nat = Some [5] /\
  returned (sample_run [deliver (HAS_page_object page_five_of_two);
                        deliver (HAS_page_object page_zero)]) = true /\
  d_received_pids (this (world_after [deliver (HAS_page_object page_five_of_two);
                                      deliver (HAS_page_object page_zero)]))
    !! 3%nat = Some [].
Proof. repeat apply conj; vm_compute; reflexivity. Qed.

(** C6: with a system that is neither GPS nor Galileo the reader of the
    body raises nothing, and the record is published, with the deltas read
    where an IOD would be. *)
Lemma unknown_system_is_read :
  raised (read_MT1_body_steps sample_constants
            (body_entry (d_masks galileo_e6_has_msg_receiver) header_unknown_system
               body_unknown_system)) = None /\
  returned (sample_run [deliver (HAS_page_object page_unknown_system)]) = true /\
  pvt_records (world_after [deliver (HAS_page_object page_unknown_system)])
  = [record_unknown_system].
Proof. repeat apply conj; vm_compute; reflexivity. Qed.

Lemma orbit_iod_width_witness :
  slot_of_satellite (satellite_mask (data orbit_gps_state)) 0 0 = Some 0%nat /\
  gnss_id_mask (data orbit_gps_state) !! 0%nat = Some HAS_MSG_GPS_SYSTEM /\
  exists s',
    read_orbit_satellite 0 orbit_gps_state = Ok tt s' /\
    message s' = [] /\
    gnss_iod (data s') !! 0%nat = Some 77 /\
    delta_radial (data s') !! 0%nat = Some (-1).
Proof.
  assert (H1 : slot_of_satellite (satellite_mask (data orbit_gps_state)) 0 0
               = Some 0%nat) by reflexivity.
  assert (H2 : gnss_id_mask (data orbit_gps_state) !! 0%nat = Some HAS_MSG_GPS_SYSTEM)
    by reflexivity.
  destruct (orbit_iod_width 0 orbit_gps_state HAS_MSG_GPS_SYSTEM H1 H2)
    as (s' & Hrun & Hm & Hiod & Hrad); try (vm_compute; lia).
  split; [exact H1|]. split; [exact H2|].
  exists s'. split; [exact Hrun|]. rewrite Hm, Hiod, Hrad.
  repeat apply conj; vm_compute; reflexivity.
Defined.

Lemma crazy_toh_discards_mask_witness :
  HAS_MSG_NUMBER_MAX_TOH < toh (header (data toh_3700_entry)) /\
  read_MT1_body_steps sample_constants toh_3700_entry = Ok tt toh_3700_state /\
  have_mask toh_3700_state = false /\
  d_nsat_in_mask_id (masks toh_3700_state) !! 3%nat = Some 0.
Proof.
  assert (H1 : HAS_MSG_NUMBER_MAX_TOH < toh (header (data toh_3700_entry)))
    by (vm_compute; reflexivity).
  assert (H2 : read_MT1_body_steps sample_constants toh_3700_entry
               = Ok tt toh_3700_state)
    by (apply (returned_Ok _ toh_3700_entry); vm_compute; reflexivity).
  destruct (crazy_toh_discards_mask sample_constants toh_3700_entry toh_3700_state
              H1 H2) as (Hhave & _ & _ & Hnsat & _).
  repeat apply conj; assumption.
Defined.

Lemma monitor_packet_before_body_witness :
  match sample_run [enable_monitor true; deliver (HAS_page_object page_mask_40);
                    deliver (HAS_page_object page_underrun)] with
  | Ok _ w | Throw _ w => Forall packet_ok (monitor_packets w)
  | Undef => True
  end /\
  exists w',
    publish_and_read sample_constants 6 (has_message_string page_underrun)
      (world_after [enable_monitor true; deliver (HAS_page_object page_mask_40)])
    = Ok (-1) w' /\
    length (monitor_packets w') = 2%nat.
Proof.
  destruct (monitor_packet_before_body sample_constants sample_rs_decode)
    as (Hall & Hpub & _).
  split; [apply Hall|].
  destruct (Hpub 6%nat (has_message_string page_underrun)
              (world_after [enable_monitor true; deliver (HAS_page_object page_mask_40)])
              header_underrun) as [_ Hraise].
  - vm_compute. reflexivity.
  - vm_compute. lia.
  - vm_compute. lia.
  - vm_compute. reflexivity.
  - vm_compute. reflexivity.
  - vm_compute. lia.
  - destruct (Hraise length_error
                (underrun_state
                   (world_after [enable_monitor true;
                                 deliver (HAS_page_object page_mask_40)])))
      as (w' & Hrun & Hp).
    + apply (raised_Throw _ (underrun_entry
                                (world_after [enable_monitor true;
                                              deliver (HAS_page_object page_mask_40)]))).
      vm_compute. reflexivity.
    + exists w'. split; [exact Hrun|].
      unfold monitor_packets. rewrite Hp, flat_map_app, length_app.
      vm_compute. reflexivity.
Defined.

(** * Readings of the signed reader *)

Example read_int16_all_ones : read_has_message_body_int16 (bits_of 13 8191) = -1.
Proof. reflexivity. Qed.

Example read_int16_least : read_has_message_body_int16 (bits_of 11 1024) = -1024.
Proof. reflexivity. Qed.

Example read_int16_greatest : read_has_message_body_int16 (bits_of 12 2047) = 2047.
Proof. reflexivity. Qed.

(** * The unsigned readers *)

Lemma unsigned_step_mod (w : Z) (v0 : Z) (c : ascii) :
  0 <= w ->
  unsigned_step w (v0 mod 2 ^ w) c
  = (2 * v0 + (if is_one c then 1 else 0)) mod 2 ^ w.
Proof.
  intros Hw. unfold unsigned_step, to_uint. cbv zeta.
  rewrite Z.shiftl_mul_pow2 by lia. change (2 ^ 1) with 2.
  assert (E : (v0 mod 2 ^ w * 2) mod 2 ^ w = (2 * v0) mod 2 ^ w).
  { rewrite Z.mul_mod_idemp_l by lia. f_equal. lia. }
  rewrite E.
  destruct (is_one c).
  - rewrite Z.add_mod_idemp_l by lia. reflexivity.
  - f_equal. lia.
Qed.

(** The loop of the unsigned readers from any value of the variable. *)
Lemma read_unsigned_from (w : Z) (bits : text) (v0 : Z) :
  0 <= w ->
  fold_left (unsigned_step w) bits (v0 mod 2 ^ w)
  = (v0 * 2 ^ Z.of_nat (length bits) + unsigned_value bits) mod 2 ^ w.
Proof.
  intros Hw. revert v0.
  induction bits as [|c bits IH]; intros v0.
  - unfold unsigned_value. cbn. f_equal. lia.
  - cbn [fold_left length].
    rewrite unsigned_step_mod, IH, unsigned_value_cons by exact Hw.
    rewrite Nat2Z.inj_succ, Z.pow_succ_r by lia. f_equal.
    destruct (is_one c); lia.
Qed.

Lemma read_unsigned_mod (w : Z) (bits : text) :
  0 <= w -> read_unsigned w bits = unsigned_value bits mod 2 ^ w.
Proof.
  intros Hw. unfold read_unsigned.
  change (fold_left (unsigned_step w) bits (0 mod 2 ^ w) = unsigned_value bits mod 2 ^ w).
  rewrite read_unsigned_from by exact Hw. f_equal.
Qed.

Lemma read_unsigned_small (w : Z) (bits : text) :
  Z.of_nat (length bits) <= w -> read_unsigned w bits = unsigned_value bits.
Proof.
  intros Hlen. rewrite read_unsigned_mod by lia.
  apply Z.mod_small.
  pose proof (unsigned_value_bounds bits) as [H0 H1].
  split; [exact H0|].
  eapply Z.lt_le_trans; [exact H1|].
  apply Z.pow_le_mono_r; lia.
Qed.

(** X1. The unsigned readers of the body return the number that the text
    writes MSB first, reduced modulo 2^8, 2^16 or 2^64: the number itself
    when the text is not longer than the variable, which holds for every
    field of the body. *)
Theorem unsigned_readers_value (bits : text) :
  read_has_message_body_uint8 bits = unsigned_value bits mod 2 ^ 8 /\
  read_has_message_body_uint16 bits = unsigned_value bits mod 2 ^ 16 /\
  read_has_message_body_uint64 bits = unsigned_value bits mod 2 ^ 64 /\
  ((length bits <= 8)%nat ->
   read_has_message_body_uint8 bits = unsigned_value bits /\
   0 <= read_has_message_body_uint8 bits < 2 ^ Z.of_nat (length bits)) /\
  ((length bits <= 16)%nat ->
   read_has_message_body_uint16 bits = unsigned_value bits /\
   0 <= read_has_message_body_uint16 bits < 2 ^ Z.of_nat (length bits)) /\
  ((length bits <= 64)%nat ->
   read_has_message_body_uint64 bits = unsigned_value bits /\
   0 <= read_has_message_body_uint64 bits < 2 ^ Z.of_nat (length bits)).
Proof.
  unfold read_has_message_body_uint8, read_has_message_body_uint16,
    read_has_message_body_uint64.
  repeat apply conj; try (apply read_unsigned_mod; lia);
    intros Hlen; rewrite read_unsigned_small by lia;
    (split; [reflexivity|apply unsigned_value_bounds]).
Qed.

Lemma unsigned_readers_value_witness :
  (length (bits_of 4 9) <= 8)%nat /\
  read_has_message_body_uint8 (bits_of 4 9) = unsigned_value (bits_of 4 9) /\
  0 <= read_has_message_body_uint8 (bits_of 4 9) < 2 ^ Z.of_nat (length (bits_of 4 9)).
Proof.
  assert (H : (length (bits_of 4 9) <= 8)%nat) by (vm_compute; lia).
  destruct (unsigned_readers_value (bits_of 4 9)) as (_ & _ & _ & H8 & _).
  split; [exact H|]. apply H8, H.
Defined.
(** * The counts of the satellites of a system *)

Lemma popcount_double (n : Z) (b : bool) :
  0 <= n -> popcount (2 * n + (if b then 1 else 0)) = popcount n + (if b then 1 else 0).
Proof.
  intros Hn. destruct n as [|p|p]; [destruct b; reflexivity| |lia].
  destruct b.
  - change (2 * Z.pos p + 1) with (Z.pos p~1). cbn [popcount popcount_pos]. lia.
  - change (2 * Z.pos p + 0) with (Z.pos p~0). cbn [popcount popcount_pos]. lia.
Qed.

Lemma unsigned_value_snoc (bits : text) (c : ascii) :
  unsigned_value (bits ++ [c]) = 2 * unsigned_value bits + (if is_one c then 1 else 0).
Proof. unfold unsigned_value. rewrite fold_left_app. reflexivity. Qed.

Lemma count_ones_snoc (bits : text) (c : ascii) :
  count_ones (bits ++ [c]) = count_ones bits + (if is_one c then 1 else 0).
Proof.
  unfold count_ones, text. rewrite filter_app, length_app, Nat2Z.inj_add. f_equal.
  rewrite filter_cons, filter_nil.
  destruct (is_one c).
  - rewrite decide_True by reflexivity. reflexivity.
  - rewrite decide_False by discriminate. reflexivity.
Qed.

Lemma popcount_unsigned_value (bits : text) :
  popcount (unsigned_value bits) = count_ones bits.
Proof.
  induction bits as [|c bits IH] using rev_ind; [reflexivity|].
  rewrite unsigned_value_snoc, count_ones_snoc, popcount_double, IH.
  - reflexivity.
  - apply unsigned_value_bounds.
Qed.

(** X3. The three ways in which the reader of the body counts the
    satellites (or the signals) of a system agree on a mask read from the
    text: the characters '1' of the field, counted when the mask is read;
    the bits set of the number stored, counted by the loops of the code and
    phase biases; and the characters '1' of the bitset of 40 bits made from
    that number, counted in the clock subset. *)
Theorem counts_of_a_mask_agree (msg : text) :
  ((length msg <= 64)%nat ->
   popcount (read_has_message_body_uint64 msg) = count_ones msg) /\
  ((length msg <= 40)%nat ->
   ones_of_bitset40 (read_has_message_body_uint64 msg) = count_ones msg) /\
  ((length msg <= 16)%nat ->
   popcount (read_has_message_body_uint16 msg) = count_ones msg).
Proof.
  unfold read_has_message_body_uint64, read_has_message_body_uint16, ones_of_bitset40.
  repeat apply conj; intros Hlen; rewrite read_unsigned_small by lia.
  - apply popcount_unsigned_value.
  - rewrite Z.mod_small; [apply popcount_unsigned_value|].
    pose proof (unsigned_value_bounds msg) as [H0 H1].
    split; [exact H0|]. eapply Z.lt_le_trans; [exact H1|].
    apply Z.pow_le_mono_r; lia.
  - apply popcount_unsigned_value.
Qed.

Lemma counts_of_a_mask_agree_witness :
  (length (bits_of 40 (2 ^ 39 + 2 ^ 38)) <= 40)%nat /\
  popcount (read_has_message_body_uint64 (bits_of 40 (2 ^ 39 + 2 ^ 38))) = 2 /\
  ones_of_bitset40 (read_has_message_body_uint64 (bits_of 40 (2 ^ 39 + 2 ^ 38))) = 2.
Proof.
  assert (H : (length (bits_of 40 (2 ^ 39 + 2 ^ 38)) <= 40)%nat) by (vm_compute; lia).
  destruct (counts_of_a_mask_agree (bits_of 40 (2 ^ 39 + 2 ^ 38))) as (H1 & H2 & _).
  split; [exact H|].
  rewrite H1, H2 by lia. split; reflexivity.
Defined.

(** * Octets and their texts *)

Lemma is_bit_cases (c : ascii) : is_bit c = true -> c = "0" \/ c = "1".
Proof.
  unfold is_bit. intros H. apply orb_true_iff in H as [H|H];
    apply Ascii.eqb_eq in H; auto.
Qed.

Lemma bitset8_to_ulong_to_string (b : Z) :
  0 <= b < 256 -> bitset8_to_ulong (bitset8_to_string b) = b.
Proof.
  intros Hb.
  assert (H : forallb (fun n => bitset8_to_ulong (bitset8_to_string (Z.of_nat n))
                                =? Z.of_nat n) (seq 0 256) = true)
    by (vm_compute; reflexivity).
  rewrite forallb_forall in H.
  specialize (H (Z.to_nat b)).
  rewrite Z2Nat.id in H by lia.
  apply Z.eqb_eq, H, in_seq. lia.
Qed.

Lemma bitset8_to_string_to_ulong (bits8 : text) :
  length bits8 = 8%nat -> forallb is_bit bits8 = true ->
  bitset8_to_string (bitset8_to_ulong bits8) = bits8.
Proof.
  intros Hlen Hbits.
  do 8 (destruct bits8 as [|? bits8]; [discriminate Hlen|]).
  destruct bits8; [|discriminate Hlen].
  cbn [forallb] in Hbits.
  repeat (apply andb_true_iff in Hbits as [?%is_bit_cases Hbits]).
  repeat match goal with H : _ \/ _ |- _ => destruct H end; subst; reflexivity.
Qed.

(** X2. The octet that [process_HAS_page] makes from 8 characters of a
    page and the text that [decode_message_type1] makes from an octet are
    inverse of each other. *)
Theorem octet_text_round_trip :
  (forall b : Z, 0 <= b < 256 -> bitset8_to_ulong (bitset8_to_string b) = b) /\
  (forall bits8 : text,
     length bits8 = 8%nat -> forallb is_bit bits8 = true ->
     bitset8_to_string (bitset8_to_ulong bits8) = bits8 /\
     0 <= bitset8_to_ulong bits8 < 256).
Proof.
  split; [exact bitset8_to_ulong_to_string|].
  intros bits8 Hlen Hbits. split; [apply bitset8_to_string_to_ulong; assumption|].
  unfold bitset8_to_ulong. pose proof (unsigned_value_bounds bits8) as H.
  rewrite Hlen in H. exact H.
Qed.

Lemma octet_text_round_trip_witness :
  bitset8_to_ulong (bitset8_to_string 165) = 165 /\
  bitset8_to_string (bitset8_to_ulong (bits_of 8 165)) = bits_of 8 165.
Proof.
  destruct octet_text_round_trip as [H1 H2].
  split; [apply H1; lia|].
  apply H2; reflexivity.
Defined.
(** * The record of a page *)

(** A row in which the entries of [ks] were written one after the other. *)
Lemma fold_insert_length {A} (f : nat -> A) (ks : list nat) (row : list A) :
  length (fold_left (fun row k => <[k := f k]> row) ks row) = length row.
Proof.
  revert row. induction ks as [|k ks IH]; intros row; [reflexivity|].
  cbn [fold_left]. rewrite IH. apply length_insert.
Qed.

Lemma fold_insert_lookup {A} (f : nat -> A) (ks : list nat) (row : list A) (i : nat) :
  fold_left (fun row k => <[k := f k]> row) ks row !! i
  = if decide (i ∈ ks /\ i < length row)%nat then Some (f i) else row !! i.
Proof.
  revert row. induction ks as [|k ks IH]; intros row.
  - cbn [fold_left]. rewrite decide_False; [reflexivity|].
    intros [H _]. inversion H.
  - cbn [fold_left]. rewrite IH, length_insert.
    destruct (decide (i ∈ ks /\ (i < length row)%nat)) as [[Hin Hlt]|Hno].
    + rewrite decide_True; [reflexivity|]. split; [right; exact Hin|exact Hlt].
    + destruct (decide (i = k)) as [->|Hne].
      * destruct (decide (k < length row)%nat) as [Hlt|Hge].
        -- rewrite list_lookup_insert_eq by exact Hlt.
           rewrite decide_True; [reflexivity|]. split; [left|exact Hlt].
        -- rewrite decide_False by (intros [_ H]; lia).
           rewrite list_insert_ge by lia. reflexivity.
      * rewrite list_lookup_insert_ne by congruence.
        rewrite decide_False; [reflexivity|].
        intros [Hin Hlt]. apply Hno. split; [|exact Hlt].
        apply elem_of_cons in Hin as [?|?]; [congruence|assumption].
Qed.

Lemma fold_insert_all {A} (f : nat -> A) (row : list A) :
  fold_left (fun row k => <[k := f k]> row) (seq 0 (length row)) row
  = map f (seq 0 (length row)).
Proof.
  apply list_eq. intros i.
  rewrite fold_insert_lookup, list_lookup_fmap.
  destruct (decide (i < length row)%nat) as [Hlt|Hge].
  - rewrite decide_True by (split; [apply elem_of_seq; lia|exact Hlt]).
    rewrite lookup_seq_lt by exact Hlt. reflexivity.
  - rewrite decide_False by (intros [_ H]; lia).
    rewrite lookup_seq_ge by lia. apply lookup_ge_None. lia.
Qed.

Section StorePage.

Variable mid pid : nat.
Variable payload : text.
Hypothesis Hpayload : payload_ok payload.

(** The turns [i0], ..., [i0 + n - 1] of the loop that stores a page. *)
Lemma store_page_turns (n i0 : nat) (r : receiver) (plane : list (list Z))
    (row : list Z) :
  (i0 + n <= GALILEO_CNAV_OCTETS_IN_SUBPAGE)%nat ->
  d_C_matrix r !! mid = Some plane ->
  plane !! pid = Some row ->
  (GALILEO_CNAV_OCTETS_IN_SUBPAGE <= length row)%nat ->
  for_loop n i0 (fun k =>
    if decide (k * 8 <= length payload)%nat then
      let bits8 := take 8 (drop (k * 8) payload) in
      if forallb is_bit bits8 then
        store (assign3 d_C_matrix set_d_C_matrix mid pid k (bitset8_to_ulong bits8))
      else throw invalid_argument
    else throw out_of_range) r
  = Ok tt (set_d_C_matrix
             (fun v => <[mid := <[pid := fold_left
                                           (fun row k => <[k := octet_of payload k]> row)
                                           (seq i0 n) row]> plane]> v) r).
Proof.
  destruct Hpayload as [Hlen Hbits].
  unfold GALILEO_CNAV_OCTETS_IN_SUBPAGE.
  revert i0 r plane row. induction n as [|n IH]; intros i0 r plane row Hn HC Hrow Hlong.
  - cbn [for_loop seq fold_left]. unfold ret.
    rewrite (list_insert_id _ _ _ Hrow).
    destruct r. unfold set_d_C_matrix. cbn in *.
    rewrite (list_insert_id _ _ _ HC). reflexivity.
  - cbn [for_loop seq fold_left].
    set (x := octet_of payload i0).
    set (r1 := set_d_C_matrix
                 (fun v => <[mid := <[pid := <[i0 := x]> row]> plane]> v) r).
    rewrite (bind_Ok _ _ r tt r1).
    + rewrite (IH (S i0) r1 (<[pid := <[i0 := x]> row]> plane) (<[i0 := x]> row)).
      * subst r1. destruct r. unfold set_d_C_matrix. cbn. f_equal. f_equal.
        rewrite !list_insert_insert_eq. reflexivity.
      * lia.
      * subst r1. cbn. apply list_lookup_insert_eq. eapply lookup_lt_Some, HC.
      * apply list_lookup_insert_eq. eapply lookup_lt_Some, Hrow.
      * rewrite length_insert. exact Hlong.
    + rewrite decide_True by lia. cbv zeta.
      rewrite forallb_take by (apply forallb_drop, Hbits).
      unfold store, assign3. rewrite HC, Hrow.
      rewrite decide_True by lia. reflexivity.
Qed.

Lemma store_page_run (r : receiver) (plane : list (list Z)) (row : list Z) :
  d_C_matrix r !! mid = Some plane ->
  plane !! pid = Some row ->
  length row = GALILEO_CNAV_OCTETS_IN_SUBPAGE ->
  store_page mid pid payload r
  = Ok tt (set_d_C_matrix
             (fun v => <[mid := <[pid := octets_of payload]> plane]> v) r).
Proof.
  intros HC Hrow Hlen. unfold store_page.
  rewrite (store_page_turns _ _ r plane row) by (assumption || lia).
  unfold octets_of. rewrite <- Hlen, fold_insert_all. reflexivity.
Qed.

End StorePage.

(** The octets of a payload, written back as text, are the payload. *)
Lemma octets_of_text (payload : text) :
  payload_ok payload -> flat_map bitset8_to_string (octets_of payload) = payload.
Proof.
  intros [Hlen Hbits]. unfold octets_of, GALILEO_CNAV_OCTETS_IN_SUBPAGE.
  assert (H : forall n k, length (drop (k * 8) payload) = (n * 8)%nat ->
            flat_map bitset8_to_string (map (octet_of payload) (seq k n))
            = drop (k * 8) payload).
  { induction n as [|n IH]; intros k Hk.
    - cbn. symmetry. apply nil_length_inv. exact Hk.
    - cbn [seq map flat_map]. rewrite IH.
      + unfold octet_of. rewrite bitset8_to_string_to_ulong.
        * replace (S k * 8)%nat with (k * 8 + 8)%nat by lia.
          rewrite <- drop_drop. apply take_drop.
        * rewrite length_take. lia.
        * apply forallb_take, forallb_drop, Hbits.
      + rewrite length_drop in *. lia. }
  rewrite (H 53%nat 0%nat); [reflexivity|].
  rewrite length_drop. lia.
Qed.

(** X5. A page that passes the screening and whose page identifier was
    not yet received for its message identifier is recorded: the page
    identifier is put at the end of the identifiers received, and the row of
    the page in the matrix of the message receives the 53 octets of the
    payload, whose texts, put one after the other, are the payload;
    nothing else changes. *)
Theorem new_page_is_recorded (p : Galileo_HAS_page) (r : receiver)
    (pids : list Z) (plane : list (list Z)) (row : list Z) :
  let mid := Z.to_nat (message_id p) in
  let pid := Z.to_nat (message_page_id p - 1) in
  page_accepted p ->
  payload_ok (has_message_string p) ->
  0 <= message_page_id p ->
  d_received_pids r !! mid = Some pids ->
  message_page_id p ∉ pids ->
  d_C_matrix r !! mid = Some plane ->
  plane !! pid = Some row ->
  length row = GALILEO_CNAV_OCTETS_IN_SUBPAGE ->
  accumulate_page p r
  = Ok tt (set_d_C_matrix
             (fun v => <[mid := <[pid := octets_of (has_message_string p)]> plane]> v)
             (set_d_received_pids
                (fun v => <[mid := pids ++ [message_page_id p]]> v) r)) /\
  flat_map bitset8_to_string (octets_of (has_message_string p))
  = has_message_string p.
Proof.
  intros mid pid (Hstatus & Hpid & Htype & Hmid) Hpayload Hpos Hpids Hnew HC Hrow Hlen.
  split; [|apply octets_of_text, Hpayload].
  unfold accumulate_page.
  replace ((has_status p =? 0) || (has_status p =? 1)) with true
    by (destruct Hstatus as [->| ->]; reflexivity).
  cbn [when]. cbv zeta.
  apply Z.eqb_neq in Hpid. rewrite Hpid. cbn [negb when].
  rewrite Htype. cbn [Z.eqb Pos.eqb when].
  apply Z.ltb_lt in Hmid. rewrite Hmid. cbn [when].
  fold mid. unfold bind at 1. rewrite Hpids. cbn [defined ret].
  apply not_found_spec in Hnew. rewrite Hnew. cbn [when].
  rewrite bind_modify. fold pid.
  apply (store_page_run mid pid _ Hpayload _ plane row); [|exact Hrow|exact Hlen].
  cbn. exact HC.
Qed.

Lemma new_page_is_recorded_witness :
  page_accepted page_unknown_system /\
  payload_ok (has_message_string page_unknown_system) /\
  exists r',
    accumulate_page page_unknown_system galileo_e6_has_msg_receiver = Ok tt r' /\
    d_received_pids r' !! 5%nat = Some [1] /\
    (row ← d_C_matrix r' !! 5%nat ≫= (.!! 0%nat); row !! 0%nat) = Some 6 /\
    flat_map bitset8_to_string (octets_of (has_message_string page_unknown_system))
    = has_message_string page_unknown_system.
Proof.
  assert (Ha : page_accepted page_unknown_system).
  { unfold page_accepted. cbn. repeat split; (lia || auto). }
  assert (Hp : payload_ok (has_message_string page_unknown_system))
    by (split; vm_compute; reflexivity).
  destruct (new_page_is_recorded page_unknown_system galileo_e6_has_msg_receiver []
              (zero_matrix 255 53) (replicate 53 0)) as [H1 H2].
  - exact Ha.
  - exact Hp.
  - cbn. lia.
  - reflexivity.
  - apply not_elem_of_nil.
  - reflexivity.
  - reflexivity.
  - reflexivity.
  - split; [exact Ha|]. split; [exact Hp|].
    eexists. split; [exact H1|].
    repeat apply conj; [vm_compute; reflexivity|vm_compute; reflexivity|exact H2].
Defined.

(** * A page received twice *)

Lemma store_page_keeps_pids (mid pid : nat) (page_string : text) (v : list (list Z)) :
  keeps (fun r => d_received_pids r = v) (store_page mid pid page_string).
Proof. unfold store_page. frame_receiver. Qed.

(** What [accumulate_page] does of a page that passes the screening. *)
Lemma accumulate_page_accepted (p : Galileo_HAS_page) :
  page_accepted p ->
  accumulate_page p
  = (let mid := Z.to_nat (message_id p) in
     pids <- (fun r => defined (d_received_pids r !! mid) r) ;;
     when (not_found pids (message_page_id p))
       (modify (set_d_received_pids (fun v =>
                  <[mid := pids ++ [message_page_id p]]> v)) ;;
        store_page mid (Z.to_nat (message_page_id p - 1)) (has_message_string p))).
Proof.
  intros (Hstatus & Hpid & Htype & Hmid). unfold accumulate_page.
  replace ((has_status p =? 0) || (has_status p =? 1)) with true
    by (destruct Hstatus as [->| ->]; reflexivity).
  apply Z.eqb_neq in Hpid. rewrite Hpid.
  apply Z.eqb_eq in Htype. rewrite Htype.
  apply Z.ltb_lt in Hmid. rewrite Hmid.
  reflexivity.
Qed.

(** A page whose identifier is among those received changes nothing. *)
Lemma accumulate_page_known (p : Galileo_HAS_page) (r : receiver) (pids : list Z) :
  d_received_pids r !! Z.to_nat (message_id p) = Some pids ->
  message_page_id p ∈ pids ->
  accumulate_page p r = Ok tt r.
Proof.
  intros Hpids Hin. unfold accumulate_page. cbv zeta.
  repeat (match goal with |- when ?b _ _ = _ => destruct b; [cbn [when]|reflexivity] end).
  unfold bind. rewrite Hpids. cbn [defined ret].
  destruct (not_found pids (message_page_id p)) eqn:E; [|reflexivity].
  apply not_found_spec in E. contradiction.
Qed.

(** * The readers of the header *)

Section HeaderReaders.

Variable K : icd_constants.

(** A bit of the bitset made from a text of the length of the header:
    the character at the same distance from the other end. *)
Lemma bitset_test_full (s : text) (pos : Z) (c : ascii) :
  Z.of_nat (length s) = GALILEO_CNAV_MT1_HEADER_BITS K ->
  0 <= pos ->
  s !! Z.to_nat (GALILEO_CNAV_MT1_HEADER_BITS K - 1 - pos) = Some c ->
  pos < GALILEO_CNAV_MT1_HEADER_BITS K ->
  bitset_test K s pos = Some (is_one c).
Proof.
  unfold text in *. intros Hlen Hpos Hc Hlt. unfold bitset_test. cbv zeta.
  rewrite firstn_all2 by lia.
  destruct (Z.leb_spec 0 pos); [|lia].
  destruct (Z.ltb_spec pos (GALILEO_CNAV_MT1_HEADER_BITS K)); [|lia].
  cbn [andb]. rewrite Hlen.
  destruct (Z.ltb_spec pos (GALILEO_CNAV_MT1_HEADER_BITS K)); [|lia].
  rewrite nth_lookup, Hc. reflexivity.
Qed.

Lemma read_header_loop_field (w : Z) (s : text) (first : Z) (n : nat) (j value : Z) :
  Z.of_nat (length s) = GALILEO_CNAV_MT1_HEADER_BITS K ->
  1 <= first -> 0 <= j ->
  first + j + Z.of_nat n - 1 <= GALILEO_CNAV_MT1_HEADER_BITS K ->
  read_header_loop K w s first n j value
  = Some (fold_left (unsigned_step w)
            (take n (drop (Z.to_nat (first + j - 1)) s)) value).
Proof.
  intros Hlen Hfirst. revert j value.
  induction n as [|n IH]; intros j value Hj Hn; [reflexivity|].
  cbn [read_header_loop].
  destruct (lookup_lt_is_Some_2 s (Z.to_nat (first + j - 1)) ltac:(lia)) as [c Hc].
  rewrite (bitset_test_full s _ c Hlen); try lia.
  2:{ replace (GALILEO_CNAV_MT1_HEADER_BITS K - 1
               - (GALILEO_CNAV_MT1_HEADER_BITS K - first - j))
        with (first + j - 1) by lia. exact Hc. }
  rewrite IH by lia.
  rewrite (drop_S _ _ _ Hc). cbn [take fold_left].
  replace (Z.to_nat (first + (j + 1) - 1)) with (S (Z.to_nat (first + j - 1))) by lia.
  reflexivity.
Qed.

(** X4. On a header of [GALILEO_CNAV_MT1_HEADER_BITS] characters the
    readers of the header return what the readers of the body return on the
    characters of the field: the pair (offset, width) of a field counts the
    offset from 1, from the first character of the header.  The reader of a
    flag tests the first character of the field. *)
Theorem header_reader_reads_field (s : text) (first width : Z) :
  Z.of_nat (length s) = GALILEO_CNAV_MT1_HEADER_BITS K ->
  1 <= first -> 1 <= width ->
  first + width - 1 <= GALILEO_CNAV_MT1_HEADER_BITS K ->
  let field := take (Z.to_nat width) (drop (Z.to_nat (first - 1)) s) in
  read_has_message_header_parameter_uint16 K s (first, width)
  = Some (read_has_message_body_uint16 field) /\
  read_has_message_header_parameter_uint8 K s (first, width)
  = Some (read_has_message_body_uint8 field) /\
  read_has_message_header_parameter_bool K s (first, width)
  = Some (is_one (front field)).
Proof.
  intros Hlen Hfirst Hwidth Hend field.
  unfold read_has_message_header_parameter_uint16,
    read_has_message_header_parameter_uint8,
    read_has_message_header_parameter_bool. cbn [fst snd].
  rewrite !read_header_loop_field by lia.
  replace (first + 0 - 1) with (first - 1) by lia.
  split; [reflexivity|]. split; [reflexivity|].
  destruct (lookup_lt_is_Some_2 s (Z.to_nat (first - 1)) ltac:(lia)) as [c Hc].
  rewrite (bitset_test_full s _ c Hlen); try lia.
  2:{ replace (GALILEO_CNAV_MT1_HEADER_BITS K - 1
               - (GALILEO_CNAV_MT1_HEADER_BITS K - first))
        with (first - 1) by lia. exact Hc. }
  subst field. rewrite (drop_S _ _ _ Hc).
  destruct (Z.to_nat width) eqn:E; [lia|]. reflexivity.
Qed.

End HeaderReaders.

Lemma header_reader_reads_field_witness :
  read_has_message_header_parameter_uint16 sample_constants
    (sample_header header_unknown_system) (1, 12) = Some 100 /\
  read_has_message_header_parameter_uint8 sample_constants
    (sample_header header_unknown_system) (23, 5) = Some 3 /\
  read_has_message_header_parameter_bool sample_constants
    (sample_header header_unknown_system) (13, 1) = Some true.
Proof.
  destruct (header_reader_reads_field sample_constants
              (sample_header header_unknown_system) 1 12) as (H1 & _ & _);
    [reflexivity|lia|lia|cbn; lia|].
  destruct (header_reader_reads_field sample_constants
              (sample_header header_unknown_system) 23 5) as (_ & H2 & _);
    [reflexivity|lia|lia|cbn; lia|].
  destruct (header_reader_reads_field sample_constants
              (sample_header header_unknown_system) 13 1) as (_ & _ & H3);
    [reflexivity|lia|lia|cbn; lia|].
  rewrite H1, H2, H3. repeat apply conj; reflexivity.
Defined.

(** * The handler, step by step *)

(** The calls that touch neither the pages, nor the switch of the
    monitor, nor its packet. *)
Section QuietCalls.

Variable K : icd_constants.
Variable rs_decode : list Z -> list Z -> option (list Z).
Variable pids : list (list Z).
Variable C : list (list (list Z)).
Variable enabled : bool.
Variable packet : Nav_Message_Packet.

Let quiet : receiver -> Prop := pages_and_monitor_are pids C enabled packet.

Lemma set_d_new_message_quiet (b : bool) :
  keeps quiet (modify (set_d_new_message (fun _ => b))).
Proof. intros r Hr. exact Hr. Qed.

Lemma set_d_M_matrix_quiet (Mx : list (list Z)) :
  keeps quiet (modify (set_d_M_matrix (fun _ => Mx))).
Proof. intros r Hr. exact Hr. Qed.

Lemma set_d_HAS_data_quiet (d : Galileo_HAS_data) :
  keeps quiet (modify (set_d_HAS_data (fun _ => d))).
Proof. intros r Hr. exact Hr. Qed.

Lemma decode_columns_quiet (n col message_id : nat) (erasures : list Z) :
  keeps quiet (decode_columns rs_decode n col message_id erasures).
Proof.
  revert col. induction n as [|n IH]; intros col; cbn [decode_columns].
  - apply keeps_ret.
  - apply keeps_bind; [apply keeps_at|]. intros plane.
    apply keeps_bind; [apply keeps_at|]. intros received.
    apply keeps_bind; [apply keeps_defined|]. intros C_column.
    destruct (rs_decode C_column erasures) as [C_column'|]; [|apply keeps_ret].
    apply keeps_bind; [apply keeps_defined|]. intros M_column.
    apply keeps_bind; [|intros _; apply IH].
    unfold quiet, pages_and_monitor_are. frame_receiver.
Qed.

Lemma read_MT1_header_quiet (message_header : text) :
  keeps quiet (read_MT1_header K message_header).
Proof. unfold quiet, pages_and_monitor_are. frame_member. Qed.

Lemma try_read_body_quiet (decoded : text) :
  keeps quiet (try_read_body K decoded).
Proof.
  intros r Hr. unfold try_read_body, read_MT1_body.
  destruct (decide _); [|exact Hr].
  destruct (read_MT1_body_steps K _); exact Hr || exact I.
Qed.

End QuietCalls.

(** A property of the world that the handler keeps, when the steps that
    touch the pages, the monitor or the port of the PVT block keep it. *)
Section HandlerSteps.

Variable K : icd_constants.
Variable rs_decode : list Z -> list Z -> option (list Z).
Variable W : world -> Prop.

Hypothesis W_quiet : forall A (m : M receiver A),
  (forall pids C enabled packet,
     keeps (pages_and_monitor_are pids C enabled packet) m) ->
  keeps W (on_this m).
Hypothesis W_monitor : forall decoded,
  triple (fun w => W w /\ d_enable_navdata_monitor (this w) = true)
    (publish_to_monitor decoded) (fun _ => W) (fun _ => W).
Hypothesis W_pvt : forall d, keeps W (message_port_pub (E6_HAS_to_PVT d)).

Lemma publish_and_read_step (mid : nat) (decoded : text) :
  keeps W (on_this (store (reset_slot mid))) ->
  keeps W (publish_and_read K mid decoded).
Proof.
  intros W_reset. unfold publish_and_read.
  apply (triple_bind _ _ _
           (fun enabled w => W w /\ d_enable_navdata_monitor (this w) = enabled)).
  { intros w Hw. split; [exact Hw|reflexivity]. }
  intros enabled.
  apply (triple_bind _ _ _ (fun _ => W)).
  { destruct enabled; cbn [when]; [apply W_monitor|].
    intros w [Hw _]. exact Hw. }
  intros _.
  apply keeps_bind; [exact W_reset|]. intros _.
  apply keeps_bind; [apply W_quiet; intros; apply set_d_HAS_data_quiet|]. intros _.
  apply keeps_bind; [apply W_quiet; intros; apply read_MT1_header_quiet|]. intros _.
  apply W_quiet. intros. apply try_read_body_quiet.
Qed.

Lemma decode_message_type1_step (message_id message_size : Z) :
  keeps W (on_this (store (reset_slot (Z.to_nat message_id)))) ->
  keeps W (decode_message_type1 K rs_decode message_id message_size).
Proof.
  intros W_reset. unfold decode_message_type1. cbv zeta.
  destruct (255 <=? message_size); [apply keeps_undefined|].
  apply keeps_bind; [apply keeps_at|]. intros received.
  destruct (decide _).
  - apply keeps_bind; [exact W_reset|]. intros _. apply keeps_ret.
  - apply keeps_bind; [apply W_quiet; intros; apply set_d_M_matrix_quiet|]. intros _.
    apply keeps_bind; [apply W_quiet; intros; apply decode_columns_quiet|].
    intros [|]; [|apply keeps_ret].
    apply keeps_bind; [apply keeps_at|]. intros decoded.
    apply publish_and_read_step, W_reset.
Qed.

Lemma process_HAS_page_step (p : Galileo_HAS_page) :
  keeps W (on_this (accumulate_page p)) ->
  keeps W (on_this (store (reset_slot (Z.to_nat (message_id p))))) ->
  keeps W (process_HAS_page K rs_decode p).
Proof.
  intros W_page W_reset. unfold process_HAS_page.
  apply keeps_bind; [exact W_page|]. intros _.
  apply keeps_bind; [apply W_quiet; intros; apply set_d_new_message_quiet|]. intros _.
  apply keeps_bind; [apply keeps_at|]. intros received.
  apply keeps_when.
  apply keeps_bind; [apply decode_message_type1_step, W_reset|]. intros res.
  apply keeps_when.
  apply keeps_bind; [apply keeps_at|]. intros nsat.
  apply keeps_when, W_quiet. intros. apply set_d_new_message_quiet.
Qed.

Lemma msg_handler_step (msg : pmt_t) :
  (forall p, msg = HAS_page_object p ->
     keeps W (on_this (accumulate_page p)) /\
     keeps W (on_this (store (reset_slot (Z.to_nat (message_id p)))))) ->
  keeps W (msg_handler_galileo_e6_has K rs_decode msg).
Proof.
  intros Hpage. unfold msg_handler_galileo_e6_has.
  apply keeps_bind.
  { destruct msg as [p| |]; [|apply keeps_ret|apply keeps_throw].
    destruct (Hpage p eq_refl). apply process_HAS_page_step; assumption. }
  intros _.
  apply keeps_bind; [apply keeps_get|]. intros new_message.
  apply keeps_when.
  apply keeps_bind; [apply keeps_get|]. intros has_data.
  apply keeps_bind; [apply W_pvt|]. intros _.
  apply W_quiet. intros. apply set_d_new_message_quiet.
Qed.

End HandlerSteps.

(** A property of the receiver, seen from the world. *)
Lemma on_this_keeps (P : receiver -> Prop) {A} (m : M receiver A) :
  keeps P m -> keeps (fun w => P (this w)) (on_this m).
Proof.
  intros H w Hw. unfold on_this. specialize (H (this w) Hw).
  destruct (m (this w)); exact H.
Qed.

(** A property of the pages is kept by the calls that do not touch them. *)
Lemma pages_frame (P : list (list Z) -> list (list (list Z)) -> Prop)
    {A} (m : M receiver A) :
  (forall pids C enabled packet,
     keeps (pages_and_monitor_are pids C enabled packet) m) ->
  keeps (fun r => P (d_received_pids r) (d_C_matrix r)) m.
Proof.
  intros H r Hr.
  specialize (H (d_received_pids r) (d_C_matrix r) (d_enable_navdata_monitor r)
                (d_nav_msg_packet r) r (conj eq_refl (conj eq_refl (conj eq_refl eq_refl)))).
  destruct (m r) as [a r'|e r'|]; [| |exact I];
    destruct H as (-> & -> & _); exact Hr.
Qed.

(** The handler keeps a property of the pages that the record of a page
    and the reset of its slot keep. *)
Lemma msg_handler_keeps_pages (K : icd_constants)
    (rs_decode : list Z -> list Z -> option (list Z))
    (P : list (list Z) -> list (list (list Z)) -> Prop) (msg : pmt_t) :
  (forall p, msg = HAS_page_object p ->
     keeps (fun r => P (d_received_pids r) (d_C_matrix r)) (accumulate_page p) /\
     keeps (fun r => P (d_received_pids r) (d_C_matrix r))
       (store (reset_slot (Z.to_nat (message_id p))))) ->
  keeps (fun w => P (d_received_pids (this w)) (d_C_matrix (this w)))
    (msg_handler_galileo_e6_has K rs_decode msg).
Proof.
  intros Hpage. apply msg_handler_step.
  - intros A m Hm.
    apply (on_this_keeps (fun r => P (d_received_pids r) (d_C_matrix r))).
    apply pages_frame, Hm.
  - intros decoded w [Hw _]. exact Hw.
  - intros d w Hw. exact Hw.
  - intros p Hp. destruct (Hpage p Hp) as [H1 H2].
    split; apply (on_this_keeps (fun r => P (d_received_pids r) (d_C_matrix r)));
      assumption.
Qed.
(** * The pages stay well formed *)

Lemma slot_ok_empty :
  slot_ok [] (zero_matrix GALILEO_CNAV_MAX_NUMBER_SYMBOLS_ENCODED_BLOCK
                GALILEO_CNAV_OCTETS_IN_SUBPAGE).
Proof.
  unfold slot_ok, zero_matrix.
  split; [apply NoDup_nil_2|]. split; [apply Forall_nil_2|].
  split; [apply length_replicate|].
  split; [apply Forall_replicate, length_replicate|].
  intros i row Hrow _. apply lookup_replicate in Hrow as [-> _]. reflexivity.
Qed.

Lemma slots_hold_reset (received : list (list Z)) (C : list (list (list Z)))
    (mid : nat) :
  slots_hold received C ->
  slots_hold (<[mid := []]> received)
    (<[mid := zero_matrix GALILEO_CNAV_MAX_NUMBER_SYMBOLS_ENCODED_BLOCK
                GALILEO_CNAV_OCTETS_IN_SUBPAGE]> C).
Proof.
  intros (Hr & HC & Hall). unfold slots_hold. rewrite !length_insert.
  split; [exact Hr|]. split; [exact HC|].
  intros mid' pids plane Hp Hpl.
  destruct (decide (mid' = mid)) as [->|Hne].
  - apply list_lookup_insert_Some in Hp as [(_ & <- & _)|[? _]]; [|congruence].
    apply list_lookup_insert_Some in Hpl as [(_ & <- & _)|[? _]]; [|congruence].
    apply slot_ok_empty.
  - rewrite list_lookup_insert_ne in Hp by congruence.
    rewrite list_lookup_insert_ne in Hpl by congruence.
    apply (Hall mid'); assumption.
Qed.

Lemma slots_hold_push (received : list (list Z)) (C : list (list (list Z)))
    (mid : nat) (l : list Z) (pid : Z) :
  slots_hold received C ->
  received !! mid = Some l ->
  pid ∉ l -> 1 <= pid <= 255 ->
  slots_hold (<[mid := l ++ [pid]]> received) C.
Proof.
  intros (Hr & HC & Hall) Hl Hnew Hpid. unfold slots_hold. rewrite length_insert.
  split; [exact Hr|]. split; [exact HC|].
  intros mid' pids plane Hp Hpl.
  destruct (decide (mid' = mid)) as [->|Hne].
  - apply list_lookup_insert_Some in Hp as [(_ & <- & _)|[? _]]; [|congruence].
    destruct (Hall mid l plane Hl Hpl) as (H1 & H2 & H3 & H4 & H5).
    split.
    { apply NoDup_app. split; [exact H1|]. split; [|apply NoDup_singleton].
      intros x Hx Hx'. apply list_elem_of_singleton in Hx'. subst x. contradiction. }
    split; [apply Forall_app; split; [exact H2|apply Forall_singleton, Hpid]|].
    split; [exact H3|]. split; [exact H4|].
    intros i row Hrow Hout. apply (H5 i row Hrow).
    intros Hin. apply Hout, elem_of_app. left. exact Hin.
  - rewrite list_lookup_insert_ne in Hp by congruence.
    apply (Hall mid'); assumption.
Qed.

Lemma slots_hold_write (received : list (list Z)) (C : list (list (list Z)))
    (mid j k : nat) (l : list Z) (plane : list (list Z)) (row : list Z) (x : Z) :
  slots_hold received C ->
  received !! mid = Some l ->
  Z.of_nat j + 1 ∈ l ->
  C !! mid = Some plane ->
  plane !! j = Some row ->
  slots_hold received (<[mid := <[j := <[k := x]> row]> plane]> C).
Proof.
  intros (Hr & HC & Hall) Hl Hin Hplane Hrow. unfold slots_hold.
  rewrite length_insert.
  split; [exact Hr|]. split; [exact HC|].
  intros mid' pids plane' Hp Hpl.
  destruct (decide (mid' = mid)) as [->|Hne].
  - apply list_lookup_insert_Some in Hpl as [(_ & <- & _)|[? _]]; [|congruence].
    assert (pids = l) by congruence. subst pids.
    destruct (Hall mid l plane Hl Hplane) as (H1 & H2 & H3 & H4 & H5).
    split; [exact H1|]. split; [exact H2|].
    split; [rewrite length_insert; exact H3|].
    split.
    { apply Forall_insert; [exact H4|]. rewrite length_insert.
      apply (Forall_lookup_1 _ _ _ _ H4 Hrow). }
    intros i row' Hrow' Hout.
    destruct (decide (i = j)) as [->|Hij]; [contradiction|].
    rewrite list_lookup_insert_ne in Hrow' by congruence.
    apply (H5 i row' Hrow' Hout).
  - rewrite list_lookup_insert_ne in Hpl by congruence.
    apply (Hall mid'); assumption.
Qed.

Lemma reset_slot_keeps_slots (mid : nat) : keeps slots_ok (store (reset_slot mid)).
Proof.
  apply keeps_store. intros r r' Hr Hreset. unfold reset_slot in Hreset.
  repeat case_match; simplify_eq. unfold slots_ok. cbn.
  apply slots_hold_reset, Hr.
Qed.

Lemma store_page_keeps_slots (mid : nat) (pid : Z) (payload : text) :
  1 <= pid ->
  keeps (fun r => slots_ok r /\
                  exists l, d_received_pids r !! mid = Some l /\ pid ∈ l)
    (store_page mid (Z.to_nat (pid - 1)) payload).
Proof.
  intros Hpid. unfold store_page. apply keeps_for_loop. intros k.
  destruct (decide _); [|apply keeps_throw]. cbv zeta.
  destruct (forallb _ _); [|apply keeps_throw].
  apply keeps_store. intros r r' [Hok (pids & Hl & Hin)] Hassign.
  unfold assign3 in Hassign.
  destruct (d_C_matrix r !! mid) as [plane|] eqn:Hplane; [|discriminate].
  destruct (plane !! Z.to_nat (pid - 1)) as [row|] eqn:Hrow; [|discriminate].
  destruct (decide _); [|discriminate]. injection Hassign as <-.
  unfold slots_ok. cbn. split; [|exists pids; split; assumption].
  apply (slots_hold_write _ _ _ _ _ pids); try assumption.
  replace (Z.of_nat (Z.to_nat (pid - 1)) + 1) with pid by lia. exact Hin.
Qed.

Lemma accumulate_page_keeps_slots (p : Galileo_HAS_page) :
  page_in_range p -> keeps slots_ok (accumulate_page p).
Proof.
  intros (_ & _ & _ & _ & Hpid) r Hr. unfold accumulate_page. cbv zeta.
  destruct (_ || _); cbn [when]; [|exact Hr].
  destruct (message_page_id p =? 0) eqn:Hzero; cbn [negb when]; [exact Hr|].
  apply Z.eqb_neq in Hzero.
  destruct (message_type p =? 1); cbn [when]; [|exact Hr].
  destruct (message_id p <? 32); cbn [when]; [|exact Hr].
  unfold bind at 1.
  destruct (d_received_pids r !! Z.to_nat (message_id p)) as [l|] eqn:Hl;
    cbn [defined ret undefined]; [|exact I].
  destruct (not_found l (message_page_id p)) eqn:Hnew; cbn [when]; [|exact Hr].
  apply not_found_spec in Hnew.
  rewrite bind_modify.
  match goal with
  | |- match store_page ?mid ?row ?payload ?r1 with _ => _ end =>
      pose proof (store_page_keeps_slots mid (message_page_id p) payload
                    ltac:(lia) r1) as Hk;
      destruct (store_page mid row payload r1); [apply Hk|apply Hk|exact I]
  end.
  all: split;
    [unfold slots_ok; cbn; apply slots_hold_push; (assumption || lia)|].
  all: exists (l ++ [message_page_id p]); cbn; split;
    [apply list_lookup_insert_eq; eapply lookup_lt_Some, Hl|];
    apply elem_of_app; right; apply list_elem_of_singleton; reflexivity.
Qed.

Section Slots.

Variable K : icd_constants.
Variable rs_decode : list Z -> list Z -> option (list Z).

Lemma react_keeps_slots (x : stimulus) :
  stimulus_in_range x ->
  keeps (fun w => slots_ok (this w)) (react K rs_decode x).
Proof.
  destruct x as [msg|enable]; cbn [react stimulus_in_range].
  - intros Hrange.
    apply (msg_handler_keeps_pages K rs_decode slots_hold msg).
    intros p ->. split; [apply accumulate_page_keeps_slots, Hrange|].
    apply reset_slot_keeps_slots.
  - intros _ w Hw. exact Hw.
Qed.

Lemma run_keeps_slots (xs : list stimulus) :
  Forall stimulus_in_range xs ->
  keeps (fun w => slots_ok (this w)) (run K rs_decode xs).
Proof.
  induction 1 as [|x xs Hx _ IH]; cbn [run].
  - apply keeps_ret.
  - apply keeps_bind; [apply react_keeps_slots, Hx|]. intros _. exact IH.
Qed.

Lemma power_on_slots_ok : slots_ok (this power_on).
Proof.
  unfold slots_ok, slots_hold. cbn [this power_on galileo_e6_has_msg_receiver
    d_received_pids d_C_matrix].
  rewrite !length_replicate. split; [reflexivity|]. split; [reflexivity|].
  intros mid pids plane Hp Hpl.
  apply lookup_replicate in Hp as [-> _]. apply lookup_replicate in Hpl as [-> _].
  apply slot_ok_empty.
Qed.

(** X7. Whatever pages the framework delivers to a receiver just built,
    and however each call of the handler ends, the pages of every message
    identifier stay well formed: the page identifiers received are distinct
    numbers between 1 and 255, the matrix has its 255 rows of 53 octets, and
    the row of a page that was not received holds zeros. *)
Theorem pages_stay_well_formed (xs : list stimulus) :
  Forall stimulus_in_range xs ->
  match run K rs_decode xs power_on with
  | Ok _ w | Throw _ w => slots_ok (this w)
  | Undef => True
  end.
Proof.
  intros Hxs.
  pose proof (run_keeps_slots xs Hxs power_on power_on_slots_ok) as H.
  destruct (run K rs_decode xs power_on); exact H.
Qed.

(** X8. A page changes neither the page identifiers received nor the
    matrix of a message identifier other than its own, however the call of
    the handler ends. *)
Theorem other_messages_are_untouched (p : Galileo_HAS_page) (w : world) (other : nat) :
  0 <= message_id p ->
  Z.of_nat other <> message_id p ->
  match msg_handler_galileo_e6_has K rs_decode (HAS_page_object p) w with
  | Ok _ w' | Throw _ w' =>
      d_received_pids (this w') !! other = d_received_pids (this w) !! other /\
      d_C_matrix (this w') !! other = d_C_matrix (this w) !! other
  | Undef => True
  end.
Proof.
  intros Hpos Hother.
  assert (Hne : other <> Z.to_nat (message_id p)) by lia.
  set (P := fun (received : list (list Z)) (C : list (list (list Z))) =>
              received !! other = d_received_pids (this w) !! other /\
              C !! other = d_C_matrix (this w) !! other).
  pose proof (msg_handler_keeps_pages K rs_decode P (HAS_page_object p)) as H.
  assert (Hk : keeps (fun w' => P (d_received_pids (this w')) (d_C_matrix (this w')))
                 (msg_handler_galileo_e6_has K rs_decode (HAS_page_object p))).
  { apply H. intros p' [= <-]. split.
    - unfold accumulate_page. cbv zeta. repeat apply keeps_when.
      apply keeps_bind; [apply keeps_at|]. intros l.
      apply keeps_when. apply keeps_bind.
      + apply keeps_modify. intros r [H1 H2]. subst P. cbn.
        rewrite list_lookup_insert_ne by congruence. split; assumption.
      + intros _. unfold store_page. apply keeps_for_loop. intros k.
        destruct (decide _); [|apply keeps_throw]. cbv zeta.
        destruct (forallb _ _); [|apply keeps_throw].
        apply keeps_store. intros r r' [H1 H2] Hassign.
        unfold assign3 in Hassign. repeat case_match; simplify_eq. subst P. cbn.
        rewrite list_lookup_insert_ne by congruence. split; assumption.
    - apply keeps_store. intros r r' [H1 H2] Hreset.
      unfold reset_slot in Hreset. repeat case_match; simplify_eq. subst P. cbn.
      rewrite !list_lookup_insert_ne by congruence. split; assumption. }
  specialize (Hk w (conj eq_refl eq_refl)).
  destruct (msg_handler_galileo_e6_has K rs_decode (HAS_page_object p) w); exact Hk.
Qed.

End Slots.

Lemma pages_stay_well_formed_witness :
  Forall stimulus_in_range
    [deliver (HAS_page_object page_five_of_two); deliver (HAS_page_object page_zero)] /\
  match sample_run [deliver (HAS_page_object page_five_of_two);
                    deliver (HAS_page_object page_zero)] with
  | Ok _ w | Throw _ w => slots_ok (this w)
  | Undef => True
  end.
Proof.
  assert (H : Forall stimulus_in_range
                [deliver (HAS_page_object page_five_of_two);
                 deliver (HAS_page_object page_zero)]).
  { repeat apply Forall_cons_2; [| |apply Forall_nil_2];
      unfold stimulus_in_range, page_in_range; cbn; lia. }
  split; [exact H|].
  apply (pages_stay_well_formed sample_constants sample_rs_decode _ H).
Defined.

Lemma other_messages_are_untouched_witness :
  0 <= message_id page_five_of_two /\
  d_received_pids (this (world_after [deliver (HAS_page_object page_unknown_system);
                                      deliver (HAS_page_object page_five_of_two)]))
    !! 5%nat
  = d_received_pids (this (world_after [deliver (HAS_page_object page_unknown_system)]))
      !! 5%nat.
Proof.
  split; [cbn; lia|].
  pose proof (other_messages_are_untouched sample_constants sample_rs_decode
                page_five_of_two
                (world_after [deliver (HAS_page_object page_unknown_system)]) 5) as H.
  assert (E : world_after [deliver (HAS_page_object page_unknown_system);
                           deliver (HAS_page_object page_five_of_two)]
              = state_of power_on
                  (msg_handler_galileo_e6_has sample_constants sample_rs_decode
                     (HAS_page_object page_five_of_two)
                     (world_after [deliver (HAS_page_object page_unknown_system)])))
    by (vm_compute; reflexivity).
  rewrite E.
  assert (Hret : returned
            (msg_handler_galileo_e6_has sample_constants sample_rs_decode
               (HAS_page_object page_five_of_two)
               (world_after [deliver (HAS_page_object page_unknown_system)])) = true)
    by (vm_compute; reflexivity).
  destruct (msg_handler_galileo_e6_has sample_constants sample_rs_decode
              (HAS_page_object page_five_of_two)
              (world_after [deliver (HAS_page_object page_unknown_system)]))
    as [a w'|e w'|]; [|discriminate Hret|discriminate Hret].
  cbn [state_of]. apply H; cbn; lia.
Defined.

(** * The number of erasure positions *)

Lemma length_push_erasures (pids : list Z) (from : Z) (count : nat) :
  NoDup pids ->
  (length (push_erasures pids from count)
   + length (filter (fun pid => (from <= pid < from + Z.of_nat count)%Z) pids))%nat
  = count.
Proof.
  intros Hnd. rewrite push_erasures_as_filter, length_fmap.
  set (found := fun k : nat => not_found pids (from + Z.of_nat k) <> true).
  assert (Hfound : Permutation
            ((fun k => from + Z.of_nat k) <$> filter found (seq 0 count))
            (filter (fun pid => from <= pid < from + Z.of_nat count) pids)).
  { apply NoDup_Permutation.
    - apply NoDup_fmap_2; [intros a b; lia|]. apply NoDup_filter, NoDup_seq.
    - apply NoDup_filter, Hnd.
    - intros pid. rewrite list_elem_of_fmap, list_elem_of_filter. split.
      + intros (k & -> & Hk). apply list_elem_of_filter in Hk as [Hk Hseq].
        apply elem_of_seq in Hseq. split; [lia|].
        destruct (decide (from + Z.of_nat k ∈ pids)) as [Hin|Hout]; [exact Hin|].
        exfalso. apply Hk, not_found_spec, Hout.
      + intros [Hr Hin]. exists (Z.to_nat (pid - from)).
        split; [lia|]. apply list_elem_of_filter. split; [|apply elem_of_seq; lia].
        unfold found. replace (from + Z.of_nat (Z.to_nat (pid - from))) with pid by lia.
        rewrite not_found_spec. auto. }
  apply Permutation_length in Hfound. rewrite length_fmap in Hfound.
  rewrite <- Hfound.
  pose proof (filter_app_complement
                (fun k : nat => not_found pids (from + Z.of_nat k) = true)
                (seq 0 count)) as Hsplit.
  apply Permutation_length in Hsplit.
  rewrite length_app, length_seq in Hsplit. exact Hsplit.
Qed.

Lemma length_three_ranges (pids : list Z) (message_size : Z) :
  0 <= message_size <= 32 ->
  Forall (fun pid => 1 <= pid <= 255) pids ->
  length pids
  = (length (filter (fun pid => (1 <= pid < 1 + Z.of_nat (Z.to_nat message_size))%Z)
               pids)
     + length (filter (fun pid => (message_size < pid < 33)%Z) pids)
     + length (filter (fun pid => (33 <= pid < 33 + Z.of_nat 223)%Z) pids))%nat.
Proof.
  intros Hs. induction 1 as [|pid pids Hpid _ IH]; [reflexivity|].
  rewrite !filter_cons. cbn [length]. rewrite IH.
  repeat destruct (decide _); cbn [length]; lia.
Qed.

(** X9. When the page identifiers received are distinct numbers between
    1 and 255 and the message size is at most 32, the erasure positions are
    223 plus the message size, minus the page identifiers received, plus
    those of them that are above the message size and below 33.  So, when
    as many page identifiers were received as the message size, as it is
    when [process_HAS_page] calls [decode_message_type1], there are more than
    223 erasure positions exactly when a page identifier received is above
    the message size and below 33, as the comment of the code supposes. *)
Theorem too_many_erasures_iff (pids : list Z) (message_size : Z) :
  NoDup pids ->
  Forall (fun pid => 1 <= pid <= 255) pids ->
  0 <= message_size <= 32 ->
  Z.of_nat (length (erasure_positions pids message_size))
  = 223 + message_size - Z.of_nat (length pids)
    + Z.of_nat (length (filter (fun pid => message_size < pid < 33) pids)) /\
  (Z.of_nat (length pids) = message_size ->
   ((223 < length (erasure_positions pids message_size))%nat <->
    exists pid, pid ∈ pids /\ message_size < pid < 33)).
Proof.
  intros Hnd Hrange Hs.
  assert (Hlen : Z.of_nat (length (erasure_positions pids message_size))
                 = 223 + message_size - Z.of_nat (length pids)
                   + Z.of_nat (length (filter (fun pid => message_size < pid < 33)
                                         pids))).
  { unfold erasure_positions. rewrite length_app.
    pose proof (length_push_erasures pids 1 (Z.to_nat message_size) Hnd).
    pose proof (length_push_erasures pids 33 223 Hnd).
    pose proof (length_three_ranges pids message_size Hs Hrange). lia. }
  split; [exact Hlen|].
  intros Hsize. split.
  - intros Hmany.
    destruct (filter (fun pid => message_size < pid < 33) pids) as [|pid l] eqn:E.
    + cbn [length] in Hlen. lia.
    + assert (Hin : pid ∈ filter (fun pid => message_size < pid < 33) pids)
        by (rewrite E; left).
      apply list_elem_of_filter in Hin as [Hpid Hin].
      exists pid. split; assumption.
  - intros (pid & Hin & Hpid).
    assert (Hin' : pid ∈ filter (fun pid => message_size < pid < 33) pids)
      by (apply list_elem_of_filter; split; assumption).
    destruct (filter (fun pid => message_size < pid < 33) pids); [inversion Hin'|].
    cbn [length] in Hlen. lia.
Qed.

Lemma too_many_erasures_iff_witness :
  NoDup [5] /\
  Z.of_nat (length (erasure_positions [5] 1)) = 224 /\
  ((223 < length (erasure_positions [5%Z] 1%Z))%nat <->
   exists pid, pid ∈ [5] /\ 1 < pid < 33).
Proof.
  assert (Hnd : NoDup [5]) by (apply NoDup_singleton).
  destruct (too_many_erasures_iff [5] 1 Hnd) as [H1 H2].
  - apply Forall_singleton. lia.
  - lia.
  - split; [exact Hnd|]. split; [exact H1|]. apply H2. reflexivity.
Defined.
(** * A decoding that fails, a decoding that succeeds *)

Section Decoding.

Variable K : icd_constants.
Variable rs_decode : list Z -> list Z -> option (list Z).

(** X10. When the decoder of the Reed-Solomon code fails on a column,
    [decode_message_type1] returns -1 and publishes nothing, and only
    [d_M_matrix] has changed: the page identifiers received and the matrix of
    the message are kept as they were, unlike what is done when there are
    too many erasure positions. *)
Theorem failed_decoding_keeps_pages (w : world) (message_id message_size : Z)
    (pids : list Z) (r' : receiver) :
  0 <= message_size < 255 ->
  d_received_pids (this w) !! Z.to_nat message_id = Some pids ->
  (length (erasure_positions pids message_size) <= 223)%nat ->
  decode_columns rs_decode GALILEO_CNAV_OCTETS_IN_SUBPAGE 0 (Z.to_nat message_id)
    (erasure_positions pids message_size)
    (set_d_M_matrix (fun _ => zero_matrix GALILEO_CNAV_INFORMATION_VECTOR_LENGTH
                                GALILEO_CNAV_OCTETS_IN_SUBPAGE) (this w))
  = Ok false r' ->
  decode_message_type1 K rs_decode message_id message_size w
  = Ok (-1) (Build_world r' (published w)) /\
  d_received_pids r' = d_received_pids (this w) /\
  d_C_matrix r' = d_C_matrix (this w) /\
  d_masks r' = d_masks (this w) /\
  d_HAS_data r' = d_HAS_data (this w) /\
  d_new_message r' = d_new_message (this w) /\
  d_nav_msg_packet r' = d_nav_msg_packet (this w).
Proof.
  intros Hs Hpids Hfew Hcols. split.
  - unfold decode_message_type1. cbv zeta.
    destruct (Z.leb_spec 255 message_size) as [|_]; [lia|].
    unfold bind at 1. rewrite Hpids. cbn [defined ret].
    rewrite decide_False by lia.
    unfold bind, on_this, modify. cbn [this published]. rewrite Hcols. reflexivity.
  - match type of Hcols with
    | decode_columns _ ?n ?col ?mid ?er ?r1 = _ =>
        pose proof (decode_columns_but_M rs_decode n col mid er
                      (set_d_M_matrix (fun _ => []) r1) r1 eq_refl) as Hk
    end.
    rewrite Hcols in Hk.
    repeat apply conj;
      [apply (f_equal d_received_pids) in Hk|apply (f_equal d_C_matrix) in Hk|
       apply (f_equal d_masks) in Hk|apply (f_equal d_HAS_data) in Hk|
       apply (f_equal d_new_message) in Hk|apply (f_equal d_nav_msg_packet) in Hk];
      exact Hk.
Qed.

End Decoding.

Lemma failed_decoding_keeps_pages_witness :
  exists w',
    decode_message_type1 sample_constants sample_rs_decode 3 2
      (Build_world
         (set_d_received_pids (fun v => <[3%nat := [1; 33]]> v)
            galileo_e6_has_msg_receiver) []) = Ok (-1) w' /\
    d_received_pids (this w') !! 3%nat = Some [1; 33] /\
    published w' = [].
Proof.
  set (w := Build_world
              (set_d_received_pids (fun v => <[3%nat := [1; 33]]> v)
                 galileo_e6_has_msg_receiver) []).
  set (r' := state_of (this w)
               (decode_columns sample_rs_decode GALILEO_CNAV_OCTETS_IN_SUBPAGE 0
                  (Z.to_nat 3) (erasure_positions [1; 33] 2)
                  (set_d_M_matrix
                     (fun _ => zero_matrix GALILEO_CNAV_INFORMATION_VECTOR_LENGTH
                                 GALILEO_CNAV_OCTETS_IN_SUBPAGE) (this w)))).
  destruct (failed_decoding_keeps_pages sample_constants sample_rs_decode w 3 2 [1; 33] r')
    as (Hrun & Hpids & _).
  - lia.
  - reflexivity.
  - vm_compute. lia.
  - subst r'.
    match goal with
    | |- ?o = Ok false (state_of ?d ?o) =>
        assert (H : match o with Ok false _ => true | _ => false end = true)
          by (vm_compute; reflexivity);
        destruct o as [[|] s|e s|]; try discriminate H; reflexivity
    end.
  - exists (Build_world r' (published w)). split; [exact Hrun|].
    change (d_received_pids r' !! 3%nat = Some [1; 33] /\ published w = []).
    rewrite Hpids. split; reflexivity.
Defined.

(** * The header of the record *)

Section HeaderKept.

Variable K : icd_constants.
Variable h : mt1_header.

Let header_is (s : body_reader) : Prop := header (data s) = h.

Lemma read_orbit_corrections_keeps_header : keeps header_is read_orbit_corrections.
Proof. unfold read_orbit_corrections, read_orbit_satellite, header_is. frame. Qed.

Lemma read_clock_fullset_corrections_keeps_header :
  keeps header_is read_clock_fullset_corrections.
Proof. unfold read_clock_fullset_corrections, header_is. frame. Qed.

Lemma read_clock_subset_corrections_keeps_header :
  keeps header_is read_clock_subset_corrections.
Proof.
  unfold read_clock_subset_corrections, read_clock_subset_system, header_is. frame.
Qed.

Lemma count_cells_keeps_header (n sys : nat) (max_signals : Z) :
  keeps header_is (count_cells n sys max_signals).
Proof.
  revert sys max_signals. induction n as [|n IH]; intros sys max_signals;
    cbn [count_cells].
  - apply keeps_ret.
  - apply keeps_bind; [unfold count_cells_of_system, header_is; frame|]. intros c.
    apply keeps_bind; [apply IH|]. intros r. apply keeps_ret.
Qed.

Lemma read_cells_keeps_header (cell : nat -> nat -> M body_reader unit)
    (counts : list (Z * Z)) (sys sat : nat) :
  (forall sat c, keeps header_is (cell sat c)) ->
  keeps header_is (read_cells cell counts sys sat).
Proof.
  intros Hcell. revert sys sat.
  induction counts as [|[number_sats number_codes] rest IH]; intros sys sat;
    cbn [read_cells].
  - apply keeps_ret.
  - apply keeps_bind; [|intros _; apply IH].
    apply keeps_for_loop. intros s. apply keeps_for_loop. intros c.
    apply keeps_bind; [unfold cell_present, header_is; frame|]. intros present.
    apply keeps_when, Hcell.
Qed.

Lemma read_code_bias_keeps_header : keeps header_is read_code_bias.
Proof.
  unfold read_code_bias.
  apply keeps_bind; [unfold header_is; frame|]. intros enabled. apply keeps_when.
  apply keeps_bind; [unfold header_is; frame|]. intros bits.
  apply keeps_bind; [unfold header_is; frame|]. intros _.
  apply keeps_bind; [unfold header_is; frame|]. intros _.
  apply keeps_bind; [unfold header_is; frame|]. intros nsys.
  apply keeps_bind; [apply count_cells_keeps_header|]. intros counts.
  apply keeps_bind; [unfold header_is; frame|]. intros n.
  apply keeps_bind; [unfold header_is; frame|]. intros _.
  apply read_cells_keeps_header. intros sat c. unfold header_is. frame.
Qed.

Lemma read_phase_bias_keeps_header : keeps header_is read_phase_bias.
Proof.
  unfold read_phase_bias.
  apply keeps_bind; [unfold header_is; frame|]. intros enabled. apply keeps_when.
  apply keeps_bind; [unfold header_is; frame|]. intros bits.
  apply keeps_bind; [unfold header_is; frame|]. intros _.
  apply keeps_bind; [unfold header_is; frame|]. intros _.
  apply keeps_bind; [unfold header_is; frame|]. intros nsys.
  apply keeps_bind; [apply count_cells_keeps_header|]. intros counts.
  apply keeps_bind; [unfold header_is; frame|]. intros n.
  apply keeps_bind; [unfold header_is; frame|]. intros _.
  apply keeps_bind; [unfold header_is; frame|]. intros _.
  apply read_cells_keeps_header. intros sat c. unfold header_is. frame.
Qed.

Lemma read_MT1_body_steps_keeps_header : keeps header_is (read_MT1_body_steps K).
Proof.
  unfold read_MT1_body_steps, read_corrections, read_from_clock_subset.
  apply keeps_bind; [apply resolve_mask_keeps_header|]. intros _.
  apply keeps_bind; [apply read_orbit_corrections_keeps_header|]. intros _.
  apply keeps_bind; [apply read_clock_fullset_corrections_keeps_header|]. intros _.
  apply keeps_bind; [apply read_clock_subset_corrections_keeps_header|]. intros _.
  apply keeps_bind; [apply read_code_bias_keeps_header|]. intros _.
  apply read_phase_bias_keeps_header.
Qed.

End HeaderKept.

(** * A decoding that succeeds *)

Lemma on_this_Ok_inv {A} (m : M receiver A) (w w' : world) (a : A) :
  on_this m w = Ok a w' ->
  exists r, m (this w) = Ok a r /\ w' = Build_world r (published w).
Proof.
  unfold on_this. destruct (m (this w)) as [a' r|e r|]; try discriminate.
  intros [= -> <-]. exists r. split; reflexivity.
Qed.

Lemma length_flat_map_bitset8 (row : list Z) :
  length (flat_map bitset8_to_string row) = (length row * 8)%nat.
Proof.
  induction row as [|b row IH]; [reflexivity|].
  cbn [flat_map]. rewrite length_app, IH. reflexivity.
Qed.

(** The text read from [d_M_matrix] has 424 characters for each row. *)
Lemma rows_to_text_length (Mx : list (list Z)) (message_size : nat) (t : text) :
  rows_to_text Mx message_size = Some t -> length t = (message_size * 424)%nat.
Proof.
  unfold rows_to_text.
  assert (H : forall rows acc t',
             fold_left
               (fun acc row =>
                  t ← acc;
                  r ← Mx !! row;
                  if decide (GALILEO_CNAV_OCTETS_IN_SUBPAGE <= length r)%nat
                  then Some (t ++ flat_map bitset8_to_string
                                    (take GALILEO_CNAV_OCTETS_IN_SUBPAGE r))
                  else None) rows acc = Some t' ->
             exists t0, acc = Some t0 /\
                        length t' = (length t0 + length rows * 424)%nat).
  { induction rows as [|row rows IH]; intros acc t'; cbn [fold_left].
    - intros ->. exists t'. split; [reflexivity|]. cbn. lia.
    - intros Hfold. apply IH in Hfold as (t1 & Hstep & Hlen).
      destruct acc as [t0|]; cbn in Hstep; [|discriminate].
      destruct (Mx !! row) as [r|]; cbn in Hstep; [|discriminate].
      destruct (decide _) as [Hr|]; [|discriminate].
      injection Hstep as <-. exists t0. split; [reflexivity|].
      rewrite Hlen, length_app, length_flat_map_bitset8, length_take.
      unfold GALILEO_CNAV_OCTETS_IN_SUBPAGE in *. cbn [length]. lia. }
  intros Hrows. apply H in Hrows as (t0 & [= <-] & Hlen).
  rewrite Hlen, length_seq. reflexivity.
Qed.

Section Success.

Variable K : icd_constants.
Variable rs_decode : list Z -> list Z -> option (list Z).

(** What [publish_and_read] leaves when it returns 0. *)
Lemma publish_and_read_success (mid : nat) (decoded : text) (w w' : world) (res : Z) :
  publish_and_read K mid decoded w = Ok res w' ->
  (res = 0 \/ res = -1) /\
  (res = 0 ->
   exists h,
     header_fields K (take (Z.to_nat (GALILEO_CNAV_MT1_HEADER_BITS K)) decoded)
     = Some h /\
     header (d_HAS_data (this w')) = h /\
     d_received_pids (this w') !! mid = Some [] /\
     d_C_matrix (this w') !! mid
     = Some (zero_matrix GALILEO_CNAV_MAX_NUMBER_SYMBOLS_ENCODED_BLOCK
               GALILEO_CNAV_OCTETS_IN_SUBPAGE) /\
     d_M_matrix (this w') = d_M_matrix (this w)).
Proof.
  unfold publish_and_read. rewrite bind_get. intros H.
  apply bind_Ok_inv in H as ([] & w1 & Hmon & H).
  assert (Hw1 : w1 = monitored decoded w).
  { unfold monitored. destruct (d_enable_navdata_monitor (this w));
      cbn in Hmon; injection Hmon as <-; reflexivity. }
  assert (HM1 : d_M_matrix (this w1) = d_M_matrix (this w)).
  { subst w1. unfold monitored. destruct (d_enable_navdata_monitor (this w));
      reflexivity. }
  clear Hmon Hw1.
  apply bind_Ok_inv in H as ([] & w2 & Hreset & H).
  apply on_this_Ok_inv in Hreset as (r2 & Hreset & ->).
  unfold store in Hreset.
  destruct (reset_slot mid (this w1)) as [r2'|] eqn:Hslot; [|discriminate].
  injection Hreset as <-.
  destruct (reset_slot_inv _ _ _ Hslot) as (Hpids & HC & _ & _ & _ & _ & _ & HM2).
  apply bind_Ok_inv in H as ([] & w3 & Hdata & H).
  apply on_this_Ok_inv in Hdata as (r3 & Hdata & ->).
  injection Hdata as <-.
  apply bind_Ok_inv in H as ([] & w4 & Hhdr & H).
  apply on_this_Ok_inv in Hhdr as (r4 & Hhdr & ->).
  cbn [this published] in Hhdr, H.
  unfold read_MT1_header, substr0 in Hhdr.
  destruct (forallb is_bit _); [|discriminate].
  apply bind_Ok_inv in Hhdr as (h & r4' & Hh & Hhdr).
  destruct (header_fields K _) as [h'|] eqn:Hfields; [|discriminate].
  injection Hh as <- <-. injection Hhdr as <-.
  apply on_this_Ok_inv in H as (r5 & Hbody & ->).
  cbn [this published] in Hbody.
  unfold try_read_body in Hbody.
  destruct (decide _) as [Hlen|Hshort]; [|injection Hbody as <- <-; split; [auto|lia]].
  unfold read_MT1_body in Hbody.
  match type of Hbody with
  | context [read_MT1_body_steps K ?s0] =>
      pose proof (read_MT1_body_steps_keeps_header K h' s0 eq_refl) as Hk;
      destruct (read_MT1_body_steps K s0) as [[] s|e s|]
  end; [| |discriminate]; injection Hbody as <- <-.
  - split; [auto|]. intros _. exists h'. cbn.
    split; [reflexivity|]. split; [exact Hk|].
    split; [exact Hpids|]. split; [exact HC|]. congruence.
  - split; [auto|lia].
Qed.

(** X11. [decode_message_type1] returns 0 or -1.  When it returns 0, the
    text read from [d_M_matrix] has 424 characters '0' or '1' for each page
    of the message, the header of the record left in [d_HAS_data] is made of
    the fields read in the first characters of that text, whatever the
    reader of the body did, the page identifiers received for the message
    identifier are cleared and its matrix holds zeros, and nothing was sent
    to the PVT block. *)
Theorem successful_decoding (message_id message_size : Z) (w w' : world) (res : Z) :
  decode_message_type1 K rs_decode message_id message_size w = Ok res w' ->
  (res = 0 \/ res = -1) /\
  (res = 0 ->
   exists decoded h,
     rows_to_text (d_M_matrix (this w')) (Z.to_nat message_size) = Some decoded /\
     length decoded = (Z.to_nat message_size * 424)%nat /\
     forallb is_bit decoded = true /\
     header_fields K (take (Z.to_nat (GALILEO_CNAV_MT1_HEADER_BITS K)) decoded)
     = Some h /\
     header (d_HAS_data (this w')) = h /\
     d_received_pids (this w') !! Z.to_nat message_id = Some [] /\
     d_C_matrix (this w') !! Z.to_nat message_id
     = Some (zero_matrix GALILEO_CNAV_MAX_NUMBER_SYMBOLS_ENCODED_BLOCK
               GALILEO_CNAV_OCTETS_IN_SUBPAGE) /\
     pvt_records w' = pvt_records w).
Proof.
  intros Hrun.
  assert (Hpvt : pvt_records w' = pvt_records w).
  { pose proof (decode_keeps_pvt_records K rs_decode (pvt_records w) message_id
                  message_size w eq_refl) as Hk.
    rewrite Hrun in Hk. exact Hk. }
  unfold decode_message_type1 in Hrun. cbv zeta in Hrun.
  destruct (255 <=? message_size); [discriminate|].
  apply bind_Ok_inv in Hrun as (pids & w0 & Hpids & Hrun).
  destruct (d_received_pids (this w) !! Z.to_nat message_id) as [pids'|];
    [|discriminate].
  injection Hpids as <- <-.
  destruct (decide _).
  { apply bind_Ok_inv in Hrun as ([] & w1 & _ & Hrun). injection Hrun as <- <-.
    split; [auto|lia]. }
  apply bind_Ok_inv in Hrun as ([] & w1 & _ & Hrun).
  apply bind_Ok_inv in Hrun as (decoded_ok & w2 & _ & Hrun).
  destruct decoded_ok; [|injection Hrun as <- <-; split; [auto|lia]].
  apply bind_Ok_inv in Hrun as (decoded & w3 & Hrows & Hrun).
  destruct (rows_to_text (d_M_matrix (this w2)) (Z.to_nat message_size))
    as [decoded'|] eqn:Htext; [|discriminate].
  injection Hrows as <- <-.
  destruct (publish_and_read_success _ _ _ _ _ Hrun) as [Hres Hzero].
  split; [exact Hres|]. intros Hres0.
  destruct (Hzero Hres0) as (h & Hh & Hhdr & Hp & HC & HM).
  exists decoded', h. rewrite HM.
  repeat apply conj; try assumption.
  - apply (rows_to_text_length _ _ _ Htext).
  - apply (rows_to_text_bits _ _ _ Htext).
Qed.

End Success.

Lemma successful_decoding_witness :
  exists w' decoded,
    decode_message_type1 sample_constants sample_rs_decode 5 1
      (state_of power_on (on_this (accumulate_page page_unknown_system) power_on))
    = Ok 0 w' /\
    rows_to_text (d_M_matrix (this w')) 1 = Some decoded /\
    length decoded = 424%nat /\
    header (d_HAS_data (this w')) = header_unknown_system /\
    d_received_pids (this w') !! 5%nat = Some [].
Proof.
  set (w := state_of power_on (on_this (accumulate_page page_unknown_system) power_on)).
  set (w' := state_of power_on
               (decode_message_type1 sample_constants sample_rs_decode 5 1 w)).
  assert (Hrun : decode_message_type1 sample_constants sample_rs_decode 5 1 w = Ok 0 w')
    by (apply (result_of_Ok _ power_on); vm_compute; reflexivity).
  destruct (successful_decoding sample_constants sample_rs_decode 5 1 w w' 0 Hrun)
    as [_ Hzero].
  destruct (Hzero eq_refl) as (decoded & h & Hrows & Hlen & _ & Hh & Hhdr & Hpids & _).
  exists w', decoded.
  split; [exact Hrun|]. split; [exact Hrows|]. split; [exact Hlen|].
  split; [|exact Hpids].
  vm_compute. reflexivity.
Defined.

(** * The masks of the other mask identifiers *)

Section OtherMasks.

Variable K : icd_constants.
Variable h : mt1_header.
Variable other : nat.
Variable entry : option Z * option Z * option (list Z) * option (list Z)
                 * option (list Z) * option (list bool)
                 * option (list (list (list bool))) * option (list Z).
Hypothesis Hother : other <> Z.to_nat (mask_id h).

Let kept (s : body_reader) : Prop :=
  header (data s) = h /\ mask_entry (masks s) other = entry.

(** The mask identifier of the record, read where [kept] holds. *)
Lemma kept_the_mask_id {B} (k : nat -> M body_reader B) :
  keeps kept (k (Z.to_nat (mask_id h))) -> keeps kept (bind the_mask_id k).
Proof.
  intros Hk s Hs. unfold the_mask_id. rewrite bind_get.
  destruct Hs as [Hh He]. rewrite Hh. apply Hk. split; assumption.
Qed.

Ltac kept_operation :=
  let s := fresh "s" in
  let Hs := fresh "Hs" in
  let Hh := fresh "Hh" in
  let He := fresh "He" in
  intros s Hs;
  cbv [substr advance message_at put store_data store_masks data_at masks_at
       block_enabled get modify store defined ret undefined throw
       assign assign2 assign3 copy_prefix];
  repeat case_match; simplify_eq; try exact I;
  destruct Hs as [Hh He];
  (split; [exact Hh|]);
  unfold mask_entry in *; cbn;
  rewrite ?list_lookup_insert_ne by (intros Heq; apply Hother; symmetry; exact Heq);
  exact He.

Ltac kept_steps :=
  repeat
    (cbv zeta;
     lazymatch goal with
     | |- keeps _ (bind the_mask_id _) => apply kept_the_mask_id
     | |- keeps _ (bind _ _) => apply keeps_bind; [|intro]
     | |- keeps _ (when _ _) => apply keeps_when
     | |- keeps _ (for_loop _ _ _) => apply keeps_for_loop; intro
     | |- keeps _ (ret _) => apply keeps_ret
     | |- keeps _ (if ?b then _ else _) => destruct b
     | |- keeps _ _ => kept_operation
     end).

Lemma read_mask_system_keeps_others (i : nat) : keeps kept (read_mask_system i).
Proof. unfold read_mask_system, kept. kept_steps. Qed.

Lemma read_mask_keeps_others : keeps kept (read_mask K).
Proof.
  unfold read_mask. apply kept_the_mask_id.
  repeat (cbv zeta; first [apply keeps_bind; [|intro] | apply keeps_when]);
    try apply keeps_for_loop; try apply read_mask_system_keeps_others;
    unfold kept; kept_steps.
Qed.

Lemma use_stored_mask_keeps_others : keeps kept use_stored_mask.
Proof. unfold use_stored_mask, copy_from_masks, kept. kept_steps. Qed.

Lemma discard_crazy_toh_keeps_others : keeps kept discard_crazy_toh.
Proof. unfold discard_crazy_toh, kept. kept_steps. Qed.

Lemma read_orbit_corrections_keeps_others : keeps kept read_orbit_corrections.
Proof. unfold read_orbit_corrections, read_orbit_satellite, kept. kept_steps. Qed.

Lemma read_clock_fullset_corrections_keeps_others :
  keeps kept read_clock_fullset_corrections.
Proof. unfold read_clock_fullset_corrections, kept. kept_steps. Qed.

Lemma read_clock_subset_corrections_keeps_others :
  keeps kept read_clock_subset_corrections.
Proof.
  unfold read_clock_subset_corrections, read_clock_subset_system, kept. kept_steps.
Qed.

Lemma count_cells_keeps_others (n sys : nat) (max_signals : Z) :
  keeps kept (count_cells n sys max_signals).
Proof.
  revert sys max_signals. induction n as [|n IH]; intros sys max_signals;
    cbn [count_cells].
  - apply keeps_ret.
  - apply keeps_bind; [unfold count_cells_of_system, kept; kept_steps|]. intros c.
    apply keeps_bind; [apply IH|]. intros r. apply keeps_ret.
Qed.

Lemma read_cells_keeps_others (cell : nat -> nat -> M body_reader unit)
    (counts : list (Z * Z)) (sys sat : nat) :
  (forall sat c, keeps kept (cell sat c)) ->
  keeps kept (read_cells cell counts sys sat).
Proof.
  intros Hcell. revert sys sat.
  induction counts as [|[number_sats number_codes] rest IH]; intros sys sat;
    cbn [read_cells].
  - apply keeps_ret.
  - apply keeps_bind; [|intros _; apply IH].
    apply keeps_for_loop. intros s. apply keeps_for_loop. intros c.
    apply keeps_bind; [unfold cell_present, kept; kept_steps|]. intros present.
    apply keeps_when, Hcell.
Qed.

Lemma read_code_bias_keeps_others : keeps kept read_code_bias.
Proof.
  unfold read_code_bias.
  apply keeps_bind; [unfold kept; kept_steps|]. intros enabled. apply keeps_when.
  apply keeps_bind; [unfold kept; kept_steps|]. intros bits.
  apply keeps_bind; [unfold kept; kept_steps|]. intros _.
  apply keeps_bind; [unfold kept; kept_steps|]. intros _.
  apply keeps_bind; [unfold kept; kept_steps|]. intros nsys.
  apply keeps_bind; [apply count_cells_keeps_others|]. intros counts.
  apply keeps_bind; [unfold kept; kept_steps|]. intros n.
  apply keeps_bind; [unfold kept; kept_steps|]. intros _.
  apply read_cells_keeps_others. intros sat c. unfold kept. kept_steps.
Qed.

Lemma read_phase_bias_keeps_others : keeps kept read_phase_bias.
Proof.
  unfold read_phase_bias.
  apply keeps_bind; [unfold kept; kept_steps|]. intros enabled. apply keeps_when.
  apply keeps_bind; [unfold kept; kept_steps|]. intros bits.
  apply keeps_bind; [unfold kept; kept_steps|]. intros _.
  apply keeps_bind; [unfold kept; kept_steps|]. intros _.
  apply keeps_bind; [unfold kept; kept_steps|]. intros nsys.
  apply keeps_bind; [apply count_cells_keeps_others|]. intros counts.
  apply keeps_bind; [unfold kept; kept_steps|]. intros n.
  apply keeps_bind; [unfold kept; kept_steps|]. intros _.
  apply keeps_bind; [unfold kept; kept_steps|]. intros _.
  apply read_cells_keeps_others. intros sat c. unfold kept. kept_steps.
Qed.

Lemma read_MT1_body_steps_keeps_others : keeps kept (read_MT1_body_steps K).
Proof.
  unfold read_MT1_body_steps, resolve_mask, read_corrections, read_from_clock_subset.
  apply keeps_bind.
  { apply keeps_bind; [unfold kept; kept_steps|]. intros flag.
    apply keeps_bind; [|intros _; apply discard_crazy_toh_keeps_others].
    destruct flag; [apply read_mask_keeps_others|apply use_stored_mask_keeps_others]. }
  intros _.
  apply keeps_bind; [apply read_orbit_corrections_keeps_others|]. intros _.
  apply keeps_bind; [apply read_clock_fullset_corrections_keeps_others|]. intros _.
  apply keeps_bind; [apply read_clock_subset_corrections_keeps_others|]. intros _.
  apply keeps_bind; [apply read_code_bias_keeps_others|]. intros _.
  apply read_phase_bias_keeps_others.
Qed.

End OtherMasks.

(** X12. The reader of the body writes the tables of the masks only at
    the mask identifier of the header of the record: what the tables hold for
    any other mask identifier is the same when the call returns and when it
    is left by an exception. *)
Theorem other_masks_are_untouched (K : icd_constants) (s : body_reader) (other : nat) :
  0 <= mask_id (header (data s)) ->
  Z.of_nat other <> mask_id (header (data s)) ->
  match read_MT1_body_steps K s with
  | Ok _ s' | Throw _ s' => mask_entry (masks s') other = mask_entry (masks s) other
  | Undef => True
  end.
Proof.
  intros Hpos Hother.
  pose proof (read_MT1_body_steps_keeps_others K (header (data s)) other
                (mask_entry (masks s) other) ltac:(lia) s (conj eq_refl eq_refl)) as Hk.
  destruct (read_MT1_body_steps K s) as [a s'|e s'|]; [apply Hk|apply Hk|exact I].
Qed.

Lemma other_masks_are_untouched_witness :
  0 <= mask_id (header (data toh_3700_entry)) /\
  mask_entry (masks toh_3700_state) 4 = mask_entry (masks toh_3700_entry) 4.
Proof.
  split; [vm_compute; discriminate|].
  pose proof (other_masks_are_untouched sample_constants toh_3700_entry 4) as H.
  unfold toh_3700_state.
  destruct (read_MT1_body_steps sample_constants toh_3700_entry) as [a s'|e s'|];
    cbn [state_of].
  - apply H; vm_compute; discriminate.
  - apply H; vm_compute; discriminate.
  - reflexivity.
Defined.

(** * The monitor, when it is not enabled *)

Section MonitorOff.

Variable K : icd_constants.
Variable rs_decode : list Z -> list Z -> option (list Z).

Lemma accumulate_page_keeps_switch (b : bool) (p : Galileo_HAS_page) :
  keeps (fun r => d_enable_navdata_monitor r = b) (accumulate_page p).
Proof. unfold accumulate_page, store_page. frame_receiver. Qed.

Lemma reset_slot_keeps_switch (b : bool) (mid : nat) :
  keeps (fun r => d_enable_navdata_monitor r = b) (store (reset_slot mid)).
Proof. frame_member. Qed.

(** X13. While the monitor is not enabled the handler publishes no packet
    on the port of the monitor, and leaves the monitor not enabled, however
    the call ends. *)
Theorem no_packet_without_monitor (msg : pmt_t) (w : world) :
  d_enable_navdata_monitor (this w) = false ->
  match msg_handler_galileo_e6_has K rs_decode msg w with
  | Ok _ w' | Throw _ w' =>
      monitor_packets w' = monitor_packets w /\
      d_enable_navdata_monitor (this w') = false
  | Undef => True
  end.
Proof.
  intros Hoff.
  set (W := fun w' : world =>
              monitor_packets w' = monitor_packets w /\
              d_enable_navdata_monitor (this w') = false).
  assert (Hk : keeps W (msg_handler_galileo_e6_has K rs_decode msg)).
  { assert (Hon : forall A (m : M receiver A),
               keeps (fun r => d_enable_navdata_monitor r = false) m ->
               keeps W (on_this m)).
    { intros A m Hm w1 [H1 H2]. unfold on_this. specialize (Hm (this w1) H2).
      destruct (m (this w1)); [split; assumption|split; assumption|exact I]. }
    apply msg_handler_step.
    - intros A m Hm. apply Hon. intros r Hr.
      specialize (Hm (d_received_pids r) (d_C_matrix r) false (d_nav_msg_packet r) r
                    (conj eq_refl (conj eq_refl (conj Hr eq_refl)))).
      destruct (m r) as [a r'|e r'|]; [| |exact I]; apply Hm.
    - intros decoded w1 [[_ H1] H2]. congruence.
    - intros d w1 [H1 H2]. split; [|exact H2].
      unfold monitor_packets in *. cbn [message_port_pub modify published].
      rewrite flat_map_app, H1. cbn. apply app_nil_r.
    - intros p _. split; apply Hon.
      + apply accumulate_page_keeps_switch.
      + apply reset_slot_keeps_switch. }
  specialize (Hk w (conj eq_refl Hoff)).
  destruct (msg_handler_galileo_e6_has K rs_decode msg w); exact Hk.
Qed.

End MonitorOff.

Lemma no_packet_without_monitor_witness :
  d_enable_navdata_monitor (this power_on) = false /\
  monitor_packets (world_after [deliver (HAS_page_object page_unknown_system)]) = [].
Proof.
  split; [reflexivity|].
  pose proof (no_packet_without_monitor sample_constants sample_rs_decode
                (HAS_page_object page_unknown_system) power_on eq_refl) as H.
  unfold world_after, sample_run. cbn [run react].
  unfold bind at 1.
  destruct (msg_handler_galileo_e6_has sample_constants sample_rs_decode
              (HAS_page_object page_unknown_system) power_on) as [a w'|e w'|];
    cbn [ret state_of]; [apply H|apply H|reflexivity].
Defined.

(** * Loops that return *)

(** A loop whose turns return and keep an invariant that depends on the
    counter returns, with the invariant of the end. *)
Lemma for_loop_returns {St} (I : nat -> St -> Prop) (n i0 : nat)
    (body : nat -> M St unit) :
  (forall i s, (i0 <= i < i0 + n)%nat -> I i s ->
     exists s', body i s = Ok tt s' /\ I (S i) s') ->
  forall s, I i0 s ->
    exists s', for_loop n i0 body s = Ok tt s' /\ I (i0 + n)%nat s'.
Proof.
  revert i0. induction n as [|n IH]; intros i0 Hbody s Hs.
  - exists s. split; [reflexivity|]. replace (i0 + 0)%nat with i0 by lia. exact Hs.
  - cbn [for_loop].
    destruct (Hbody i0 s ltac:(lia) Hs) as (s1 & Hrun & Hs1).
    destruct (IH (S i0) ltac:(intros i s' Hi; apply Hbody; lia) s1 Hs1)
      as (s2 & Hloop & Hs2).
    exists s2. split.
    + rewrite (bind_Ok _ _ _ _ _ Hrun). exact Hloop.
    + replace (i0 + S n)%nat with (S i0 + n)%nat by lia. exact Hs2.
Qed.

(** A vector whose entries are known is the list of these entries. *)
Lemma list_eq_map_seq {A} (f : nat -> A) (l : list A) (n : nat) :
  length l = n ->
  (forall j, (j < n)%nat -> l !! j = Some (f j)) ->
  l = map f (seq 0 n).
Proof.
  intros Hlen Hl. apply list_eq. intros j. rewrite list_lookup_fmap.
  destruct (decide (j < n)%nat) as [Hj|Hj].
  - rewrite (Hl j Hj), lookup_seq_lt by exact Hj. reflexivity.
  - rewrite lookup_seq_ge by lia. apply lookup_ge_None. lia.
Qed.

Lemma message_at_Ok (pos : nat) (s : body_reader) (c : ascii) :
  message s !! pos = Some c -> message_at pos s = Ok c s.
Proof. intros H. unfold message_at, char_at. rewrite H. reflexivity. Qed.

(** * The clock full-set corrections *)

Section ClockFullset.

Variable s0 : body_reader.

Let m := message s0.
Let nsys := Z.to_nat (Nsys (data s0)).
Let n := Z.to_nat (Nsat s0).

Hypothesis Hflag : clock_fullset_flag (header (data s0)) = true.
Hypothesis Hmask : have_mask s0 = true.
Hypothesis Hlen : (4 + 2 * nsys + 14 * n <= length m)%nat.

(** What the block leaves unchanged. *)
Let unchanged (s : body_reader) : Prop :=
  masks s = masks s0 /\ Nsat s = Nsat s0 /\ have_mask s = true /\
  header (data s) = header (data s0) /\ Nsys (data s) = Nsys (data s0) /\
  validity_interval_index_clock_fullset_corrections (data s)
  = read_has_message_body_uint8 (take 4 m).

Let multiplier (i : nat) : Z :=
  read_has_message_body_uint8 (take 2 (drop (4 + 2 * i) m)).
Let flag (i : nat) : bool :=
  is_one (nth (4 + 2 * nsys + 14 * i) m "0").
Let delta (i : nat) : Z :=
  read_has_message_body_int16 (take 13 (drop (4 + 2 * nsys + 14 * i + 1) m)).

(** The loop on the multipliers, after [i] turns. *)
Let multipliers_read (i : nat) (s : body_reader) : Prop :=
  unchanged s /\
  message s = drop (4 + 2 * i) m /\
  length (delta_clock_c0_multiplier (data s)) = nsys /\
  (forall j, (j < i)%nat -> delta_clock_c0_multiplier (data s) !! j = Some (multiplier j)).

Lemma multipliers_turn (i : nat) (s : body_reader) :
  (0 <= i < 0 + nsys)%nat -> multipliers_read i s ->
  exists s',
    (bits <- substr HAS_MSG_DELTA_CLOCK_C0_MULTIPLIER_LENGTH ;;
     store_data (assign delta_clock_c0_multiplier set_delta_clock_c0_multiplier i
                   (read_has_message_body_uint8 bits)) ;;
     advance HAS_MSG_DELTA_CLOCK_C0_MULTIPLIER_LENGTH) s = Ok tt s' /\
    multipliers_read (S i) s'.
Proof.
  intros Hi (Hun & Hmsg & Hlength & Hread).
  unfold HAS_MSG_DELTA_CLOCK_C0_MULTIPLIER_LENGTH.
  eexists. split.
  - run_substr. run_store.
    apply advance_Ok. cbn. rewrite Hmsg, length_drop. lia.
  - unfold multipliers_read. cbn.
    split; [exact Hun|]. split.
    { rewrite Hmsg, drop_drop. f_equal. lia. }
    split; [rewrite length_insert; exact Hlength|].
    intros j Hj. destruct (decide (j = i)) as [->|Hne].
    + rewrite list_lookup_insert_eq by lia. unfold substr0. rewrite Hmsg. reflexivity.
    + rewrite list_lookup_insert_ne by congruence. apply Hread. lia.
Qed.

(** The loop on the satellites, after [i] turns. *)
Let satellites_read (i : nat) (s : body_reader) : Prop :=
  unchanged s /\
  message s = drop (4 + 2 * nsys + 14 * i) m /\
  delta_clock_c0_multiplier (data s) = map multiplier (seq 0 nsys) /\
  length (iod_change_flag (data s)) = n /\
  length (delta_clock_c0 (data s)) = n /\
  (forall j, (j < i)%nat -> iod_change_flag (data s) !! j = Some (flag j)) /\
  (forall j, (j < i)%nat -> delta_clock_c0 (data s) !! j = Some (delta j)).

Lemma satellites_turn (i : nat) (s : body_reader) :
  (0 <= i < 0 + n)%nat -> satellites_read i s ->
  exists s',
    (c <- message_at 0 ;;
     store_data (assign iod_change_flag set_iod_change_flag i (is_one c)) ;;
     advance 1 ;;
     bits <- substr HAS_MSG_DELTA_CLOCK_C0_LENGTH ;;
     store_data (assign delta_clock_c0 set_delta_clock_c0 i
                   (read_has_message_body_int16 bits)) ;;
     advance HAS_MSG_DELTA_CLOCK_C0_LENGTH) s = Ok tt s' /\
    satellites_read (S i) s'.
Proof.
  intros Hi (Hun & Hmsg & Hmult & Hlf & Hld & Hflags & Hdeltas).
  unfold HAS_MSG_DELTA_CLOCK_C0_LENGTH.
  destruct (lookup_lt_is_Some_2 m (4 + 2 * nsys + 14 * i)%nat ltac:(lia)) as [c Hc].
  assert (Hfront : message s !! 0%nat = Some c).
  { unfold text. rewrite Hmsg, lookup_drop. rewrite <- Hc. f_equal. lia. }
  eexists. split.
  - rewrite (bind_Ok _ _ _ _ _ (message_at_Ok _ _ _ Hfront)).
    run_store.
    run_with ltac:(apply advance_Ok; cbn; rewrite Hmsg, length_drop; lia).
    run_substr. run_store.
    apply advance_Ok. cbn. rewrite Hmsg, !length_drop. lia.
  - unfold satellites_read. cbn.
    split; [exact Hun|]. split.
    { rewrite Hmsg, !drop_drop. f_equal. lia. }
    split; [exact Hmult|].
    split; [rewrite length_insert; exact Hlf|].
    split; [rewrite length_insert; exact Hld|].
    split; intros j Hj; (destruct (decide (j = i)) as [->|Hne];
      [rewrite list_lookup_insert_eq by lia
      |rewrite list_lookup_insert_ne by congruence; auto with lia]).
    + unfold flag. rewrite nth_lookup, Hc. reflexivity.
    + unfold delta, substr0. rewrite Hmsg, drop_drop. reflexivity.
Qed.

Lemma clock_fullset_run :
  exists s',
    read_clock_fullset_corrections s0 = Ok tt s' /\
    unchanged s' /\
    message s' = drop (4 + 2 * nsys + 14 * n) m /\
    delta_clock_c0_multiplier (data s') = map multiplier (seq 0 nsys) /\
    iod_change_flag (data s') = map flag (seq 0 n) /\
    delta_clock_c0 (data s') = map delta (seq 0 n).
Proof.
  unfold read_clock_fullset_corrections.
  rewrite (bind_Ok _ _ s0 true s0)
    by (unfold block_enabled, get; rewrite Hflag, Hmask; reflexivity).
  cbn [when]. unfold HAS_MSG_VALIDITY_INDEX_LENGTH.
  run_substr. run_put.
  run_with ltac:(apply advance_Ok; cbn; fold m; lia).
  rewrite bind_get, bind_put.
  cbn [data set_data set_message Nsys
       set_validity_interval_index_clock_fullset_corrections]. fold nsys.
  match goal with
  | |- exists s', bind (for_loop _ _ ?body) _ ?s1 = _ /\ _ =>
      destruct (for_loop_returns multipliers_read nsys 0 body multipliers_turn s1)
        as (s2 & Hloop1 & Hun2 & Hmsg2 & Hlen2 & Hread2)
  end.
  { unfold multipliers_read, unchanged. cbn. fold m.
    repeat split; try reflexivity; try assumption.
    - apply length_replicate.
    - intros j Hj. lia. }
  rewrite (bind_Ok _ _ _ _ _ Hloop1).
  rewrite bind_get, !bind_put.
  destruct Hun2 as (Hm2 & Hn2 & Hh2 & Hhdr2 & Hnsys2 & Hv2).
  rewrite Hn2. fold n.
  match goal with
  | |- exists s', for_loop _ _ ?body ?s3 = _ /\ _ =>
      destruct (for_loop_returns satellites_read n 0 body satellites_turn s3)
        as (s4 & Hloop2 & Hun4 & Hmsg4 & Hmult4 & Hlf4 & Hld4 & Hflags4 & Hdeltas4)
  end.
  { unfold satellites_read, unchanged. cbn. repeat split; try assumption.
    - rewrite Hmsg2. f_equal. lia.
    - apply list_eq_map_seq; [exact Hlen2|]. intros j Hj. apply Hread2. lia.
    - apply length_replicate.
    - apply length_replicate.
    - intros j Hj. lia.
    - intros j Hj. lia. }
  exists s4. split; [exact Hloop2|]. split; [exact Hun4|].
  split; [exact Hmsg4|]. split; [exact Hmult4|].
  split; apply list_eq_map_seq; assumption.
Qed.

End ClockFullset.

(** * Loops that run out of text *)

Lemma advance_runs_out (k : nat) (s : body_reader) :
  (length (message s) < k)%nat -> advance k s = Throw length_error s.
Proof. intros H. unfold advance. rewrite decide_False by lia. reflexivity. Qed.

Section ClockFullsetRunsOut.

Variable s0 : body_reader.

Let nsys := Z.to_nat (Nsys (data s0)).
Let n := Z.to_nat (Nsat s0).

Hypothesis Hflag : clock_fullset_flag (header (data s0)) = true.
Hypothesis Hmask : have_mask s0 = true.
Hypothesis Hlen : (length (message s0) < 4 + 2 * nsys + 14 * n)%nat.

Lemma multipliers_run_out (s : body_reader) :
  length (delta_clock_c0_multiplier (data s)) = nsys ->
  (length (message s) < nsys * 2)%nat ->
  exists s',
    for_loop nsys 0 (fun i =>
      bits <- substr HAS_MSG_DELTA_CLOCK_C0_MULTIPLIER_LENGTH ;;
      store_data (assign delta_clock_c0_multiplier set_delta_clock_c0_multiplier i
                    (read_has_message_body_uint8 bits)) ;;
      advance HAS_MSG_DELTA_CLOCK_C0_MULTIPLIER_LENGTH) s
    = Throw length_error s'.
Proof.
  intros Hvec Hshort.
  (* the loop is left before its counter reaches the number of systems *)
  assert (H : forall k i0 s1,
            (i0 + k <= nsys)%nat ->
            length (delta_clock_c0_multiplier (data s1)) = nsys ->
            (length (message s1) < k * 2)%nat ->
            exists s',
              for_loop k i0 (fun i =>
                bits <- substr HAS_MSG_DELTA_CLOCK_C0_MULTIPLIER_LENGTH ;;
                store_data (assign delta_clock_c0_multiplier
                              set_delta_clock_c0_multiplier i
                              (read_has_message_body_uint8 bits)) ;;
                advance HAS_MSG_DELTA_CLOCK_C0_MULTIPLIER_LENGTH) s1
              = Throw length_error s').
  { unfold HAS_MSG_DELTA_CLOCK_C0_MULTIPLIER_LENGTH.
    induction k as [|k IH]; intros i0 s1 Hk Hv Hl; [lia|].
    cbn [for_loop].
    destruct (le_lt_dec 2 (length (message s1))) as [Hw|Hw].
    - erewrite bind_Ok.
      2:{ run_substr. run_store. apply advance_Ok. cbn. exact Hw. }
      apply IH; cbn; rewrite ?length_insert, ?length_drop; lia.
    - eexists. unfold bind at 1. run_substr. run_store.
      rewrite advance_runs_out by (cbn; exact Hw). reflexivity. }
  apply (H nsys 0%nat s); [lia|exact Hvec|exact Hshort].
Qed.

Lemma satellites_run_out (s : body_reader) :
  length (iod_change_flag (data s)) = n ->
  length (delta_clock_c0 (data s)) = n ->
  (length (message s) < n * 14)%nat ->
  exists s',
    for_loop n 0 (fun i =>
      c <- message_at 0 ;;
      store_data (assign iod_change_flag set_iod_change_flag i (is_one c)) ;;
      advance 1 ;;
      bits <- substr HAS_MSG_DELTA_CLOCK_C0_LENGTH ;;
      store_data (assign delta_clock_c0 set_delta_clock_c0 i
                    (read_has_message_body_int16 bits)) ;;
      advance HAS_MSG_DELTA_CLOCK_C0_LENGTH) s
    = Throw length_error s'.
Proof.
  intros Hf Hd Hshort.
  assert (H : forall k i0 s1,
            (i0 + k <= n)%nat ->
            length (iod_change_flag (data s1)) = n ->
            length (delta_clock_c0 (data s1)) = n ->
            (length (message s1) < k * 14)%nat ->
            exists s',
              for_loop k i0 (fun i =>
                c <- message_at 0 ;;
                store_data (assign iod_change_flag set_iod_change_flag i (is_one c)) ;;
                advance 1 ;;
                bits <- substr HAS_MSG_DELTA_CLOCK_C0_LENGTH ;;
                store_data (assign delta_clock_c0 set_delta_clock_c0 i
                              (read_has_message_body_int16 bits)) ;;
                advance HAS_MSG_DELTA_CLOCK_C0_LENGTH) s1
              = Throw length_error s').
  { unfold HAS_MSG_DELTA_CLOCK_C0_LENGTH.
    induction k as [|k IH]; intros i0 s1 Hk Hv1 Hv2 Hl; [lia|].
    cbn [for_loop].
    assert (Hat : exists c, message_at 0 s1 = Ok c s1).
    { unfold message_at, char_at.
      destruct (message s1 !! 0%nat) as [c|] eqn:E; [exists c; reflexivity|].
      apply lookup_ge_None in E.
      rewrite decide_True by lia. eexists. reflexivity. }
    destruct Hat as [c Hat].
    destruct (le_lt_dec 14 (length (message s1))) as [Hw|Hw].
    - erewrite bind_Ok.
      2:{ rewrite (bind_Ok _ _ _ _ _ Hat). run_store.
          run_with ltac:(apply advance_Ok; cbn; lia).
          run_substr. run_store. apply advance_Ok. cbn. rewrite length_drop. lia. }
      apply IH; cbn; rewrite ?length_insert, ?length_drop; lia.
    - unfold bind at 1. rewrite (bind_Ok _ _ _ _ _ Hat). run_store.
      destruct (le_lt_dec 1 (length (message s1))) as [H1|H1].
      + run_with ltac:(apply advance_Ok; cbn; lia).
        run_substr. run_store.
        rewrite advance_runs_out by (cbn; rewrite length_drop; lia).
        eexists. reflexivity.
      + unfold bind at 1. rewrite advance_runs_out by (cbn; lia).
        eexists. reflexivity. }
  apply (H n 0%nat s); [lia|exact Hf|exact Hd|exact Hshort].
Qed.

Lemma clock_fullset_runs_out :
  exists s', read_clock_fullset_corrections s0 = Throw length_error s'.
Proof.
  unfold read_clock_fullset_corrections.
  rewrite (bind_Ok _ _ s0 true s0)
    by (unfold block_enabled, get; rewrite Hflag, Hmask; reflexivity).
  cbn [when]. unfold HAS_MSG_VALIDITY_INDEX_LENGTH.
  run_substr. run_put.
  destruct (le_lt_dec 4 (length (message s0))) as [H4|H4].
  2:{ unfold bind at 1. rewrite advance_runs_out by (cbn; exact H4).
      eexists. reflexivity. }
  run_with ltac:(apply advance_Ok; cbn; exact H4).
  rewrite bind_get, bind_put.
  cbn [data set_data set_message Nsys
       set_validity_interval_index_clock_fullset_corrections]. fold nsys.
  destruct (le_lt_dec (nsys * 2) (length (message s0) - 4)) as [H2|H2].
  2:{ match goal with
      | |- exists s', bind (for_loop _ _ _) _ ?s1 = _ =>
          destruct (multipliers_run_out s1) as (s' & Hs')
      end.
      - cbn. apply length_replicate.
      - cbn. rewrite length_drop. exact H2.
      - exists s'. unfold bind at 1. rewrite Hs'. reflexivity. }
  match goal with
  | |- exists s', bind (for_loop _ _ ?body) _ ?s1 = _ =>
      destruct (for_loop_returns
                  (fun i s => Nsat s = Nsat s0 /\
                              length (delta_clock_c0_multiplier (data s)) = nsys /\
                              length (message s) = (length (message s0) - 4 - 2 * i)%nat)
                  nsys 0 body) with (s := s1) as (s2 & Hloop & Hn2 & _ & Hm2)
  end.
  { intros i s Hi (Hn & Hv & Hm). unfold HAS_MSG_DELTA_CLOCK_C0_MULTIPLIER_LENGTH.
    eexists. split.
    - run_substr. run_store. apply advance_Ok. cbn. lia.
    - cbn. rewrite length_insert, length_drop. repeat split; (assumption || lia). }
  { cbn. rewrite length_replicate, length_drop. repeat split; lia. }
  rewrite (bind_Ok _ _ _ _ _ Hloop).
  rewrite bind_get, !bind_put. rewrite Hn2. fold n.
  apply satellites_run_out; cbn; rewrite ?length_replicate; lia.
Qed.

End ClockFullsetRunsOut.

(** X14. When its flag is set and a mask is at hand, the block of the
    clock full-set corrections returns exactly when the text holds the 4
    bits of the validity index, 2 bits for each system and 14 bits for each
    satellite.  It then takes these bits and no more, stores one multiplier
    for each system, and for each satellite the flag read in one bit and the
    two's-complement reading of the 13 bits that follow; the masks are not
    touched.  With fewer bits the block is left by [std::length_error]. *)
Theorem clock_fullset_is_read (s : body_reader) :
  let m := message s in
  let nsys := Z.to_nat (Nsys (data s)) in
  let n := Z.to_nat (Nsat s) in
  clock_fullset_flag (header (data s)) = true ->
  have_mask s = true ->
  ((4 + 2 * nsys + 14 * n <= length m)%nat ->
   exists s',
     read_clock_fullset_corrections s = Ok tt s' /\
     message s' = drop (4 + 2 * nsys + 14 * n) m /\
     validity_interval_index_clock_fullset_corrections (data s')
     = unsigned_value (take 4 m) /\
     delta_clock_c0_multiplier (data s')
     = map (fun i => unsigned_value (take 2 (drop (4 + 2 * i) m))) (seq 0 nsys) /\
     iod_change_flag (data s')
     = map (fun i => is_one (nth (4 + 2 * nsys + 14 * i) m "0")) (seq 0 n) /\
     delta_clock_c0 (data s')
     = map (fun i => twos_complement_value
                       (take 13 (drop (4 + 2 * nsys + 14 * i + 1) m))) (seq 0 n) /\
     masks s' = masks s /\ Nsat s' = Nsat s /\ have_mask s' = true) /\
  ((length m < 4 + 2 * nsys + 14 * n)%nat ->
   exists s', read_clock_fullset_corrections s = Throw length_error s').
Proof.
  intros m nsys n Hflag Hmask. split.
  - intros Hlen.
    destruct (clock_fullset_run s Hflag Hmask Hlen)
      as (s' & Hrun & (Hm & Hn & Hh & _ & _ & Hv) & Hmsg & Hmult & Hflags & Hdeltas).
    exists s'. split; [exact Hrun|]. split; [exact Hmsg|].
    split.
    { rewrite Hv. apply read_unsigned_small. rewrite length_take. lia. }
    split.
    { rewrite Hmult. apply map_ext. intros i.
      apply read_unsigned_small. rewrite length_take. lia. }
    split; [exact Hflags|].
    split; [|auto].
    rewrite Hdeltas. apply map_ext_in. intros i Hi. apply in_seq in Hi.
    apply read_int16_twos_complement.
    rewrite length_take, length_drop. fold m nsys n. lia.
  - intros Hlen. apply (clock_fullset_runs_out s Hflag Hmask Hlen).
Qed.

Lemma clock_fullset_is_read_witness :
  (exists s',
     read_clock_fullset_corrections clock_fullset_state = Ok tt s' /\
     message s' = [] /\
     delta_clock_c0_multiplier (data s') = [3] /\
     iod_change_flag (data s') = [true; false] /\
     delta_clock_c0 (data s') = [-1; 7]) /\
  (exists s',
     read_clock_fullset_corrections (set_message (take 20) clock_fullset_state)
     = Throw length_error s').
Proof.
  split.
  - destruct (clock_fullset_is_read clock_fullset_state eq_refl eq_refl) as [Hreads _].
    destruct Hreads as (s' & Hrun & Hmsg & _ & Hmult & Hflags & Hdeltas & _).
    { vm_compute. lia. }
    exists s'. split; [exact Hrun|]. rewrite Hmsg, Hmult, Hflags, Hdeltas.
    repeat apply conj; vm_compute; reflexivity.
  - destruct (clock_fullset_is_read (set_message (take 20) clock_fullset_state)
                eq_refl eq_refl) as [_ Hruns_out].
    apply Hruns_out. vm_compute. lia.
Defined.

(** * The operations of the reader, when they return *)

Lemma store_data_assign_inv {A} (getf : Galileo_HAS_data -> list A)
    (setf : (list A -> list A) -> Galileo_HAS_data -> Galileo_HAS_data)
    (i : nat) (x : A) (s s' : body_reader) :
  store_data (assign getf setf i x) s = Ok tt s' ->
  (i < length (getf (data s)))%nat /\
  s' = set_data (fun _ => setf (fun v => <[i:=x]> v) (data s)) s.
Proof.
  unfold store_data, store, assign.
  destruct (decide _) as [Hi|]; [|discriminate].
  intros [= <-]. split; [exact Hi|reflexivity].
Qed.

Lemma store_masks_assign_inv {A} (getf : mask_tables -> list A)
    (setf : (list A -> list A) -> mask_tables -> mask_tables)
    (i : nat) (x : A) (s s' : body_reader) :
  store_masks (assign getf setf i x) s = Ok tt s' ->
  (i < length (getf (masks s)))%nat /\
  s' = set_masks (fun _ => setf (fun v => <[i:=x]> v) (masks s)) s.
Proof.
  unfold store_masks, store, assign.
  destruct (decide _) as [Hi|]; [|discriminate].
  intros [= <-]. split; [exact Hi|reflexivity].
Qed.

Lemma store_masks_assign2_inv {A} (getf : mask_tables -> list (list A))
    (setf : (list (list A) -> list (list A)) -> mask_tables -> mask_tables)
    (mid i : nat) (x : A) (s s' : body_reader) :
  store_masks (assign2 getf setf mid i x) s = Ok tt s' ->
  exists row,
    getf (masks s) !! mid = Some row /\ (i < length row)%nat /\
    s' = set_masks (fun _ => setf (fun v => <[mid := <[i:=x]> row]> v) (masks s)) s.
Proof.
  unfold store_masks, store, assign2.
  destruct (getf (masks s) !! mid) as [row|]; [|discriminate].
  destruct (decide _) as [Hi|]; [|discriminate].
  intros [= <-]. exists row. split; [reflexivity|]. split; [exact Hi|reflexivity].
Qed.

Lemma advance_inv (n : nat) (s s' : body_reader) :
  advance n s = Ok tt s' ->
  (n <= length (message s))%nat /\ s' = set_message (drop n) s.
Proof.
  unfold advance. destruct (decide _) as [Hn|]; [|discriminate].
  intros [= <-]. split; [exact Hn|reflexivity].
Qed.

(** A loop whose turns take the invariant of one value of the counter to
    that of the next. *)
Lemma triple_for_loop_counted {St} (I : nat -> St -> Prop) (n i0 : nat)
    (body : nat -> M St unit) (E : exn -> St -> Prop) :
  (forall i, (i0 <= i < i0 + n)%nat -> triple (I i) (body i) (fun _ => I (S i)) E) ->
  triple (I i0) (for_loop n i0 body) (fun _ => I (i0 + n)%nat) E.
Proof.
  revert i0. induction n as [|n IH]; intros i0 H.
  - intros s Hs. cbn. replace (i0 + 0)%nat with i0 by lia. exact Hs.
  - cbn [for_loop]. eapply triple_bind; [apply H; lia|]. intros a.
    replace (i0 + S n)%nat with (S i0 + n)%nat by lia.
    apply IH. intros i Hi. apply H. lia.
Qed.

(** * The mask of one system *)

(** The loops that read the cells of a system change the cell mask of the
    record and nothing else. *)
Lemma read_cell_mask_but_cells (i rows cols : nat) (s0 : body_reader) :
  keeps (fun s => set_data (set_cell_mask (fun _ => [])) s = s0)
    (for_loop rows 0 (fun s =>
       for_loop cols 0 (fun sig =>
         let pos := (s * cols + sig)%nat in
         c <- message_at pos ;;
         store_data (assign3 cell_mask set_cell_mask i s sig (is_one c))))).
Proof.
  apply keeps_for_loop. intros a. apply keeps_for_loop. intros b. cbv zeta.
  apply keeps_bind.
  - intros s Hs. unfold message_at. destruct (char_at _ _); [exact Hs|exact I].
  - intros c. unfold store_data. apply keeps_store. intros s s' Hs Hassign.
    unfold assign3 in Hassign. repeat case_match; simplify_eq. reflexivity.
Qed.

(** The members of a state written with the setters, member by member. *)
Ltac simpl_state :=
  cbn [
    masks data message Nsat have_mask set_masks set_data set_message set_Nsat
    set_have_mask header Nsys gnss_id_mask satellite_mask signal_mask
    cell_mask_availability_flag cell_mask nav_message
    validity_interval_index_orbit_corrections gnss_iod delta_radial delta_along_track
    delta_cross_track validity_interval_index_clock_fullset_corrections
    delta_clock_c0_multiplier iod_change_flag delta_clock_c0
    validity_interval_index_clock_subset_corrections Nsysprime gnss_id_clock_subset
    delta_clock_c0_multiplier_clock_subset satellite_submask
    iod_change_flag_clock_subset delta_clock_c0_clock_subset
    validity_interval_index_code_bias_corrections code_bias
    validity_interval_index_phase_bias_corrections phase_bias
    phase_discontinuity_indicator set_header set_Nsys set_gnss_id_mask
    set_satellite_mask set_signal_mask set_cell_mask_availability_flag set_cell_mask
    set_nav_message set_validity_interval_index_orbit_corrections set_gnss_iod
    set_delta_radial set_delta_along_track set_delta_cross_track
    set_validity_interval_index_clock_fullset_corrections set_delta_clock_c0_multiplier
    set_iod_change_flag set_delta_clock_c0
    set_validity_interval_index_clock_subset_corrections set_Nsysprime
    set_gnss_id_clock_subset set_delta_clock_c0_multiplier_clock_subset
    set_satellite_submask set_iod_change_flag_clock_subset
    set_delta_clock_c0_clock_subset set_validity_interval_index_code_bias_corrections
    set_code_bias set_validity_interval_index_phase_bias_corrections set_phase_bias
    set_phase_discontinuity_indicator d_nsat_in_mask_id d_gnss_id_in_mask
    d_satellite_mask d_signal_mask d_cell_mask_availability_flag d_cell_mask
    d_nsys_in_mask d_nav_message_mask set_d_nsat_in_mask_id set_d_gnss_id_in_mask
    set_d_satellite_mask set_d_signal_mask set_d_cell_mask_availability_flag
    set_d_cell_mask set_d_nsys_in_mask set_d_nav_message_mask
  ] in *.

(** What one turn of the loop of the mask has done when it returns: the
    bits it took, and what it stored in the record and in the tables. *)
Lemma read_mask_system_inv (i : nat) (s s' : body_reader) :
  read_mask_system i s = Ok tt s' ->
  let mid := Z.to_nat (mask_id (header (data s))) in
  let msg := message s in
  let sat := count_ones (take 40 (drop 4 msg)) in
  let sig := count_ones (take 16 (drop 44 msg)) in
  (64 + Z.to_nat (sat * sig) <= length msg)%nat /\
  message s' = drop (64 + Z.to_nat (sat * sig)) msg /\
  Nsat s' = Nsat s + sat /\
  have_mask s' = have_mask s /\
  header (data s') = header (data s) /\
  Nsys (data s') = Nsys (data s) /\
  d_nsat_in_mask_id (masks s') = d_nsat_in_mask_id (masks s) /\
  d_nsys_in_mask (masks s') = d_nsys_in_mask (masks s) /\
  d_cell_mask (masks s') = d_cell_mask (masks s) /\
  (exists row,
     d_gnss_id_in_mask (masks s) !! mid = Some row /\ (i < length row)%nat /\
     (i < length (gnss_id_mask (data s)))%nat /\
     d_gnss_id_in_mask (masks s')
     = <[mid := <[i := read_has_message_body_uint8 (take 4 msg)]> row]>
         (d_gnss_id_in_mask (masks s)) /\
     gnss_id_mask (data s')
     = <[i := read_has_message_body_uint8 (take 4 msg)]> (gnss_id_mask (data s))) /\
  (exists row,
     d_satellite_mask (masks s) !! mid = Some row /\ (i < length row)%nat /\
     (i < length (satellite_mask (data s)))%nat /\
     d_satellite_mask (masks s')
     = <[mid := <[i := read_has_message_body_uint64 (take 40 (drop 4 msg))]> row]>
         (d_satellite_mask (masks s)) /\
     satellite_mask (data s')
     = <[i := read_has_message_body_uint64 (take 40 (drop 4 msg))]>
         (satellite_mask (data s))) /\
  (exists row,
     d_signal_mask (masks s) !! mid = Some row /\ (i < length row)%nat /\
     (i < length (signal_mask (data s)))%nat /\
     d_signal_mask (masks s')
     = <[mid := <[i := read_has_message_body_uint16 (take 16 (drop 44 msg))]> row]>
         (d_signal_mask (masks s)) /\
     signal_mask (data s')
     = <[i := read_has_message_body_uint16 (take 16 (drop 44 msg))]>
         (signal_mask (data s))) /\
  (exists row,
     d_cell_mask_availability_flag (masks s) !! mid = Some row /\
     (i < length row)%nat /\
     (i < length (cell_mask_availability_flag (data s)))%nat /\
     d_cell_mask_availability_flag (masks s')
     = <[mid := <[i := text_is_one (take 1 (drop 60 msg))]> row]>
         (d_cell_mask_availability_flag (masks s)) /\
     cell_mask_availability_flag (data s')
     = <[i := text_is_one (take 1 (drop 60 msg))]>
         (cell_mask_availability_flag (data s))) /\
  (exists row,
     d_nav_message_mask (masks s) !! mid = Some row /\ (i < length row)%nat /\
     (i < length (nav_message (data s)))%nat /\
     d_nav_message_mask (masks s')
     = <[mid := <[i := read_has_message_body_uint8
                         (take 3 (drop (61 + Z.to_nat (sat * sig)) msg))]> row]>
         (d_nav_message_mask (masks s)) /\
     nav_message (data s')
     = <[i := read_has_message_body_uint8
                (take 3 (drop (61 + Z.to_nat (sat * sig)) msg))]>
         (nav_message (data s))).
Proof.
  intros H. destruct s as [M D msg n hm]. cbv zeta. simpl_state.
  unfold read_mask_system, the_mask_id in H.
  unfold HAS_MSG_ID_MASK_LENGTH, HAS_MSG_SATELLITE_MASK_LENGTH,
    HAS_MSG_SIGNAL_MASK_LENGTH, HAS_MSG_NAV_MESSAGE_LENGTH in H.
  rewrite bind_get, bind_substr in H. unfold substr0 in H. simpl_state.
  set (mid := Z.to_nat (mask_id (header D))) in *.
  apply bind_Ok_inv in H as ([] & s1 & H1 & H).
  apply store_data_assign_inv in H1 as [Hg1 ->]. simpl_state.
  apply bind_Ok_inv in H as ([] & s2 & H2 & H).
  apply store_masks_assign2_inv in H2 as (rowg & Hrowg & Hg2 & ->). simpl_state.
  apply bind_Ok_inv in H as ([] & s3 & H3 & H).
  apply advance_inv in H3 as [Hlen3 ->]. simpl_state.
  rewrite bind_substr in H. unfold substr0 in H. simpl_state.
  apply bind_Ok_inv in H as ([] & s4 & H4 & H).
  apply store_data_assign_inv in H4 as [Hs1 ->]. simpl_state.
  apply bind_Ok_inv in H as ([] & s5 & H5 & H).
  apply store_masks_assign2_inv in H5 as (rows & Hrows & Hs2 & ->). simpl_state.
  rewrite bind_modify in H. simpl_state.
  apply bind_Ok_inv in H as ([] & s6 & H6 & H).
  apply advance_inv in H6 as [Hlen6 ->]. simpl_state.
  rewrite bind_substr in H. unfold substr0 in H. simpl_state.
  apply bind_Ok_inv in H as ([] & s7 & H7 & H).
  apply store_data_assign_inv in H7 as [Hsg1 ->]. simpl_state.
  apply bind_Ok_inv in H as ([] & s8 & H8 & H).
  apply store_masks_assign2_inv in H8 as (rowsg & Hrowsg & Hsg2 & ->). simpl_state.
  apply bind_Ok_inv in H as ([] & s9 & H9 & H).
  apply advance_inv in H9 as [Hlen9 ->]. simpl_state.
  apply bind_Ok_inv in H as ([] & s10 & H10 & H).
  apply store_data_assign_inv in H10 as [Hc1 ->]. simpl_state.
  rewrite bind_substr in H. unfold substr0 in H. simpl_state.
  apply bind_Ok_inv in H as ([] & s11 & H11 & H).
  apply store_data_assign_inv in H11 as [Hf1 ->]. simpl_state.
  apply bind_Ok_inv in H as ([] & s12 & H12 & H).
  apply store_masks_assign2_inv in H12 as (rowf & Hrowf & Hf2 & ->). simpl_state.
  apply bind_Ok_inv in H as ([] & s13 & H13 & H).
  apply advance_inv in H13 as [Hlen13 ->]. simpl_state.
  apply bind_Ok_inv in H as ([] & sc & Hcells & H).
  match type of Hcells with
  | for_loop ?rows 0 (fun s => for_loop ?cols 0 _) ?sb = _ =>
      pose proof (read_cell_mask_but_cells i rows cols
                    (set_data (set_cell_mask (fun _ => [])) sb) sb eq_refl) as Hframe;
      cbv zeta in Hframe; rewrite Hcells in Hframe; clear Hcells
  end.
  (* the state after the loops on the cells, member by member *)
  pose proof (f_equal message Hframe) as Emsg.
  pose proof (f_equal masks Hframe) as Emasks.
  pose proof (f_equal Nsat Hframe) as Ensat.
  pose proof (f_equal have_mask Hframe) as Ehave.
  pose proof (f_equal (fun s => header (data s)) Hframe) as Ehdr.
  pose proof (f_equal (fun s => Nsys (data s)) Hframe) as Ensys.
  pose proof (f_equal (fun s => gnss_id_mask (data s)) Hframe) as Eg.
  pose proof (f_equal (fun s => satellite_mask (data s)) Hframe) as Esm.
  pose proof (f_equal (fun s => signal_mask (data s)) Hframe) as Esg.
  pose proof (f_equal (fun s => cell_mask_availability_flag (data s)) Hframe) as Efl.
  pose proof (f_equal (fun s => nav_message (data s)) Hframe) as Enm.
  clear Hframe. simpl_state.
  apply bind_Ok_inv in H as ([] & s14 & H14 & H).
  apply advance_inv in H14 as [Hlen14 ->]. simpl_state.
  rewrite bind_substr in H. unfold substr0 in H. simpl_state.
  apply bind_Ok_inv in H as ([] & s15 & H15 & H).
  apply store_data_assign_inv in H15 as [Hn1 ->]. simpl_state.
  apply bind_Ok_inv in H as ([] & s16 & H16 & H).
  apply store_masks_assign2_inv in H16 as (rown & Hrown & Hn2 & ->). simpl_state.
  apply advance_inv in H as [Hlen17 ->]. simpl_state.
  rewrite Emsg in *. rewrite Emasks in *. simpl_state.
  rewrite ?length_drop, ?drop_drop, ?length_insert in *.
  change (4 + 40)%nat with 44%nat in *.
  change (44 + 16)%nat with 60%nat in *.
  change (60 + 1)%nat with 61%nat in *.
  rewrite Ensat, Ehave, Ehdr, Ensys, Eg, Esm, Esg, Efl, Enm.
  rewrite Enm, ?length_insert in Hn1.
  split; [lia|].
  split; [f_equal; lia|].
  repeat (split; [reflexivity|]).
  split; [exists rowg; auto|].
  split; [exists rows; auto|].
  split; [exists rowsg; auto|].
  split; [exists rowf; auto|].
  exists rown. auto.
Qed.

(** * The mask, stored and taken back *)

Section StoredMask.

Variable K : icd_constants.
Variable h : mt1_header.
Variable nsys : nat.

Let mid := Z.to_nat (mask_id h).

Lemma table_agrees_start {A} (T : mask_tables -> list (list A))
    (V : Galileo_HAS_data -> list A) (s : body_reader) :
  length (V (data s)) = nsys -> table_agrees mid nsys T V 0 s.
Proof.
  intros Hlen. split; [exact Hlen|]. split; [lia|]. intros row _. reflexivity.
Qed.

Lemma table_agrees_step {A} (T : mask_tables -> list (list A))
    (V : Galileo_HAS_data -> list A) (i : nat) (s s' : body_reader) (x : A) :
  table_agrees mid nsys T V i s ->
  (exists row,
     T (masks s) !! mid = Some row /\ (i < length row)%nat /\
     (i < length (V (data s)))%nat /\
     T (masks s') = <[mid := <[i := x]> row]> (T (masks s)) /\
     V (data s') = <[i := x]> (V (data s))) ->
  table_agrees mid nsys T V (S i) s'.
Proof.
  intros (Hlen & _ & Hall) (row & Hrow & Hi & Hv & HT & HV).
  pose proof (lookup_lt_Some _ _ _ Hrow) as Hmid.
  split; [rewrite HV, length_insert; exact Hlen|].
  split.
  { intros _. rewrite HT, list_lookup_insert_eq by exact Hmid. eexists. reflexivity. }
  intros row'. rewrite HT, list_lookup_insert_eq by exact Hmid. intros [= <-].
  rewrite HV.
  rewrite (take_S_r _ _ x) by (apply list_lookup_insert_eq; exact Hi).
  rewrite (take_S_r (<[i:=x]> (V (data s))) _ x)
    by (apply list_lookup_insert_eq; exact Hv).
  rewrite !take_insert_ge by lia. rewrite (Hall row Hrow). reflexivity.
Qed.

Lemma table_agrees_end {A} (T : mask_tables -> list (list A))
    (V : Galileo_HAS_data -> list A) (s : body_reader) :
  (0 < nsys)%nat -> table_agrees mid nsys T V nsys s ->
  exists row, T (masks s) !! mid = Some row /\ take nsys row = V (data s) /\
              (nsys <= length row)%nat.
Proof.
  intros Hpos (Hlen & Hsome & Hall).
  destruct (Hsome Hpos) as [row Hrow]. exists row. split; [exact Hrow|].
  assert (Htake : take nsys row = V (data s)).
  { rewrite (Hall row Hrow). apply firstn_all2. lia. }
  split; [exact Htake|].
  apply (f_equal length) in Htake. rewrite length_take in Htake. lia.
Qed.

(** The loop of the mask, after [i] turns. *)
Let systems_read (i : nat) (s : body_reader) : Prop :=
  header (data s) = h /\
  table_agrees mid nsys d_gnss_id_in_mask gnss_id_mask i s /\
  table_agrees mid nsys d_satellite_mask satellite_mask i s /\
  table_agrees mid nsys d_signal_mask signal_mask i s /\
  table_agrees mid nsys d_cell_mask_availability_flag cell_mask_availability_flag i s /\
  table_agrees mid nsys d_nav_message_mask nav_message i s.

Lemma read_mask_system_turn (i : nat) (Nsys0 : Z) (NS : list Z) (hm : bool) :
  triple
    (fun s => systems_read i s /\ Nsys (data s) = Nsys0 /\
              d_nsys_in_mask (masks s) = NS /\ have_mask s = hm)
    (read_mask_system i)
    (fun _ s => systems_read (S i) s /\ Nsys (data s) = Nsys0 /\
                d_nsys_in_mask (masks s) = NS /\ have_mask s = hm)
    (fun _ _ => True).
Proof.
  intros s ((Hh & H1 & H2 & H3 & H4 & H5) & Hnsys & HNS & Hhm).
  destruct (read_mask_system i s) as [[] s'|e s'|] eqn:Hrun; [|exact I|exact I].
  apply read_mask_system_inv in Hrun. cbv zeta in Hrun. rewrite Hh in Hrun. fold mid in Hrun.
  destruct Hrun as (_ & _ & _ & Hhm' & Hh' & Hnsys' & _ & HNS' & _ &
                    G1 & G2 & G3 & G4 & G5).
  split; [|split; [congruence|split; congruence]].
  split; [congruence|].
  split; [apply (table_agrees_step _ _ i s s' _ H1 G1)|].
  split; [apply (table_agrees_step _ _ i s s' _ H2 G2)|].
  split; [apply (table_agrees_step _ _ i s s' _ H3 G3)|].
  split; [apply (table_agrees_step _ _ i s s' _ H4 G4)|].
  apply (table_agrees_step _ _ i s s' _ H5 G5).
Qed.


End StoredMask.

Lemma read_unsigned_nonneg (w : Z) (bits : text) : 0 < w -> 0 <= read_unsigned w bits.
Proof.
  intros Hw. rewrite read_unsigned_mod by lia.
  apply Z.mod_pos_bound. apply Z.pow_pos_nonneg; lia.
Qed.

(** What the branch that reads the mask leaves, when it returns with a
    number of systems that is not zero. *)
Lemma read_mask_inv (K : icd_constants) (s s1 : body_reader) :
  read_mask K s = Ok tt s1 ->
  Nsys (data s1) <> 0 ->
  let mid := Z.to_nat (mask_id (header (data s))) in
  let nsys := Z.to_nat (Nsys (data s1)) in
  header (data s1) = header (data s) /\
  (0 < nsys)%nat /\
  have_mask s1 = (if Nsat s1 =? 0 then have_mask s else true) /\
  d_nsat_in_mask_id (masks s1) !! mid = Some (Nsat s1) /\
  d_nsys_in_mask (masks s1) !! mid = Some (Nsys (data s1)) /\
  d_cell_mask (masks s1) !! mid = Some (cell_mask (data s1)) /\
  (exists row, d_gnss_id_in_mask (masks s1) !! mid = Some row /\
               take nsys row = gnss_id_mask (data s1) /\
               (nsys <= length row)%nat) /\
  (exists row, d_satellite_mask (masks s1) !! mid = Some row /\
               take nsys row = satellite_mask (data s1) /\
               (nsys <= length row)%nat) /\
  (exists row, d_signal_mask (masks s1) !! mid = Some row /\
               take nsys row = signal_mask (data s1) /\
               (nsys <= length row)%nat) /\
  (exists row, d_cell_mask_availability_flag (masks s1) !! mid = Some row /\
               take nsys row = cell_mask_availability_flag (data s1) /\
               (nsys <= length row)%nat) /\
  (exists row, d_nav_message_mask (masks s1) !! mid = Some row /\
               take nsys row = nav_message (data s1) /\
               (nsys <= length row)%nat).
Proof.
  intros H Hnz. destruct s as [M D msg n hm]. cbv zeta. simpl_state.
  unfold read_mask, the_mask_id in H. unfold HAS_MSG_NSYS_LENGTH in H.
  rewrite bind_get, bind_substr, bind_put in H. unfold substr0 in H. simpl_state.
  set (mid := Z.to_nat (mask_id (header D))) in *.
  set (nsysZ := read_has_message_body_uint8 (take 4 msg)) in *.
  apply bind_Ok_inv in H as ([] & s2 & H2 & H).
  apply store_masks_assign_inv in H2 as [Hmid ->]. simpl_state.
  apply bind_Ok_inv in H as ([] & s3 & H3 & H).
  rewrite bind_get in H.
  assert (Hnsys1 : Nsys (data s3) = nsysZ -> Nsys (data s1) = nsysZ).
  { intros E. destruct (Nsat s3 =? 0); cbn [negb when] in H;
      injection H as <-; exact E. }
  destruct (nsysZ =? 0) eqn:Ez; cbn [negb when] in H3.
  { injection H3 as <-. simpl_state. apply Z.eqb_eq in Ez.
    exfalso. apply Hnz. rewrite Hnsys1 by reflexivity. exact Ez. }
  apply Z.eqb_neq in Ez.
  assert (Hpos : (0 < Z.to_nat nsysZ)%nat).
  { pose proof (read_unsigned_nonneg 8 (take 4 msg) ltac:(lia)).
    unfold nsysZ, read_has_message_body_uint8 in *. lia. }
  apply bind_Ok_inv in H3 as ([] & s4 & H4 & H3).
  apply advance_inv in H4 as [Hlen4 ->]. simpl_state.
  rewrite !bind_put in H3. simpl_state.
  apply bind_Ok_inv in H3 as ([] & sl & Hloop & H3).
  match type of Hloop with
  | for_loop _ _ _ ?s0 = _ =>
      pose proof (triple_for_loop_counted
                    (fun i s => (header (data s) = header D /\
                                 table_agrees mid (Z.to_nat nsysZ) d_gnss_id_in_mask
                                   gnss_id_mask i s /\
                                 table_agrees mid (Z.to_nat nsysZ) d_satellite_mask
                                   satellite_mask i s /\
                                 table_agrees mid (Z.to_nat nsysZ) d_signal_mask
                                   signal_mask i s /\
                                 table_agrees mid (Z.to_nat nsysZ)
                                   d_cell_mask_availability_flag
                                   cell_mask_availability_flag i s /\
                                 table_agrees mid (Z.to_nat nsysZ) d_nav_message_mask
                                   nav_message i s) /\
                                Nsys (data s) = nsysZ /\
                                d_nsys_in_mask (masks s) = <[mid := nsysZ]> (d_nsys_in_mask M) /\
                                have_mask s = hm)
                    (Z.to_nat nsysZ) 0 read_mask_system (fun _ _ => True)
                    (fun i _ => read_mask_system_turn (header D) (Z.to_nat nsysZ) i
                                  nsysZ (<[mid := nsysZ]> (d_nsys_in_mask M)) hm)
                    s0) as Hinv
  end.
  rewrite Hloop in Hinv.
  destruct Hinv as ((Hh & T1 & T2 & T3 & T4 & T5) & Hnsysl & HNS & Hhml).
  { split; [|simpl_state; repeat split; reflexivity].
    split; [reflexivity|].
    split; [apply table_agrees_start; simpl_state; apply length_replicate|].
    split; [apply table_agrees_start; simpl_state; apply length_replicate|].
    split; [apply table_agrees_start; simpl_state; apply length_replicate|].
    split; [apply table_agrees_start; simpl_state; apply length_replicate|].
    apply table_agrees_start; simpl_state; apply length_replicate. }
  { apply table_agrees_end in T1 as (row1 & Hrow1 & Htake1 & Hle1); [|exact Hpos].
    apply table_agrees_end in T2 as (row2 & Hrow2 & Htake2 & Hle2); [|exact Hpos].
    apply table_agrees_end in T3 as (row3 & Hrow3 & Htake3 & Hle3); [|exact Hpos].
    apply table_agrees_end in T4 as (row4 & Hrow4 & Htake4 & Hle4); [|exact Hpos].
    apply table_agrees_end in T5 as (row5 & Hrow5 & Htake5 & Hle5); [|exact Hpos].
    rewrite bind_get in H3.
    apply bind_Ok_inv in H3 as ([] & s5 & H5 & H3).
    apply store_masks_assign_inv in H5 as [Hmid5 ->].
    rewrite bind_get in H3.
    apply bind_Ok_inv in H3 as ([] & s6 & H6 & H3).
    apply store_masks_assign_inv in H6 as [Hmid6 ->].
    apply advance_inv in H3 as [Hlen7 ->].
    simpl_state.
    assert (Hmid_ns : (mid < length (d_nsys_in_mask (masks sl)))%nat).
    { rewrite HNS, length_insert. exact Hmid. }
    assert (Hs1 : s1 = (if Nsat sl =? 0 then id else set_have_mask (fun _ => true))
                         (set_message (drop (HAS_MSG_MASK_RESERVED_LENGTH K))
                            (set_masks
                               (fun _ => set_d_cell_mask
                                  (fun v => <[mid := cell_mask (data sl)]> v)
                                  (set_d_nsat_in_mask_id
                                     (fun v => <[mid := Nsat sl]> v) (masks sl)))
                               sl))).
    { destruct (Nsat sl =? 0); cbn [negb when] in H; injection H as <-; reflexivity. }
    clear H.
    assert (Hfields :
      header (data s1) = header (data sl) /\ Nsys (data s1) = Nsys (data sl) /\
      Nsat s1 = Nsat sl /\
      have_mask s1 = (if Nsat sl =? 0 then have_mask sl else true) /\
      mask_of (data s1) = mask_of (data sl) /\
      masks s1 = set_d_cell_mask (fun v => <[mid := cell_mask (data sl)]> v)
                   (set_d_nsat_in_mask_id (fun v => <[mid := Nsat sl]> v) (masks sl))).
    { rewrite Hs1. destruct (Nsat sl =? 0); cbn; repeat split; reflexivity. }
    destruct Hfields as (F1 & F2 & F3 & F4 & F5 & F6).
    unfold mask_of in F5. injection F5 as G1 G2 G3 G4 G5 G6 G7.
    rewrite F1, F2, F3, F4, F6, G2, G3, G4, G5, G6, G7, Hnsysl. simpl_state.
    rewrite Hhml.
    split; [exact Hh|]. split; [exact Hpos|]. split; [reflexivity|].
    split; [apply list_lookup_insert_eq; exact Hmid5|].
    split; [rewrite HNS; apply list_lookup_insert_eq; exact Hmid|].
    split; [apply list_lookup_insert_eq; exact Hmid6|].
    split; [exists row1; auto|].
    split; [exists row2; auto|].
    split; [exists row3; auto|].
    split; [exists row4; auto|].
    exists row5; auto. }
Qed.

(** The copy of the first entries of a row of a table at the end of a
    vector of the record. *)
Lemma copy_from_masks_Ok {A} (T : mask_tables -> list (list A))
    (setf : (list A -> list A) -> Galileo_HAS_data -> Galileo_HAS_data)
    (mid : nat) (s : body_reader) (row : list A) :
  T (masks s) !! mid = Some row ->
  (Z.to_nat (Nsys (data s)) <= length row)%nat ->
  copy_from_masks T setf mid s
  = Ok tt (set_data (setf (fun v => v ++ take (Z.to_nat (Nsys (data s))) row)) s).
Proof.
  intros Hrow Hle. unfold copy_from_masks, masks_at, bind. rewrite Hrow.
  cbn [defined ret get]. unfold copy_prefix. rewrite decide_True by exact Hle.
  reflexivity.
Qed.

Lemma discard_crazy_toh_sane (s : body_reader) :
  toh (header (data s)) <= HAS_MSG_NUMBER_MAX_TOH -> discard_crazy_toh s = Ok tt s.
Proof.
  intros Ht. unfold discard_crazy_toh. rewrite bind_get.
  apply Z.ltb_ge in Ht. rewrite Ht. reflexivity.
Qed.

(** X15. When a record with the mask flag has read its mask, with a
    number of systems that is not zero and a time of hour within its range, a
    later record without the mask flag and with the same mask identifier
    takes the same mask from the tables: the same number of satellites, the
    same [have_mask] and, when the number of satellites is not zero, the same
    number of systems and the same vectors of GNSS identifiers, satellite
    masks, signal masks, cell mask flags, cell masks and nav messages; it
    takes no bit of its text and does not change the tables. *)
Theorem stored_mask_is_taken_back (K : icd_constants) (m : mask_tables)
    (h h2 : mt1_header) (body body2 : text) (s1 : body_reader) :
  mask_flag h = true ->
  toh h <= HAS_MSG_NUMBER_MAX_TOH ->
  resolve_mask K (body_entry m h body) = Ok tt s1 ->
  Nsys (data s1) <> 0 ->
  mask_flag h2 = false ->
  toh h2 <= HAS_MSG_NUMBER_MAX_TOH ->
  mask_id h2 = mask_id h ->
  exists s2,
    resolve_mask K (body_entry (masks s1) h2 body2) = Ok tt s2 /\
    Nsat s2 = Nsat s1 /\
    have_mask s2 = have_mask s1 /\
    message s2 = body2 /\
    masks s2 = masks s1 /\
    (Nsat s1 <> 0 -> mask_of (data s2) = mask_of (data s1)).
Proof.
  intros Hflag Htoh Hrun Hnz Hflag2 Htoh2 Hmid.
  (* the first record *)
  unfold resolve_mask in Hrun. rewrite bind_get in Hrun.
  cbn [body_entry data header set_header empty_HAS_data] in Hrun.
  rewrite Hflag in Hrun.
  apply bind_Ok_inv in Hrun as ([] & sa & Hread & Hcheck).
  pose proof (read_mask_keeps_header K h (body_entry m h body) eq_refl) as Hh.
  rewrite Hread in Hh.
  rewrite discard_crazy_toh_sane in Hcheck by (rewrite Hh; exact Htoh).
  injection Hcheck as <-.
  apply read_mask_inv in Hread; [|exact Hnz]. cbv zeta in Hread.
  cbn [body_entry data header set_header empty_HAS_data have_mask] in Hread.
  destruct Hread as (_ & Hpos & Hhave & Hnsat & Hnsys & Hcm &
                     (r1 & Hr1 & Ht1 & Hl1) & (r2 & Hr2 & Ht2 & Hl2) &
                     (r3 & Hr3 & Ht3 & Hl3) & (r4 & Hr4 & Ht4 & Hl4) &
                     (r5 & Hr5 & Ht5 & Hl5)).
  (* the second record *)
  assert (Hsecond : exists s2,
            use_stored_mask (body_entry (masks sa) h2 body2) = Ok tt s2 /\
            header (data s2) = h2 /\
            Nsat s2 = Nsat sa /\
            have_mask s2 = have_mask sa /\
            message s2 = body2 /\
            masks s2 = masks sa /\
            (Nsat sa <> 0 -> mask_of (data s2) = mask_of (data sa))).
  { unfold use_stored_mask, the_mask_id, body_entry. rewrite bind_get.
    cbn [data header set_header empty_HAS_data]. rewrite Hmid.
    set (mid := Z.to_nat (mask_id h)) in *.
    rewrite (bind_Ok _ _ _ (Nsat sa) (Build_body_reader (masks sa)
                                        (set_header (fun _ => h2) empty_HAS_data)
                                        body2 0 false))
      by (unfold masks_at; cbn [masks]; rewrite Hnsat; reflexivity).
    rewrite bind_modify.
    destruct (Nsat sa =? 0) eqn:Ez; cbn [negb when].
    - (* no satellite: nothing is taken *)
      eexists. split; [reflexivity|]. cbn.
      apply Z.eqb_eq in Ez. rewrite Hhave. repeat split; auto.
      intros Hne. contradiction.
    - erewrite bind_Ok;
        [|unfold masks_at; cbn [masks set_Nsat]; rewrite Hnsys; reflexivity].
      rewrite bind_put.
      erewrite bind_Ok; [|apply (copy_from_masks_Ok _ _ _ _ r1); cbn; assumption].
      erewrite bind_Ok; [|apply (copy_from_masks_Ok _ _ _ _ r2); cbn; assumption].
      erewrite bind_Ok; [|apply (copy_from_masks_Ok _ _ _ _ r3); cbn; assumption].
      erewrite bind_Ok; [|apply (copy_from_masks_Ok _ _ _ _ r4); cbn; assumption].
      erewrite bind_Ok;
        [|unfold masks_at; cbn [masks set_data set_Nsat]; rewrite Hcm; reflexivity].
      rewrite bind_put.
      erewrite bind_Ok; [|apply (copy_from_masks_Ok _ _ _ _ r5); cbn; assumption].
      eexists. split; [reflexivity|]. cbn.
      rewrite Hhave. repeat split; auto. intros _. unfold mask_of. cbn.
      rewrite Ht1, Ht2, Ht3, Ht4, Ht5. reflexivity. }
  destruct Hsecond as (s2 & Hrun2 & Hh2 & Hsecond).
  exists s2. split; [|exact Hsecond].
  unfold resolve_mask. rewrite bind_get.
  cbn [body_entry data header set_header empty_HAS_data].
  rewrite Hflag2, (bind_Ok _ _ _ _ _ Hrun2).
  apply discard_crazy_toh_sane. rewrite Hh2. exact Htoh2.
Qed.

Lemma stored_mask_is_taken_back_witness :
  exists s1 s2,
    resolve_mask sample_constants
      (body_entry (d_masks galileo_e6_has_msg_receiver) header_mask_40 body_mask_40)
    = Ok tt s1 /\
    resolve_mask sample_constants (body_entry (masks s1) header_underrun []) = Ok tt s2 /\
    Nsat s2 = 40 /\
    have_mask s2 = true /\
    mask_of (data s2) = mask_of (data s1).
Proof.
  set (e1 := body_entry (d_masks galileo_e6_has_msg_receiver) header_mask_40
               body_mask_40).
  set (s1 := state_of e1 (resolve_mask sample_constants e1)).
  assert (Hrun : resolve_mask sample_constants e1 = Ok tt s1)
    by (apply (returned_Ok _ e1); vm_compute; reflexivity).
  assert (Hnsat : Nsat s1 = 40) by (vm_compute; reflexivity).
  destruct (stored_mask_is_taken_back sample_constants
              (d_masks galileo_e6_has_msg_receiver) header_mask_40 header_underrun
              body_mask_40 [] s1) as (s2 & Hrun2 & Hn & Hh & _ & _ & Hmask).
  - reflexivity.
  - vm_compute. discriminate.
  - exact Hrun.
  - vm_compute. discriminate.
  - reflexivity.
  - vm_compute. discriminate.
  - reflexivity.
  - exists s1, s2. split; [exact Hrun|]. split; [exact Hrun2|].
    split; [congruence|]. split; [rewrite Hh; vm_compute; reflexivity|].
    apply Hmask. rewrite Hnsat. discriminate.
Defined.

(** X16. When a turn of the loop of the mask returns, it has taken from
    the text the 64 bits of the GNSS identifier, of the satellite mask, of
    the signal mask, of the flag of the cell mask and of the nav message, and
    one bit for each satellite and signal of the two masks, whether the flag
    of the cell mask was set or not; and it has added to [Nsat] the number
    of characters '1' of the satellite mask. *)
Theorem mask_system_takes_its_bits (i : nat) (s s' : body_reader) :
  read_mask_system i s = Ok tt s' ->
  let sat := count_ones (take 40 (drop 4 (message s))) in
  let sig := count_ones (take 16 (drop 44 (message s))) in
  (64 + Z.to_nat (sat * sig) <= length (message s))%nat /\
  message s' = drop (64 + Z.to_nat (sat * sig)) (message s) /\
  Nsat s' = Nsat s + sat /\
  have_mask s' = have_mask s /\
  cell_mask_availability_flag (data s')
  = <[i := text_is_one (take 1 (drop 60 (message s)))]>
      (cell_mask_availability_flag (data s)).
Proof.
  intros Hrun sat sig.
  apply read_mask_system_inv in Hrun. cbv zeta in Hrun. fold sat sig in Hrun.
  destruct Hrun as (Hlen & Hmsg & Hnsat & Hhave & _ & _ & _ & _ & _ & _ & _ & _ &
                    (row & _ & _ & _ & _ & Hflag) & _).
  repeat split; assumption.
Qed.

Lemma mask_system_takes_its_bits_witness :
  exists s',
    read_mask_system 0 mask_system_state = Ok tt s' /\
    message s' = [] /\
    Nsat s' = 2 /\
    cell_mask_availability_flag (data s') = [false].
Proof.
  set (s' := state_of mask_system_state (read_mask_system 0 mask_system_state)).
  assert (Hrun : read_mask_system 0 mask_system_state = Ok tt s')
    by (apply (returned_Ok _ mask_system_state); vm_compute; reflexivity).
  destruct (mask_system_takes_its_bits 0 mask_system_state s' Hrun)
    as (_ & Hmsg & Hnsat & _ & Hflag).
  exists s'. split; [exact Hrun|]. rewrite Hmsg, Hnsat, Hflag.
  repeat apply conj; vm_compute; reflexivity.
Defined.

(** * The message put together again *)

(** The column of the pages received, when the pages are well formed: the
    column of the matrix. *)
Lemma fold_insert_fmap {A B} (g : B -> nat) (f : nat -> A) (l : list B) (acc : list A) :
  fold_left (fun a x => <[g x := f (g x)]> a) l acc
  = fold_left (fun a k => <[k := f k]> a) (map g l) acc.
Proof.
  revert acc. induction l as [|x l IH]; intros acc; [reflexivity|].
  cbn [fold_left map]. apply IH.
Qed.

Section Column.

Variable plane : list (list Z).
Variable pids : list Z.
Variable col : nat.
Hypothesis Hslot : slot_ok pids plane.
Hypothesis Hcol : (col < GALILEO_CNAV_OCTETS_IN_SUBPAGE)%nat.

Let cell (k : nat) : Z := default 0 (plane !! k ≫= (.!! col)).

Lemma fill_column_steps (l : list Z) (acc : list Z) :
  Forall (fun pid => 1 <= pid <= 255) l ->
  length acc = GALILEO_CNAV_MAX_NUMBER_SYMBOLS_ENCODED_BLOCK ->
  fold_left
    (fun acc pid =>
       column ← acc;
       row ← plane !! Z.to_nat (pid - 1);
       x ← row !! col;
       if (1 <=? pid) && bool_decide (Z.to_nat (pid - 1) < length column)%nat
       then Some (<[Z.to_nat (pid - 1) := x]> column)
       else None)
    l (Some acc)
  = Some (fold_left (fun a pid => <[Z.to_nat (pid - 1) := cell (Z.to_nat (pid - 1))]> a)
            l acc).
Proof.
  destruct Hslot as (_ & _ & Hrows & Hcols & _).
  unfold GALILEO_CNAV_MAX_NUMBER_SYMBOLS_ENCODED_BLOCK,
    GALILEO_CNAV_OCTETS_IN_SUBPAGE in *.
  intros Hl. revert acc. induction Hl as [|pid l Hpid _ IH]; intros acc Hacc;
    [reflexivity|].
  cbn [fold_left].
  destruct (lookup_lt_is_Some_2 plane (Z.to_nat (pid - 1)) ltac:(lia)) as [row Hrow].
  pose proof (Forall_lookup_1 _ _ _ _ Hcols Hrow) as Hlen. cbv beta in Hlen.
  destruct (lookup_lt_is_Some_2 row col ltac:(lia)) as [x Hx].
  cbn [mbind option_bind]. rewrite Hrow. cbn [mbind option_bind]. rewrite Hx.
  cbn [mbind option_bind].
  destruct (Z.leb_spec 1 pid); [|lia]. rewrite bool_decide_true by lia.
  cbn [andb]. rewrite IH by (rewrite length_insert; exact Hacc).
  unfold cell. rewrite Hrow. cbn [mbind option_bind]. rewrite Hx. reflexivity.
Qed.

Lemma fill_column_is_column :
  fill_column plane pids col = Some (map (fun row => default 0 (row !! col)) plane).
Proof.
  pose proof Hslot as (_ & Hrange & Hrows & Hcols & Hzero).
  unfold fill_column. rewrite fill_column_steps;
    [|exact Hrange|apply length_replicate].
  f_equal.
  rewrite (fold_insert_fmap (fun pid => Z.to_nat (pid - 1)) cell).
  apply list_eq. intros i.
  rewrite fold_insert_lookup, length_replicate, list_lookup_fmap.
  destruct (plane !! i) as [row|] eqn:Hrow.
  - pose proof (lookup_lt_Some _ _ _ Hrow) as Hi.
    cbn [fmap option_fmap option_map].
    destruct (decide _) as [[Hin _]|Hout].
    + unfold cell. rewrite Hrow. reflexivity.
    + rewrite lookup_replicate_2 by lia.
      rewrite (Hzero i row Hrow).
      * rewrite lookup_replicate_2 by exact Hcol. reflexivity.
      * intros Hin. apply Hout. split; [|lia].
        apply list_elem_of_fmap. exists (Z.of_nat i + 1). split; [lia|exact Hin].
  - pose proof (lookup_ge_None_1 _ _ Hrow) as Hi.
    cbn [fmap option_fmap option_map].
    rewrite decide_False by (intros [_ H]; lia).
    apply lookup_ge_None. rewrite length_replicate. lia.
Qed.

End Column.

(** A row of [d_M_matrix] while the columns are decoded: the first
    octets of the row of the page, then zeros. *)
Lemma staged_row_next (row : list Z) (c : nat) (x : Z) :
  row !! c = Some x ->
  <[c := x]> (take c row ++ replicate (length row - c) 0)
  = take (S c) row ++ replicate (length row - S c) 0.
Proof.
  intros Hx. pose proof (lookup_lt_Some _ _ _ Hx) as Hc.
  rewrite (take_S_r _ _ _ Hx), <- app_assoc.
  replace (length row - c)%nat with (S (length row - S c)) by lia.
  cbn [replicate app].
  assert (E : c = (length (take c row) + 0)%nat) by (rewrite length_take; lia).
  rewrite E at 1. rewrite insert_app_r. reflexivity.
Qed.

Section Vertical.

Variable rs_decode : list Z -> list Z -> option (list Z).
Variable mid : nat.
Variable plane : list (list Z).
Variable pids : list Z.
Variable erasures : list Z.

Hypothesis Hslot : slot_ok pids plane.
Hypothesis Hrs : forall column,
  length column = GALILEO_CNAV_MAX_NUMBER_SYMBOLS_ENCODED_BLOCK ->
  exists decoded,
    rs_decode column erasures = Some decoded /\
    take GALILEO_CNAV_INFORMATION_VECTOR_LENGTH decoded
    = take GALILEO_CNAV_INFORMATION_VECTOR_LENGTH column.

(** [d_M_matrix] after the columns before [c]. *)
Let staged (c : nat) (Mx : list (list Z)) : Prop :=
  length Mx = GALILEO_CNAV_INFORMATION_VECTOR_LENGTH /\
  forall k row,
    (k < GALILEO_CNAV_INFORMATION_VECTOR_LENGTH)%nat -> plane !! k = Some row ->
    Mx !! k = Some (take c row ++ replicate (length row - c) 0).

Lemma store_column (c : nat) (M_column : list Z) (r : receiver) :
  (c < GALILEO_CNAV_OCTETS_IN_SUBPAGE)%nat ->
  length M_column = GALILEO_CNAV_INFORMATION_VECTOR_LENGTH ->
  (forall k row,
     (k < GALILEO_CNAV_INFORMATION_VECTOR_LENGTH)%nat -> plane !! k = Some row ->
     M_column !! k = row !! c) ->
  staged c (d_M_matrix r) ->
  exists r',
    for_loop GALILEO_CNAV_INFORMATION_VECTOR_LENGTH 0 (fun i =>
      x <- defined (M_column !! i) ;;
      store (assign2 d_M_matrix set_d_M_matrix i c x)) r = Ok tt r' /\
    set_d_M_matrix (fun _ => []) r' = set_d_M_matrix (fun _ => []) r /\
    staged (S c) (d_M_matrix r').
Proof.
  destruct Hslot as (_ & _ & Hrows & Hcols & _).
  unfold GALILEO_CNAV_INFORMATION_VECTOR_LENGTH, GALILEO_CNAV_OCTETS_IN_SUBPAGE,
    GALILEO_CNAV_MAX_NUMBER_SYMBOLS_ENCODED_BLOCK in *.
  intros Hc Hlen Hval [HM Hstaged].
  set (I := fun (i : nat) (s : receiver) =>
              set_d_M_matrix (fun _ => []) s = set_d_M_matrix (fun _ => []) r /\
              length (d_M_matrix s) = 32%nat /\
              forall k row, (k < 32)%nat -> plane !! k = Some row ->
                d_M_matrix s !! k
                = Some (if decide (k < i)%nat
                        then take (S c) row ++ replicate (length row - S c) 0
                        else take c row ++ replicate (length row - c) 0)).
  destruct (for_loop_returns I 32 0
              (fun i => x <- defined (M_column !! i) ;;
                        store (assign2 d_M_matrix set_d_M_matrix i c x))) with (s := r)
    as (r' & Hrun & Hframe & HM' & Hall).
  - intros i s Hi (Hframe & HMs & Hs).
    destruct (lookup_lt_is_Some_2 plane i ltac:(lia)) as [row Hrow].
    pose proof (Forall_lookup_1 _ _ _ _ Hcols Hrow) as Hrowlen. cbv beta in Hrowlen.
    destruct (lookup_lt_is_Some_2 row c ltac:(lia)) as [x Hx].
    pose proof (Hs i row ltac:(lia) Hrow) as HMi.
    rewrite decide_False in HMi by lia.
    eexists. split.
    + unfold bind. rewrite (Hval i row ltac:(lia) Hrow), Hx. cbn [defined ret].
      unfold store, assign2. rewrite HMi.
      rewrite decide_True
        by (rewrite length_app, length_take, length_replicate; lia).
      reflexivity.
    + split; [exact Hframe|]. cbn. split; [rewrite length_insert; exact HMs|].
      intros k row' Hk Hrow'.
      destruct (decide (k = i)) as [->|Hne].
      * rewrite list_lookup_insert_eq by lia. rewrite decide_True by lia.
        assert (row' = row) by congruence. subst row'.
        rewrite (staged_row_next _ _ _ Hx). reflexivity.
      * rewrite list_lookup_insert_ne by congruence.
        rewrite (Hs k row' Hk Hrow').
        destruct (decide (k < i)%nat), (decide (k < S i)%nat); (reflexivity || lia).
  - split; [reflexivity|]. split; [exact HM|].
    intros k row Hk Hrow. rewrite decide_False by lia. apply Hstaged; assumption.
  - exists r'. split; [exact Hrun|]. split; [exact Hframe|].
    split; [exact HM'|]. intros k row Hk Hrow.
    rewrite (Hall k row Hk Hrow). rewrite decide_True by lia. reflexivity.
Qed.

Lemma decode_columns_run (n c : nat) (r : receiver) :
  (c + n = GALILEO_CNAV_OCTETS_IN_SUBPAGE)%nat ->
  d_C_matrix r !! mid = Some plane ->
  d_received_pids r !! mid = Some pids ->
  staged c (d_M_matrix r) ->
  exists r',
    decode_columns rs_decode n c mid erasures r = Ok true r' /\
    set_d_M_matrix (fun _ => []) r' = set_d_M_matrix (fun _ => []) r /\
    staged GALILEO_CNAV_OCTETS_IN_SUBPAGE (d_M_matrix r').
Proof.
  pose proof Hslot as (_ & _ & Hrows & Hcols & _).
  revert c r. induction n as [|n IH]; intros c r Hn HC Hpids Hstaged.
  - exists r. split; [reflexivity|]. split; [reflexivity|].
    replace GALILEO_CNAV_OCTETS_IN_SUBPAGE with c by lia. exact Hstaged.
  - cbn [decode_columns]. unfold bind at 1. rewrite HC. cbn [defined ret].
    unfold bind at 1. rewrite Hpids. cbn [defined ret].
    rewrite (fill_column_is_column plane pids c Hslot ltac:(lia)).
    unfold bind at 1. cbn [defined ret].
    destruct (Hrs (map (fun row => default 0 (row !! c)) plane)) as (decoded & -> & Htake).
    { rewrite length_map. exact Hrows. }
    assert (Hlong : (GALILEO_CNAV_INFORMATION_VECTOR_LENGTH <= length decoded)%nat).
    { apply (f_equal length) in Htake. rewrite !length_take, length_map, Hrows in Htake.
      unfold GALILEO_CNAV_INFORMATION_VECTOR_LENGTH,
        GALILEO_CNAV_MAX_NUMBER_SYMBOLS_ENCODED_BLOCK in *. lia. }
    unfold copy_prefix. rewrite decide_True by exact Hlong.
    unfold bind at 1. cbn [defined ret].
    destruct (store_column c (take GALILEO_CNAV_INFORMATION_VECTOR_LENGTH decoded) r)
      as (r1 & Hstore & Hframe & Hstaged1).
    + lia.
    + rewrite length_take. lia.
    + intros k row Hk Hrow. rewrite Htake, lookup_take_lt by exact Hk.
      rewrite list_lookup_fmap, Hrow. cbn [fmap option_fmap option_map].
      pose proof (Forall_lookup_1 _ _ _ _ Hcols Hrow) as Hrowlen. cbv beta in Hrowlen.
      destruct (lookup_lt_is_Some_2 row c ltac:(lia)) as [x Hx].
      rewrite Hx. reflexivity.
    + exact Hstaged.
    + rewrite (bind_Ok _ _ _ _ _ Hstore).
      destruct (IH (S c) r1) as (r' & Hrun & Hframe' & Hstaged').
      * lia.
      * apply (f_equal d_C_matrix) in Hframe. cbn in Hframe. rewrite Hframe. exact HC.
      * apply (f_equal d_received_pids) in Hframe. cbn in Hframe.
        rewrite Hframe. exact Hpids.
      * exact Hstaged1.
      * exists r'. split; [exact Hrun|]. split; [congruence|exact Hstaged'].
Qed.

(** When every column is decoded, [d_M_matrix] holds the first 32 rows of
    the matrix of the message. *)
Lemma staged_all (Mx : list (list Z)) :
  staged GALILEO_CNAV_OCTETS_IN_SUBPAGE Mx ->
  Mx = take GALILEO_CNAV_INFORMATION_VECTOR_LENGTH plane.
Proof.
  destruct Hslot as (_ & _ & Hrows & Hcols & _).
  unfold GALILEO_CNAV_INFORMATION_VECTOR_LENGTH, GALILEO_CNAV_OCTETS_IN_SUBPAGE,
    GALILEO_CNAV_MAX_NUMBER_SYMBOLS_ENCODED_BLOCK in *.
  intros [HM Hall]. apply list_eq. intros k.
  destruct (decide (k < 32)%nat) as [Hk|Hk].
  - rewrite lookup_take_lt by exact Hk.
    destruct (lookup_lt_is_Some_2 plane k ltac:(lia)) as [row Hrow].
    pose proof (Forall_lookup_1 _ _ _ _ Hcols Hrow) as Hrowlen. cbv beta in Hrowlen.
    rewrite (Hall k row Hk Hrow), Hrow. f_equal.
    rewrite Hrowlen, firstn_all2 by lia. cbn. apply app_nil_r.
  - rewrite lookup_take_ge by lia. apply lookup_ge_None. lia.
Qed.

End Vertical.

(** The text read from the first rows of the matrix of a message. *)
Lemma rows_to_text_of_plane (plane : list (list Z)) (pids : list Z) (n : nat) :
  slot_ok pids plane ->
  (n <= GALILEO_CNAV_INFORMATION_VECTOR_LENGTH)%nat ->
  rows_to_text (take GALILEO_CNAV_INFORMATION_VECTOR_LENGTH plane) n
  = Some (flat_map (flat_map bitset8_to_string) (take n plane)).
Proof.
  intros (_ & _ & Hrows & Hcols & _) Hn.
  unfold GALILEO_CNAV_INFORMATION_VECTOR_LENGTH, GALILEO_CNAV_OCTETS_IN_SUBPAGE,
    GALILEO_CNAV_MAX_NUMBER_SYMBOLS_ENCODED_BLOCK in *.
  unfold rows_to_text.
  assert (H : forall j k t, (k + j <= 32)%nat ->
            fold_left
              (fun acc row =>
                 t ← acc;
                 r ← take 32 plane !! row;
                 if decide (GALILEO_CNAV_OCTETS_IN_SUBPAGE <= length r)%nat
                 then Some (t ++ flat_map bitset8_to_string
                                   (take GALILEO_CNAV_OCTETS_IN_SUBPAGE r))
                 else None)
              (seq k j) (Some t)
            = Some (t ++ flat_map (flat_map bitset8_to_string)
                           (take j (drop k plane)))).
  { unfold GALILEO_CNAV_OCTETS_IN_SUBPAGE.
    induction j as [|j IH]; intros k t Hk.
    - cbn. rewrite app_nil_r. reflexivity.
    - cbn [seq fold_left mbind option_bind].
      assert (Hlt : (k < length plane)%nat) by lia.
      destruct (lookup_lt_is_Some_2 plane k Hlt) as [row Hrow].
      pose proof (Forall_lookup_1 _ _ _ _ Hcols Hrow) as Hrowlen. cbv beta in Hrowlen.
      rewrite lookup_take_lt by lia. rewrite Hrow. cbn [mbind option_bind].
      rewrite decide_True by lia. rewrite (take_ge row) by lia.
      rewrite IH by lia. rewrite (drop_S _ _ _ Hrow). cbn [take flat_map].
      rewrite <- app_assoc. reflexivity. }
  rewrite (H n 0%nat []) by lia. rewrite drop_0. reflexivity.
Qed.

(** The texts of the rows in which pages were recorded are their
    payloads. *)
Lemma text_of_recorded_pages (plane : list (list Z)) (payloads : list text) :
  (forall i payload,
     payloads !! i = Some payload ->
     payload_ok payload /\ plane !! i = Some (octets_of payload)) ->
  flat_map (flat_map bitset8_to_string) (take (length payloads) plane)
  = concat payloads.
Proof.
  revert plane. induction payloads as [|payload payloads IH]; intros plane Hall;
    [reflexivity|].
  destruct (Hall 0%nat payload eq_refl) as [Hok Hrow].
  destruct plane as [|row plane]; [discriminate|].
  injection Hrow as ->.
  cbn [length take flat_map concat].
  rewrite (octets_of_text _ Hok). f_equal. apply IH.
  intros i p Hp. apply (Hall (S i) p Hp).
Qed.

Section Reassembly.

Variable K : icd_constants.
Variable rs_decode : list Z -> list Z -> option (list Z).

Lemma erasures_with_all_pages (pids : list Z) (message_size : Z) :
  (forall pid, pid ∈ pids <-> 1 <= pid <= message_size) ->
  (length (erasure_positions pids message_size) <= 223)%nat.
Proof.
  intros Hall. unfold erasure_positions. rewrite length_app.
  assert (H1 : push_erasures pids 1 (Z.to_nat message_size) = []).
  { destruct (push_erasures pids 1 (Z.to_nat message_size)) as [|e l] eqn:E;
      [reflexivity|].
    assert (He : e ∈ push_erasures pids 1 (Z.to_nat message_size))
      by (rewrite E; left).
    apply elem_of_push_erasures in He as (pid & _ & Hr & Hout).
    exfalso. apply Hout, Hall. lia. }
  rewrite H1. cbn [length].
  rewrite push_erasures_as_filter, length_fmap.
  pose proof (length_filter (fun k : nat => not_found pids (33 + Z.of_nat k) = true)
                (seq 0 223)) as H.
  rewrite length_seq in H. lia.
Qed.

(** X17. When exactly the pages 1 to [message_size] of a message were
    received, and the decoder of the Reed-Solomon code gives back the 32
    information symbols of every column as it received them, as the decoder
    of a systematic code does when only parity symbols are erased,
    [decode_message_type1] goes on with the text made of the octets of the
    first [message_size] rows of the matrix of the message, after it has put
    the first 32 rows of that matrix in [d_M_matrix].  When these rows are
    those in which pages were recorded, the text is made of the payloads of
    the pages, in the order of their page identifiers. *)
Theorem message_is_put_together (w : world) (message_id message_size : Z)
    (pids : list Z) (plane : list (list Z)) :
  0 <= message_size <= 32 ->
  d_received_pids (this w) !! Z.to_nat message_id = Some pids ->
  d_C_matrix (this w) !! Z.to_nat message_id = Some plane ->
  slot_ok pids plane ->
  (forall pid, pid ∈ pids <-> 1 <= pid <= message_size) ->
  (forall column,
     length column = GALILEO_CNAV_MAX_NUMBER_SYMBOLS_ENCODED_BLOCK ->
     exists decoded,
       rs_decode column (erasure_positions pids message_size) = Some decoded /\
       take GALILEO_CNAV_INFORMATION_VECTOR_LENGTH decoded
       = take GALILEO_CNAV_INFORMATION_VECTOR_LENGTH column) ->
  decode_message_type1 K rs_decode message_id message_size w
  = publish_and_read K (Z.to_nat message_id)
      (flat_map (flat_map bitset8_to_string) (take (Z.to_nat message_size) plane))
      (set_this (set_d_M_matrix
                   (fun _ => take GALILEO_CNAV_INFORMATION_VECTOR_LENGTH plane)) w) /\
  (forall payloads : list text,
     length payloads = Z.to_nat message_size ->
     (forall i payload,
        payloads !! i = Some payload ->
        payload_ok payload /\ plane !! i = Some (octets_of payload)) ->
     flat_map (flat_map bitset8_to_string) (take (Z.to_nat message_size) plane)
     = concat payloads).
Proof.
  intros Hsize Hpids HC Hslot Hall Hrs. split.
  2:{ intros payloads Hlen Hrows. rewrite <- Hlen.
      apply text_of_recorded_pages, Hrows. }
  pose proof Hslot as (_ & _ & Hrows & Hcols & _).
  unfold decode_message_type1. cbv zeta.
  destruct (Z.leb_spec 255 message_size) as [|_]; [lia|].
  unfold bind at 1. rewrite Hpids. cbn [defined ret].
  rewrite decide_False by (pose proof (erasures_with_all_pages _ _ Hall); lia).
  erewrite bind_Ok; [|apply on_this_Ok; reflexivity].
  destruct (decode_columns_run rs_decode (Z.to_nat message_id) plane pids
              (erasure_positions pids message_size) Hslot Hrs
              GALILEO_CNAV_OCTETS_IN_SUBPAGE 0
              (set_d_M_matrix
                 (fun _ => zero_matrix GALILEO_CNAV_INFORMATION_VECTOR_LENGTH
                             GALILEO_CNAV_OCTETS_IN_SUBPAGE) (this w)))
    as (r' & Hrun & Hframe & Hstaged).
  - reflexivity.
  - exact HC.
  - exact Hpids.
  - unfold set_d_M_matrix. cbn [d_M_matrix]. unfold zero_matrix.
    split; [apply length_replicate|].
    intros k row Hk Hrow.
    pose proof (Forall_lookup_1 _ _ _ _ Hcols Hrow) as Hrowlen. cbv beta in Hrowlen.
    rewrite lookup_replicate_2 by exact Hk. rewrite Hrowlen. reflexivity.
  - apply (staged_all plane pids Hslot) in Hstaged.
    assert (Hr' : r' = set_d_M_matrix
                         (fun _ => take GALILEO_CNAV_INFORMATION_VECTOR_LENGTH plane)
                         (this w)).
    { destruct r', (this w). cbn in Hframe, Hstaged. unfold set_d_M_matrix in *.
      cbn in *. congruence. }
    erewrite bind_Ok; [|apply on_this_Ok; exact Hrun].
    unfold bind at 1. cbn [this]. rewrite Hstaged.
    rewrite (rows_to_text_of_plane plane pids) by
      (try exact Hslot; unfold GALILEO_CNAV_INFORMATION_VECTOR_LENGTH; lia).
    cbn [defined ret]. rewrite Hr'. reflexivity.
Qed.

End Reassembly.

Lemma message_is_put_together_witness :
  let payload := has_message_string page_unknown_system in
  let plane := <[0%nat := octets_of payload]> (zero_matrix 255 53) in
  let w := Build_world
             (set_d_C_matrix (fun v => <[5%nat := plane]> v)
                (set_d_received_pids (fun v => <[5%nat := [1]]> v)
                   galileo_e6_has_msg_receiver)) [] in
  decode_message_type1 sample_constants sample_rs_decode 5 1 w
  = publish_and_read sample_constants 5 payload
      (set_this (set_d_M_matrix (fun _ => take 32 plane)) w).
Proof.
  intros payload plane w.
  assert (Hslot : slot_ok [1] plane).
  { split; [apply NoDup_singleton|].
    split; [repeat constructor; lia|].
    split; [vm_compute; reflexivity|].
    split; [apply (bool_decide_unpack _); vm_compute; reflexivity|].
    intros i row Hrow Hout. destruct i as [|i].
    - exfalso. apply Hout. left.
    - subst plane. rewrite list_lookup_insert_ne in Hrow by lia.
      apply lookup_replicate in Hrow as [-> _]. reflexivity. }
  destruct (message_is_put_together sample_constants sample_rs_decode w 5 1 [1] plane)
    as [Hrun Htext].
  - lia.
  - reflexivity.
  - reflexivity.
  - exact Hslot.
  - intros pid. rewrite list_elem_of_singleton. lia.
  - intros column _. exists column. split; reflexivity.
  - rewrite Hrun. rewrite (Htext [payload]); [cbn [concat]; rewrite app_nil_r; reflexivity|reflexivity|].
    intros [|i] p Hp; [|discriminate].
    injection Hp as <-. split; [split; vm_compute; reflexivity|reflexivity].
Defined.


(** * Calls that take their bits *)

Lemma takes_ret (I : body_reader -> Prop) : takes I 0 (ret tt).
Proof.
  intros s Hs. split; [|lia].
  intros _. exists s. split; [reflexivity|]. split; [exact Hs|].
  rewrite drop_0. reflexivity.
Qed.

Lemma takes_bind (I : body_reader -> Prop) (a b : nat) (m k : M body_reader unit) :
  takes I a m -> takes I b k -> takes I (a + b) (m ;; k).
Proof.
  intros Hm Hk s Hs. destruct (Hm s Hs) as [Hok Hshort]. split.
  - intros Hlen.
    destruct Hok as (s1 & Hrun & Hs1 & Hmsg); [lia|].
    destruct (Hk s1 Hs1) as [Hok2 _].
    destruct Hok2 as (s2 & Hrun2 & Hs2 & Hmsg2); [rewrite Hmsg, length_drop; lia|].
    exists s2. rewrite (bind_Ok _ _ _ _ _ Hrun).
    split; [exact Hrun2|]. split; [exact Hs2|].
    rewrite Hmsg2, Hmsg, drop_drop. reflexivity.
  - intros Hlen. destruct (le_lt_dec a (length (message s))) as [Ha|Ha].
    + destruct (Hok Ha) as (s1 & Hrun & Hs1 & Hmsg).
      destruct (Hk s1 Hs1) as [_ Hshort2].
      destruct Hshort2 as (s2 & Hrun2); [rewrite Hmsg, length_drop; lia|].
      exists s2. rewrite (bind_Ok _ _ _ _ _ Hrun). exact Hrun2.
    + destruct (Hshort Ha) as (s1 & Hrun). exists s1.
      unfold bind. rewrite Hrun. reflexivity.
Qed.

Lemma takes_when (I : body_reader -> Prop) (n : nat) (b : bool) (m : M body_reader unit) :
  takes I n m -> takes I (if b then n else 0) (when b m).
Proof. intros Hm. destruct b; [exact Hm|apply takes_ret]. Qed.

(** A call that reads the state before a call that takes bits. *)
Lemma takes_read {A} (I : body_reader -> Prop) (n : nat) (m : M body_reader A)
    (k : A -> M body_reader unit) (a : A) :
  (forall s, I s -> m s = Ok a s) ->
  takes I n (k a) -> takes I n (x <- m ;; k x).
Proof.
  intros Hm Hk s Hs. rewrite (bind_Ok _ _ _ _ _ (Hm s Hs)). apply Hk, Hs.
Qed.

Lemma takes_for_loop (I : body_reader -> Prop) (f : nat -> nat) (n i0 : nat)
    (body : nat -> M body_reader unit) :
  (forall i, (i0 <= i < i0 + n)%nat -> takes I (f i) (body i)) ->
  takes I (sum_list_with f (seq i0 n)) (for_loop n i0 body).
Proof.
  revert i0. induction n as [|n IH]; intros i0 Hbody; [apply takes_ret|].
  cbn [seq sum_list_with for_loop]. apply takes_bind.
  - apply Hbody. lia.
  - apply IH. intros i Hi. apply Hbody. lia.
Qed.

Lemma takes_as (I : body_reader -> Prop) (n n' : nat) (m : M body_reader unit) :
  takes I n m -> n = n' -> takes I n' m.
Proof. intros H <-. exact H. Qed.

Lemma sum_list_with_scaled {A} (w : nat) (g : A -> nat) (l : list A) :
  sum_list_with (fun x => w * g x)%nat l = (w * sum_list_with g l)%nat.
Proof. induction l as [|x l IH]; cbn [sum_list_with]; lia. Qed.

Lemma sum_list_with_same {A} (f g : A -> nat) (l : list A) :
  (forall x, f x = g x) -> sum_list_with f l = sum_list_with g l.
Proof. intros H. induction l as [|x l IH]; cbn [sum_list_with]; [|rewrite H, IH]; reflexivity. Qed.

Lemma popcount_nonneg (n : Z) : 0 <= popcount n.
Proof.
  destruct n as [|p|p]; cbn; try lia.
  induction p; cbn [popcount_pos]; lia.
Qed.

(** * The cells of the biases *)

Section Cells.

Variable d0 : Galileo_HAS_data.
Variable I : body_reader -> Prop.
Variable cell : nat -> nat -> M body_reader unit.
Variables w rows cols : nat.

Hypothesis HI : forall s, I s ->
  cell_mask_availability_flag (data s) = cell_mask_availability_flag d0 /\
  cell_mask (data s) = cell_mask d0.
Hypothesis Hcell : forall sat c,
  (sat < rows)%nat -> (c < cols)%nat -> takes I w (cell sat c).

Lemma cell_present_is (nsys sys a c : nat) (s : body_reader) :
  cells_well_formed d0 nsys -> (sys < nsys)%nat ->
  (a < fst (system_counts d0 sys))%nat -> (c < snd (system_counts d0 sys))%nat ->
  I s ->
  cell_present sys a c s = Ok (cell_is_present d0 sys a c) s.
Proof.
  intros Hwf Hsys Ha Hc Hs. destruct (HI s Hs) as [Hflags Hcm].
  specialize (Hwf sys Hsys).
  unfold cell_present, data_at, system_counts, cell_is_present in *.
  unfold bind at 1. rewrite Hflags. revert Hwf Ha Hc.
  destruct (cell_mask_availability_flag d0 !! sys) as [[|]|]; intros Hwf Ha Hc;
    [| |destruct Hwf].
  - destruct Hwf as (cm & first & Hcm0 & Hfirst & Hrows).
    cbn [defined ret]. unfold bind at 1. rewrite Hcm, Hcm0 in *. cbn [defined ret].
    cbn in Ha, Hc. rewrite Hfirst in Hc. cbn in Hc.
    destruct (lookup_lt_is_Some_2 cm a Ha) as [row Hrow].
    pose proof (Forall_lookup_1 _ _ _ _ Hrows Hrow) as Hlen. cbv beta in Hlen.
    unfold bind at 1. rewrite Hrow. cbn [defined ret].
    assert (Hc' : (c < length row)%nat) by lia.
    destruct (lookup_lt_is_Some_2 row c Hc') as [b Hb].
    rewrite Hb. reflexivity.
  - reflexivity.
Qed.

(** The loops on the satellites and on the signals of a system. *)
Lemma read_system_takes (nsys sys sat : nat) :
  cells_well_formed d0 nsys -> (sys < nsys)%nat ->
  (sat + fst (system_counts d0 sys) <= rows)%nat ->
  (snd (system_counts d0 sys) <= cols)%nat ->
  takes I (w * cells_of_system d0 sys)
    (for_loop (fst (system_counts d0 sys)) 0 (fun s =>
       for_loop (snd (system_counts d0 sys)) 0 (fun c =>
         present <- cell_present sys s c ;;
         when present (cell (sat + s)%nat c)))).
Proof.
  intros Hwf Hsys Hrows Hcols.
  eapply takes_as.
  - apply (takes_for_loop I
             (fun s => sum_list_with
                         (fun c => if cell_is_present d0 sys s c then w else 0)%nat
                         (seq 0 (snd (system_counts d0 sys))))).
    intros s Hs.
    apply (takes_for_loop I
             (fun c => if cell_is_present d0 sys s c then w else 0)%nat).
    intros c Hc.
    apply (takes_read I _ _ _ (cell_is_present d0 sys s c)).
    + intros s1 Hs1. apply (cell_present_is nsys); (assumption || lia).
    + apply takes_when, Hcell; lia.
  - unfold cells_of_system. rewrite <- sum_list_with_scaled.
    apply sum_list_with_same. intros s. rewrite <- sum_list_with_scaled.
    apply sum_list_with_same. intros c.
    destruct (cell_is_present d0 sys s c); lia.
Qed.

Lemma read_cells_takes (nsys n sys sat : nat) :
  cells_well_formed d0 nsys -> (sys + n <= nsys)%nat ->
  (sat + sum_list_with (fun k => fst (system_counts d0 k)) (seq sys n) <= rows)%nat ->
  (forall k, (sys <= k < sys + n)%nat -> (snd (system_counts d0 k) <= cols)%nat) ->
  takes I (w * sum_list_with (cells_of_system d0) (seq sys n))
    (read_cells cell (counted d0 sys n) sys sat).
Proof.
  intros Hwf. revert sys sat. induction n as [|n IH]; intros sys sat Hn Hrows Hcols.
  - cbn. eapply takes_as; [apply takes_ret|lia].
  - unfold counted. cbn [seq map read_cells sum_list_with] in *.
    rewrite !Nat2Z.id.
    eapply takes_as.
    + apply takes_bind.
      * apply (read_system_takes nsys sys sat Hwf); [lia|lia|apply Hcols; lia].
      * apply (IH (S sys)); [lia|lia|intros k Hk; apply Hcols; lia].
    + lia.
Qed.

End Cells.

(** * The first loop on the systems *)

Lemma count_cells_of_system_is (nsys sys : nat) (s : body_reader) :
  cells_well_formed (data s) nsys -> (sys < nsys)%nat ->
  count_cells_of_system sys s
  = Ok (Z.of_nat (fst (system_counts (data s) sys)),
        Z.of_nat (snd (system_counts (data s) sys))) s.
Proof.
  intros Hwf Hsys. specialize (Hwf sys Hsys).
  unfold count_cells_of_system, data_at, system_counts.
  unfold bind at 1. revert Hwf.
  destruct (cell_mask_availability_flag (data s) !! sys) as [[|]|]; intros Hwf;
    [| |destruct Hwf]; cbn [defined ret].
  - destruct Hwf as (cm & first & Hcm & Hfirst & _).
    unfold bind at 1. rewrite Hcm. cbn [defined ret].
    unfold bind at 1. cbn. rewrite Hfirst. reflexivity.
  - destruct Hwf as [[n Hn] [m Hm]].
    unfold bind at 1. rewrite Hn. cbn [defined ret].
    unfold bind at 1. rewrite Hm. cbn.
    rewrite !Z2Nat.id by apply popcount_nonneg. reflexivity.
Qed.

Lemma count_cells_is (nsys : nat) (s : body_reader) :
  cells_well_formed (data s) nsys ->
  forall n sys max_signals,
    (sys + n <= nsys)%nat ->
    exists max_signals',
      count_cells n sys max_signals s
      = Ok (counted (data s) sys n, max_signals') s /\
      max_signals <= max_signals' /\
      (forall k, (sys <= k < sys + n)%nat ->
         Z.of_nat (snd (system_counts (data s) k)) <= max_signals').
Proof.
  intros Hwf. induction n as [|n IH]; intros sys mx Hn.
  - exists mx. split; [reflexivity|]. split; [lia|]. intros k Hk. lia.
  - cbn [count_cells].
    assert (Hsys : (sys < nsys)%nat) by lia.
    rewrite (bind_Ok _ _ _ _ _ (count_cells_of_system_is nsys sys s Hwf Hsys)).
    cbn [snd].
    set (nc := Z.of_nat (snd (system_counts (data s) sys))).
    set (mx1 := if mx <? nc then nc else mx).
    assert (Hmx1 : mx <= mx1 /\ nc <= mx1)
      by (subst mx1; destruct (Z.ltb_spec mx nc); lia).
    destruct (IH (S sys) mx1) as (mx' & Hrun & Hle & Hall); [lia|].
    exists mx'. rewrite (bind_Ok _ _ _ _ _ Hrun). cbn [fst snd ret].
    split; [reflexivity|]. split; [lia|].
    intros k Hk. destruct (decide (k = sys)) as [->|Hne]; [fold nc; lia|].
    apply Hall. lia.
Qed.

(** * The code biases *)

Section CodeBias.

Variable s0 : body_reader.
Variables n cols : nat.

(** What the loops of the block keep. *)
Let kept (s : body_reader) : Prop :=
  but_code_bias s = but_code_bias s0 /\
  validity_interval_index_code_bias_corrections (data s)
  = read_has_message_body_uint8 (take 4 (message s0)) /\
  length (code_bias (data s)) = n /\
  Forall (fun row => length row = cols) (code_bias (data s)).

Lemma code_bias_kept_cells (s : body_reader) :
  kept s ->
  cell_mask_availability_flag (data s) = cell_mask_availability_flag (data s0) /\
  cell_mask (data s) = cell_mask (data s0).
Proof.
  intros (Hb & _). split.
  - apply (f_equal (fun x => cell_mask_availability_flag (data x))) in Hb. exact Hb.
  - apply (f_equal (fun x => cell_mask (data x))) in Hb. exact Hb.
Qed.

Lemma code_bias_cell_takes (sat c : nat) :
  (sat < n)%nat -> (c < cols)%nat ->
  takes kept HAS_MSG_CODE_BIAS_LENGTH
    (bits <- substr HAS_MSG_CODE_BIAS_LENGTH ;;
     store_data (assign2 code_bias set_code_bias sat c
                   (read_has_message_body_int16 bits)) ;;
     advance HAS_MSG_CODE_BIAS_LENGTH).
Proof.
  intros Hsat Hc s (Hb & Hv & Hl & Hf). unfold HAS_MSG_CODE_BIAS_LENGTH.
  assert (Hsat' : (sat < length (code_bias (data s)))%nat) by lia.
  destruct (lookup_lt_is_Some_2 _ _ Hsat') as [row Hrow].
  pose proof (Forall_lookup_1 _ _ _ _ Hf Hrow) as Hrowlen. cbv beta in Hrowlen.
  assert (Hstore : forall x,
            store_data (assign2 code_bias set_code_bias sat c x) s
            = Ok tt (set_data (fun _ => set_code_bias
                                 (fun v => <[sat := <[c := x]> row]> v) (data s)) s)).
  { intros x. unfold store_data, store, assign2. rewrite Hrow.
    rewrite decide_True by lia. reflexivity. }
  split.
  - intros Hlen. eexists. split.
    { run_substr. rewrite (bind_Ok _ _ _ _ _ (Hstore _)).
      apply advance_Ok. exact Hlen. }
    split; [|reflexivity]. unfold kept. simpl_state.
    split; [rewrite <- Hb; reflexivity|]. split; [exact Hv|].
    split; [rewrite length_insert; exact Hl|].
    apply Forall_insert; [exact Hf|]. rewrite length_insert. exact Hrowlen.
  - intros Hlen. eexists. run_substr. rewrite (bind_Ok _ _ _ _ _ (Hstore _)).
    apply advance_runs_out. exact Hlen.
Qed.

End CodeBias.

(** X18. With the flag of the code biases set and a mask at hand, for a
    record whose masks are those of a mask that was read and whose number
    of satellites is not more than [Nsat], the block of the code biases takes
    the 4 bits of the validity index and 11 bits for each cell that carries
    a bias: it returns exactly when the text holds these bits, takes them and
    no more, leaves a matrix of [Nsat] rows, and changes nothing else than
    this matrix, the validity index and the text.  With fewer bits the block
    is left by [std::length_error]. *)
Theorem code_bias_takes_its_bits (s : body_reader) :
  let nsys := Z.to_nat (Nsys (data s)) in
  let bits := (4 + 11 * cells_present (data s) nsys)%nat in
  code_bias_flag (header (data s)) = true ->
  have_mask s = true ->
  cells_well_formed (data s) nsys ->
  (satellites_counted (data s) nsys <= Z.to_nat (Nsat s))%nat ->
  ((bits <= length (message s))%nat ->
   exists s',
     read_code_bias s = Ok tt s' /\
     message s' = drop bits (message s) /\
     but_code_bias s' = but_code_bias s /\
     validity_interval_index_code_bias_corrections (data s')
     = unsigned_value (take 4 (message s)) /\
     length (code_bias (data s')) = Z.to_nat (Nsat s)) /\
  ((length (message s) < bits)%nat ->
   exists s', read_code_bias s = Throw length_error s').
Proof.
  intros nsys bits Hflag Hmask Hwf Hsats.
  unfold read_code_bias.
  rewrite (bind_Ok _ _ s true s)
    by (unfold block_enabled, get; rewrite Hflag, Hmask; reflexivity).
  cbn [when]. unfold HAS_MSG_VALIDITY_INDEX_LENGTH.
  run_substr. run_put.
  destruct (le_lt_dec 4 (length (message s))) as [H4|H4].
  2:{ split; [intros Hlen; subst bits; lia|].
      intros _. eexists. unfold bind at 1.
      rewrite advance_runs_out by exact H4. reflexivity. }
  run_with ltac:(apply advance_Ok; exact H4).
  rewrite bind_get. simpl_state. fold nsys.
  match goal with
  | |- context [bind (count_cells _ _ _) _ ?s1] =>
      destruct (count_cells_is nsys s1 Hwf nsys 0 0) as (mx & Hcount & Hmx & Hcols);
        [lia|]; rewrite (bind_Ok _ _ _ _ _ Hcount)
  end.
  rewrite bind_get, bind_put. simpl_state. cbn [fst snd].
  assert (Hcols' : forall k, (0 <= k < 0 + nsys)%nat ->
                     (snd (system_counts (data s) k) <= Z.to_nat mx)%nat).
  { intros k Hk. pose proof (Hcols k Hk) as H.
    unfold system_counts in *. simpl_state. lia. }
  assert (Hall : (0 + nsys <= nsys)%nat) by lia.
  match goal with
  | |- context [read_cells ?cell _ _ _ ?s2] =>
      destruct (read_cells_takes (data s) _ cell 11 (Z.to_nat (Nsat s)) (Z.to_nat mx)
                  (code_bias_kept_cells s (Z.to_nat (Nsat s)) (Z.to_nat mx))
                  (code_bias_cell_takes s (Z.to_nat (Nsat s)) (Z.to_nat mx))
                  nsys nsys 0 0 Hwf Hall Hsats Hcols' s2)
        as [Hok Hshort]
  end.
  { split; [reflexivity|]. simpl_state.
    split; [reflexivity|].
    split; [apply length_replicate|].
    apply Forall_replicate. apply length_replicate. }
  simpl_state. split.
  - intros Hlen. destruct Hok as (s' & Hrun & (Hb & Hv & Hl & _) & Hmsg).
    { rewrite length_drop. subst bits. unfold cells_present in Hlen. lia. }
    exists s'. split; [exact Hrun|].
    split; [rewrite Hmsg, drop_drop; reflexivity|].
    split; [exact Hb|]. split; [|exact Hl].
    rewrite Hv. apply read_unsigned_small. rewrite length_take. lia.
  - intros Hlen. apply Hshort. rewrite length_drop.
    subst bits. unfold cells_present in Hlen. lia.
Qed.

(** * The phase biases *)

Lemma store_data_assign2_Ok {A} (getf : Galileo_HAS_data -> list (list A))
    (setf : (list (list A) -> list (list A)) -> Galileo_HAS_data -> Galileo_HAS_data)
    (i j : nat) (x : A) (s : body_reader) (row : list A) :
  getf (data s) !! i = Some row -> (j < length row)%nat ->
  store_data (assign2 getf setf i j x) s
  = Ok tt (set_data (fun _ => setf (fun v => <[i := <[j := x]> row]> v) (data s)) s).
Proof.
  intros Hrow Hj. unfold store_data, store, assign2. rewrite Hrow.
  rewrite decide_True by exact Hj. reflexivity.
Qed.

Section PhaseBias.

Variable s0 : body_reader.
Variables n cols : nat.

(** What the loops of the block keep. *)
Let kept (s : body_reader) : Prop :=
  but_phase_bias s = but_phase_bias s0 /\
  validity_interval_index_phase_bias_corrections (data s)
  = read_has_message_body_uint8 (take 4 (message s0)) /\
  (length (phase_bias (data s)) = n /\
   Forall (fun row => length row = cols) (phase_bias (data s))) /\
  (length (phase_discontinuity_indicator (data s)) = n /\
   Forall (fun row => length row = cols) (phase_discontinuity_indicator (data s))).

Lemma phase_bias_kept_cells (s : body_reader) :
  kept s ->
  cell_mask_availability_flag (data s) = cell_mask_availability_flag (data s0) /\
  cell_mask (data s) = cell_mask (data s0).
Proof.
  intros (Hb & _). split.
  - apply (f_equal (fun x => cell_mask_availability_flag (data x))) in Hb. exact Hb.
  - apply (f_equal (fun x => cell_mask (data x))) in Hb. exact Hb.
Qed.

Lemma phase_bias_cell_takes (sat p : nat) :
  (sat < n)%nat -> (p < cols)%nat ->
  takes kept (HAS_MSG_PHASE_BIAS_LENGTH + HAS_MSG_PHASE_DISCONTINUITY_INDICATOR_LENGTH)
    (bits <- substr HAS_MSG_PHASE_BIAS_LENGTH ;;
     store_data (assign2 phase_bias set_phase_bias sat p
                   (read_has_message_body_int16 bits)) ;;
     advance HAS_MSG_PHASE_BIAS_LENGTH ;;
     bits <- substr HAS_MSG_PHASE_DISCONTINUITY_INDICATOR_LENGTH ;;
     store_data (assign2 phase_discontinuity_indicator
                   set_phase_discontinuity_indicator sat p
                   (read_has_message_body_uint8 bits)) ;;
     advance HAS_MSG_PHASE_DISCONTINUITY_INDICATOR_LENGTH).
Proof.
  intros Hsat Hp s (Hb & Hv & (Hl1 & Hf1) & (Hl2 & Hf2)).
  unfold HAS_MSG_PHASE_BIAS_LENGTH, HAS_MSG_PHASE_DISCONTINUITY_INDICATOR_LENGTH.
  assert (Hsat1 : (sat < length (phase_bias (data s)))%nat) by lia.
  assert (Hsat2 : (sat < length (phase_discontinuity_indicator (data s)))%nat) by lia.
  destruct (lookup_lt_is_Some_2 _ _ Hsat1) as [row1 Hrow1].
  destruct (lookup_lt_is_Some_2 _ _ Hsat2) as [row2 Hrow2].
  pose proof (Forall_lookup_1 _ _ _ _ Hf1 Hrow1) as Hlen1. cbv beta in Hlen1.
  pose proof (Forall_lookup_1 _ _ _ _ Hf2 Hrow2) as Hlen2. cbv beta in Hlen2.
  assert (Hp1 : (p < length row1)%nat) by lia.
  assert (Hp2 : (p < length row2)%nat) by lia.
  run_substr.
  rewrite (bind_Ok _ _ _ _ _
             (store_data_assign2_Ok phase_bias set_phase_bias sat p _ s row1 Hrow1 Hp1)).
  destruct (le_lt_dec 11 (length (message s))) as [H11|H11].
  2:{ split; [lia|]. intros _. eexists. unfold bind at 1.
      rewrite advance_runs_out by exact H11. reflexivity. }
  run_with ltac:(apply advance_Ok; exact H11).
  run_substr.
  erewrite bind_Ok;
    [|apply (store_data_assign2_Ok phase_discontinuity_indicator
               set_phase_discontinuity_indicator sat p _ _ row2); [exact Hrow2|exact Hp2]].
  split.
  - intros Hlen. eexists. split.
    { apply advance_Ok. simpl_state. rewrite length_drop. lia. }
    split; [|simpl_state; rewrite drop_drop; reflexivity].
    unfold kept. simpl_state.
    split; [rewrite <- Hb; reflexivity|]. split; [exact Hv|].
    split; (split; [rewrite length_insert; assumption|]);
      (apply Forall_insert; [assumption|]); rewrite length_insert; assumption.
  - intros Hlen. eexists.
    apply advance_runs_out. simpl_state. rewrite length_drop. lia.
Qed.

End PhaseBias.

(** X19. With the flag of the phase biases set and a mask at hand, for a
    record whose masks are those of a mask that was read and whose number
    of satellites is not more than [Nsat], the block of the phase biases
    takes the 4 bits of the validity index and, for each cell that carries a
    bias, the 11 bits of the bias and the 2 bits of the discontinuity
    indicator: it returns exactly when the text holds these bits, takes them
    and no more, leaves two matrices of [Nsat] rows, and changes nothing else
    than these matrices, the validity index and the text.  With fewer bits
    the block is left by [std::length_error]. *)
Theorem phase_bias_takes_its_bits (s : body_reader) :
  let nsys := Z.to_nat (Nsys (data s)) in
  let bits := (4 + 13 * cells_present (data s) nsys)%nat in
  phase_bias_flag (header (data s)) = true ->
  have_mask s = true ->
  cells_well_formed (data s) nsys ->
  (satellites_counted (data s) nsys <= Z.to_nat (Nsat s))%nat ->
  ((bits <= length (message s))%nat ->
   exists s',
     read_phase_bias s = Ok tt s' /\
     message s' = drop bits (message s) /\
     but_phase_bias s' = but_phase_bias s /\
     validity_interval_index_phase_bias_corrections (data s')
     = unsigned_value (take 4 (message s)) /\
     length (phase_bias (data s')) = Z.to_nat (Nsat s) /\
     length (phase_discontinuity_indicator (data s')) = Z.to_nat (Nsat s)) /\
  ((length (message s) < bits)%nat ->
   exists s', read_phase_bias s = Throw length_error s').
Proof.
  intros nsys bits Hflag Hmask Hwf Hsats.
  unfold read_phase_bias.
  rewrite (bind_Ok _ _ s true s)
    by (unfold block_enabled, get; rewrite Hflag, Hmask; reflexivity).
  cbn [when]. unfold HAS_MSG_VALIDITY_INDEX_LENGTH.
  run_substr. run_put.
  destruct (le_lt_dec 4 (length (message s))) as [H4|H4].
  2:{ split; [intros Hlen; subst bits; lia|].
      intros _. eexists. unfold bind at 1.
      rewrite advance_runs_out by exact H4. reflexivity. }
  run_with ltac:(apply advance_Ok; exact H4).
  rewrite bind_get. simpl_state. fold nsys.
  match goal with
  | |- context [bind (count_cells _ _ _) _ ?s1] =>
      destruct (count_cells_is nsys s1 Hwf nsys 0 0) as (mx & Hcount & Hmx & Hcols);
        [lia|]; rewrite (bind_Ok _ _ _ _ _ Hcount)
  end.
  rewrite bind_get, !bind_put. simpl_state. cbn [fst snd].
  assert (Hcols' : forall k, (0 <= k < 0 + nsys)%nat ->
                     (snd (system_counts (data s) k) <= Z.to_nat mx)%nat).
  { intros k Hk. pose proof (Hcols k Hk) as H.
    unfold system_counts in *. simpl_state. lia. }
  assert (Hall : (0 + nsys <= nsys)%nat) by lia.
  match goal with
  | |- context [read_cells ?cell _ _ _ ?s2] =>
      destruct (read_cells_takes (data s) _ cell 13 (Z.to_nat (Nsat s)) (Z.to_nat mx)
                  (phase_bias_kept_cells s (Z.to_nat (Nsat s)) (Z.to_nat mx))
                  (phase_bias_cell_takes s (Z.to_nat (Nsat s)) (Z.to_nat mx))
                  nsys nsys 0 0 Hwf Hall Hsats Hcols' s2)
        as [Hok Hshort]
  end.
  { split; [reflexivity|]. simpl_state.
    split; [reflexivity|].
    split; (split; [apply length_replicate|]);
      apply Forall_replicate; apply length_replicate. }
  simpl_state. split.
  - intros Hlen. destruct Hok as (s' & Hrun & (Hb & Hv & (Hl1 & _) & (Hl2 & _)) & Hmsg).
    { rewrite length_drop. subst bits. unfold cells_present in Hlen. lia. }
    exists s'. split; [exact Hrun|].
    split; [rewrite Hmsg, drop_drop; reflexivity|].
    split; [exact Hb|]. split; [|split; assumption].
    rewrite Hv. apply read_unsigned_small. rewrite length_take. lia.
  - intros Hlen. apply Hshort. rewrite length_drop.
    subst bits. unfold cells_present in Hlen. lia.
Qed.

Lemma code_bias_takes_its_bits_witness :
  exists s',
    read_code_bias code_bias_state = Ok tt s' /\
    message s' = [] /\
    but_code_bias s' = but_code_bias code_bias_state /\
    validity_interval_index_code_bias_corrections (data s') = 6 /\
    code_bias (data s') = [[-1; 0]; [1; 2]; [-1024; 0]].
Proof.
  destruct (code_bias_takes_its_bits code_bias_state) as [Hok _].
  - reflexivity.
  - reflexivity.
  - intros [|[|sys]] Hsys; [| |exfalso; vm_compute in Hsys; lia].
    + exists [[true; false]; [true; true]], [true; false].
      split; [reflexivity|]. split; [reflexivity|]. repeat constructor.
    + split; eexists; reflexivity.
  - vm_compute. lia.
  - destruct Hok as (s' & Hrun & Hmsg & Hbut & Hv & _); [vm_compute; lia|].
    exists s'. split; [exact Hrun|]. split; [rewrite Hmsg; reflexivity|].
    split; [exact Hbut|]. split; [rewrite Hv; reflexivity|].
    assert (Hs : code_bias (data (state_of code_bias_state
                                    (read_code_bias code_bias_state)))
                 = [[-1; 0]; [1; 2]; [-1024; 0]]) by (vm_compute; reflexivity).
    rewrite Hrun in Hs. exact Hs.
Defined.

Lemma phase_bias_takes_its_bits_witness :
  exists s',
    read_phase_bias phase_bias_state = Ok tt s' /\
    message s' = [] /\
    but_phase_bias s' = but_phase_bias phase_bias_state /\
    phase_bias (data s') = [[-1; 0]; [1; 2]; [-1024; 0]] /\
    phase_discontinuity_indicator (data s') = [[1; 0]; [2; 3]; [0; 0]].
Proof.
  destruct (phase_bias_takes_its_bits phase_bias_state) as [Hok _].
  - reflexivity.
  - reflexivity.
  - intros [|[|sys]] Hsys; [| |exfalso; vm_compute in Hsys; lia].
    + exists [[true; false]; [true; true]], [true; false].
      split; [reflexivity|]. split; [reflexivity|]. repeat constructor.
    + split; eexists; reflexivity.
  - vm_compute. lia.
  - destruct Hok as (s' & Hrun & Hmsg & Hbut & _); [vm_compute; lia|].
    exists s'. split; [exact Hrun|]. split; [rewrite Hmsg; reflexivity|].
    split; [exact Hbut|].
    assert (Hs : phase_bias (data (state_of phase_bias_state
                                     (read_phase_bias phase_bias_state)))
                 = [[-1; 0]; [1; 2]; [-1024; 0]] /\
                 phase_discontinuity_indicator
                   (data (state_of phase_bias_state
                            (read_phase_bias phase_bias_state)))
                 = [[1; 0]; [2; 3]; [0; 0]]) by (vm_compute; split; reflexivity).
    rewrite Hrun in Hs. exact Hs.
Defined.


(** * The shape of the mask that was read *)

(** The loops that read the cells of a system keep the sizes of its cell
    mask. *)
Lemma read_cell_mask_shape (i rows cols rows' cols' : nat)
    (C0 : list (list (list bool))) :
  keeps (fun s => exists cm,
           cell_mask (data s) = <[i := cm]> C0 /\ length cm = rows' /\
           Forall (fun row => length row = cols') cm)
    (for_loop rows 0 (fun s =>
       for_loop cols 0 (fun sig =>
         let pos := (s * cols + sig)%nat in
         c <- message_at pos ;;
         store_data (assign3 cell_mask set_cell_mask i s sig (is_one c))))).
Proof.
  apply keeps_for_loop. intros a. apply keeps_for_loop. intros b. cbv zeta.
  apply keeps_bind.
  - intros s Hs. unfold message_at. destruct (char_at _ _); [exact Hs|exact I].
  - intros c. unfold store_data. apply keeps_store.
    intros s s' (cm & Hcm & Hl & Hf) Hassign.
    unfold assign3 in Hassign.
    destruct (cell_mask (data s) !! i) as [plane|] eqn:Hplane; [|discriminate].
    destruct (plane !! a) as [row|] eqn:Hrow; [|discriminate].
    destruct (decide (b < length row)%nat) as [Hb|]; [|discriminate].
    injection Hassign as <-. simpl_state.
    assert (Hi : (i < length C0)%nat).
    { apply lookup_lt_Some in Hplane. rewrite Hcm, length_insert in Hplane.
      exact Hplane. }
    rewrite Hcm, list_lookup_insert_eq in Hplane by exact Hi.
    injection Hplane as <-.
    exists (<[a := <[b := is_one c]> row]> cm).
    split; [rewrite Hcm, list_insert_insert_eq; reflexivity|].
    split; [rewrite length_insert; exact Hl|].
    apply Forall_insert; [exact Hf|]. rewrite length_insert.
    apply (Forall_lookup_1 _ _ _ _ Hf Hrow).
Qed.

(** The cell mask of the record after one turn of the loop of the mask. *)
Lemma read_mask_system_cells (i : nat) (s s' : body_reader) :
  read_mask_system i s = Ok tt s' ->
  let sat := count_ones (take 40 (drop 4 (message s))) in
  let sig := count_ones (take 16 (drop 44 (message s))) in
  (i < length (cell_mask (data s)))%nat /\
  exists cm,
    cell_mask (data s') = <[i := cm]> (cell_mask (data s)) /\
    length cm = Z.to_nat sat /\
    Forall (fun row => length row = Z.to_nat sig) cm.
Proof.
  intros H. destruct s as [M D msg n hm]. cbv zeta. simpl_state.
  unfold read_mask_system, the_mask_id in H.
  unfold HAS_MSG_ID_MASK_LENGTH, HAS_MSG_SATELLITE_MASK_LENGTH,
    HAS_MSG_SIGNAL_MASK_LENGTH, HAS_MSG_NAV_MESSAGE_LENGTH in H.
  rewrite bind_get, bind_substr in H. unfold substr0 in H. simpl_state.
  set (mid := Z.to_nat (mask_id (header D))) in *.
  apply bind_Ok_inv in H as ([] & s1 & H1 & H).
  apply store_data_assign_inv in H1 as [Hg1 ->]. simpl_state.
  apply bind_Ok_inv in H as ([] & s2 & H2 & H).
  apply store_masks_assign2_inv in H2 as (rowg & Hrowg & Hg2 & ->). simpl_state.
  apply bind_Ok_inv in H as ([] & s3 & H3 & H).
  apply advance_inv in H3 as [Hlen3 ->]. simpl_state.
  rewrite bind_substr in H. unfold substr0 in H. simpl_state.
  apply bind_Ok_inv in H as ([] & s4 & H4 & H).
  apply store_data_assign_inv in H4 as [Hs1 ->]. simpl_state.
  apply bind_Ok_inv in H as ([] & s5 & H5 & H).
  apply store_masks_assign2_inv in H5 as (rows & Hrows & Hs2 & ->). simpl_state.
  rewrite bind_modify in H. simpl_state.
  apply bind_Ok_inv in H as ([] & s6 & H6 & H).
  apply advance_inv in H6 as [Hlen6 ->]. simpl_state.
  rewrite bind_substr in H. unfold substr0 in H. simpl_state.
  apply bind_Ok_inv in H as ([] & s7 & H7 & H).
  apply store_data_assign_inv in H7 as [Hsg1 ->]. simpl_state.
  apply bind_Ok_inv in H as ([] & s8 & H8 & H).
  apply store_masks_assign2_inv in H8 as (rowsg & Hrowsg & Hsg2 & ->). simpl_state.
  apply bind_Ok_inv in H as ([] & s9 & H9 & H).
  apply advance_inv in H9 as [Hlen9 ->]. simpl_state.
  apply bind_Ok_inv in H as ([] & s10 & H10 & H).
  apply store_data_assign_inv in H10 as [Hc1 ->]. simpl_state.
  rewrite bind_substr in H. unfold substr0 in H. simpl_state.
  apply bind_Ok_inv in H as ([] & s11 & H11 & H).
  apply store_data_assign_inv in H11 as [Hf1 ->]. simpl_state.
  apply bind_Ok_inv in H as ([] & s12 & H12 & H).
  apply store_masks_assign2_inv in H12 as (rowf & Hrowf & Hf2 & ->). simpl_state.
  apply bind_Ok_inv in H as ([] & s13 & H13 & H).
  apply advance_inv in H13 as [Hlen13 ->]. simpl_state.
  apply bind_Ok_inv in H as ([] & sc & Hcells & H).
  rewrite ?drop_drop in *.
  change (4 + 40)%nat with 44%nat in *.
  set (sat := count_ones (take 40 (drop 4 msg))) in *.
  set (sig := count_ones (take 16 (drop 44 msg))) in *.
  match type of Hcells with
  | for_loop ?rows 0 (fun s => for_loop ?cols 0 _) ?sb = _ =>
      pose proof (read_cell_mask_shape i rows cols (Z.to_nat sat) (Z.to_nat sig)
                    (cell_mask D) sb) as Hshape;
      cbv zeta in Hshape; rewrite Hcells in Hshape; clear Hcells
  end.
  destruct Hshape as (cm & Hcm & Hl & Hf).
  { simpl_state. eexists. split; [reflexivity|].
    split; [apply length_replicate|].
    apply Forall_replicate. apply length_replicate. }
  apply bind_Ok_inv in H as ([] & s14 & H14 & H).
  apply advance_inv in H14 as [Hlen14 ->]. simpl_state.
  rewrite bind_substr in H. unfold substr0 in H. simpl_state.
  apply bind_Ok_inv in H as ([] & s15 & H15 & H).
  apply store_data_assign_inv in H15 as [Hn1 ->]. simpl_state.
  apply bind_Ok_inv in H as ([] & s16 & H16 & H).
  apply store_masks_assign2_inv in H16 as (rown & Hrown & Hn2 & ->). simpl_state.
  apply advance_inv in H as [Hlen17 ->]. simpl_state.
  split; [exact Hc1|].
  exists cm. split; [exact Hcm|]. split; [exact Hl|exact Hf].
Qed.

Lemma sum_list_with_same_in {A} (f g : A -> nat) (l : list A) :
  (forall x, x ∈ l -> f x = g x) -> sum_list_with f l = sum_list_with g l.
Proof.
  induction l as [|x l IH]; intros H; cbn [sum_list_with]; [reflexivity|].
  rewrite (H x) by left. rewrite IH; [reflexivity|].
  intros y Hy. apply H. right. exact Hy.
Qed.

Lemma popcount_of_field (w : Z) (bits : text) :
  Z.of_nat (length bits) <= w ->
  popcount (read_unsigned w bits) = count_ones bits.
Proof.
  intros Hlen. rewrite read_unsigned_small by exact Hlen.
  apply popcount_unsigned_value.
Qed.

Lemma popcount_positive (n : Z) : 0 < n -> 0 < popcount n.
Proof.
  destruct n as [|p|p]; try lia. intros _. cbn.
  induction p; cbn [popcount_pos]; lia.
Qed.

Section MaskShape.

Variable nsys : nat.
Variable nsysZ : Z.

(** The masks of the record after [i] turns of the loop of the mask. *)
Let shaped (i : nat) (s : body_reader) : Prop :=
  Nsys (data s) = nsysZ /\
  (length (cell_mask_availability_flag (data s)) = nsys /\
   length (cell_mask (data s)) = nsys /\
   length (satellite_mask (data s)) = nsys /\
   length (signal_mask (data s)) = nsys) /\
  (forall k, (k < i)%nat ->
     exists cm sm sg,
       cell_mask (data s) !! k = Some cm /\
       satellite_mask (data s) !! k = Some sm /\
       signal_mask (data s) !! k = Some sg /\
       0 <= sm /\
       length cm = Z.to_nat (popcount sm) /\
       Forall (fun row => length row = Z.to_nat (popcount sg)) cm) /\
  Nsat s
  = Z.of_nat (sum_list_with
                (fun k => Z.to_nat (popcount (default 0 (satellite_mask (data s) !! k))))
                (seq 0 i)).

Lemma shaped_turn (i : nat) :
  triple (shaped i) (read_mask_system i) (fun _ => shaped (S i)) (fun _ _ => True).
Proof.
  intros s (Hnsys & (Hfl & Hcl & Hsl & Hgl) & Hall & Hn).
  destruct (read_mask_system i s) as [[] s'|e s'|] eqn:Hrun; [|exact I|exact I].
  pose proof (read_mask_system_cells i s s' Hrun) as Hcells. cbv zeta in Hcells.
  destruct Hcells as (Hic & cm & Hcm & Hlcm & Hfcm).
  apply read_mask_system_inv in Hrun. cbv zeta in Hrun.
  destruct Hrun as (_ & _ & Hnsat & _ & _ & Hnsys' & _ & _ & _ &
                    _ & (r2 & _ & _ & Hi2 & _ & G2) & (r3 & _ & _ & Hi3 & _ & G3) &
                    (r4 & _ & _ & Hi4 & _ & G4) & _).
  set (sm := read_has_message_body_uint64 (take 40 (drop 4 (message s)))) in *.
  set (sg := read_has_message_body_uint16 (take 16 (drop 44 (message s)))) in *.
  assert (Hsm : popcount sm = count_ones (take 40 (drop 4 (message s)))).
  { apply popcount_of_field. rewrite length_take. lia. }
  assert (Hsg : popcount sg = count_ones (take 16 (drop 44 (message s)))).
  { apply popcount_of_field. rewrite length_take. lia. }
  assert (Hsm0 : 0 <= sm) by (apply read_unsigned_nonneg; lia).
  unfold shaped. rewrite G2, G3, G4, Hcm, !length_insert.
  split; [congruence|]. split; [auto|]. split.
  - intros k Hk. destruct (decide (k = i)) as [->|Hne].
    + exists cm, sm, sg. rewrite !list_lookup_insert_eq by lia.
      rewrite Hsm, Hsg. auto 10.
    + rewrite !list_lookup_insert_ne by congruence. apply Hall. lia.
  - rewrite Hnsat, Hn. rewrite seq_S, sum_list_with_app. cbn [sum_list_with].
    rewrite list_lookup_insert_eq by lia. cbn [default from_option id].
    rewrite (sum_list_with_same_in
               (fun k => Z.to_nat (popcount
                           (default 0 (<[i:=sm]> (satellite_mask (data s)) !! k))))
               (fun k => Z.to_nat (popcount
                           (default 0 (satellite_mask (data s) !! k))))).
    2:{ intros k Hk. apply elem_of_seq in Hk.
        rewrite list_lookup_insert_ne by lia. reflexivity. }
    rewrite Hsm. unfold count_ones. lia.
Qed.

Lemma mask_loop_shaped (s sl : body_reader) :
  shaped 0 s -> for_loop nsys 0 read_mask_system s = Ok tt sl -> shaped nsys sl.
Proof.
  intros Hs Hloop.
  pose proof (triple_for_loop_counted shaped nsys 0 read_mask_system (fun _ _ => True)
                (fun i _ => shaped_turn i) s Hs) as H.
  rewrite Hloop in H. exact H.
Qed.

Lemma shaped_well_formed (s : body_reader) :
  shaped nsys s ->
  (forall sys, (sys < nsys)%nat ->
     exists cm sm sg,
       cell_mask (data s) !! sys = Some cm /\
       satellite_mask (data s) !! sys = Some sm /\
       signal_mask (data s) !! sys = Some sg /\
       length cm = Z.to_nat (popcount sm) /\
       Forall (fun row => length row = Z.to_nat (popcount sg)) cm) /\
  Z.of_nat (satellites_counted (data s) nsys) = Nsat s /\
  ((forall sys, cell_mask_availability_flag (data s) !! sys = Some true ->
                satellite_mask (data s) !! sys <> Some 0) ->
   cells_well_formed (data s) nsys).
Proof.
  intros (_ & (Hfl & Hcl & Hsl & Hgl) & Hall & Hn). split; [|split].
  - intros sys Hsys.
    destruct (Hall sys Hsys) as (cm & sm & sg & Hcm & Hsm & Hsg & _ & Hlcm & Hfcm).
    exists cm, sm, sg. auto.
  - unfold satellites_counted. rewrite Hn. f_equal.
    apply sum_list_with_same_in. intros k Hk. apply elem_of_seq in Hk.
    destruct (Hall k) as (cm & sm & sg & Hcm & Hsm & Hsg & Hsm0 & Hlcm & Hfcm); [lia|].
    unfold system_counts.
    destruct (cell_mask_availability_flag (data s) !! k) as [[|]|]; try reflexivity.
    rewrite Hcm, Hsm. cbn. exact Hlcm.
  - intros Hsat sys Hsys.
    destruct (Hall sys Hsys) as (cm & sm & sg & Hcm & Hsm & Hsg & Hsm0 & Hlcm & Hfcm).
    assert (Hsys' : (sys < length (cell_mask_availability_flag (data s)))%nat) by lia.
    destruct (lookup_lt_is_Some_2 _ _ Hsys') as [flag Hflag]. rewrite Hflag.
    destruct flag.
    + assert (Hpos : 0 < sm).
      { specialize (Hsat sys Hflag). rewrite Hsm in Hsat.
        assert (sm <> 0) by congruence. lia. }
      apply popcount_positive in Hpos.
      destruct cm as [|first cm]; [cbn in Hlcm; lia|].
      exists (first :: cm), first. split; [exact Hcm|]. split; [reflexivity|].
      pose proof (Forall_inv Hfcm) as Hfirst. cbv beta in Hfirst.
      eapply Forall_impl; [exact Hfcm|]. intros row Hrow. cbv beta in *. congruence.
    + split; eexists; eassumption.
Qed.

End MaskShape.

(** X20. The mask that [read_MT1_body] reads from the text is the mask
    that its blocks of the biases need.  When the branch that reads the mask
    returns, with a number of systems that is not zero, every system has its
    cell mask and its two masks, the cell mask has as many rows as the
    satellite mask has bits set and rows of as many cells as the signal mask
    has bits set, and [Nsat] is the number of satellites that the blocks of
    the biases count.  When moreover the satellite mask of every system
    with a cell mask is not zero, the first row that these blocks look at
    exists, and the masks are well formed for them. *)
Theorem mask_read_is_well_formed (K : icd_constants) (s s1 : body_reader) :
  read_mask K s = Ok tt s1 ->
  Nsat s = 0 ->
  Nsys (data s1) <> 0 ->
  let nsys := Z.to_nat (Nsys (data s1)) in
  (forall sys, (sys < nsys)%nat ->
     exists cm sm sg,
       cell_mask (data s1) !! sys = Some cm /\
       satellite_mask (data s1) !! sys = Some sm /\
       signal_mask (data s1) !! sys = Some sg /\
       length cm = Z.to_nat (popcount sm) /\
       Forall (fun row => length row = Z.to_nat (popcount sg)) cm) /\
  Z.of_nat (satellites_counted (data s1) nsys) = Nsat s1 /\
  ((forall sys, cell_mask_availability_flag (data s1) !! sys = Some true ->
                satellite_mask (data s1) !! sys <> Some 0) ->
   cells_well_formed (data s1) nsys).
Proof.
  intros H Hn0 Hnz. destruct s as [M D msg n hm]. cbv zeta. simpl_state. subst n.
  unfold read_mask, the_mask_id in H. unfold HAS_MSG_NSYS_LENGTH in H.
  rewrite bind_get, bind_substr, bind_put in H. unfold substr0 in H. simpl_state.
  set (mid := Z.to_nat (mask_id (header D))) in *.
  set (nsysZ := read_has_message_body_uint8 (take 4 msg)) in *.
  apply bind_Ok_inv in H as ([] & s2 & H2 & H).
  apply store_masks_assign_inv in H2 as [Hmid ->]. simpl_state.
  apply bind_Ok_inv in H as ([] & s3 & H3 & H).
  rewrite bind_get in H.
  assert (Hlast : data s1 = data s3 /\ Nsat s1 = Nsat s3).
  { destruct (Nsat s3 =? 0); cbn [negb when] in H; injection H as <-;
      split; reflexivity. }
  destruct Hlast as [Hdata Hnsat]. rewrite Hdata, Hnsat in *. clear H Hdata Hnsat.
  destruct (nsysZ =? 0) eqn:Ez; cbn [negb when] in H3.
  { injection H3 as <-. simpl_state. apply Z.eqb_eq in Ez.
    exfalso. apply Hnz. exact Ez. }
  apply bind_Ok_inv in H3 as ([] & s4 & H4 & H3).
  apply advance_inv in H4 as [Hlen4 ->]. simpl_state.
  rewrite !bind_put in H3. simpl_state.
  apply bind_Ok_inv in H3 as ([] & sl & Hloop & H3).
  apply (mask_loop_shaped (Z.to_nat nsysZ) nsysZ) in Hloop.
  2:{ simpl_state. split; [reflexivity|].
      split; [rewrite !length_replicate; auto|].
      split; [intros k Hk; lia|reflexivity]. }
  rewrite bind_get in H3.
  apply bind_Ok_inv in H3 as ([] & s5 & H5 & H3).
  apply store_masks_assign_inv in H5 as [Hmid5 ->].
  rewrite bind_get in H3.
  apply bind_Ok_inv in H3 as ([] & s6 & H6 & H3).
  apply store_masks_assign_inv in H6 as [Hmid6 ->].
  apply advance_inv in H3 as [Hlen7 ->].
  simpl_state.
  pose proof Hloop as (Hnsys & _). rewrite Hnsys.
  apply (shaped_well_formed (Z.to_nat nsysZ) nsysZ sl Hloop).
Qed.

Lemma mask_read_is_well_formed_witness :
  exists s1,
    read_mask sample_constants mask_cells_state = Ok tt s1 /\
    cell_mask (data s1) = [[[true]; [false]]] /\
    cells_well_formed (data s1) 1 /\
    satellites_counted (data s1) 1 = 2%nat /\
    Nsat s1 = 2.
Proof.
  set (s1 := state_of mask_cells_state (read_mask sample_constants mask_cells_state)).
  assert (Hrun : read_mask sample_constants mask_cells_state = Ok tt s1)
    by (apply (returned_Ok _ mask_cells_state); vm_compute; reflexivity).
  destruct (mask_read_is_well_formed sample_constants mask_cells_state s1 Hrun)
    as (_ & Hsats & Hwf).
  - reflexivity.
  - vm_compute. discriminate.
  - exists s1. split; [exact Hrun|].
    split; [vm_compute; reflexivity|].
    split; [apply Hwf; intros [|sys] Hflag; vm_compute; discriminate|].
    split; [vm_compute; reflexivity|].
    rewrite <- Hsats. vm_compute. reflexivity.
Defined.

(** * Exceptions that are caught, and exceptions that are not *)

Section Caught.

Variable K : icd_constants.
Variable rs_decode : list Z -> list Z -> option (list Z).

(** What the reader of the body raises is caught in
    [decode_message_type1]. *)
Lemma body_exception_is_caught (message_id message_size : Z) (w : world)
    (r1 : receiver) (decoded : text) (h : mt1_header) (e : exn) (s : body_reader) :
  let n := Z.to_nat (GALILEO_CNAV_MT1_HEADER_BITS K) in
  vertical_decoding rs_decode message_id message_size w r1 decoded ->
  (Z.to_nat message_id < length (d_C_matrix (this w)))%nat ->
  header_fields K (take n decoded) = Some h ->
  (n <= length decoded)%nat ->
  read_MT1_body_steps K (body_entry (d_masks (this w)) h (drop n decoded)) = Throw e s ->
  exists w',
    decode_message_type1 K rs_decode message_id message_size w = Ok (-1) w' /\
    pvt_records w' = pvt_records w /\
    d_new_message (this w') = d_new_message (this w) /\
    d_received_pids (this w') !! Z.to_nat message_id = Some [] /\
    d_masks (this w') = masks s.
Proof.
  intros n Hvert HC Hh Hlen Hthrow.
  pose proof (vertical_decoding_frame rs_decode _ _ _ _ _ Hvert) as Hframe.
  pose proof (f_equal d_C_matrix Hframe) as EC.
  pose proof (f_equal d_received_pids Hframe) as Ep.
  pose proof (f_equal d_masks Hframe) as Em.
  pose proof (f_equal d_new_message Hframe) as En.
  cbn in EC, Ep, Em, En.
  rewrite (decode_after_vertical_decoding K rs_decode _ _ _ _ _ Hvert).
  pose proof Hvert as (pids & _ & Hpids & _ & _ & Hrows).
  pose proof (lookup_lt_Some _ _ _ Hpids) as Hp.
  destruct (publish_and_read_run K (Z.to_nat message_id) decoded
              (Build_world r1 (published w)) h) as (r2 & Hreset & Hrun).
  - cbn [this]. rewrite EC. exact HC.
  - cbn [this]. rewrite Ep. exact Hp.
  - apply forallb_take, (rows_to_text_bits _ _ _ Hrows).
  - exact Hh.
  - exact Hlen.
  - fold n in Hrun. cbn [this] in Hrun. rewrite Em, Hthrow in Hrun.
    eexists. split; [exact Hrun|].
    destruct (reset_slot_inv _ _ _ Hreset) as (H1 & _ & _ & _ & H5 & _).
    cbn [this published leave_body].
    split; [exact (pvt_records_monitored decoded (Build_world r1 (published w)))|].
    split.
    { cbn. rewrite H5. unfold monitored. cbn [this].
      destruct (d_enable_navdata_monitor r1); cbn; exact En. }
    split; [cbn; exact H1|reflexivity].
Qed.

(** When the decoding of the message of a page returns -1, the handler
    sends no record. *)
Lemma failed_decoding_sends_nothing (p : Galileo_HAS_page) (w wa wd : world)
    (pids : list Z) :
  on_this (accumulate_page p) w = Ok tt wa ->
  d_received_pids (this wa) !! Z.to_nat (message_id p) = Some pids ->
  Z.of_nat (length pids) = message_size p ->
  decode_message_type1 K rs_decode (message_id p) (message_size p)
    (set_this (set_d_new_message (fun _ => false)) wa) = Ok (-1) wd ->
  msg_handler_galileo_e6_has K rs_decode (HAS_page_object p) w = Ok tt wd /\
  pvt_records wd = pvt_records w /\
  d_new_message (this wd) = false.
Proof.
  intros Hacc Hpids Hsize Hdec.
  assert (Hflag : d_new_message (this wd) = false).
  { pose proof (decode_keeps_new_message K rs_decode false (message_id p)
                  (message_size p)
                  (set_this (set_d_new_message (fun _ => false)) wa)) as Hk.
    rewrite Hdec in Hk. apply Hk. reflexivity. }
  assert (Hpvt : pvt_records wd = pvt_records w).
  { pose proof (decode_keeps_pvt_records K rs_decode (pvt_records w) (message_id p)
                  (message_size p)
                  (set_this (set_d_new_message (fun _ => false)) wa)) as Hk.
    rewrite Hdec in Hk. apply Hk.
    pose proof (on_this_keeps_pvt_records (accumulate_page p) (pvt_records w) w
                  eq_refl) as Ha.
    rewrite Hacc in Ha. exact Ha. }
  split; [|split; assumption].
  unfold msg_handler_galileo_e6_has.
  erewrite bind_Ok; cycle 1.
  { unfold process_HAS_page.
    rewrite (bind_Ok _ _ _ _ _ Hacc).
    rewrite (bind_Ok _ _ wa tt (set_this (set_d_new_message (fun _ => false)) wa))
      by reflexivity.
    rewrite (bind_Ok _ _ _ pids (set_this (set_d_new_message (fun _ => false)) wa))
      by (cbn; rewrite Hpids; reflexivity).
    apply Z.eqb_eq in Hsize. rewrite Hsize. cbn [when].
    rewrite (bind_Ok _ _ _ _ _ Hdec). reflexivity. }
  rewrite bind_get. rewrite Hflag. reflexivity.
Qed.

(** C4, as amended.  An exception leaves the handler on a message that
    holds no object ([pmt::wrong_type]), as it does on a page whose payload
    is too short or is not made of '0' and '1'.  On any other message, an
    object that is not a page or a page whose payload is a text of 424
    characters '0' or '1', no exception leaves the handler, which returns
    at once on an object that is not a page.  Whatever the
    reader of the body raises is caught in [decode_message_type1], which
    returns -1 with no record published, the flag of a new message as it
    was and the slot of the message reset; and when the decoding of the message that a page completes returns
    -1, the handler returns without sending a record to the PVT block.
    Nothing is said of a call that indexes a vector out of its range. *)
Theorem no_exception_leaves_handler :
  (forall (msg : pmt_t) (w : world),
     msg <> no_object ->
     (forall p, msg = HAS_page_object p -> payload_ok (has_message_string p)) ->
     match msg_handler_galileo_e6_has K rs_decode msg w with
     | Throw _ _ => False
     | _ => True
     end) /\
  (forall w : world,
     d_new_message (this w) = false ->
     msg_handler_galileo_e6_has K rs_decode other_object w = Ok tt w) /\
  (forall w : world,
     msg_handler_galileo_e6_has K rs_decode no_object w = Throw wrong_type w) /\
  (forall (message_id message_size : Z) (w : world) (r1 : receiver) (decoded : text)
          (h : mt1_header) (e : exn) (s : body_reader),
     let n := Z.to_nat (GALILEO_CNAV_MT1_HEADER_BITS K) in
     vertical_decoding rs_decode message_id message_size w r1 decoded ->
     (Z.to_nat message_id < length (d_C_matrix (this w)))%nat ->
     header_fields K (take n decoded) = Some h ->
     (n <= length decoded)%nat ->
     read_MT1_body_steps K (body_entry (d_masks (this w)) h (drop n decoded))
     = Throw e s ->
     exists w',
       decode_message_type1 K rs_decode message_id message_size w = Ok (-1) w' /\
       pvt_records w' = pvt_records w /\
       d_new_message (this w') = d_new_message (this w) /\
       d_received_pids (this w') !! Z.to_nat message_id = Some []) /\
  (forall (p : Galileo_HAS_page) (w wa wd : world) (pids : list Z),
     on_this (accumulate_page p) w = Ok tt wa ->
     d_received_pids (this wa) !! Z.to_nat (message_id p) = Some pids ->
     Z.of_nat (length pids) = message_size p ->
     decode_message_type1 K rs_decode (message_id p) (message_size p)
       (set_this (set_d_new_message (fun _ => false)) wa) = Ok (-1) wd ->
     msg_handler_galileo_e6_has K rs_decode (HAS_page_object p) w = Ok tt wd /\
     pvt_records wd = pvt_records w /\
     d_new_message (this wd) = false).
Proof.
  split; [|split; [|split; [|split]]].
  - intros msg w Hany Hmsg.
    assert (Hn : never_throws (msg_handler_galileo_e6_has K rs_decode msg)).
    { unfold msg_handler_galileo_e6_has.
      apply never_throws_bind.
      { destruct msg as [p| |]; [|apply never_throws_ret|contradiction].
        apply process_HAS_page_never_throws. apply (Hmsg p eq_refl). }
      intros _.
      apply never_throws_bind; [apply never_throws_get|]. intros new_message.
      apply never_throws_when.
      apply never_throws_bind; [apply never_throws_get|]. intros has_data.
      apply never_throws_bind; [apply never_throws_modify|]. intros _.
      apply never_throws_on_this, never_throws_modify. }
    specialize (Hn w I).
    destruct (msg_handler_galileo_e6_has K rs_decode msg w); [exact I|exact Hn|exact I].
  - intros w Hidle. unfold msg_handler_galileo_e6_has.
    rewrite (bind_Ok _ _ w tt w) by reflexivity.
    rewrite bind_get, Hidle. reflexivity.
  - intros w. reflexivity.
  - intros message_id message_size w r1 decoded h e s n Hvert HC Hh Hlen Hthrow.
    destruct (body_exception_is_caught message_id message_size w r1 decoded h e s
                Hvert HC Hh Hlen Hthrow) as (w' & Hrun & Hpvt & Hflag & Hslot & _).
    exists w'. auto.
  - intros p w wa wd pids. apply failed_decoding_sends_nothing.
Qed.

(** X6. A page whose page identifier is among those received for its
    message identifier is not recorded again, whatever its payload and its
    other members: the page identifiers and the matrices are left as they
    are.  When the page identifiers received are not as many as the size
    that the page gives for the message, [process_HAS_page] and the handler
    return with nothing changed but the flag of a new message, which is
    cleared; when they are as many, the decoding of the message is started,
    from the pages as they were. *)
Theorem repeated_page_is_ignored (p : Galileo_HAS_page) (w : world) (pids : list Z) :
  d_received_pids (this w) !! Z.to_nat (message_id p) = Some pids ->
  message_page_id p ∈ pids ->
  accumulate_page p (this w) = Ok tt (this w) /\
  (Z.of_nat (length pids) <> message_size p ->
   process_HAS_page K rs_decode p w
   = Ok tt (set_this (set_d_new_message (fun _ => false)) w) /\
   msg_handler_galileo_e6_has K rs_decode (HAS_page_object p) w
   = Ok tt (set_this (set_d_new_message (fun _ => false)) w)) /\
  (Z.of_nat (length pids) = message_size p ->
   process_HAS_page K rs_decode p w
   = (res <- decode_message_type1 K rs_decode (message_id p) (message_size p) ;;
      when (res =? 0)
        (nsat <- (fun w =>
                    defined (d_nsat_in_mask_id (d_masks (this w))
                               !! Z.to_nat (mask_id (header (d_HAS_data (this w))))) w) ;;
         when (negb (nsat =? 0))
           (on_this (modify (set_d_new_message (fun _ => true))))))
       (set_this (set_d_new_message (fun _ => false)) w)).
Proof.
  intros Hpids Hin.
  pose proof (accumulate_page_known p (this w) pids Hpids Hin) as Hacc.
  assert (Hstart :
            process_HAS_page K rs_decode p w
            = (when (Z.of_nat (length pids) =? message_size p)
                 (res <- decode_message_type1 K rs_decode (message_id p)
                           (message_size p) ;;
                  when (res =? 0)
                    (nsat <- (fun w =>
                                defined (d_nsat_in_mask_id (d_masks (this w))
                                           !! Z.to_nat (mask_id (header
                                                (d_HAS_data (this w))))) w) ;;
                     when (negb (nsat =? 0))
                       (on_this (modify (set_d_new_message (fun _ => true)))))))
                (set_this (set_d_new_message (fun _ => false)) w)).
  { unfold process_HAS_page.
    rewrite (bind_Ok _ _ w tt w)
      by (unfold on_this; rewrite Hacc; destruct w; reflexivity).
    rewrite (bind_Ok _ _ w tt (set_this (set_d_new_message (fun _ => false)) w))
      by reflexivity.
    rewrite (bind_Ok _ _ _ pids (set_this (set_d_new_message (fun _ => false)) w))
      by (cbn; rewrite Hpids; reflexivity).
    reflexivity. }
  split; [exact Hacc|]. split.
  - intros Hne. apply Z.eqb_neq in Hne.
    assert (Hp : process_HAS_page K rs_decode p w
                 = Ok tt (set_this (set_d_new_message (fun _ => false)) w))
      by (rewrite Hstart, Hne; reflexivity).
    split; [exact Hp|].
    unfold msg_handler_galileo_e6_has. rewrite (bind_Ok _ _ _ _ _ Hp).
    rewrite bind_get. reflexivity.
  - intros Heq. apply Z.eqb_eq in Heq. rewrite Hstart, Heq. reflexivity.
Qed.

End Caught.

Lemma no_exception_leaves_handler_witness :
  let w := world_after [deliver (HAS_page_object page_mask_40)] in
  match msg_handler_galileo_e6_has sample_constants sample_rs_decode
          (HAS_page_object page_unknown_system) power_on with
  | Throw _ _ => False
  | _ => True
  end /\
  msg_handler_galileo_e6_has sample_constants sample_rs_decode no_object w
  = Throw wrong_type w /\
  exists wd,
    msg_handler_galileo_e6_has sample_constants sample_rs_decode
      (HAS_page_object page_underrun) w = Ok tt wd /\
    pvt_records wd = pvt_records w /\
    d_new_message (this wd) = false.
Proof.
  intros w.
  destruct (no_exception_leaves_handler sample_constants sample_rs_decode)
    as (Hnone & _ & Hwrong & Hcaught & Hsilent).
  split.
  { apply Hnone; [discriminate|].
    intros p [= <-]. split; vm_compute; reflexivity. }
  split; [apply Hwrong|].
  set (wa := state_of w (on_this (accumulate_page page_underrun) w)).
  assert (Hacc : on_this (accumulate_page page_underrun) w = Ok tt wa)
    by (apply (returned_Ok _ w); vm_compute; reflexivity).
  set (wc := set_this (set_d_new_message (fun _ => false)) wa).
  set (r1 := state_of (this wc)
               (decode_columns sample_rs_decode GALILEO_CNAV_OCTETS_IN_SUBPAGE 0
                  (Z.to_nat 6) (erasure_positions [1] 1)
                  (set_d_M_matrix
                     (fun _ => zero_matrix GALILEO_CNAV_INFORMATION_VECTOR_LENGTH
                                 GALILEO_CNAV_OCTETS_IN_SUBPAGE) (this wc)))).
  set (entry := body_entry (d_masks (this wc)) header_underrun
                  (drop (Z.to_nat (GALILEO_CNAV_MT1_HEADER_BITS sample_constants))
                     (has_message_string page_underrun))).
  destruct (Hcaught 6 1 wc r1 (has_message_string page_underrun) header_underrun
              length_error
              (state_of entry (read_MT1_body_steps sample_constants entry)))
    as (wd & Hdec & _).
  - exists [1]. split; [lia|]. split; [vm_compute; reflexivity|].
    split; [vm_compute; lia|]. split.
    + subst r1.
      match goal with
      | |- ?o = Ok true (state_of ?d ?o) =>
          assert (H : match o with Ok true _ => true | _ => false end = true)
            by (vm_compute; reflexivity);
          destruct o as [[|] s|e s|]; try discriminate H; reflexivity
      end.
    + vm_compute. reflexivity.
  - vm_compute. lia.
  - vm_compute. reflexivity.
  - vm_compute. lia.
  - apply (raised_Throw _ entry). vm_compute. reflexivity.
  - destruct (Hsilent page_underrun w wa wd [1] Hacc) as (Hrun & Hpvt & Hflag).
    + vm_compute. reflexivity.
    + reflexivity.
    + exact Hdec.
    + exists wd. auto.
Defined.

(** C7: a mask that runs out while it is read.  The reader of the body of
    the second message raises [std::length_error] in the sixth system of its
    mask: the handler returns without a new record and with the slot of the
    message reset, but the entry of the mask identifier 3 is not discarded:
    the tables keep the number of satellites of the first mask, 1, with the
    number of systems, 6, and the GNSS identifiers of the mask that ran out.
    The third message, which has no mask, is then read with this entry: its
    record is published with 6 GPS systems, an IOD read on 8 bits and the
    deltas 2049, 1 and 1025, where the same message, when it follows the
    first one, gives one Galileo system, the IOD 1 and the deltas 4, 5 and
    6. *)
Lemma underrun_in_mask_keeps_entry :
  let first := deliver (HAS_page_object page_first_mask) in
  let second := deliver (HAS_page_object page_short_mask) in
  let third := deliver (HAS_page_object page_stored_mask) in
  raised (read_MT1_body_steps sample_constants
            (body_entry (d_masks (this (world_after [first]))) header_short_mask
               (drop 32 (has_message_string page_short_mask))))
  = Some length_error /\
  returned (sample_run [first; second]) = true /\
  pvt_records (world_after [first; second]) = pvt_records (world_after [first]) /\
  d_received_pids (this (world_after [first; second])) !! 6%nat = Some [] /\
  mask_entry (d_masks (this (world_after [first]))) 3
  = (Some 1, Some 1, Some (2 :: replicate 15 0), Some (2 ^ 39 :: replicate 15 0),
     Some (2 ^ 15 :: replicate 15 0), Some (replicate 16 false),
     Some [[[false]]], Some (replicate 16 0)) /\
  mask_entry (d_masks (this (world_after [first; second]))) 3
  = (Some 1, Some 6, Some (replicate 16 0),
     Some (replicate 6 (2 ^ 39) ++ replicate 10 0),
     Some (replicate 6 (2 ^ 15) ++ replicate 10 0), Some (replicate 16 false),
     Some [[[false]]], Some (replicate 16 0)) /\
  returned (sample_run [first; second; third]) = true /\
  map (fun d => (Nsys d, gnss_id_mask d, gnss_iod d,
                 delta_radial d, delta_along_track d, delta_cross_track d))
    (pvt_records (world_after [first; second; third]))
  = [(1, [2], [1], [4], [5], [6]);
     (6, [0; 0; 0; 0; 0; 0], [0], [2049], [1], [1025])] /\
  map (fun d => (Nsys d, gnss_id_mask d, gnss_iod d,
                 delta_radial d, delta_along_track d, delta_cross_track d))
    (pvt_records (world_after [first; third]))
  = [(1, [2], [1], [4], [5], [6]); (1, [2], [1], [4], [5], [6])].
Proof. repeat apply conj; vm_compute; reflexivity. Qed.

Lemma repeated_page_is_ignored_witness :
  let w := world_after [deliver (HAS_page_object page_five_of_two)] in
  d_received_pids (this w) !! 3%nat = Some [5] /\
  msg_handler_galileo_e6_has sample_constants sample_rs_decode
    (HAS_page_object page_five_of_two) w
  = Ok tt (set_this (set_d_new_message (fun _ => false)) w).
Proof.
  intros w.
  assert (Hpids : d_received_pids (this w) !! Z.to_nat (message_id page_five_of_two)
                  = Some [5]) by (vm_compute; reflexivity).
  split; [exact Hpids|].
  destruct (repeated_page_is_ignored sample_constants sample_rs_decode
              page_five_of_two w [5] Hpids) as (_ & Hother & _).
  - left.
  - apply Hother. vm_compute. discriminate.
Defined.

